(** * The PROJ registry schema (data/sql/proj_db_table_defs.sql)

    A shallow embedding of the table definitions, the views and the
    [BEFORE INSERT] / [INSTEAD OF INSERT] triggers of the SQLite schema,
    followed by the properties of the admission rules.

    Conventions of the embedding:
    - a column value is [option _]: [None] is SQL [NULL].  A value has the
      storage class its column declares: [TEXT] columns hold strings, as
      the bytes of their UTF-8 encoding, [FLOAT] columns finite doubles, each
      held as the rational it is (order comparisons are exact; the one sum
      the schema takes, [east_lon + 360 - west_lon], is rounded as IEEE 754
      arithmetic rounds it), [BOOLEAN] and [SMALLINT] columns integers;
    - a table is the list of its rows, in insertion order;
    - conditions are three-valued ([tri]); a [WHERE] clause selects on
      [truth], a [CHECK] rejects only on a definite false;
    - an [INSERT] runs the [BEFORE INSERT] trigger of the table, then the
      column and table constraints, and appends the row.  A trigger sees the
      row as it is given, before [NOT NULL] has been checked;
    - the store only grows: the statements are the [INSERT]s, into a table or
      into one of the two views that carry [INSTEAD OF INSERT] triggers.

    The tables [metadata], [axis], [geodetic_datum_preferred_hub],
    [alias_name], [supersession], [deprecation] and
    [authority_to_authority_preference], and the views [object_view] and
    [authority_list], are kept apart, after the registry: no trigger or
    constraint of the tables of the registry reads them. *)

From Stdlib Require Import List String Ascii Bool ZArith QArith Lia.
Import ListNotations.
Local Close Scope Q_scope.
Local Open Scope string_scope.

(** ** SQL values and three-valued logic *)

Module Sql.

Definition text := option string.
Definition float := option Q.
Definition integer := option Z.
Definition boolean := option Z.

Definition txt (s : string) : text := Some s.
Definition int (z : Z) : integer := Some z.
Definition num (q : Q) : float := Some q.

(** [None] is the unknown truth value. *)
Definition tri := option bool.

Definition not3 (a : tri) : tri := option_map negb a.

Definition and3 (a b : tri) : tri :=
  match a, b with
  | Some false, _ => Some false
  | _, Some false => Some false
  | Some true, Some true => Some true
  | _, _ => None
  end.

Definition or3 (a b : tri) : tri :=
  match a, b with
  | Some true, _ => Some true
  | _, Some true => Some true
  | Some false, Some false => Some false
  | _, _ => None
  end.

(** What a [WHERE] (or a trigger's [WHEN]) clause keeps. *)
Definition truth (c : tri) : bool :=
  match c with Some true => true | _ => false end.

(** What a [CHECK] constraint accepts. *)
Definition not_false (c : tri) : bool :=
  match c with Some false => false | _ => true end.

Definition is_null {A} (x : option A) : tri :=
  Some (match x with None => true | Some _ => false end).

Definition is_not_null {A} (x : option A) : tri :=
  Some (match x with None => false | Some _ => true end).

(** Comparable storage classes. *)
Class Value (A : Type) := {
  val_eqb : A -> A -> bool;
  val_leb : A -> A -> bool
}.

#[global] Instance text_value : Value string :=
  {| val_eqb := String.eqb; val_leb := String.leb |}.
#[global] Instance integer_value : Value Z :=
  {| val_eqb := Z.eqb; val_leb := Z.leb |}.
#[global] Instance float_value : Value Q :=
  {| val_eqb := Qeq_bool; val_leb := Qle_bool |}.

Definition cmp {A} (f : A -> A -> bool) (x y : option A) : tri :=
  match x, y with
  | Some a, Some b => Some (f a b)
  | _, _ => None
  end.

Definition eq3 {A} `{Value A} (x y : option A) : tri := cmp val_eqb x y.
Definition ne3 {A} `{Value A} (x y : option A) : tri := not3 (eq3 x y).
Definition le3 {A} `{Value A} (x y : option A) : tri := cmp val_leb x y.
Definition ge3 {A} `{Value A} (x y : option A) : tri := le3 y x.
Definition gt3 {A} `{Value A} (x y : option A) : tri := not3 (le3 x y).
Definition lt3 {A} `{Value A} (x y : option A) : tri := gt3 y x.

(** [x BETWEEN lo AND hi]. *)
Definition between {A} `{Value A} (x lo hi : option A) : tri :=
  and3 (ge3 x lo) (le3 x hi).

(** [x IN (v1, ..., vn)] for a list of literals. *)
Definition in_values {A} `{Value A} (x : option A) (vs : list A) : tri :=
  match x with
  | None => None
  | Some a => Some (existsb (val_eqb a) vs)
  end.

(** [x IN (SELECT col FROM t)]: false on no rows, otherwise unknown when
    [x] is [NULL] or when nothing matches and some row is [NULL]. *)
Definition in_select {A} `{Value A} (x : option A) (vs : list (option A)) : tri :=
  match vs with
  | [] => Some false
  | _ =>
      match x with
      | None => None
      | Some a =>
          if existsb (fun v => truth (eq3 (Some a) v)) vs then Some true
          else if existsb (fun v => truth (is_null v)) vs then None
          else Some false
      end
  end.

(** [EXISTS (SELECT 1 FROM t WHERE p)]. *)
Definition exists_ {R} (t : list R) (p : R -> tri) : tri :=
  Some (existsb (fun r => truth (p r)) t).

(** [(SELECT col FROM t WHERE p)] used as a value: the first selected row's
    column, [NULL] when no row is selected. *)
Definition scalar {R A} (col : R -> option A) (t : list R) (p : R -> tri) : option A :=
  match find (fun r => truth (p r)) t with
  | Some r => col r
  | None => None
  end.

(** [l LEFT JOIN r ON on]. *)
Definition left_join {L R} (l : list L) (r : list R) (on : L -> R -> tri)
  : list (L * option R) :=
  flat_map
    (fun a =>
       match filter (fun b => truth (on a b)) r with
       | [] => [(a, None)]
       | bs => map (fun b => (a, Some b)) bs
       end)
    l.

(** The characters of a text as [length()] counts them on its UTF-8 bytes:
    the count stops at the first NUL, and every byte before it counts but
    the continuation bytes [10xxxxxx] that follow a lead byte [11xxxxxx].
    [after_lead] tells that the bytes read last were such a lead byte and
    continuation bytes. *)
Fixpoint characters (after_lead : bool) (s : string) : nat :=
  match s with
  | EmptyString => 0
  | String c rest =>
      let b := nat_of_ascii c in
      if (b =? 0)%nat then 0
      else if after_lead && (128 <=? b)%nat && (b <? 192)%nat
           then characters true rest
           else S (characters (192 <=? b)%nat rest)
  end.

(** [length(x)]. *)
Definition length_ (x : text) : integer :=
  option_map (fun s => Z.of_nat (characters false s)) x.

(** [x || y]. *)
Definition concat (x y : text) : text :=
  match x, y with
  | Some a, Some b => Some (a ++ b)
  | _, _ => None
  end.

(** *** Arithmetic on doubles

    A sum or a difference of two doubles is the exact result rounded to the
    nearest double, ties to the even mantissa (IEEE 754 binary64: 53 bits of
    mantissa, least exponent -1074).  The exponent is not bounded above: a
    result beyond the largest double, which is an infinity for SQLite, stays
    a number of the same sign beyond every double and compares with a double
    as the infinity does. *)

(** The integer nearest to [n / d], ties to even, for [0 <= n] and [0 < d]. *)
Definition nearest_even (n d : Z) : Z :=
  let m := (n / d)%Z in
  match (2 * (n mod d) ?= d)%Z with
  | Lt => m
  | Gt => (m + 1)%Z
  | Eq => if Z.even m then m else (m + 1)%Z
  end.

(** [m * 2^k]. *)
Definition scaled (m k : Z) : Q :=
  if (0 <=? k)%Z then inject_Z (m * 2 ^ k) else Qmake m (Z.to_pos (2 ^ (- k))).

(** The exponent [e] of [n / d]: [2^e <= n / d < 2^(e+1)], for [0 < n] and
    [0 < d]. *)
Definition exponent (n d : Z) : Z :=
  let e := (Z.log2 n - Z.log2 d)%Z in
  let reached :=
    if (0 <=? e)%Z then (d * 2 ^ e <=? n)%Z else (d <=? n * 2 ^ (- e))%Z in
  if reached then e else (e - 1)%Z.

(** The double nearest to [q]. *)
Definition round_double (q : Q) : Q :=
  let n := Z.abs (Qnum q) in
  let d := Zpos (Qden q) in
  if (n =? 0)%Z then 0%Q
  else
    let k := Z.max (exponent n d - 52) (-1074) in
    let m :=
      if (0 <=? k)%Z then nearest_even n (d * 2 ^ k)
      else nearest_even (n * 2 ^ (- k)) d in
    if (Qnum q <? 0)%Z then Qopp (scaled m k) else scaled m k.

Arguments round_double : simpl never.

(** [x + y]. *)
Definition add (x y : float) : float :=
  match x, y with
  | Some a, Some b => Some (round_double (a + b)%Q)
  | _, _ => None
  end.

(** [x - y]. *)
Definition sub (x y : float) : float :=
  match x, y with
  | Some a, Some b => Some (round_double (a - b)%Q)
  | _, _ => None
  end.

(** *** Outcome of a statement *)

Inductive error :=
| RaiseAbort (message : string)
| NotNullFailed (column : string)
| CheckFailed (column : string)
| UniqueFailed (constraint : string)
| ForeignKeyFailed (constraint : string).

Definition result (A : Type) := (error + A)%type.

Definition ok {A} (a : A) : result A := inr a.

Definition bind {A B} (m : result A) (k : A -> result B) : result B :=
  match m with
  | inl e => inl e
  | inr a => k a
  end.

Definition is_ok {A} (m : result A) : bool :=
  match m with inr _ => true | inl _ => false end.

(** One statement of a trigger body:
    [SELECT RAISE(ABORT, message) WHERE condition]. *)
Record raise := RAISE_ABORT { message : string; condition : tri }.

(** The body runs in order and stops at the first statement that raises. *)
Fixpoint run_trigger (body : list raise) : result unit :=
  match body with
  | [] => ok tt
  | s :: rest =>
      if truth (condition s) then inl (RaiseAbort (message s))
      else run_trigger rest
  end.

(** A declarative constraint with the error it reports.  The constraints of
    a table are checked in the order of its definition; SQLite checks
    [NOT NULL] first, then [CHECK], then uniqueness, so that a row which
    breaks several constraints may be reported under another of them.
    Whether the [INSERT] fails is the same. *)
Record constraint := CONSTRAINT { violation : error; satisfied : bool }.

Fixpoint run_constraints (cs : list constraint) : result unit :=
  match cs with
  | [] => ok tt
  | c :: rest =>
      if satisfied c then run_constraints rest else inl (violation c)
  end.

Definition NOT_NULL {A} (column : string) (x : option A) : constraint :=
  CONSTRAINT (NotNullFailed column) (truth (is_not_null x)).

Definition CHECK (column : string) (c : tri) : constraint :=
  CONSTRAINT (CheckFailed column) (not_false c).

(** [PRIMARY KEY (k)]: no stored row has the new key. *)
Definition PRIMARY_KEY1 {R} (name : string) (new : text) (t : list R)
           (k : R -> text) : constraint :=
  CONSTRAINT (UniqueFailed name)
             (negb (truth (exists_ t (fun r => eq3 (k r) new)))).

(** [PRIMARY KEY (k1, k2)]. *)
Definition PRIMARY_KEY {R} (name : string) (new : text * text) (t : list R)
           (k : (R -> text) * (R -> text)) : constraint :=
  CONSTRAINT (UniqueFailed name)
             (negb (truth (exists_ t (fun r =>
                and3 (eq3 (fst k r) (fst new)) (eq3 (snd k r) (snd new)))))).

(** [FOREIGN KEY (c) REFERENCES t (k)]: not enforced when the referencing
    column is [NULL]. *)
Definition FOREIGN_KEY1 {R} (name : string) (child : text) (t : list R)
           (k : R -> text) : constraint :=
  CONSTRAINT (ForeignKeyFailed name)
             (truth (is_null child)
              || truth (exists_ t (fun r => eq3 (k r) child))).

(** [FOREIGN KEY (c1, c2) REFERENCES t (k1, k2)]: not enforced when one of
    the referencing columns is [NULL]. *)
Definition FOREIGN_KEY {R} (name : string) (child : text * text) (t : list R)
           (k : (R -> text) * (R -> text)) : constraint :=
  CONSTRAINT (ForeignKeyFailed name)
             (truth (or3 (is_null (fst child)) (is_null (snd child)))
              || truth (exists_ t (fun r =>
                   and3 (eq3 (fst k r) (fst child)) (eq3 (snd k r) (snd child))))).

(** An [INSERT] into a table: the [BEFORE INSERT] trigger, then the
    constraints of the table, then the row is stored. *)
Definition insert {DB} (trigger : list raise) (constraints : list constraint)
           (stored : DB) : result DB :=
  bind (run_trigger trigger) (fun _ =>
  bind (run_constraints constraints) (fun _ =>
  ok stored)).

End Sql.

Import Sql.

Declare Scope sql_scope.
Delimit Scope sql_scope with sql.
Bind Scope sql_scope with tri.

Notation "x == y" := (eq3 x y) (at level 70, no associativity) : sql_scope.
Notation "x != y" := (ne3 x y) (at level 70, no associativity) : sql_scope.
Notation "x <= y" := (le3 x y) (at level 70, no associativity) : sql_scope.
Notation "x >= y" := (ge3 x y) (at level 70, no associativity) : sql_scope.
Notation "x > y" := (gt3 x y) (at level 70, no associativity) : sql_scope.
Notation "x < y" := (lt3 x y) (at level 70, no associativity) : sql_scope.
Notation "'NOT' a" := (not3 a) (at level 72, right associativity) : sql_scope.
Notation "a 'AND' b" := (and3 a b) (at level 74, left associativity) : sql_scope.
Notation "a 'OR' b" := (or3 a b) (at level 76, left associativity) : sql_scope.
Notation "x 'IS_NULL'" := (is_null x) (at level 1, format "x  'IS_NULL'") : sql_scope.
Notation "x 'IS_NOT_NULL'" := (is_not_null x) (at level 1, format "x  'IS_NOT_NULL'") : sql_scope.
Notation "x 'IN' vs" := (in_values x vs) (at level 70, no associativity) : sql_scope.
Notation "x 'NOT_IN' vs" := (not3 (in_values x vs)) (at level 70, no associativity) : sql_scope.
Notation "'RAISE' msg 'WHERE' c" := (RAISE_ABORT msg c%sql)
  (at level 10, msg at level 9, c at level 200, only parsing).
Notation "m ;; k" := (bind m (fun _ => k)) (at level 100, right associativity).

(** ** Rows

    One record per table, each column under its own name.  Every column is
    nullable in the row handed to an [INSERT]; [NOT NULL] is a constraint of
    the table, checked after the trigger has run. *)

Module unit_of_measure.
Record row := {
  auth_name : text;
  code : text;
  name : text;
  type : text;
  conv_factor : float;
  deprecated : boolean
}.
End unit_of_measure.

Module celestial_body.
Record row := {
  auth_name : text;
  code : text;
  name : text;
  semi_major_axis : float
}.
End celestial_body.

Module ellipsoid.
Record row := {
  auth_name : text;
  code : text;
  name : text;
  description : text;
  celestial_body_auth_name : text;
  celestial_body_code : text;
  semi_major_axis : float;
  uom_auth_name : text;
  uom_code : text;
  inv_flattening : float;
  semi_minor_axis : float;
  deprecated : boolean
}.
End ellipsoid.

Module area.
Record row := {
  auth_name : text;
  code : text;
  name : text;
  description : text;
  south_lat : float;
  north_lat : float;
  west_lon : float;
  east_lon : float;
  deprecated : boolean
}.
End area.

Module prime_meridian.
Record row := {
  auth_name : text;
  code : text;
  name : text;
  longitude : float;
  uom_auth_name : text;
  uom_code : text;
  deprecated : boolean
}.
End prime_meridian.

Module geodetic_datum.
Record row := {
  auth_name : text;
  code : text;
  name : text;
  description : text;
  scope : text;
  ellipsoid_auth_name : text;
  ellipsoid_code : text;
  prime_meridian_auth_name : text;
  prime_meridian_code : text;
  area_of_use_auth_name : text;
  area_of_use_code : text;
  deprecated : boolean
}.
End geodetic_datum.

Module vertical_datum.
Record row := {
  auth_name : text;
  code : text;
  name : text;
  description : text;
  scope : text;
  area_of_use_auth_name : text;
  area_of_use_code : text;
  deprecated : boolean
}.
End vertical_datum.

Module coordinate_system.
Record row := {
  auth_name : text;
  code : text;
  type : text;
  dimension : integer
}.
End coordinate_system.

Module geodetic_crs.
Record row := {
  auth_name : text;
  code : text;
  name : text;
  description : text;
  scope : text;
  type : text;
  coordinate_system_auth_name : text;
  coordinate_system_code : text;
  datum_auth_name : text;
  datum_code : text;
  area_of_use_auth_name : text;
  area_of_use_code : text;
  text_definition : text;
  deprecated : boolean
}.
End geodetic_crs.

Module vertical_crs.
Record row := {
  auth_name : text;
  code : text;
  name : text;
  description : text;
  scope : text;
  coordinate_system_auth_name : text;
  coordinate_system_code : text;
  datum_auth_name : text;
  datum_code : text;
  area_of_use_auth_name : text;
  area_of_use_code : text;
  deprecated : boolean
}.
End vertical_crs.

Module conversion_method.
Record row := { auth_name : text; code : text; name : text }.
End conversion_method.

Module conversion_param.
Record row := { auth_name : text; code : text; name : text }.
End conversion_param.

(** The columns [paramN_auth_name], [paramN_code], [paramN_value],
    [paramN_uom_auth_name], [paramN_uom_code] of [conversion_table], for one
    [N] in 1..7, are kept together as one [param]. *)
Module conversion_table.
Record param := {
  param_auth_name : text;
  param_code : text;
  param_value : float;
  param_uom_auth_name : text;
  param_uom_code : text
}.
Record row := {
  auth_name : text;
  code : text;
  name : text;
  description : text;
  scope : text;
  area_of_use_auth_name : text;
  area_of_use_code : text;
  method_auth_name : text;
  method_code : text;
  param1 : param;
  param2 : param;
  param3 : param;
  param4 : param;
  param5 : param;
  param6 : param;
  param7 : param;
  deprecated : boolean
}.
Definition params (r : row) : list param :=
  [param1 r; param2 r; param3 r; param4 r; param5 r; param6 r; param7 r].
End conversion_table.

Module projected_crs.
Record row := {
  auth_name : text;
  code : text;
  name : text;
  description : text;
  scope : text;
  coordinate_system_auth_name : text;
  coordinate_system_code : text;
  geodetic_crs_auth_name : text;
  geodetic_crs_code : text;
  conversion_auth_name : text;
  conversion_code : text;
  area_of_use_auth_name : text;
  area_of_use_code : text;
  text_definition : text;
  deprecated : boolean
}.
End projected_crs.

Module compound_crs.
Record row := {
  auth_name : text;
  code : text;
  name : text;
  description : text;
  scope : text;
  horiz_crs_auth_name : text;
  horiz_crs_code : text;
  vertical_crs_auth_name : text;
  vertical_crs_code : text;
  area_of_use_auth_name : text;
  area_of_use_code : text;
  deprecated : boolean
}.
End compound_crs.

Module coordinate_operation_method.
Record row := { auth_name : text; code : text; name : text }.
End coordinate_operation_method.

Module helmert_transformation_table.
Record row := {
  auth_name : text;
  code : text;
  name : text;
  description : text;
  scope : text;
  method_auth_name : text;
  method_code : text;
  source_crs_auth_name : text;
  source_crs_code : text;
  target_crs_auth_name : text;
  target_crs_code : text;
  area_of_use_auth_name : text;
  area_of_use_code : text;
  accuracy : float;
  tx : float;
  ty : float;
  tz : float;
  translation_uom_auth_name : text;
  translation_uom_code : text;
  rx : float;
  ry : float;
  rz : float;
  rotation_uom_auth_name : text;
  rotation_uom_code : text;
  scale_difference : float;
  scale_difference_uom_auth_name : text;
  scale_difference_uom_code : text;
  rate_tx : float;
  rate_ty : float;
  rate_tz : float;
  rate_translation_uom_auth_name : text;
  rate_translation_uom_code : text;
  rate_rx : float;
  rate_ry : float;
  rate_rz : float;
  rate_rotation_uom_auth_name : text;
  rate_rotation_uom_code : text;
  rate_scale_difference : float;
  rate_scale_difference_uom_auth_name : text;
  rate_scale_difference_uom_code : text;
  epoch : float;
  epoch_uom_auth_name : text;
  epoch_uom_code : text;
  px : float;
  py : float;
  pz : float;
  pivot_uom_auth_name : text;
  pivot_uom_code : text;
  operation_version : text;
  deprecated : boolean
}.
End helmert_transformation_table.

Module grid_transformation.
Record row := {
  auth_name : text;
  code : text;
  name : text;
  description : text;
  scope : text;
  method_auth_name : text;
  method_code : text;
  method_name : text;
  source_crs_auth_name : text;
  source_crs_code : text;
  target_crs_auth_name : text;
  target_crs_code : text;
  area_of_use_auth_name : text;
  area_of_use_code : text;
  accuracy : float;
  grid_param_auth_name : text;
  grid_param_code : text;
  grid_param_name : text;
  grid_name : text;
  grid2_param_auth_name : text;
  grid2_param_code : text;
  grid2_param_name : text;
  grid2_name : text;
  interpolation_crs_auth_name : text;
  interpolation_crs_code : text;
  operation_version : text;
  deprecated : boolean
}.
End grid_transformation.

Module grid_packages.
Record row := {
  package_name : text;
  description : text;
  url : text;
  direct_download : boolean;
  open_license : boolean
}.
End grid_packages.

Module grid_alternatives.
Record row := {
  original_grid_name : text;
  proj_grid_name : text;
  proj_grid_format : text;
  proj_method : text;
  inverse_direction : boolean;
  package_name : text;
  url : text;
  direct_download : boolean;
  open_license : boolean;
  directory : text
}.
End grid_alternatives.

(** The columns [paramN_auth_name], [paramN_code], [paramN_name],
    [paramN_value], [paramN_uom_auth_name], [paramN_uom_code] of
    [other_transformation] are kept together as one [param]. *)
Module other_transformation.
Record param := {
  param_auth_name : text;
  param_code : text;
  param_name : text;
  param_value : float;
  param_uom_auth_name : text;
  param_uom_code : text
}.
Record row := {
  auth_name : text;
  code : text;
  name : text;
  description : text;
  scope : text;
  method_auth_name : text;
  method_code : text;
  method_name : text;
  source_crs_auth_name : text;
  source_crs_code : text;
  target_crs_auth_name : text;
  target_crs_code : text;
  area_of_use_auth_name : text;
  area_of_use_code : text;
  accuracy : float;
  param1 : param;
  param2 : param;
  param3 : param;
  param4 : param;
  param5 : param;
  param6 : param;
  param7 : param;
  operation_version : text;
  deprecated : boolean
}.
End other_transformation.

Module concatenated_operation.
Record row := {
  auth_name : text;
  code : text;
  name : text;
  description : text;
  scope : text;
  source_crs_auth_name : text;
  source_crs_code : text;
  target_crs_auth_name : text;
  target_crs_code : text;
  area_of_use_auth_name : text;
  area_of_use_code : text;
  accuracy : float;
  step1_auth_name : text;
  step1_code : text;
  step2_auth_name : text;
  step2_code : text;
  step3_auth_name : text;
  step3_code : text;
  operation_version : text;
  deprecated : boolean
}.
End concatenated_operation.

(** ** The store *)

Record database := {
  unit_of_measure : list unit_of_measure.row;
  celestial_body : list celestial_body.row;
  ellipsoid : list ellipsoid.row;
  area : list area.row;
  prime_meridian : list prime_meridian.row;
  geodetic_datum : list geodetic_datum.row;
  vertical_datum : list vertical_datum.row;
  coordinate_system : list coordinate_system.row;
  geodetic_crs : list geodetic_crs.row;
  vertical_crs : list vertical_crs.row;
  conversion_method : list conversion_method.row;
  conversion_param : list conversion_param.row;
  conversion_table : list conversion_table.row;
  projected_crs : list projected_crs.row;
  compound_crs : list compound_crs.row;
  coordinate_operation_method : list coordinate_operation_method.row;
  helmert_transformation_table : list helmert_transformation_table.row;
  grid_transformation : list grid_transformation.row;
  grid_packages : list grid_packages.row;
  grid_alternatives : list grid_alternatives.row;
  other_transformation : list other_transformation.row;
  concatenated_operation : list concatenated_operation.row
}.

(** The store before any row is loaded.  The schema seeds the one celestial
    body ([INSERT INTO celestial_body VALUES('PROJ', 'EARTH', 'Earth',
    6378137.0)]). *)
Definition empty_database : database := {|
  unit_of_measure := [];
  celestial_body := [ {| celestial_body.auth_name := txt "PROJ";
         celestial_body.code := txt "EARTH";
         celestial_body.name := txt "Earth";
         celestial_body.semi_major_axis := num 6378137.0 |} ];
  ellipsoid := [];
  area := [];
  prime_meridian := [];
  geodetic_datum := [];
  vertical_datum := [];
  coordinate_system := [];
  geodetic_crs := [];
  vertical_crs := [];
  conversion_method := [];
  conversion_param := [];
  conversion_table := [];
  projected_crs := [];
  compound_crs := [];
  coordinate_operation_method := [];
  helmert_transformation_table := [];
  grid_transformation := [];
  grid_packages := [];
  grid_alternatives := [];
  other_transformation := [];
  concatenated_operation := []
|}.


(** Storing a row: the table gains the row at its end, every other table is
    unchanged. *)

Definition append_unit_of_measure (db : database) (NEW : unit_of_measure.row) : database :=
  {| unit_of_measure := db.(unit_of_measure) ++ [NEW];
     celestial_body := db.(celestial_body);
     ellipsoid := db.(ellipsoid);
     area := db.(area);
     prime_meridian := db.(prime_meridian);
     geodetic_datum := db.(geodetic_datum);
     vertical_datum := db.(vertical_datum);
     coordinate_system := db.(coordinate_system);
     geodetic_crs := db.(geodetic_crs);
     vertical_crs := db.(vertical_crs);
     conversion_method := db.(conversion_method);
     conversion_param := db.(conversion_param);
     conversion_table := db.(conversion_table);
     projected_crs := db.(projected_crs);
     compound_crs := db.(compound_crs);
     coordinate_operation_method := db.(coordinate_operation_method);
     helmert_transformation_table := db.(helmert_transformation_table);
     grid_transformation := db.(grid_transformation);
     grid_packages := db.(grid_packages);
     grid_alternatives := db.(grid_alternatives);
     other_transformation := db.(other_transformation);
     concatenated_operation := db.(concatenated_operation) |}.

Definition append_celestial_body (db : database) (NEW : celestial_body.row) : database :=
  {| unit_of_measure := db.(unit_of_measure);
     celestial_body := db.(celestial_body) ++ [NEW];
     ellipsoid := db.(ellipsoid);
     area := db.(area);
     prime_meridian := db.(prime_meridian);
     geodetic_datum := db.(geodetic_datum);
     vertical_datum := db.(vertical_datum);
     coordinate_system := db.(coordinate_system);
     geodetic_crs := db.(geodetic_crs);
     vertical_crs := db.(vertical_crs);
     conversion_method := db.(conversion_method);
     conversion_param := db.(conversion_param);
     conversion_table := db.(conversion_table);
     projected_crs := db.(projected_crs);
     compound_crs := db.(compound_crs);
     coordinate_operation_method := db.(coordinate_operation_method);
     helmert_transformation_table := db.(helmert_transformation_table);
     grid_transformation := db.(grid_transformation);
     grid_packages := db.(grid_packages);
     grid_alternatives := db.(grid_alternatives);
     other_transformation := db.(other_transformation);
     concatenated_operation := db.(concatenated_operation) |}.

Definition append_ellipsoid (db : database) (NEW : ellipsoid.row) : database :=
  {| unit_of_measure := db.(unit_of_measure);
     celestial_body := db.(celestial_body);
     ellipsoid := db.(ellipsoid) ++ [NEW];
     area := db.(area);
     prime_meridian := db.(prime_meridian);
     geodetic_datum := db.(geodetic_datum);
     vertical_datum := db.(vertical_datum);
     coordinate_system := db.(coordinate_system);
     geodetic_crs := db.(geodetic_crs);
     vertical_crs := db.(vertical_crs);
     conversion_method := db.(conversion_method);
     conversion_param := db.(conversion_param);
     conversion_table := db.(conversion_table);
     projected_crs := db.(projected_crs);
     compound_crs := db.(compound_crs);
     coordinate_operation_method := db.(coordinate_operation_method);
     helmert_transformation_table := db.(helmert_transformation_table);
     grid_transformation := db.(grid_transformation);
     grid_packages := db.(grid_packages);
     grid_alternatives := db.(grid_alternatives);
     other_transformation := db.(other_transformation);
     concatenated_operation := db.(concatenated_operation) |}.

Definition append_area (db : database) (NEW : area.row) : database :=
  {| unit_of_measure := db.(unit_of_measure);
     celestial_body := db.(celestial_body);
     ellipsoid := db.(ellipsoid);
     area := db.(area) ++ [NEW];
     prime_meridian := db.(prime_meridian);
     geodetic_datum := db.(geodetic_datum);
     vertical_datum := db.(vertical_datum);
     coordinate_system := db.(coordinate_system);
     geodetic_crs := db.(geodetic_crs);
     vertical_crs := db.(vertical_crs);
     conversion_method := db.(conversion_method);
     conversion_param := db.(conversion_param);
     conversion_table := db.(conversion_table);
     projected_crs := db.(projected_crs);
     compound_crs := db.(compound_crs);
     coordinate_operation_method := db.(coordinate_operation_method);
     helmert_transformation_table := db.(helmert_transformation_table);
     grid_transformation := db.(grid_transformation);
     grid_packages := db.(grid_packages);
     grid_alternatives := db.(grid_alternatives);
     other_transformation := db.(other_transformation);
     concatenated_operation := db.(concatenated_operation) |}.

Definition append_prime_meridian (db : database) (NEW : prime_meridian.row) : database :=
  {| unit_of_measure := db.(unit_of_measure);
     celestial_body := db.(celestial_body);
     ellipsoid := db.(ellipsoid);
     area := db.(area);
     prime_meridian := db.(prime_meridian) ++ [NEW];
     geodetic_datum := db.(geodetic_datum);
     vertical_datum := db.(vertical_datum);
     coordinate_system := db.(coordinate_system);
     geodetic_crs := db.(geodetic_crs);
     vertical_crs := db.(vertical_crs);
     conversion_method := db.(conversion_method);
     conversion_param := db.(conversion_param);
     conversion_table := db.(conversion_table);
     projected_crs := db.(projected_crs);
     compound_crs := db.(compound_crs);
     coordinate_operation_method := db.(coordinate_operation_method);
     helmert_transformation_table := db.(helmert_transformation_table);
     grid_transformation := db.(grid_transformation);
     grid_packages := db.(grid_packages);
     grid_alternatives := db.(grid_alternatives);
     other_transformation := db.(other_transformation);
     concatenated_operation := db.(concatenated_operation) |}.

Definition append_geodetic_datum (db : database) (NEW : geodetic_datum.row) : database :=
  {| unit_of_measure := db.(unit_of_measure);
     celestial_body := db.(celestial_body);
     ellipsoid := db.(ellipsoid);
     area := db.(area);
     prime_meridian := db.(prime_meridian);
     geodetic_datum := db.(geodetic_datum) ++ [NEW];
     vertical_datum := db.(vertical_datum);
     coordinate_system := db.(coordinate_system);
     geodetic_crs := db.(geodetic_crs);
     vertical_crs := db.(vertical_crs);
     conversion_method := db.(conversion_method);
     conversion_param := db.(conversion_param);
     conversion_table := db.(conversion_table);
     projected_crs := db.(projected_crs);
     compound_crs := db.(compound_crs);
     coordinate_operation_method := db.(coordinate_operation_method);
     helmert_transformation_table := db.(helmert_transformation_table);
     grid_transformation := db.(grid_transformation);
     grid_packages := db.(grid_packages);
     grid_alternatives := db.(grid_alternatives);
     other_transformation := db.(other_transformation);
     concatenated_operation := db.(concatenated_operation) |}.

Definition append_vertical_datum (db : database) (NEW : vertical_datum.row) : database :=
  {| unit_of_measure := db.(unit_of_measure);
     celestial_body := db.(celestial_body);
     ellipsoid := db.(ellipsoid);
     area := db.(area);
     prime_meridian := db.(prime_meridian);
     geodetic_datum := db.(geodetic_datum);
     vertical_datum := db.(vertical_datum) ++ [NEW];
     coordinate_system := db.(coordinate_system);
     geodetic_crs := db.(geodetic_crs);
     vertical_crs := db.(vertical_crs);
     conversion_method := db.(conversion_method);
     conversion_param := db.(conversion_param);
     conversion_table := db.(conversion_table);
     projected_crs := db.(projected_crs);
     compound_crs := db.(compound_crs);
     coordinate_operation_method := db.(coordinate_operation_method);
     helmert_transformation_table := db.(helmert_transformation_table);
     grid_transformation := db.(grid_transformation);
     grid_packages := db.(grid_packages);
     grid_alternatives := db.(grid_alternatives);
     other_transformation := db.(other_transformation);
     concatenated_operation := db.(concatenated_operation) |}.

Definition append_coordinate_system (db : database) (NEW : coordinate_system.row) : database :=
  {| unit_of_measure := db.(unit_of_measure);
     celestial_body := db.(celestial_body);
     ellipsoid := db.(ellipsoid);
     area := db.(area);
     prime_meridian := db.(prime_meridian);
     geodetic_datum := db.(geodetic_datum);
     vertical_datum := db.(vertical_datum);
     coordinate_system := db.(coordinate_system) ++ [NEW];
     geodetic_crs := db.(geodetic_crs);
     vertical_crs := db.(vertical_crs);
     conversion_method := db.(conversion_method);
     conversion_param := db.(conversion_param);
     conversion_table := db.(conversion_table);
     projected_crs := db.(projected_crs);
     compound_crs := db.(compound_crs);
     coordinate_operation_method := db.(coordinate_operation_method);
     helmert_transformation_table := db.(helmert_transformation_table);
     grid_transformation := db.(grid_transformation);
     grid_packages := db.(grid_packages);
     grid_alternatives := db.(grid_alternatives);
     other_transformation := db.(other_transformation);
     concatenated_operation := db.(concatenated_operation) |}.

Definition append_geodetic_crs (db : database) (NEW : geodetic_crs.row) : database :=
  {| unit_of_measure := db.(unit_of_measure);
     celestial_body := db.(celestial_body);
     ellipsoid := db.(ellipsoid);
     area := db.(area);
     prime_meridian := db.(prime_meridian);
     geodetic_datum := db.(geodetic_datum);
     vertical_datum := db.(vertical_datum);
     coordinate_system := db.(coordinate_system);
     geodetic_crs := db.(geodetic_crs) ++ [NEW];
     vertical_crs := db.(vertical_crs);
     conversion_method := db.(conversion_method);
     conversion_param := db.(conversion_param);
     conversion_table := db.(conversion_table);
     projected_crs := db.(projected_crs);
     compound_crs := db.(compound_crs);
     coordinate_operation_method := db.(coordinate_operation_method);
     helmert_transformation_table := db.(helmert_transformation_table);
     grid_transformation := db.(grid_transformation);
     grid_packages := db.(grid_packages);
     grid_alternatives := db.(grid_alternatives);
     other_transformation := db.(other_transformation);
     concatenated_operation := db.(concatenated_operation) |}.

Definition append_vertical_crs (db : database) (NEW : vertical_crs.row) : database :=
  {| unit_of_measure := db.(unit_of_measure);
     celestial_body := db.(celestial_body);
     ellipsoid := db.(ellipsoid);
     area := db.(area);
     prime_meridian := db.(prime_meridian);
     geodetic_datum := db.(geodetic_datum);
     vertical_datum := db.(vertical_datum);
     coordinate_system := db.(coordinate_system);
     geodetic_crs := db.(geodetic_crs);
     vertical_crs := db.(vertical_crs) ++ [NEW];
     conversion_method := db.(conversion_method);
     conversion_param := db.(conversion_param);
     conversion_table := db.(conversion_table);
     projected_crs := db.(projected_crs);
     compound_crs := db.(compound_crs);
     coordinate_operation_method := db.(coordinate_operation_method);
     helmert_transformation_table := db.(helmert_transformation_table);
     grid_transformation := db.(grid_transformation);
     grid_packages := db.(grid_packages);
     grid_alternatives := db.(grid_alternatives);
     other_transformation := db.(other_transformation);
     concatenated_operation := db.(concatenated_operation) |}.

Definition append_conversion_method (db : database) (NEW : conversion_method.row) : database :=
  {| unit_of_measure := db.(unit_of_measure);
     celestial_body := db.(celestial_body);
     ellipsoid := db.(ellipsoid);
     area := db.(area);
     prime_meridian := db.(prime_meridian);
     geodetic_datum := db.(geodetic_datum);
     vertical_datum := db.(vertical_datum);
     coordinate_system := db.(coordinate_system);
     geodetic_crs := db.(geodetic_crs);
     vertical_crs := db.(vertical_crs);
     conversion_method := db.(conversion_method) ++ [NEW];
     conversion_param := db.(conversion_param);
     conversion_table := db.(conversion_table);
     projected_crs := db.(projected_crs);
     compound_crs := db.(compound_crs);
     coordinate_operation_method := db.(coordinate_operation_method);
     helmert_transformation_table := db.(helmert_transformation_table);
     grid_transformation := db.(grid_transformation);
     grid_packages := db.(grid_packages);
     grid_alternatives := db.(grid_alternatives);
     other_transformation := db.(other_transformation);
     concatenated_operation := db.(concatenated_operation) |}.

Definition append_conversion_param (db : database) (NEW : conversion_param.row) : database :=
  {| unit_of_measure := db.(unit_of_measure);
     celestial_body := db.(celestial_body);
     ellipsoid := db.(ellipsoid);
     area := db.(area);
     prime_meridian := db.(prime_meridian);
     geodetic_datum := db.(geodetic_datum);
     vertical_datum := db.(vertical_datum);
     coordinate_system := db.(coordinate_system);
     geodetic_crs := db.(geodetic_crs);
     vertical_crs := db.(vertical_crs);
     conversion_method := db.(conversion_method);
     conversion_param := db.(conversion_param) ++ [NEW];
     conversion_table := db.(conversion_table);
     projected_crs := db.(projected_crs);
     compound_crs := db.(compound_crs);
     coordinate_operation_method := db.(coordinate_operation_method);
     helmert_transformation_table := db.(helmert_transformation_table);
     grid_transformation := db.(grid_transformation);
     grid_packages := db.(grid_packages);
     grid_alternatives := db.(grid_alternatives);
     other_transformation := db.(other_transformation);
     concatenated_operation := db.(concatenated_operation) |}.

Definition append_conversion_table (db : database) (NEW : conversion_table.row) : database :=
  {| unit_of_measure := db.(unit_of_measure);
     celestial_body := db.(celestial_body);
     ellipsoid := db.(ellipsoid);
     area := db.(area);
     prime_meridian := db.(prime_meridian);
     geodetic_datum := db.(geodetic_datum);
     vertical_datum := db.(vertical_datum);
     coordinate_system := db.(coordinate_system);
     geodetic_crs := db.(geodetic_crs);
     vertical_crs := db.(vertical_crs);
     conversion_method := db.(conversion_method);
     conversion_param := db.(conversion_param);
     conversion_table := db.(conversion_table) ++ [NEW];
     projected_crs := db.(projected_crs);
     compound_crs := db.(compound_crs);
     coordinate_operation_method := db.(coordinate_operation_method);
     helmert_transformation_table := db.(helmert_transformation_table);
     grid_transformation := db.(grid_transformation);
     grid_packages := db.(grid_packages);
     grid_alternatives := db.(grid_alternatives);
     other_transformation := db.(other_transformation);
     concatenated_operation := db.(concatenated_operation) |}.

Definition append_projected_crs (db : database) (NEW : projected_crs.row) : database :=
  {| unit_of_measure := db.(unit_of_measure);
     celestial_body := db.(celestial_body);
     ellipsoid := db.(ellipsoid);
     area := db.(area);
     prime_meridian := db.(prime_meridian);
     geodetic_datum := db.(geodetic_datum);
     vertical_datum := db.(vertical_datum);
     coordinate_system := db.(coordinate_system);
     geodetic_crs := db.(geodetic_crs);
     vertical_crs := db.(vertical_crs);
     conversion_method := db.(conversion_method);
     conversion_param := db.(conversion_param);
     conversion_table := db.(conversion_table);
     projected_crs := db.(projected_crs) ++ [NEW];
     compound_crs := db.(compound_crs);
     coordinate_operation_method := db.(coordinate_operation_method);
     helmert_transformation_table := db.(helmert_transformation_table);
     grid_transformation := db.(grid_transformation);
     grid_packages := db.(grid_packages);
     grid_alternatives := db.(grid_alternatives);
     other_transformation := db.(other_transformation);
     concatenated_operation := db.(concatenated_operation) |}.

Definition append_compound_crs (db : database) (NEW : compound_crs.row) : database :=
  {| unit_of_measure := db.(unit_of_measure);
     celestial_body := db.(celestial_body);
     ellipsoid := db.(ellipsoid);
     area := db.(area);
     prime_meridian := db.(prime_meridian);
     geodetic_datum := db.(geodetic_datum);
     vertical_datum := db.(vertical_datum);
     coordinate_system := db.(coordinate_system);
     geodetic_crs := db.(geodetic_crs);
     vertical_crs := db.(vertical_crs);
     conversion_method := db.(conversion_method);
     conversion_param := db.(conversion_param);
     conversion_table := db.(conversion_table);
     projected_crs := db.(projected_crs);
     compound_crs := db.(compound_crs) ++ [NEW];
     coordinate_operation_method := db.(coordinate_operation_method);
     helmert_transformation_table := db.(helmert_transformation_table);
     grid_transformation := db.(grid_transformation);
     grid_packages := db.(grid_packages);
     grid_alternatives := db.(grid_alternatives);
     other_transformation := db.(other_transformation);
     concatenated_operation := db.(concatenated_operation) |}.

Definition append_coordinate_operation_method (db : database) (NEW : coordinate_operation_method.row) : database :=
  {| unit_of_measure := db.(unit_of_measure);
     celestial_body := db.(celestial_body);
     ellipsoid := db.(ellipsoid);
     area := db.(area);
     prime_meridian := db.(prime_meridian);
     geodetic_datum := db.(geodetic_datum);
     vertical_datum := db.(vertical_datum);
     coordinate_system := db.(coordinate_system);
     geodetic_crs := db.(geodetic_crs);
     vertical_crs := db.(vertical_crs);
     conversion_method := db.(conversion_method);
     conversion_param := db.(conversion_param);
     conversion_table := db.(conversion_table);
     projected_crs := db.(projected_crs);
     compound_crs := db.(compound_crs);
     coordinate_operation_method := db.(coordinate_operation_method) ++ [NEW];
     helmert_transformation_table := db.(helmert_transformation_table);
     grid_transformation := db.(grid_transformation);
     grid_packages := db.(grid_packages);
     grid_alternatives := db.(grid_alternatives);
     other_transformation := db.(other_transformation);
     concatenated_operation := db.(concatenated_operation) |}.

Definition append_helmert_transformation_table (db : database) (NEW : helmert_transformation_table.row) : database :=
  {| unit_of_measure := db.(unit_of_measure);
     celestial_body := db.(celestial_body);
     ellipsoid := db.(ellipsoid);
     area := db.(area);
     prime_meridian := db.(prime_meridian);
     geodetic_datum := db.(geodetic_datum);
     vertical_datum := db.(vertical_datum);
     coordinate_system := db.(coordinate_system);
     geodetic_crs := db.(geodetic_crs);
     vertical_crs := db.(vertical_crs);
     conversion_method := db.(conversion_method);
     conversion_param := db.(conversion_param);
     conversion_table := db.(conversion_table);
     projected_crs := db.(projected_crs);
     compound_crs := db.(compound_crs);
     coordinate_operation_method := db.(coordinate_operation_method);
     helmert_transformation_table := db.(helmert_transformation_table) ++ [NEW];
     grid_transformation := db.(grid_transformation);
     grid_packages := db.(grid_packages);
     grid_alternatives := db.(grid_alternatives);
     other_transformation := db.(other_transformation);
     concatenated_operation := db.(concatenated_operation) |}.

Definition append_grid_transformation (db : database) (NEW : grid_transformation.row) : database :=
  {| unit_of_measure := db.(unit_of_measure);
     celestial_body := db.(celestial_body);
     ellipsoid := db.(ellipsoid);
     area := db.(area);
     prime_meridian := db.(prime_meridian);
     geodetic_datum := db.(geodetic_datum);
     vertical_datum := db.(vertical_datum);
     coordinate_system := db.(coordinate_system);
     geodetic_crs := db.(geodetic_crs);
     vertical_crs := db.(vertical_crs);
     conversion_method := db.(conversion_method);
     conversion_param := db.(conversion_param);
     conversion_table := db.(conversion_table);
     projected_crs := db.(projected_crs);
     compound_crs := db.(compound_crs);
     coordinate_operation_method := db.(coordinate_operation_method);
     helmert_transformation_table := db.(helmert_transformation_table);
     grid_transformation := db.(grid_transformation) ++ [NEW];
     grid_packages := db.(grid_packages);
     grid_alternatives := db.(grid_alternatives);
     other_transformation := db.(other_transformation);
     concatenated_operation := db.(concatenated_operation) |}.

Definition append_grid_packages (db : database) (NEW : grid_packages.row) : database :=
  {| unit_of_measure := db.(unit_of_measure);
     celestial_body := db.(celestial_body);
     ellipsoid := db.(ellipsoid);
     area := db.(area);
     prime_meridian := db.(prime_meridian);
     geodetic_datum := db.(geodetic_datum);
     vertical_datum := db.(vertical_datum);
     coordinate_system := db.(coordinate_system);
     geodetic_crs := db.(geodetic_crs);
     vertical_crs := db.(vertical_crs);
     conversion_method := db.(conversion_method);
     conversion_param := db.(conversion_param);
     conversion_table := db.(conversion_table);
     projected_crs := db.(projected_crs);
     compound_crs := db.(compound_crs);
     coordinate_operation_method := db.(coordinate_operation_method);
     helmert_transformation_table := db.(helmert_transformation_table);
     grid_transformation := db.(grid_transformation);
     grid_packages := db.(grid_packages) ++ [NEW];
     grid_alternatives := db.(grid_alternatives);
     other_transformation := db.(other_transformation);
     concatenated_operation := db.(concatenated_operation) |}.

Definition append_grid_alternatives (db : database) (NEW : grid_alternatives.row) : database :=
  {| unit_of_measure := db.(unit_of_measure);
     celestial_body := db.(celestial_body);
     ellipsoid := db.(ellipsoid);
     area := db.(area);
     prime_meridian := db.(prime_meridian);
     geodetic_datum := db.(geodetic_datum);
     vertical_datum := db.(vertical_datum);
     coordinate_system := db.(coordinate_system);
     geodetic_crs := db.(geodetic_crs);
     vertical_crs := db.(vertical_crs);
     conversion_method := db.(conversion_method);
     conversion_param := db.(conversion_param);
     conversion_table := db.(conversion_table);
     projected_crs := db.(projected_crs);
     compound_crs := db.(compound_crs);
     coordinate_operation_method := db.(coordinate_operation_method);
     helmert_transformation_table := db.(helmert_transformation_table);
     grid_transformation := db.(grid_transformation);
     grid_packages := db.(grid_packages);
     grid_alternatives := db.(grid_alternatives) ++ [NEW];
     other_transformation := db.(other_transformation);
     concatenated_operation := db.(concatenated_operation) |}.

Definition append_other_transformation (db : database) (NEW : other_transformation.row) : database :=
  {| unit_of_measure := db.(unit_of_measure);
     celestial_body := db.(celestial_body);
     ellipsoid := db.(ellipsoid);
     area := db.(area);
     prime_meridian := db.(prime_meridian);
     geodetic_datum := db.(geodetic_datum);
     vertical_datum := db.(vertical_datum);
     coordinate_system := db.(coordinate_system);
     geodetic_crs := db.(geodetic_crs);
     vertical_crs := db.(vertical_crs);
     conversion_method := db.(conversion_method);
     conversion_param := db.(conversion_param);
     conversion_table := db.(conversion_table);
     projected_crs := db.(projected_crs);
     compound_crs := db.(compound_crs);
     coordinate_operation_method := db.(coordinate_operation_method);
     helmert_transformation_table := db.(helmert_transformation_table);
     grid_transformation := db.(grid_transformation);
     grid_packages := db.(grid_packages);
     grid_alternatives := db.(grid_alternatives);
     other_transformation := db.(other_transformation) ++ [NEW];
     concatenated_operation := db.(concatenated_operation) |}.

Definition append_concatenated_operation (db : database) (NEW : concatenated_operation.row) : database :=
  {| unit_of_measure := db.(unit_of_measure);
     celestial_body := db.(celestial_body);
     ellipsoid := db.(ellipsoid);
     area := db.(area);
     prime_meridian := db.(prime_meridian);
     geodetic_datum := db.(geodetic_datum);
     vertical_datum := db.(vertical_datum);
     coordinate_system := db.(coordinate_system);
     geodetic_crs := db.(geodetic_crs);
     vertical_crs := db.(vertical_crs);
     conversion_method := db.(conversion_method);
     conversion_param := db.(conversion_param);
     conversion_table := db.(conversion_table);
     projected_crs := db.(projected_crs);
     compound_crs := db.(compound_crs);
     coordinate_operation_method := db.(coordinate_operation_method);
     helmert_transformation_table := db.(helmert_transformation_table);
     grid_transformation := db.(grid_transformation);
     grid_packages := db.(grid_packages);
     grid_alternatives := db.(grid_alternatives);
     other_transformation := db.(other_transformation);
     concatenated_operation := db.(concatenated_operation) ++ [NEW] |}.

(** ** Views *)

(** A column of the right-hand side of a [LEFT JOIN]: [NULL] when no row
    joined. *)
Definition joined {R A} (col : R -> option A) (r : option R) : option A :=
  match r with
  | Some x => col x
  | None => None
  end.

(** [CREATE VIEW conversion]: the columns of [conversion_table] with the names
    of the method and of the seven parameters joined in. *)
Module conversion.
Record row := {
  base : conversion_table.row;
  method_name : text;
  param1_name : text;
  param2_name : text;
  param3_name : text;
  param4_name : text;
  param5_name : text;
  param6_name : text;
  param7_name : text
}.
Definition auth_name (v : row) := conversion_table.auth_name (base v).
Definition code (v : row) := conversion_table.code (base v).
Definition deprecated (v : row) := conversion_table.deprecated (base v).
End conversion.

Definition join_param (db : database) {L} (l : list L)
           (slot : L -> conversion_table.param) : list (L * option conversion_param.row) :=
  left_join l db.(conversion_param)
    (fun c p =>
       (slot c).(conversion_table.param_auth_name) == p.(conversion_param.auth_name)
       AND (slot c).(conversion_table.param_code) == p.(conversion_param.code))%sql.

Definition conversion (db : database) : list conversion.row :=
  let c_m :=
    left_join db.(conversion_table) db.(conversion_method)
      (fun c m =>
         c.(conversion_table.method_auth_name) == m.(conversion_method.auth_name)
         AND c.(conversion_table.method_code) == m.(conversion_method.code))%sql in
  let j1 := join_param db c_m (fun x => conversion_table.param1 (fst x)) in
  let j2 := join_param db j1 (fun x => conversion_table.param2 (fst (fst x))) in
  let j3 := join_param db j2 (fun x => conversion_table.param3 (fst (fst (fst x)))) in
  let j4 := join_param db j3 (fun x => conversion_table.param4 (fst (fst (fst (fst x))))) in
  let j5 := join_param db j4 (fun x => conversion_table.param5 (fst (fst (fst (fst (fst x)))))) in
  let j6 := join_param db j5
              (fun x => conversion_table.param6 (fst (fst (fst (fst (fst (fst x))))))) in
  let j7 := join_param db j6
              (fun x => conversion_table.param7 (fst (fst (fst (fst (fst (fst (fst x)))))))) in
  map (fun '(c, m, param1, param2, param3, param4, param5, param6, param7) =>
         {| conversion.base := c;
            conversion.method_name := joined conversion_method.name m;
            conversion.param1_name := joined conversion_param.name param1;
            conversion.param2_name := joined conversion_param.name param2;
            conversion.param3_name := joined conversion_param.name param3;
            conversion.param4_name := joined conversion_param.name param4;
            conversion.param5_name := joined conversion_param.name param5;
            conversion.param6_name := joined conversion_param.name param6;
            conversion.param7_name := joined conversion_param.name param7 |})
      j7.

(** [CREATE VIEW helmert_transformation]. *)
Module helmert_transformation.
Record row := {
  base : helmert_transformation_table.row;
  method_name : text
}.
Definition select (hm : helmert_transformation_table.row * option coordinate_operation_method.row)
  : row :=
  {| base := fst hm;
     method_name := joined coordinate_operation_method.name (snd hm) |}.
End helmert_transformation.

Definition helmert_transformation (db : database) : list helmert_transformation.row :=
  map helmert_transformation.select
      (left_join db.(helmert_transformation_table) db.(coordinate_operation_method)
         (fun h m =>
            h.(helmert_transformation_table.method_auth_name)
              == m.(coordinate_operation_method.auth_name)
            AND h.(helmert_transformation_table.method_code)
              == m.(coordinate_operation_method.code))%sql).

(** [CREATE VIEW coordinate_operation_view]: one [SELECT] per kind of
    transformation, under [UNION ALL]. *)
Module coordinate_operation_view.
Record row := {
  table_name : text;
  auth_name : text;
  code : text;
  name : text;
  description : text;
  scope : text;
  method_auth_name : text;
  method_code : text;
  method_name : text;
  source_crs_auth_name : text;
  source_crs_code : text;
  target_crs_auth_name : text;
  target_crs_code : text;
  area_of_use_auth_name : text;
  area_of_use_code : text;
  accuracy : float;
  deprecated : boolean
}.
Definition select_grid_transformation (r : grid_transformation.row) : row :=
  {| table_name := txt "grid_transformation";
     auth_name := r.(grid_transformation.auth_name);
     code := r.(grid_transformation.code);
     name := r.(grid_transformation.name);
     description := r.(grid_transformation.description);
     scope := r.(grid_transformation.scope);
     method_auth_name := r.(grid_transformation.method_auth_name);
     method_code := r.(grid_transformation.method_code);
     method_name := r.(grid_transformation.method_name);
     source_crs_auth_name := r.(grid_transformation.source_crs_auth_name);
     source_crs_code := r.(grid_transformation.source_crs_code);
     target_crs_auth_name := r.(grid_transformation.target_crs_auth_name);
     target_crs_code := r.(grid_transformation.target_crs_code);
     area_of_use_auth_name := r.(grid_transformation.area_of_use_auth_name);
     area_of_use_code := r.(grid_transformation.area_of_use_code);
     accuracy := r.(grid_transformation.accuracy);
     deprecated := r.(grid_transformation.deprecated) |}.
Definition select_helmert_transformation (v : helmert_transformation.row) : row :=
  let r := v.(helmert_transformation.base) in
  {| table_name := txt "helmert_transformation";
     auth_name := r.(helmert_transformation_table.auth_name);
     code := r.(helmert_transformation_table.code);
     name := r.(helmert_transformation_table.name);
     description := r.(helmert_transformation_table.description);
     scope := r.(helmert_transformation_table.scope);
     method_auth_name := r.(helmert_transformation_table.method_auth_name);
     method_code := r.(helmert_transformation_table.method_code);
     method_name := v.(helmert_transformation.method_name);
     source_crs_auth_name := r.(helmert_transformation_table.source_crs_auth_name);
     source_crs_code := r.(helmert_transformation_table.source_crs_code);
     target_crs_auth_name := r.(helmert_transformation_table.target_crs_auth_name);
     target_crs_code := r.(helmert_transformation_table.target_crs_code);
     area_of_use_auth_name := r.(helmert_transformation_table.area_of_use_auth_name);
     area_of_use_code := r.(helmert_transformation_table.area_of_use_code);
     accuracy := r.(helmert_transformation_table.accuracy);
     deprecated := r.(helmert_transformation_table.deprecated) |}.
Definition select_other_transformation (r : other_transformation.row) : row :=
  {| table_name := txt "other_transformation";
     auth_name := r.(other_transformation.auth_name);
     code := r.(other_transformation.code);
     name := r.(other_transformation.name);
     description := r.(other_transformation.description);
     scope := r.(other_transformation.scope);
     method_auth_name := r.(other_transformation.method_auth_name);
     method_code := r.(other_transformation.method_code);
     method_name := r.(other_transformation.method_name);
     source_crs_auth_name := r.(other_transformation.source_crs_auth_name);
     source_crs_code := r.(other_transformation.source_crs_code);
     target_crs_auth_name := r.(other_transformation.target_crs_auth_name);
     target_crs_code := r.(other_transformation.target_crs_code);
     area_of_use_auth_name := r.(other_transformation.area_of_use_auth_name);
     area_of_use_code := r.(other_transformation.area_of_use_code);
     accuracy := r.(other_transformation.accuracy);
     deprecated := r.(other_transformation.deprecated) |}.
Definition select_concatenated_operation (r : concatenated_operation.row) : row :=
  {| table_name := txt "concatenated_operation";
     auth_name := r.(concatenated_operation.auth_name);
     code := r.(concatenated_operation.code);
     name := r.(concatenated_operation.name);
     description := r.(concatenated_operation.description);
     scope := r.(concatenated_operation.scope);
     method_auth_name := None;
     method_code := None;
     method_name := None;
     source_crs_auth_name := r.(concatenated_operation.source_crs_auth_name);
     source_crs_code := r.(concatenated_operation.source_crs_code);
     target_crs_auth_name := r.(concatenated_operation.target_crs_auth_name);
     target_crs_code := r.(concatenated_operation.target_crs_code);
     area_of_use_auth_name := r.(concatenated_operation.area_of_use_auth_name);
     area_of_use_code := r.(concatenated_operation.area_of_use_code);
     accuracy := r.(concatenated_operation.accuracy);
     deprecated := r.(concatenated_operation.deprecated) |}.
End coordinate_operation_view.

Definition coordinate_operation_view (db : database) : list coordinate_operation_view.row :=
  map coordinate_operation_view.select_grid_transformation db.(grid_transformation)
  ++ map coordinate_operation_view.select_helmert_transformation (helmert_transformation db)
  ++ map coordinate_operation_view.select_other_transformation db.(other_transformation)
  ++ map coordinate_operation_view.select_concatenated_operation db.(concatenated_operation).

(** [CREATE VIEW coordinate_operation_with_conversion_view]: the unified
    operation namespace, each key tagged with its kind. *)
Module coordinate_operation_with_conversion_view.
Record row := { auth_name : text; code : text; type : text }.
Definition select_coordinate_operation_view (v : coordinate_operation_view.row) : row :=
  {| auth_name := v.(coordinate_operation_view.auth_name);
     code := v.(coordinate_operation_view.code);
     type := v.(coordinate_operation_view.table_name) |}.
Definition select_conversion_table (c : conversion_table.row) : row :=
  {| auth_name := c.(conversion_table.auth_name);
     code := c.(conversion_table.code);
     type := txt "conversion" |}.
End coordinate_operation_with_conversion_view.

Definition coordinate_operation_with_conversion_view (db : database)
  : list coordinate_operation_with_conversion_view.row :=
  map coordinate_operation_with_conversion_view.select_coordinate_operation_view
      (coordinate_operation_view db)
  ++ map coordinate_operation_with_conversion_view.select_conversion_table
         db.(conversion_table).

(** [CREATE VIEW crs_view]: the unified CRS namespace, one [SELECT] per kind
    of CRS, under [UNION ALL]. *)
Module crs_view.
Record row := {
  table_name : text;
  auth_name : text;
  code : text;
  name : text;
  type : text;
  description : text;
  scope : text;
  area_of_use_auth_name : text;
  area_of_use_code : text;
  deprecated : boolean
}.
Definition select_geodetic_crs (r : geodetic_crs.row) : row :=
  {| table_name := txt "geodetic_crs";
     auth_name := r.(geodetic_crs.auth_name);
     code := r.(geodetic_crs.code);
     name := r.(geodetic_crs.name);
     type := r.(geodetic_crs.type);
     description := r.(geodetic_crs.description);
     scope := r.(geodetic_crs.scope);
     area_of_use_auth_name := r.(geodetic_crs.area_of_use_auth_name);
     area_of_use_code := r.(geodetic_crs.area_of_use_code);
     deprecated := r.(geodetic_crs.deprecated) |}.
Definition select_projected_crs (r : projected_crs.row) : row :=
  {| table_name := txt "projected_crs";
     auth_name := r.(projected_crs.auth_name);
     code := r.(projected_crs.code);
     name := r.(projected_crs.name);
     type := txt "projected";
     description := r.(projected_crs.description);
     scope := r.(projected_crs.scope);
     area_of_use_auth_name := r.(projected_crs.area_of_use_auth_name);
     area_of_use_code := r.(projected_crs.area_of_use_code);
     deprecated := r.(projected_crs.deprecated) |}.
Definition select_vertical_crs (r : vertical_crs.row) : row :=
  {| table_name := txt "vertical_crs";
     auth_name := r.(vertical_crs.auth_name);
     code := r.(vertical_crs.code);
     name := r.(vertical_crs.name);
     type := txt "vertical";
     description := r.(vertical_crs.description);
     scope := r.(vertical_crs.scope);
     area_of_use_auth_name := r.(vertical_crs.area_of_use_auth_name);
     area_of_use_code := r.(vertical_crs.area_of_use_code);
     deprecated := r.(vertical_crs.deprecated) |}.
Definition select_compound_crs (r : compound_crs.row) : row :=
  {| table_name := txt "compound_crs";
     auth_name := r.(compound_crs.auth_name);
     code := r.(compound_crs.code);
     name := r.(compound_crs.name);
     type := txt "compound";
     description := r.(compound_crs.description);
     scope := r.(compound_crs.scope);
     area_of_use_auth_name := r.(compound_crs.area_of_use_auth_name);
     area_of_use_code := r.(compound_crs.area_of_use_code);
     deprecated := r.(compound_crs.deprecated) |}.
End crs_view.

Definition crs_view (db : database) : list crs_view.row :=
  map crs_view.select_geodetic_crs db.(geodetic_crs)
  ++ map crs_view.select_projected_crs db.(projected_crs)
  ++ map crs_view.select_vertical_crs db.(vertical_crs)
  ++ map crs_view.select_compound_crs db.(compound_crs).

(** ** Tables, in the order of the schema

    For each table: its [BEFORE INSERT] trigger (when it has one), the
    constraints of its [CREATE TABLE], and the [INSERT]. *)

Local Open Scope Z_scope.
Local Open Scope Q_scope.

(** *** unit_of_measure *)

Definition unit_of_measure_constraints (db : database) (NEW : unit_of_measure.row)
  : list constraint :=
  [ NOT_NULL "auth_name" NEW.(unit_of_measure.auth_name);
    CHECK "auth_name" (length_ NEW.(unit_of_measure.auth_name) >= int 1);
    NOT_NULL "code" NEW.(unit_of_measure.code);
    CHECK "code" (length_ NEW.(unit_of_measure.code) >= int 1);
    NOT_NULL "name" NEW.(unit_of_measure.name);
    CHECK "name" (length_ NEW.(unit_of_measure.name) >= int 2);
    NOT_NULL "type" NEW.(unit_of_measure.type);
    CHECK "type" (NEW.(unit_of_measure.type) IN ["length"; "angle"; "scale"; "time"]);
    NOT_NULL "deprecated" NEW.(unit_of_measure.deprecated);
    CHECK "deprecated" (NEW.(unit_of_measure.deprecated) IN [0; 1]%Z);
    PRIMARY_KEY "pk_unit_of_measure"
      (NEW.(unit_of_measure.auth_name), NEW.(unit_of_measure.code))
      db.(unit_of_measure) (unit_of_measure.auth_name, unit_of_measure.code) ].

Definition insert_unit_of_measure (db : database) (NEW : unit_of_measure.row)
  : result database :=
  insert [] (unit_of_measure_constraints db NEW) (append_unit_of_measure db NEW).

(** *** celestial_body *)

Definition celestial_body_constraints (db : database) (NEW : celestial_body.row)
  : list constraint :=
  [ NOT_NULL "auth_name" NEW.(celestial_body.auth_name);
    CHECK "auth_name" (length_ NEW.(celestial_body.auth_name) >= int 1);
    NOT_NULL "code" NEW.(celestial_body.code);
    CHECK "code" (length_ NEW.(celestial_body.code) >= int 1);
    NOT_NULL "name" NEW.(celestial_body.name);
    CHECK "name" (length_ NEW.(celestial_body.name) >= int 2);
    NOT_NULL "semi_major_axis" NEW.(celestial_body.semi_major_axis);
    CHECK "semi_major_axis" (NEW.(celestial_body.semi_major_axis) > num 0);
    PRIMARY_KEY "pk_celestial_body"
      (NEW.(celestial_body.auth_name), NEW.(celestial_body.code))
      db.(celestial_body) (celestial_body.auth_name, celestial_body.code) ].

Definition insert_celestial_body (db : database) (NEW : celestial_body.row)
  : result database :=
  insert [] (celestial_body_constraints db NEW) (append_celestial_body db NEW).

(** *** ellipsoid *)

Definition ellipsoid_insert_trigger (db : database) (NEW : ellipsoid.row) : list raise :=
  [ RAISE "insert on ellipsoid violates constraint: inv_flattening (exclusive) or semi_minor_axis should be defined"
      WHERE (NEW.(ellipsoid.inv_flattening) IS_NULL AND NEW.(ellipsoid.semi_minor_axis) IS_NULL)
            OR (NEW.(ellipsoid.inv_flattening) IS_NOT_NULL
                AND NEW.(ellipsoid.semi_minor_axis) IS_NOT_NULL);
    RAISE "insert on ellipsoid violates constraint: uom should be of type 'length'"
      WHERE scalar unit_of_measure.type db.(unit_of_measure)
              (fun u => u.(unit_of_measure.auth_name) == NEW.(ellipsoid.uom_auth_name)
                        AND u.(unit_of_measure.code) == NEW.(ellipsoid.uom_code))%sql
            != txt "length" ].

Definition ellipsoid_constraints (db : database) (NEW : ellipsoid.row) : list constraint :=
  [ NOT_NULL "auth_name" NEW.(ellipsoid.auth_name);
    CHECK "auth_name" (length_ NEW.(ellipsoid.auth_name) >= int 1);
    NOT_NULL "code" NEW.(ellipsoid.code);
    CHECK "code" (length_ NEW.(ellipsoid.code) >= int 1);
    NOT_NULL "name" NEW.(ellipsoid.name);
    CHECK "name" (length_ NEW.(ellipsoid.name) >= int 2);
    NOT_NULL "celestial_body_auth_name" NEW.(ellipsoid.celestial_body_auth_name);
    NOT_NULL "celestial_body_code" NEW.(ellipsoid.celestial_body_code);
    NOT_NULL "semi_major_axis" NEW.(ellipsoid.semi_major_axis);
    CHECK "semi_major_axis" (NEW.(ellipsoid.semi_major_axis) > num 0);
    NOT_NULL "uom_auth_name" NEW.(ellipsoid.uom_auth_name);
    NOT_NULL "uom_code" NEW.(ellipsoid.uom_code);
    CHECK "inv_flattening"
      (NEW.(ellipsoid.inv_flattening) == num 0 OR NEW.(ellipsoid.inv_flattening) >= num 1.0);
    CHECK "semi_minor_axis"
      (NEW.(ellipsoid.semi_minor_axis) > num 0
       AND NEW.(ellipsoid.semi_minor_axis) <= NEW.(ellipsoid.semi_major_axis));
    NOT_NULL "deprecated" NEW.(ellipsoid.deprecated);
    CHECK "deprecated" (NEW.(ellipsoid.deprecated) IN [0; 1]%Z);
    PRIMARY_KEY "pk_ellipsoid" (NEW.(ellipsoid.auth_name), NEW.(ellipsoid.code))
      db.(ellipsoid) (ellipsoid.auth_name, ellipsoid.code);
    FOREIGN_KEY "fk_ellipsoid_celestial_body"
      (NEW.(ellipsoid.celestial_body_auth_name), NEW.(ellipsoid.celestial_body_code))
      db.(celestial_body) (celestial_body.auth_name, celestial_body.code);
    FOREIGN_KEY "fk_ellipsoid_unit_of_measure"
      (NEW.(ellipsoid.uom_auth_name), NEW.(ellipsoid.uom_code))
      db.(unit_of_measure) (unit_of_measure.auth_name, unit_of_measure.code) ].

Definition insert_ellipsoid (db : database) (NEW : ellipsoid.row) : result database :=
  insert (ellipsoid_insert_trigger db NEW) (ellipsoid_constraints db NEW)
         (append_ellipsoid db NEW).

(** *** area *)

Definition area_insert_trigger (db : database) (NEW : area.row) : list raise :=
  [ RAISE "insert on area violates constraint: south_lat <= north_lat"
      WHERE NEW.(area.south_lat) > NEW.(area.north_lat);
    RAISE "insert on area violates constraint: west_lon <= east_lon OR (east_lon + 360 - west_lon <= 200)"
      WHERE NOT (NEW.(area.west_lon) <= NEW.(area.east_lon)
                 OR (sub (add NEW.(area.east_lon) (num 360)) NEW.(area.west_lon) <= num 200)) ].

Definition area_constraints (db : database) (NEW : area.row) : list constraint :=
  [ NOT_NULL "auth_name" NEW.(area.auth_name);
    CHECK "auth_name" (length_ NEW.(area.auth_name) >= int 1);
    NOT_NULL "code" NEW.(area.code);
    CHECK "code" (length_ NEW.(area.code) >= int 1);
    NOT_NULL "name" NEW.(area.name);
    CHECK "name" (length_ NEW.(area.name) >= int 2);
    NOT_NULL "description" NEW.(area.description);
    CHECK "south_lat" (between NEW.(area.south_lat) (num (-90)) (num 90));
    CHECK "north_lat" (between NEW.(area.north_lat) (num (-90)) (num 90));
    CHECK "west_lon" (between NEW.(area.west_lon) (num (-180)) (num 180));
    CHECK "east_lon" (between NEW.(area.east_lon) (num (-180)) (num 180));
    NOT_NULL "deprecated" NEW.(area.deprecated);
    CHECK "deprecated" (NEW.(area.deprecated) IN [0; 1]%Z);
    PRIMARY_KEY "pk_area" (NEW.(area.auth_name), NEW.(area.code))
      db.(area) (area.auth_name, area.code) ].

Definition insert_area (db : database) (NEW : area.row) : result database :=
  insert (area_insert_trigger db NEW) (area_constraints db NEW) (append_area db NEW).

(** *** prime_meridian *)

Definition prime_meridian_insert_trigger (db : database) (NEW : prime_meridian.row)
  : list raise :=
  [ RAISE "insert on prime_meridian violates constraint: uom should be of type 'angle'"
      WHERE scalar unit_of_measure.type db.(unit_of_measure)
              (fun u => u.(unit_of_measure.auth_name) == NEW.(prime_meridian.uom_auth_name)
                        AND u.(unit_of_measure.code) == NEW.(prime_meridian.uom_code))%sql
            != txt "angle" ].

Definition prime_meridian_constraints (db : database) (NEW : prime_meridian.row)
  : list constraint :=
  [ NOT_NULL "auth_name" NEW.(prime_meridian.auth_name);
    CHECK "auth_name" (length_ NEW.(prime_meridian.auth_name) >= int 1);
    NOT_NULL "code" NEW.(prime_meridian.code);
    CHECK "code" (length_ NEW.(prime_meridian.code) >= int 1);
    NOT_NULL "name" NEW.(prime_meridian.name);
    CHECK "name" (length_ NEW.(prime_meridian.name) >= int 2);
    NOT_NULL "longitude" NEW.(prime_meridian.longitude);
    CHECK "longitude" (between NEW.(prime_meridian.longitude) (num (-180)) (num 180));
    NOT_NULL "uom_auth_name" NEW.(prime_meridian.uom_auth_name);
    NOT_NULL "uom_code" NEW.(prime_meridian.uom_code);
    NOT_NULL "deprecated" NEW.(prime_meridian.deprecated);
    CHECK "deprecated" (NEW.(prime_meridian.deprecated) IN [0; 1]%Z);
    PRIMARY_KEY "pk_prime_meridian"
      (NEW.(prime_meridian.auth_name), NEW.(prime_meridian.code))
      db.(prime_meridian) (prime_meridian.auth_name, prime_meridian.code);
    FOREIGN_KEY "fk_prime_meridian_unit_of_measure"
      (NEW.(prime_meridian.uom_auth_name), NEW.(prime_meridian.uom_code))
      db.(unit_of_measure) (unit_of_measure.auth_name, unit_of_measure.code) ].

Definition insert_prime_meridian (db : database) (NEW : prime_meridian.row)
  : result database :=
  insert (prime_meridian_insert_trigger db NEW) (prime_meridian_constraints db NEW)
         (append_prime_meridian db NEW).

(** *** geodetic_datum *)

Definition geodetic_datum_insert_trigger (db : database) (NEW : geodetic_datum.row)
  : list raise :=
  [ RAISE "insert on geodetic_datum violates constraint: ellipsoid must not be deprecated when geodetic_datum is not deprecated"
      WHERE exists_ db.(ellipsoid)
              (fun ellipsoid =>
                 ellipsoid.(ellipsoid.auth_name) == NEW.(geodetic_datum.ellipsoid_auth_name)
                 AND ellipsoid.(ellipsoid.code) == NEW.(geodetic_datum.ellipsoid_code)
                 AND ellipsoid.(ellipsoid.deprecated) != int 0)%sql
            AND NEW.(geodetic_datum.deprecated) == int 0;
    RAISE "insert on geodetic_datum violates constraint: prime_meridian must not be deprecated when geodetic_datum is not deprecated"
      WHERE exists_ db.(prime_meridian)
              (fun prime_meridian =>
                 prime_meridian.(prime_meridian.auth_name)
                   == NEW.(geodetic_datum.prime_meridian_auth_name)
                 AND prime_meridian.(prime_meridian.code)
                   == NEW.(geodetic_datum.prime_meridian_code)
                 AND prime_meridian.(prime_meridian.deprecated) != int 0)%sql
            AND NEW.(geodetic_datum.deprecated) == int 0;
    RAISE "insert on geodetic_datum violates constraint: area_of_use must not be deprecated when geodetic_datum is not deprecated"
      WHERE exists_ db.(area)
              (fun area =>
                 area.(area.auth_name) == NEW.(geodetic_datum.area_of_use_auth_name)
                 AND area.(area.code) == NEW.(geodetic_datum.area_of_use_code)
                 AND area.(area.deprecated) != int 0)%sql
            AND NEW.(geodetic_datum.deprecated) == int 0 ].

Definition geodetic_datum_constraints (db : database) (NEW : geodetic_datum.row)
  : list constraint :=
  [ NOT_NULL "auth_name" NEW.(geodetic_datum.auth_name);
    CHECK "auth_name" (length_ NEW.(geodetic_datum.auth_name) >= int 1);
    NOT_NULL "code" NEW.(geodetic_datum.code);
    CHECK "code" (length_ NEW.(geodetic_datum.code) >= int 1);
    NOT_NULL "name" NEW.(geodetic_datum.name);
    CHECK "name" (length_ NEW.(geodetic_datum.name) >= int 2);
    NOT_NULL "ellipsoid_auth_name" NEW.(geodetic_datum.ellipsoid_auth_name);
    NOT_NULL "ellipsoid_code" NEW.(geodetic_datum.ellipsoid_code);
    NOT_NULL "prime_meridian_auth_name" NEW.(geodetic_datum.prime_meridian_auth_name);
    NOT_NULL "prime_meridian_code" NEW.(geodetic_datum.prime_meridian_code);
    NOT_NULL "area_of_use_auth_name" NEW.(geodetic_datum.area_of_use_auth_name);
    NOT_NULL "area_of_use_code" NEW.(geodetic_datum.area_of_use_code);
    NOT_NULL "deprecated" NEW.(geodetic_datum.deprecated);
    CHECK "deprecated" (NEW.(geodetic_datum.deprecated) IN [0; 1]%Z);
    PRIMARY_KEY "pk_geodetic_datum"
      (NEW.(geodetic_datum.auth_name), NEW.(geodetic_datum.code))
      db.(geodetic_datum) (geodetic_datum.auth_name, geodetic_datum.code);
    FOREIGN_KEY "fk_geodetic_datum_ellipsoid"
      (NEW.(geodetic_datum.ellipsoid_auth_name), NEW.(geodetic_datum.ellipsoid_code))
      db.(ellipsoid) (ellipsoid.auth_name, ellipsoid.code);
    FOREIGN_KEY "fk_geodetic_datum_prime_meridian"
      (NEW.(geodetic_datum.prime_meridian_auth_name), NEW.(geodetic_datum.prime_meridian_code))
      db.(prime_meridian) (prime_meridian.auth_name, prime_meridian.code);
    FOREIGN_KEY "fk_geodetic_datum_area"
      (NEW.(geodetic_datum.area_of_use_auth_name), NEW.(geodetic_datum.area_of_use_code))
      db.(area) (area.auth_name, area.code) ].

Definition insert_geodetic_datum (db : database) (NEW : geodetic_datum.row)
  : result database :=
  insert (geodetic_datum_insert_trigger db NEW) (geodetic_datum_constraints db NEW)
         (append_geodetic_datum db NEW).

(** *** vertical_datum *)

Definition vertical_datum_insert_trigger (db : database) (NEW : vertical_datum.row)
  : list raise :=
  [ RAISE "insert on vertical_datum violates constraint: area_of_use must not be deprecated when vertical_datum is not deprecated"
      WHERE exists_ db.(area)
              (fun area =>
                 area.(area.auth_name) == NEW.(vertical_datum.area_of_use_auth_name)
                 AND area.(area.code) == NEW.(vertical_datum.area_of_use_code)
                 AND area.(area.deprecated) != int 0)%sql
            AND NEW.(vertical_datum.deprecated) == int 0 ].

Definition vertical_datum_constraints (db : database) (NEW : vertical_datum.row)
  : list constraint :=
  [ NOT_NULL "auth_name" NEW.(vertical_datum.auth_name);
    CHECK "auth_name" (length_ NEW.(vertical_datum.auth_name) >= int 1);
    NOT_NULL "code" NEW.(vertical_datum.code);
    CHECK "code" (length_ NEW.(vertical_datum.code) >= int 1);
    NOT_NULL "name" NEW.(vertical_datum.name);
    CHECK "name" (length_ NEW.(vertical_datum.name) >= int 2);
    NOT_NULL "area_of_use_auth_name" NEW.(vertical_datum.area_of_use_auth_name);
    NOT_NULL "area_of_use_code" NEW.(vertical_datum.area_of_use_code);
    NOT_NULL "deprecated" NEW.(vertical_datum.deprecated);
    CHECK "deprecated" (NEW.(vertical_datum.deprecated) IN [0; 1]%Z);
    PRIMARY_KEY "pk_vertical_datum"
      (NEW.(vertical_datum.auth_name), NEW.(vertical_datum.code))
      db.(vertical_datum) (vertical_datum.auth_name, vertical_datum.code);
    FOREIGN_KEY "fk_vertical_datum_area"
      (NEW.(vertical_datum.area_of_use_auth_name), NEW.(vertical_datum.area_of_use_code))
      db.(area) (area.auth_name, area.code) ].

Definition insert_vertical_datum (db : database) (NEW : vertical_datum.row)
  : result database :=
  insert (vertical_datum_insert_trigger db NEW) (vertical_datum_constraints db NEW)
         (append_vertical_datum db NEW).

(** *** coordinate_system *)

Definition coordinate_system_insert_trigger (db : database) (NEW : coordinate_system.row)
  : list raise :=
  [ RAISE "insert on coordinate_system violates constraint: dimension must be equal to 1 for type = 'vertical'"
      WHERE NEW.(coordinate_system.type) == txt "vertical"
            AND NEW.(coordinate_system.dimension) != int 1;
    RAISE "insert on coordinate_system violates constraint: dimension must be equal to 2 or 3 for type = 'Cartesian'"
      WHERE NEW.(coordinate_system.type) == txt "Cartesian"
            AND NEW.(coordinate_system.dimension) NOT_IN [2; 3]%Z;
    RAISE "insert on coordinate_system violates constraint: dimension must be equal to 2 or 3 for type = 'ellipsoidal'"
      WHERE NEW.(coordinate_system.type) == txt "ellipsoidal"
            AND NEW.(coordinate_system.dimension) NOT_IN [2; 3]%Z ].

Definition coordinate_system_constraints (db : database) (NEW : coordinate_system.row)
  : list constraint :=
  [ NOT_NULL "auth_name" NEW.(coordinate_system.auth_name);
    CHECK "auth_name" (length_ NEW.(coordinate_system.auth_name) >= int 1);
    NOT_NULL "code" NEW.(coordinate_system.code);
    CHECK "code" (length_ NEW.(coordinate_system.code) >= int 1);
    NOT_NULL "type" NEW.(coordinate_system.type);
    CHECK "type"
      (NEW.(coordinate_system.type) IN ["Cartesian"; "vertical"; "ellipsoidal"; "spherical"]);
    NOT_NULL "dimension" NEW.(coordinate_system.dimension);
    CHECK "dimension" (between NEW.(coordinate_system.dimension) (int 1) (int 3));
    PRIMARY_KEY "pk_coordinate_system"
      (NEW.(coordinate_system.auth_name), NEW.(coordinate_system.code))
      db.(coordinate_system) (coordinate_system.auth_name, coordinate_system.code) ].

Definition insert_coordinate_system (db : database) (NEW : coordinate_system.row)
  : result database :=
  insert (coordinate_system_insert_trigger db NEW) (coordinate_system_constraints db NEW)
         (append_coordinate_system db NEW).

(** *** geodetic_crs *)

(** The coordinate system a CRS row names, as the triggers look it up. *)
Definition cs_ref (db : database) {A} (col : coordinate_system.row -> option A)
           (cs_auth_name cs_code : text) : option A :=
  scalar col db.(coordinate_system)
    (fun coordinate_system =>
       coordinate_system.(coordinate_system.auth_name) == cs_auth_name
       AND coordinate_system.(coordinate_system.code) == cs_code)%sql.

Definition geodetic_crs_insert_trigger (db : database) (NEW : geodetic_crs.row)
  : list raise :=
  let cs_dimension :=
    cs_ref db coordinate_system.dimension
      NEW.(geodetic_crs.coordinate_system_auth_name) NEW.(geodetic_crs.coordinate_system_code) in
  let cs_type :=
    cs_ref db coordinate_system.type
      NEW.(geodetic_crs.coordinate_system_auth_name) NEW.(geodetic_crs.coordinate_system_code) in
  [ RAISE "insert on geodetic_crs violates constraint: (auth_name, code) must not already exist in crs_view"
      WHERE exists_ (crs_view db)
              (fun crs_view =>
                 crs_view.(crs_view.auth_name) == NEW.(geodetic_crs.auth_name)
                 AND crs_view.(crs_view.code) == NEW.(geodetic_crs.code))%sql;
    RAISE "insert on geodetic_crs violates constraint: coordinate_system must be defined when text_definition is NULL"
      WHERE (NEW.(geodetic_crs.coordinate_system_auth_name) IS_NULL
             OR NEW.(geodetic_crs.coordinate_system_code) IS_NULL)
            AND NEW.(geodetic_crs.text_definition) IS_NULL;
    RAISE "insert on geodetic_crs violates constraint: datum must be defined when text_definition is NULL"
      WHERE (NEW.(geodetic_crs.datum_auth_name) IS_NULL
             OR NEW.(geodetic_crs.datum_code) IS_NULL)
            AND NEW.(geodetic_crs.text_definition) IS_NULL;
    RAISE "insert on geodetic_crs violates constraint: coordinate_system must NOT be defined when text_definition is NOT NULL"
      WHERE (NOT (NEW.(geodetic_crs.coordinate_system_auth_name) IS_NULL
                  OR NEW.(geodetic_crs.coordinate_system_code) IS_NULL))
            AND NEW.(geodetic_crs.text_definition) IS_NOT_NULL;
    RAISE "insert on geodetic_crs violates constraint: datum must NOT be defined when text_definition is NOT NULL"
      WHERE (NOT (NEW.(geodetic_crs.datum_auth_name) IS_NULL
                  OR NEW.(geodetic_crs.datum_code) IS_NULL))
            AND NEW.(geodetic_crs.text_definition) IS_NOT_NULL;
    RAISE "insert on geodetic_crs violates constraint: datum must not be deprecated when geodetic_crs is not deprecated"
      WHERE exists_ db.(geodetic_datum)
              (fun datum =>
                 datum.(geodetic_datum.auth_name) == NEW.(geodetic_crs.datum_auth_name)
                 AND datum.(geodetic_datum.code) == NEW.(geodetic_crs.datum_code)
                 AND datum.(geodetic_datum.deprecated) != int 0)%sql
            AND NEW.(geodetic_crs.deprecated) == int 0
            AND NEW.(geodetic_crs.text_definition) IS_NOT_NULL;
    RAISE "insert on geodetic_crs violates constraint: area_of_use must be defined when text_definition is NULL"
      WHERE (NEW.(geodetic_crs.area_of_use_auth_name) IS_NULL
             OR NEW.(geodetic_crs.area_of_use_code) IS_NULL)
            AND NEW.(geodetic_crs.text_definition) IS_NULL;
    RAISE "insert on geodetic_crs violates constraint: area_of_use must not be deprecated when geodetic_crs is not deprecated"
      WHERE exists_ db.(area)
              (fun area =>
                 area.(area.auth_name) == NEW.(geodetic_crs.area_of_use_auth_name)
                 AND area.(area.code) == NEW.(geodetic_crs.area_of_use_code)
                 AND area.(area.deprecated) != int 0)%sql
            AND NEW.(geodetic_crs.deprecated) == int 0
            AND NEW.(geodetic_crs.text_definition) IS_NOT_NULL;
    RAISE "insert on geodetic_crs violates constraint: coordinate_system.dimension must be 3 for type = 'geocentric'"
      WHERE NEW.(geodetic_crs.type) == txt "geocentric" AND cs_dimension != int 3;
    RAISE "insert on geodetic_crs violates constraint: coordinate_system.type must be 'Cartesian' for type = 'geocentric'"
      WHERE NEW.(geodetic_crs.type) == txt "geocentric" AND cs_type != txt "Cartesian";
    RAISE "insert on geodetic_crs violates constraint: coordinate_system.type must be 'ellipsoidal'  for type = 'geographic 2D' or 'geographic 3D'"
      WHERE NEW.(geodetic_crs.type) IN ["geographic 2D"; "geographic 3D"]
            AND cs_type != txt "ellipsoidal";
    RAISE "insert on geodetic_crs violates constraint: coordinate_system.dimension must be 2 for type = 'geographic 2D'"
      WHERE NEW.(geodetic_crs.type) == txt "geographic 2D"
            AND NEW.(geodetic_crs.deprecated) != int 1
            AND cs_dimension != int 2;
    RAISE "insert on geodetic_crs violates constraint: coordinate_system.dimension must be 3 for type = 'geographic 3D'"
      WHERE NEW.(geodetic_crs.type) == txt "geographic 3D" AND cs_dimension != int 3 ].

Definition geodetic_crs_constraints (db : database) (NEW : geodetic_crs.row)
  : list constraint :=
  [ NOT_NULL "auth_name" NEW.(geodetic_crs.auth_name);
    CHECK "auth_name" (length_ NEW.(geodetic_crs.auth_name) >= int 1);
    NOT_NULL "code" NEW.(geodetic_crs.code);
    CHECK "code" (length_ NEW.(geodetic_crs.code) >= int 1);
    NOT_NULL "name" NEW.(geodetic_crs.name);
    CHECK "name" (length_ NEW.(geodetic_crs.name) >= int 2);
    NOT_NULL "type" NEW.(geodetic_crs.type);
    CHECK "type" (NEW.(geodetic_crs.type) IN ["geographic 2D"; "geographic 3D"; "geocentric"]);
    NOT_NULL "deprecated" NEW.(geodetic_crs.deprecated);
    CHECK "deprecated" (NEW.(geodetic_crs.deprecated) IN [0; 1]%Z);
    PRIMARY_KEY "pk_geodetic_crs" (NEW.(geodetic_crs.auth_name), NEW.(geodetic_crs.code))
      db.(geodetic_crs) (geodetic_crs.auth_name, geodetic_crs.code);
    FOREIGN_KEY "fk_geodetic_crs_coordinate_system"
      (NEW.(geodetic_crs.coordinate_system_auth_name), NEW.(geodetic_crs.coordinate_system_code))
      db.(coordinate_system) (coordinate_system.auth_name, coordinate_system.code);
    FOREIGN_KEY "fk_geodetic_crs_datum"
      (NEW.(geodetic_crs.datum_auth_name), NEW.(geodetic_crs.datum_code))
      db.(geodetic_datum) (geodetic_datum.auth_name, geodetic_datum.code);
    FOREIGN_KEY "fk_geodetic_crs_area"
      (NEW.(geodetic_crs.area_of_use_auth_name), NEW.(geodetic_crs.area_of_use_code))
      db.(area) (area.auth_name, area.code) ].

Definition insert_geodetic_crs (db : database) (NEW : geodetic_crs.row) : result database :=
  insert (geodetic_crs_insert_trigger db NEW) (geodetic_crs_constraints db NEW)
         (append_geodetic_crs db NEW).

(** *** vertical_crs *)

Definition vertical_crs_insert_trigger (db : database) (NEW : vertical_crs.row)
  : list raise :=
  [ RAISE "insert on vertical_crs violates constraint: (auth_name, code) must not already exist in crs_view"
      WHERE exists_ (crs_view db)
              (fun crs_view =>
                 crs_view.(crs_view.auth_name) == NEW.(vertical_crs.auth_name)
                 AND crs_view.(crs_view.code) == NEW.(vertical_crs.code))%sql;
    RAISE "insert on vertical_crs violates constraint: datum must not be deprecated when vertical_crs is not deprecated"
      WHERE exists_ db.(vertical_crs)
              (fun datum =>
                 datum.(vertical_crs.auth_name) == NEW.(vertical_crs.datum_auth_name)
                 AND datum.(vertical_crs.code) == NEW.(vertical_crs.datum_code)
                 AND datum.(vertical_crs.deprecated) != int 0)%sql
            AND NEW.(vertical_crs.deprecated) == int 0;
    RAISE "insert on vertical_crs violates constraint: area_of_use must not be deprecated when vertical_crs is not deprecated"
      WHERE exists_ db.(area)
              (fun area =>
                 area.(area.auth_name) == NEW.(vertical_crs.area_of_use_auth_name)
                 AND area.(area.code) == NEW.(vertical_crs.area_of_use_code)
                 AND area.(area.deprecated) != int 0)%sql
            AND NEW.(vertical_crs.deprecated) == int 0;
    RAISE "insert on vertical_crs violates constraint: coordinate_system.type must be 'vertical'"
      WHERE cs_ref db coordinate_system.type
              NEW.(vertical_crs.coordinate_system_auth_name)
              NEW.(vertical_crs.coordinate_system_code)
            != txt "vertical";
    RAISE "insert on vertical_crs violates constraint: coordinate_system.dimension must be 1"
      WHERE cs_ref db coordinate_system.dimension
              NEW.(vertical_crs.coordinate_system_auth_name)
              NEW.(vertical_crs.coordinate_system_code)
            != int 1 ].

Definition vertical_crs_constraints (db : database) (NEW : vertical_crs.row)
  : list constraint :=
  [ NOT_NULL "auth_name" NEW.(vertical_crs.auth_name);
    CHECK "auth_name" (length_ NEW.(vertical_crs.auth_name) >= int 1);
    NOT_NULL "code" NEW.(vertical_crs.code);
    CHECK "code" (length_ NEW.(vertical_crs.code) >= int 1);
    NOT_NULL "name" NEW.(vertical_crs.name);
    CHECK "name" (length_ NEW.(vertical_crs.name) >= int 2);
    NOT_NULL "coordinate_system_auth_name" NEW.(vertical_crs.coordinate_system_auth_name);
    NOT_NULL "coordinate_system_code" NEW.(vertical_crs.coordinate_system_code);
    NOT_NULL "datum_auth_name" NEW.(vertical_crs.datum_auth_name);
    NOT_NULL "datum_code" NEW.(vertical_crs.datum_code);
    NOT_NULL "area_of_use_auth_name" NEW.(vertical_crs.area_of_use_auth_name);
    NOT_NULL "area_of_use_code" NEW.(vertical_crs.area_of_use_code);
    NOT_NULL "deprecated" NEW.(vertical_crs.deprecated);
    CHECK "deprecated" (NEW.(vertical_crs.deprecated) IN [0; 1]%Z);
    PRIMARY_KEY "pk_vertical_crs" (NEW.(vertical_crs.auth_name), NEW.(vertical_crs.code))
      db.(vertical_crs) (vertical_crs.auth_name, vertical_crs.code);
    FOREIGN_KEY "fk_vertical_crs_coordinate_system"
      (NEW.(vertical_crs.coordinate_system_auth_name), NEW.(vertical_crs.coordinate_system_code))
      db.(coordinate_system) (coordinate_system.auth_name, coordinate_system.code);
    FOREIGN_KEY "fk_vertical_crs_datum"
      (NEW.(vertical_crs.datum_auth_name), NEW.(vertical_crs.datum_code))
      db.(vertical_datum) (vertical_datum.auth_name, vertical_datum.code);
    FOREIGN_KEY "fk_vertical_crs_area"
      (NEW.(vertical_crs.area_of_use_auth_name), NEW.(vertical_crs.area_of_use_code))
      db.(area) (area.auth_name, area.code) ].

Definition insert_vertical_crs (db : database) (NEW : vertical_crs.row) : result database :=
  insert (vertical_crs_insert_trigger db NEW) (vertical_crs_constraints db NEW)
         (append_vertical_crs db NEW).

(** *** conversion_method, conversion_param *)

Definition known_conversion_methods : list string :=
  [ "EPSG_1024_Popular Visualisation Pseudo Mercator";
    "EPSG_1027_Lambert Azimuthal Equal Area (Spherical)";
    "EPSG_1028_Equidistant Cylindrical";
    "EPSG_1029_Equidistant Cylindrical (Spherical)";
    "EPSG_1041_Krovak (North Orientated)";
    "EPSG_1042_Krovak Modified";
    "EPSG_1043_Krovak Modified (North Orientated)";
    "EPSG_1051_Lambert Conic Conformal (2SP Michigan)";
    "EPSG_1052_Colombia Urban";
    "EPSG_1068_Height Depth Reversal";
    "EPSG_1069_Change of Vertical Unit";
    "EPSG_1078_Equal Earth";
    "EPSG_9602_Geographic/geocentric conversions";
    "EPSG_9659_Geographic3D to 2D conversion";
    "EPSG_9801_Lambert Conic Conformal (1SP)";
    "EPSG_9802_Lambert Conic Conformal (2SP)";
    "EPSG_9803_Lambert Conic Conformal (2SP Belgium)";
    "EPSG_9804_Mercator (variant A)";
    "EPSG_9805_Mercator (variant B)";
    "EPSG_9806_Cassini-Soldner";
    "EPSG_9807_Transverse Mercator";
    "EPSG_9808_Transverse Mercator (South Orientated)";
    "EPSG_9809_Oblique Stereographic";
    "EPSG_9810_Polar Stereographic (variant A)";
    "EPSG_9811_New Zealand Map Grid";
    "EPSG_9812_Hotine Oblique Mercator (variant A)";
    "EPSG_9813_Laborde Oblique Mercator";
    "EPSG_9815_Hotine Oblique Mercator (variant B)";
    "EPSG_9816_Tunisia Mining Grid";
    "EPSG_9817_Lambert Conic Near-Conformal";
    "EPSG_9818_American Polyconic";
    "EPSG_9819_Krovak";
    "EPSG_9820_Lambert Azimuthal Equal Area";
    "EPSG_9821_Lambert Azimuthal Equal Area (Spherical)";
    "EPSG_9822_Albers Equal Area";
    "EPSG_9823_Equidistant Cylindrical (Spherical)";
    "EPSG_9824_Transverse Mercator Zoned Grid System";
    "EPSG_9826_Lambert Conic Conformal (West Orientated)";
    "EPSG_9828_Bonne (South Orientated)";
    "EPSG_9829_Polar Stereographic (variant B)";
    "EPSG_9830_Polar Stereographic (variant C)";
    "EPSG_9831_Guam Projection";
    "EPSG_9832_Modified Azimuthal Equidistant";
    "EPSG_9833_Hyperbolic Cassini-Soldner";
    "EPSG_9834_Lambert Cylindrical Equal Area (Spherical)";
    "EPSG_9835_Lambert Cylindrical Equal Area";
    "EPSG_9836_Geocentric/topocentric conversions";
    "EPSG_9837_Geographic/topocentric conversions";
    "EPSG_9838_Vertical Perspective";
    "EPSG_9841_Mercator (1SP) (Spherical)";
    "EPSG_9842_Equidistant Cylindrical";
    "EPSG_9843_Axis Order Reversal (2D)";
    "EPSG_9844_Axis Order Reversal (Geographic3D horizontal)";
    "EPSG_9827_Bonne";
    "PROJ_gstm_Gauss Schreiber Transverse Mercator";
    "PROJ_mill_PROJ mill" ].

Definition conversion_method_insert_trigger (db : database) (NEW : conversion_method.row)
  : list raise :=
  [ RAISE "insert on conversion violates constraint: method should be known"
      WHERE concat (concat (concat (concat NEW.(conversion_method.auth_name) (txt "_"))
                              NEW.(conversion_method.code)) (txt "_"))
                   NEW.(conversion_method.name)
            NOT_IN known_conversion_methods ].

Definition conversion_method_constraints (db : database) (NEW : conversion_method.row)
  : list constraint :=
  [ NOT_NULL "auth_name" NEW.(conversion_method.auth_name);
    CHECK "auth_name" (length_ NEW.(conversion_method.auth_name) >= int 1);
    NOT_NULL "code" NEW.(conversion_method.code);
    CHECK "code" (length_ NEW.(conversion_method.code) >= int 1);
    NOT_NULL "name" NEW.(conversion_method.name);
    CHECK "name" (length_ NEW.(conversion_method.name) >= int 2);
    PRIMARY_KEY "pk_conversion_method"
      (NEW.(conversion_method.auth_name), NEW.(conversion_method.code))
      db.(conversion_method) (conversion_method.auth_name, conversion_method.code) ].

Definition insert_conversion_method (db : database) (NEW : conversion_method.row)
  : result database :=
  insert (conversion_method_insert_trigger db NEW) (conversion_method_constraints db NEW)
         (append_conversion_method db NEW).

Definition conversion_param_constraints (db : database) (NEW : conversion_param.row)
  : list constraint :=
  [ NOT_NULL "auth_name" NEW.(conversion_param.auth_name);
    CHECK "auth_name" (length_ NEW.(conversion_param.auth_name) >= int 1);
    NOT_NULL "code" NEW.(conversion_param.code);
    CHECK "code" (length_ NEW.(conversion_param.code) >= int 1);
    NOT_NULL "name" NEW.(conversion_param.name);
    CHECK "name" (length_ NEW.(conversion_param.name) >= int 2);
    PRIMARY_KEY "pk_conversion_param"
      (NEW.(conversion_param.auth_name), NEW.(conversion_param.code))
      db.(conversion_param) (conversion_param.auth_name, conversion_param.code) ].

Definition insert_conversion_param (db : database) (NEW : conversion_param.row)
  : result database :=
  insert [] (conversion_param_constraints db NEW) (append_conversion_param db NEW).

(** *** conversion_table *)

Definition conversion_table_insert_trigger (db : database) (NEW : conversion_table.row)
  : list raise :=
  [ RAISE "insert on conversion_table violates constraint: (auth_name, code) must not already exist in coordinate_operation_with_conversion_view"
      WHERE exists_ (coordinate_operation_with_conversion_view db)
              (fun covwv =>
                 covwv.(coordinate_operation_with_conversion_view.auth_name)
                   == NEW.(conversion_table.auth_name)
                 AND covwv.(coordinate_operation_with_conversion_view.code)
                   == NEW.(conversion_table.code))%sql ].

(** [CONSTRAINT fk_conversion_paramN_uom]. *)
Definition fk_conversion_param_uom (db : database) (name : string)
           (p : conversion_table.param) : constraint :=
  FOREIGN_KEY name
    (p.(conversion_table.param_uom_auth_name), p.(conversion_table.param_uom_code))
    db.(unit_of_measure) (unit_of_measure.auth_name, unit_of_measure.code).

Definition conversion_table_constraints (db : database) (NEW : conversion_table.row)
  : list constraint :=
  [ NOT_NULL "auth_name" NEW.(conversion_table.auth_name);
    CHECK "auth_name" (length_ NEW.(conversion_table.auth_name) >= int 1);
    NOT_NULL "code" NEW.(conversion_table.code);
    CHECK "code" (length_ NEW.(conversion_table.code) >= int 1);
    NOT_NULL "name" NEW.(conversion_table.name);
    CHECK "name" (length_ NEW.(conversion_table.name) >= int 2);
    NOT_NULL "area_of_use_auth_name" NEW.(conversion_table.area_of_use_auth_name);
    NOT_NULL "area_of_use_code" NEW.(conversion_table.area_of_use_code);
    CHECK "method_auth_name"
      (NEW.(conversion_table.method_auth_name) IS_NULL
       OR length_ NEW.(conversion_table.method_auth_name) >= int 1);
    CHECK "method_code"
      (NEW.(conversion_table.method_code) IS_NULL
       OR length_ NEW.(conversion_table.method_code) >= int 1);
    NOT_NULL "deprecated" NEW.(conversion_table.deprecated);
    CHECK "deprecated" (NEW.(conversion_table.deprecated) IN [0; 1]%Z);
    PRIMARY_KEY "pk_conversion"
      (NEW.(conversion_table.auth_name), NEW.(conversion_table.code))
      db.(conversion_table) (conversion_table.auth_name, conversion_table.code);
    FOREIGN_KEY "fk_conversion_area"
      (NEW.(conversion_table.area_of_use_auth_name), NEW.(conversion_table.area_of_use_code))
      db.(area) (area.auth_name, area.code);
    FOREIGN_KEY "fk_conversion_method"
      (NEW.(conversion_table.method_auth_name), NEW.(conversion_table.method_code))
      db.(conversion_method) (conversion_method.auth_name, conversion_method.code);
    fk_conversion_param_uom db "fk_conversion_param1_uom" NEW.(conversion_table.param1);
    fk_conversion_param_uom db "fk_conversion_param2_uom" NEW.(conversion_table.param2);
    fk_conversion_param_uom db "fk_conversion_param3_uom" NEW.(conversion_table.param3);
    fk_conversion_param_uom db "fk_conversion_param4_uom" NEW.(conversion_table.param4);
    fk_conversion_param_uom db "fk_conversion_param5_uom" NEW.(conversion_table.param5);
    fk_conversion_param_uom db "fk_conversion_param6_uom" NEW.(conversion_table.param6);
    fk_conversion_param_uom db "fk_conversion_param7_uom" NEW.(conversion_table.param7) ].

Definition insert_conversion_table (db : database) (NEW : conversion_table.row)
  : result database :=
  insert (conversion_table_insert_trigger db NEW) (conversion_table_constraints db NEW)
         (append_conversion_table db NEW).

(** *** conversion (view): the [INSTEAD OF INSERT] triggers

    An [INSERT] into the view runs the triggers of the view, here in the
    order of their creation; each one stores its row through the [INSERT] of
    the table it targets, and the first failure aborts the statement.  The
    method and the parameters are stored before the conversion itself, so
    that the foreign key of [conversion_table] to [conversion_method], which
    SQLite checks when the statement ends, is checked against the method
    the statement has stored.  SQLite fires the trigger created last first:
    the triggers store into different tables, so that whether the statement
    fails and the rows it stores are the same, and only the error that is
    reported and the order of the new rows of [conversion_param] may
    differ. *)

Definition conversion_insert_trigger_method (db : database) (NEW : conversion.row)
  : result database :=
  if truth (NOT exists_ db.(conversion_method)
              (fun m =>
                 m.(conversion_method.auth_name)
                   == NEW.(conversion.base).(conversion_table.method_auth_name)
                 AND m.(conversion_method.code)
                   == NEW.(conversion.base).(conversion_table.method_code)
                 AND m.(conversion_method.name) == NEW.(conversion.method_name)))%sql
  then insert_conversion_method db
         {| conversion_method.auth_name := NEW.(conversion.base).(conversion_table.method_auth_name);
            conversion_method.code := NEW.(conversion.base).(conversion_table.method_code);
            conversion_method.name := NEW.(conversion.method_name) |}
  else ok db.

(** [conversion_insert_trigger_paramN]. *)
Definition conversion_insert_trigger_param (db : database) (p : conversion_table.param)
           (param_name : text) : result database :=
  if truth (p.(conversion_table.param_auth_name) IS_NOT_NULL
            AND NOT exists_ db.(conversion_param)
                  (fun q =>
                     q.(conversion_param.auth_name) == p.(conversion_table.param_auth_name)
                     AND q.(conversion_param.code) == p.(conversion_table.param_code)
                     AND q.(conversion_param.name) == param_name))%sql
  then insert_conversion_param db
         {| conversion_param.auth_name := p.(conversion_table.param_auth_name);
            conversion_param.code := p.(conversion_table.param_code);
            conversion_param.name := param_name |}
  else ok db.

Definition insert_conversion (db : database) (NEW : conversion.row) : result database :=
  let c := NEW.(conversion.base) in
  bind (conversion_insert_trigger_method db NEW) (fun db =>
  bind (conversion_insert_trigger_param db c.(conversion_table.param1) NEW.(conversion.param1_name)) (fun db =>
  bind (conversion_insert_trigger_param db c.(conversion_table.param2) NEW.(conversion.param2_name)) (fun db =>
  bind (conversion_insert_trigger_param db c.(conversion_table.param3) NEW.(conversion.param3_name)) (fun db =>
  bind (conversion_insert_trigger_param db c.(conversion_table.param4) NEW.(conversion.param4_name)) (fun db =>
  bind (conversion_insert_trigger_param db c.(conversion_table.param5) NEW.(conversion.param5_name)) (fun db =>
  bind (conversion_insert_trigger_param db c.(conversion_table.param6) NEW.(conversion.param6_name)) (fun db =>
  bind (conversion_insert_trigger_param db c.(conversion_table.param7) NEW.(conversion.param7_name)) (fun db =>
  insert_conversion_table db c)))))))).

(** *** projected_crs *)

Definition projected_crs_insert_trigger (db : database) (NEW : projected_crs.row)
  : list raise :=
  [ RAISE "insert on projected_crs violates constraint: (auth_name, code) must not already exist in crs_view"
      WHERE exists_ (crs_view db)
              (fun crs_view =>
                 crs_view.(crs_view.auth_name) == NEW.(projected_crs.auth_name)
                 AND crs_view.(crs_view.code) == NEW.(projected_crs.code))%sql;
    RAISE "insert on projected_crs violates constraint: coordinate_system must be defined when text_definition is NULL"
      WHERE (NEW.(projected_crs.coordinate_system_auth_name) IS_NULL
             OR NEW.(projected_crs.coordinate_system_code) IS_NULL)
            AND NEW.(projected_crs.text_definition) IS_NULL;
    RAISE "insert on projected_crs violates constraint: geodetic_crs must be defined when text_definition is NULL"
      WHERE (NEW.(projected_crs.geodetic_crs_auth_name) IS_NULL
             OR NEW.(projected_crs.geodetic_crs_code) IS_NULL)
            AND NEW.(projected_crs.text_definition) IS_NULL;
    RAISE "insert on projected_crs violates constraint: geodetic_crs must not be deprecated when projected_crs is not deprecated"
      WHERE exists_ db.(geodetic_crs)
              (fun geodetic_crs =>
                 geodetic_crs.(geodetic_crs.auth_name) == NEW.(projected_crs.geodetic_crs_auth_name)
                 AND geodetic_crs.(geodetic_crs.code) == NEW.(projected_crs.geodetic_crs_code)
                 AND geodetic_crs.(geodetic_crs.deprecated) != int 0)%sql
            AND NEW.(projected_crs.deprecated) == int 0
            AND NOT (NEW.(projected_crs.auth_name) == txt "ESRI"
                     AND NEW.(projected_crs.geodetic_crs_auth_name) != txt "ESRI");
    RAISE "insert on projected_crs violates constraint: conversion must exist when text_definition is NULL"
      WHERE NOT exists_ (conversion db)
                  (fun conversion =>
                     conversion.auth_name conversion == NEW.(projected_crs.conversion_auth_name)
                     AND conversion.code conversion == NEW.(projected_crs.conversion_code))%sql
            AND NEW.(projected_crs.text_definition) IS_NULL;
    RAISE "insert on projected_crs violates constraint: conversion must not be deprecated when projected_crs is not deprecated"
      WHERE exists_ (conversion db)
              (fun conversion =>
                 conversion.auth_name conversion == NEW.(projected_crs.conversion_auth_name)
                 AND conversion.code conversion == NEW.(projected_crs.conversion_code)
                 AND conversion.deprecated conversion != int 0)%sql
            AND NEW.(projected_crs.deprecated) == int 0;
    RAISE "insert on projected_crs violates constraint: coordinate_system must NOT be defined when text_definition is NOT NULL"
      WHERE (NOT (NEW.(projected_crs.coordinate_system_auth_name) IS_NULL
                  OR NEW.(projected_crs.coordinate_system_code) IS_NULL))
            AND NEW.(projected_crs.text_definition) IS_NOT_NULL;
    RAISE "insert on projected_crs violates constraint: conversion must NOT be defined when text_definition is NULL"
      WHERE (NOT (NEW.(projected_crs.conversion_auth_name) IS_NULL
                  OR NEW.(projected_crs.conversion_code) IS_NULL))
            AND NEW.(projected_crs.text_definition) IS_NOT_NULL;
    RAISE "insert on projected_crs violates constraint: area_of_use must be defined when text_definition is NULL"
      WHERE (NEW.(projected_crs.area_of_use_auth_name) IS_NULL
             OR NEW.(projected_crs.area_of_use_code) IS_NULL)
            AND NEW.(projected_crs.text_definition) IS_NULL;
    RAISE "insert on projected_crs violates constraint: area_of_use must not be deprecated when projected_crs is not deprecated"
      WHERE exists_ db.(area)
              (fun area =>
                 area.(area.auth_name) == NEW.(projected_crs.area_of_use_auth_name)
                 AND area.(area.code) == NEW.(projected_crs.area_of_use_code)
                 AND area.(area.deprecated) != int 0)%sql
            AND NEW.(projected_crs.deprecated) == int 0
            AND NEW.(projected_crs.text_definition) IS_NOT_NULL;
    RAISE "insert on projected_crs violates constraint: coordinate_system.type must be 'cartesian'"
      WHERE cs_ref db coordinate_system.type
              NEW.(projected_crs.coordinate_system_auth_name)
              NEW.(projected_crs.coordinate_system_code)
            != txt "Cartesian";
    RAISE "insert on projected_crs violates constraint: coordinate_system.dimension must be 2"
      WHERE NOT (NEW.(projected_crs.coordinate_system_auth_name) == txt "EPSG"
                 AND NEW.(projected_crs.coordinate_system_code) == txt "4461")
            AND cs_ref db coordinate_system.dimension
                  NEW.(projected_crs.coordinate_system_auth_name)
                  NEW.(projected_crs.coordinate_system_code)
                != int 2 ].

Definition projected_crs_constraints (db : database) (NEW : projected_crs.row)
  : list constraint :=
  [ NOT_NULL "auth_name" NEW.(projected_crs.auth_name);
    CHECK "auth_name" (length_ NEW.(projected_crs.auth_name) >= int 1);
    NOT_NULL "code" NEW.(projected_crs.code);
    CHECK "code" (length_ NEW.(projected_crs.code) >= int 1);
    NOT_NULL "name" NEW.(projected_crs.name);
    CHECK "name" (length_ NEW.(projected_crs.name) >= int 2);
    NOT_NULL "deprecated" NEW.(projected_crs.deprecated);
    CHECK "deprecated" (NEW.(projected_crs.deprecated) IN [0; 1]%Z);
    PRIMARY_KEY "pk_projected_crs" (NEW.(projected_crs.auth_name), NEW.(projected_crs.code))
      db.(projected_crs) (projected_crs.auth_name, projected_crs.code);
    FOREIGN_KEY "fk_projected_crs_coordinate_system"
      (NEW.(projected_crs.coordinate_system_auth_name),
       NEW.(projected_crs.coordinate_system_code))
      db.(coordinate_system) (coordinate_system.auth_name, coordinate_system.code);
    FOREIGN_KEY "fk_projected_crs_geodetic_crs"
      (NEW.(projected_crs.geodetic_crs_auth_name), NEW.(projected_crs.geodetic_crs_code))
      db.(geodetic_crs) (geodetic_crs.auth_name, geodetic_crs.code);
    FOREIGN_KEY "fk_projected_crs_conversion"
      (NEW.(projected_crs.conversion_auth_name), NEW.(projected_crs.conversion_code))
      db.(conversion_table) (conversion_table.auth_name, conversion_table.code);
    FOREIGN_KEY "fk_projected_crs_area"
      (NEW.(projected_crs.area_of_use_auth_name), NEW.(projected_crs.area_of_use_code))
      db.(area) (area.auth_name, area.code) ].

Definition insert_projected_crs (db : database) (NEW : projected_crs.row)
  : result database :=
  insert (projected_crs_insert_trigger db NEW) (projected_crs_constraints db NEW)
         (append_projected_crs db NEW).

(** *** compound_crs *)

Definition compound_crs_insert_trigger (db : database) (NEW : compound_crs.row)
  : list raise :=
  [ RAISE "insert on compound_crs violates constraint: (auth_name, code) must not already exist in crs_view"
      WHERE exists_ (crs_view db)
              (fun crs_view =>
                 crs_view.(crs_view.auth_name) == NEW.(compound_crs.auth_name)
                 AND crs_view.(crs_view.code) == NEW.(compound_crs.code))%sql;
    RAISE "insert on compound_crs violates constraint: horiz_crs(auth_name, code) not found"
      WHERE NOT exists_ (crs_view db)
                  (fun crs_view =>
                     crs_view.(crs_view.auth_name) == NEW.(compound_crs.horiz_crs_auth_name)
                     AND crs_view.(crs_view.code) == NEW.(compound_crs.horiz_crs_code))%sql;
    RAISE "insert on compound_crs violates constraint: horiz_crs must be equal to 'geographic 2D' or 'projected'"
      WHERE scalar crs_view.type (crs_view db)
              (fun crs_view =>
                 crs_view.(crs_view.auth_name) == NEW.(compound_crs.horiz_crs_auth_name)
                 AND crs_view.(crs_view.code) == NEW.(compound_crs.horiz_crs_code))%sql
            NOT_IN ["geographic 2D"; "projected"];
    RAISE "insert on compound_crs violates constraint: vertical_crs must be equal to 'vertical'"
      WHERE scalar crs_view.type (crs_view db)
              (fun crs_view =>
                 crs_view.(crs_view.auth_name) == NEW.(compound_crs.vertical_crs_auth_name)
                 AND crs_view.(crs_view.code) == NEW.(compound_crs.vertical_crs_code))%sql
            NOT_IN ["vertical"];
    RAISE "insert on compound_crs violates constraint: horiz_crs must not be deprecated when compound_crs is not deprecated"
      WHERE exists_ (crs_view db)
              (fun crs_view =>
                 crs_view.(crs_view.auth_name) == NEW.(compound_crs.horiz_crs_auth_name)
                 AND crs_view.(crs_view.code) == NEW.(compound_crs.horiz_crs_code)
                 AND crs_view.(crs_view.deprecated) != int 0)%sql
            AND NEW.(compound_crs.deprecated) == int 0;
    RAISE "insert on compound_crs violates constraint: vertical_crs must not be deprecated when compound_crs is not deprecated"
      WHERE exists_ db.(vertical_crs)
              (fun vertical_crs =>
                 vertical_crs.(vertical_crs.auth_name) == NEW.(compound_crs.vertical_crs_auth_name)
                 AND vertical_crs.(vertical_crs.code) == NEW.(compound_crs.vertical_crs_code)
                 AND vertical_crs.(vertical_crs.deprecated) != int 0)%sql
            AND NEW.(compound_crs.deprecated) == int 0;
    RAISE "insert on compound_crs violates constraint: area_of_use must not be deprecated when compound_crs is not deprecated"
      WHERE exists_ db.(area)
              (fun area =>
                 area.(area.auth_name) == NEW.(compound_crs.area_of_use_auth_name)
                 AND area.(area.code) == NEW.(compound_crs.area_of_use_code)
                 AND area.(area.deprecated) != int 0)%sql
            AND NEW.(compound_crs.deprecated) == int 0 ].

Definition compound_crs_constraints (db : database) (NEW : compound_crs.row)
  : list constraint :=
  [ NOT_NULL "auth_name" NEW.(compound_crs.auth_name);
    CHECK "auth_name" (length_ NEW.(compound_crs.auth_name) >= int 1);
    NOT_NULL "code" NEW.(compound_crs.code);
    CHECK "code" (length_ NEW.(compound_crs.code) >= int 1);
    NOT_NULL "name" NEW.(compound_crs.name);
    CHECK "name" (length_ NEW.(compound_crs.name) >= int 2);
    NOT_NULL "horiz_crs_auth_name" NEW.(compound_crs.horiz_crs_auth_name);
    NOT_NULL "horiz_crs_code" NEW.(compound_crs.horiz_crs_code);
    NOT_NULL "vertical_crs_auth_name" NEW.(compound_crs.vertical_crs_auth_name);
    NOT_NULL "vertical_crs_code" NEW.(compound_crs.vertical_crs_code);
    NOT_NULL "area_of_use_auth_name" NEW.(compound_crs.area_of_use_auth_name);
    NOT_NULL "area_of_use_code" NEW.(compound_crs.area_of_use_code);
    NOT_NULL "deprecated" NEW.(compound_crs.deprecated);
    CHECK "deprecated" (NEW.(compound_crs.deprecated) IN [0; 1]%Z);
    PRIMARY_KEY "pk_compound_crs" (NEW.(compound_crs.auth_name), NEW.(compound_crs.code))
      db.(compound_crs) (compound_crs.auth_name, compound_crs.code);
    FOREIGN_KEY "fk_compound_crs_vertical_crs"
      (NEW.(compound_crs.vertical_crs_auth_name), NEW.(compound_crs.vertical_crs_code))
      db.(vertical_crs) (vertical_crs.auth_name, vertical_crs.code);
    FOREIGN_KEY "fk_compoundcrs_area"
      (NEW.(compound_crs.area_of_use_auth_name), NEW.(compound_crs.area_of_use_code))
      db.(area) (area.auth_name, area.code) ].

Definition insert_compound_crs (db : database) (NEW : compound_crs.row)
  : result database :=
  insert (compound_crs_insert_trigger db NEW) (compound_crs_constraints db NEW)
         (append_compound_crs db NEW).

(** *** coordinate_operation_method *)

Definition coordinate_operation_method_constraints (db : database)
           (NEW : coordinate_operation_method.row) : list constraint :=
  [ NOT_NULL "auth_name" NEW.(coordinate_operation_method.auth_name);
    CHECK "auth_name" (length_ NEW.(coordinate_operation_method.auth_name) >= int 1);
    NOT_NULL "code" NEW.(coordinate_operation_method.code);
    CHECK "code" (length_ NEW.(coordinate_operation_method.code) >= int 1);
    NOT_NULL "name" NEW.(coordinate_operation_method.name);
    CHECK "name" (length_ NEW.(coordinate_operation_method.name) >= int 2);
    PRIMARY_KEY "pk_coordinate_operation_method"
      (NEW.(coordinate_operation_method.auth_name), NEW.(coordinate_operation_method.code))
      db.(coordinate_operation_method)
      (coordinate_operation_method.auth_name, coordinate_operation_method.code) ].

Definition insert_coordinate_operation_method (db : database)
           (NEW : coordinate_operation_method.row) : result database :=
  insert [] (coordinate_operation_method_constraints db NEW)
         (append_coordinate_operation_method db NEW).

(** *** helmert_transformation_table *)

(** [(SELECT type FROM unit_of_measure WHERE auth_name = a AND code = c)]. *)
Definition uom_type (db : database) (uom_auth_name uom_code : text) : text :=
  scalar unit_of_measure.type db.(unit_of_measure)
    (fun unit_of_measure =>
       unit_of_measure.(unit_of_measure.auth_name) == uom_auth_name
       AND unit_of_measure.(unit_of_measure.code) == uom_code)%sql.

Definition helmert_transformation_insert_trigger (db : database)
           (NEW : helmert_transformation_table.row) : list raise :=
  [ RAISE "insert on helmert_transformation violates constraint: (auth_name, code) must not already exist in coordinate_operation_with_conversion_view"
      WHERE exists_ (coordinate_operation_with_conversion_view db)
              (fun covwv =>
                 covwv.(coordinate_operation_with_conversion_view.auth_name)
                   == NEW.(helmert_transformation_table.auth_name)
                 AND covwv.(coordinate_operation_with_conversion_view.code)
                   == NEW.(helmert_transformation_table.code))%sql;
    RAISE "insert on helmert_transformation violates constraint: translation_uom.type must be 'length'"
      WHERE uom_type db NEW.(helmert_transformation_table.translation_uom_auth_name)
                        NEW.(helmert_transformation_table.translation_uom_code)
            != txt "length";
    RAISE "insert on helmert_transformation violates constraint: rotation_uom.type must be 'angle'"
      WHERE uom_type db NEW.(helmert_transformation_table.rotation_uom_auth_name)
                        NEW.(helmert_transformation_table.rotation_uom_code)
            != txt "angle";
    RAISE "insert on helmert_transformation violates constraint: scale_difference_uom.type must be 'scale'"
      WHERE uom_type db NEW.(helmert_transformation_table.scale_difference_uom_auth_name)
                        NEW.(helmert_transformation_table.scale_difference_uom_code)
            != txt "scale";
    RAISE "insert on helmert_transformation violates constraint: rate_translation_uom.type must be 'length'"
      WHERE uom_type db NEW.(helmert_transformation_table.rate_translation_uom_auth_name)
                        NEW.(helmert_transformation_table.rate_translation_uom_code)
            != txt "length";
    RAISE "insert on helmert_transformation violates constraint: rate_rotation_uom.type must be 'angle'"
      WHERE uom_type db NEW.(helmert_transformation_table.rate_rotation_uom_auth_name)
                        NEW.(helmert_transformation_table.rate_rotation_uom_code)
            != txt "angle";
    RAISE "insert on helmert_transformation violates constraint: rate_scale_difference_uom.type must be 'scale'"
      WHERE uom_type db NEW.(helmert_transformation_table.rate_scale_difference_uom_auth_name)
                        NEW.(helmert_transformation_table.rate_scale_difference_uom_code)
            != txt "scale";
    RAISE "insert on helmert_transformation violates constraint: epoch_uom.type must be 'time'"
      WHERE uom_type db NEW.(helmert_transformation_table.epoch_uom_auth_name)
                        NEW.(helmert_transformation_table.epoch_uom_code)
            != txt "time";
    RAISE "insert on helmert_transformation violates constraint: pivot_uom.type must be 'length'"
      WHERE uom_type db NEW.(helmert_transformation_table.pivot_uom_auth_name)
                        NEW.(helmert_transformation_table.pivot_uom_code)
            != txt "length";
    RAISE "insert on helmert_transformation violates constraint: source_crs must not be deprecated when helmert_transformation is not deprecated"
      WHERE exists_ db.(geodetic_crs)
              (fun crs =>
                 crs.(geodetic_crs.auth_name)
                   == NEW.(helmert_transformation_table.source_crs_auth_name)
                 AND crs.(geodetic_crs.code) == NEW.(helmert_transformation_table.source_crs_code)
                 AND crs.(geodetic_crs.deprecated) != int 0)%sql
            AND NEW.(helmert_transformation_table.deprecated) == int 0
            AND NOT (NEW.(helmert_transformation_table.auth_name) == txt "ESRI");
    RAISE "insert on helmert_transformation violates constraint: target_crs must not be deprecated when helmert_transformation is not deprecated"
      WHERE exists_ db.(geodetic_crs)
              (fun crs =>
                 crs.(geodetic_crs.auth_name)
                   == NEW.(helmert_transformation_table.target_crs_auth_name)
                 AND crs.(geodetic_crs.code) == NEW.(helmert_transformation_table.target_crs_code)
                 AND crs.(geodetic_crs.deprecated) != int 0)%sql
            AND NEW.(helmert_transformation_table.deprecated) == int 0
            AND NOT (NEW.(helmert_transformation_table.auth_name) == txt "ESRI");
    RAISE "insert on helmert_transformation violates constraint: area_of_use must not be deprecated when helmert_transformation is not deprecated"
      WHERE exists_ db.(area)
              (fun area =>
                 area.(area.auth_name) == NEW.(helmert_transformation_table.area_of_use_auth_name)
                 AND area.(area.code) == NEW.(helmert_transformation_table.area_of_use_code)
                 AND area.(area.deprecated) != int 0)%sql
            AND NEW.(helmert_transformation_table.deprecated) == int 0 ].

Definition fk_unit_of_measure (db : database) (name : string)
           (uom_auth_name uom_code : text) : constraint :=
  FOREIGN_KEY name (uom_auth_name, uom_code)
    db.(unit_of_measure) (unit_of_measure.auth_name, unit_of_measure.code).

Definition helmert_transformation_table_constraints (db : database)
           (NEW : helmert_transformation_table.row) : list constraint :=
  [ NOT_NULL "auth_name" NEW.(helmert_transformation_table.auth_name);
    CHECK "auth_name" (length_ NEW.(helmert_transformation_table.auth_name) >= int 1);
    NOT_NULL "code" NEW.(helmert_transformation_table.code);
    CHECK "code" (length_ NEW.(helmert_transformation_table.code) >= int 1);
    NOT_NULL "name" NEW.(helmert_transformation_table.name);
    CHECK "name" (length_ NEW.(helmert_transformation_table.name) >= int 2);
    NOT_NULL "method_auth_name" NEW.(helmert_transformation_table.method_auth_name);
    CHECK "method_auth_name"
      (length_ NEW.(helmert_transformation_table.method_auth_name) >= int 1);
    NOT_NULL "method_code" NEW.(helmert_transformation_table.method_code);
    CHECK "method_code" (length_ NEW.(helmert_transformation_table.method_code) >= int 1);
    NOT_NULL "source_crs_auth_name" NEW.(helmert_transformation_table.source_crs_auth_name);
    NOT_NULL "source_crs_code" NEW.(helmert_transformation_table.source_crs_code);
    NOT_NULL "target_crs_auth_name" NEW.(helmert_transformation_table.target_crs_auth_name);
    NOT_NULL "target_crs_code" NEW.(helmert_transformation_table.target_crs_code);
    NOT_NULL "area_of_use_auth_name" NEW.(helmert_transformation_table.area_of_use_auth_name);
    NOT_NULL "area_of_use_code" NEW.(helmert_transformation_table.area_of_use_code);
    CHECK "accuracy" (NEW.(helmert_transformation_table.accuracy) >= num 0);
    NOT_NULL "tx" NEW.(helmert_transformation_table.tx);
    NOT_NULL "ty" NEW.(helmert_transformation_table.ty);
    NOT_NULL "tz" NEW.(helmert_transformation_table.tz);
    NOT_NULL "translation_uom_auth_name"
      NEW.(helmert_transformation_table.translation_uom_auth_name);
    NOT_NULL "translation_uom_code" NEW.(helmert_transformation_table.translation_uom_code);
    NOT_NULL "deprecated" NEW.(helmert_transformation_table.deprecated);
    CHECK "deprecated" (NEW.(helmert_transformation_table.deprecated) IN [0; 1]%Z);
    PRIMARY_KEY "pk_helmert_transformation"
      (NEW.(helmert_transformation_table.auth_name), NEW.(helmert_transformation_table.code))
      db.(helmert_transformation_table)
      (helmert_transformation_table.auth_name, helmert_transformation_table.code);
    FOREIGN_KEY "fk_helmert_transformation_source_crs"
      (NEW.(helmert_transformation_table.source_crs_auth_name),
       NEW.(helmert_transformation_table.source_crs_code))
      db.(geodetic_crs) (geodetic_crs.auth_name, geodetic_crs.code);
    FOREIGN_KEY "fk_helmert_transformation_target_crs"
      (NEW.(helmert_transformation_table.target_crs_auth_name),
       NEW.(helmert_transformation_table.target_crs_code))
      db.(geodetic_crs) (geodetic_crs.auth_name, geodetic_crs.code);
    FOREIGN_KEY "fk_helmert_transformation_area"
      (NEW.(helmert_transformation_table.area_of_use_auth_name),
       NEW.(helmert_transformation_table.area_of_use_code))
      db.(area) (area.auth_name, area.code);
    FOREIGN_KEY "fk_helmert_transformation_method"
      (NEW.(helmert_transformation_table.method_auth_name),
       NEW.(helmert_transformation_table.method_code))
      db.(coordinate_operation_method)
      (coordinate_operation_method.auth_name, coordinate_operation_method.code);
    fk_unit_of_measure db "fk_helmert_translation_uom"
      NEW.(helmert_transformation_table.translation_uom_auth_name)
      NEW.(helmert_transformation_table.translation_uom_code);
    fk_unit_of_measure db "fk_helmert_rotation_uom"
      NEW.(helmert_transformation_table.rotation_uom_auth_name)
      NEW.(helmert_transformation_table.rotation_uom_code);
    fk_unit_of_measure db "fk_helmert_scale_difference_uom"
      NEW.(helmert_transformation_table.scale_difference_uom_auth_name)
      NEW.(helmert_transformation_table.scale_difference_uom_code);
    fk_unit_of_measure db "fk_helmert_rate_translation_uom"
      NEW.(helmert_transformation_table.rate_translation_uom_auth_name)
      NEW.(helmert_transformation_table.rate_translation_uom_code);
    fk_unit_of_measure db "fk_helmert_rate_rotation_uom"
      NEW.(helmert_transformation_table.rate_rotation_uom_auth_name)
      NEW.(helmert_transformation_table.rate_rotation_uom_code);
    fk_unit_of_measure db "fk_helmert_rate_scale_difference_uom"
      NEW.(helmert_transformation_table.rate_scale_difference_uom_auth_name)
      NEW.(helmert_transformation_table.rate_scale_difference_uom_code);
    fk_unit_of_measure db "fk_helmert_epoch_uom"
      NEW.(helmert_transformation_table.epoch_uom_auth_name)
      NEW.(helmert_transformation_table.epoch_uom_code);
    fk_unit_of_measure db "fk_helmert_pivot_uom"
      NEW.(helmert_transformation_table.pivot_uom_auth_name)
      NEW.(helmert_transformation_table.pivot_uom_code) ].

Definition insert_helmert_transformation_table (db : database)
           (NEW : helmert_transformation_table.row) : result database :=
  insert (helmert_transformation_insert_trigger db NEW)
         (helmert_transformation_table_constraints db NEW)
         (append_helmert_transformation_table db NEW).

(** *** helmert_transformation (view): the [INSTEAD OF INSERT] triggers *)

Definition helmert_transformation_insert_trigger_method (db : database)
           (NEW : helmert_transformation.row) : result database :=
  let h := NEW.(helmert_transformation.base) in
  if truth (NOT exists_ db.(coordinate_operation_method)
              (fun m =>
                 m.(coordinate_operation_method.auth_name)
                   == h.(helmert_transformation_table.method_auth_name)
                 AND m.(coordinate_operation_method.code)
                   == h.(helmert_transformation_table.method_code)
                 AND m.(coordinate_operation_method.name)
                   == NEW.(helmert_transformation.method_name)))%sql
  then insert_coordinate_operation_method db
         {| coordinate_operation_method.auth_name :=
              h.(helmert_transformation_table.method_auth_name);
            coordinate_operation_method.code := h.(helmert_transformation_table.method_code);
            coordinate_operation_method.name := NEW.(helmert_transformation.method_name) |}
  else ok db.

Definition insert_helmert_transformation (db : database) (NEW : helmert_transformation.row)
  : result database :=
  bind (helmert_transformation_insert_trigger_method db NEW) (fun db =>
  insert_helmert_transformation_table db NEW.(helmert_transformation.base)).

(** *** grid_transformation *)

Definition grid_transformation_insert_trigger (db : database) (NEW : grid_transformation.row)
  : list raise :=
  [ RAISE "insert on grid_transformation violates constraint: (auth_name, code) must not already exist in coordinate_operation_with_conversion_view"
      WHERE exists_ (coordinate_operation_with_conversion_view db)
              (fun covwv =>
                 covwv.(coordinate_operation_with_conversion_view.auth_name)
                   == NEW.(grid_transformation.auth_name)
                 AND covwv.(coordinate_operation_with_conversion_view.code)
                   == NEW.(grid_transformation.code))%sql;
    RAISE "insert on grid_transformation violates constraint: source_crs(auth_name, code) not found"
      WHERE NOT exists_ (crs_view db)
                  (fun crs_view =>
                     crs_view.(crs_view.auth_name) == NEW.(grid_transformation.source_crs_auth_name)
                     AND crs_view.(crs_view.code) == NEW.(grid_transformation.source_crs_code))%sql;
    RAISE "insert on grid_transformation violates constraint: target_crs(auth_name, code) not found"
      WHERE NOT exists_ (crs_view db)
                  (fun crs_view =>
                     crs_view.(crs_view.auth_name) == NEW.(grid_transformation.target_crs_auth_name)
                     AND crs_view.(crs_view.code) == NEW.(grid_transformation.target_crs_code))%sql;
    RAISE "insert on grid_transformation violates constraint: source_crs must not be deprecated when grid_transformation is not deprecated"
      WHERE exists_ (crs_view db)
              (fun crs =>
                 crs.(crs_view.auth_name) == NEW.(grid_transformation.source_crs_auth_name)
                 AND crs.(crs_view.code) == NEW.(grid_transformation.source_crs_code)
                 AND crs.(crs_view.deprecated) != int 0)%sql
            AND NEW.(grid_transformation.deprecated) == int 0
            AND NOT (NEW.(grid_transformation.auth_name) == txt "ESRI");
    RAISE "insert on grid_transformation violates constraint: target_crs must not be deprecated when grid_transformation is not deprecated"
      WHERE exists_ (crs_view db)
              (fun crs =>
                 crs.(crs_view.auth_name) == NEW.(grid_transformation.target_crs_auth_name)
                 AND crs.(crs_view.code) == NEW.(grid_transformation.target_crs_code)
                 AND crs.(crs_view.deprecated) != int 0)%sql
            AND NEW.(grid_transformation.deprecated) == int 0
            AND NOT (NEW.(grid_transformation.auth_name) == txt "ESRI");
    RAISE "insert on grid_transformation violates constraint: area_of_use must not be deprecated when grid_transformation is not deprecated"
      WHERE exists_ db.(area)
              (fun area =>
                 area.(area.auth_name) == NEW.(grid_transformation.area_of_use_auth_name)
                 AND area.(area.code) == NEW.(grid_transformation.area_of_use_code)
                 AND area.(area.deprecated) != int 0)%sql
            AND NEW.(grid_transformation.deprecated) == int 0 ].

Definition grid_transformation_constraints (db : database) (NEW : grid_transformation.row)
  : list constraint :=
  [ NOT_NULL "auth_name" NEW.(grid_transformation.auth_name);
    CHECK "auth_name" (length_ NEW.(grid_transformation.auth_name) >= int 1);
    NOT_NULL "code" NEW.(grid_transformation.code);
    CHECK "code" (length_ NEW.(grid_transformation.code) >= int 1);
    NOT_NULL "name" NEW.(grid_transformation.name);
    CHECK "name" (length_ NEW.(grid_transformation.name) >= int 2);
    NOT_NULL "method_auth_name" NEW.(grid_transformation.method_auth_name);
    CHECK "method_auth_name" (length_ NEW.(grid_transformation.method_auth_name) >= int 1);
    NOT_NULL "method_code" NEW.(grid_transformation.method_code);
    CHECK "method_code" (length_ NEW.(grid_transformation.method_code) >= int 1);
    NOT_NULL "method_name" NEW.(grid_transformation.method_name);
    CHECK "method_name" (length_ NEW.(grid_transformation.method_name) >= int 2);
    NOT_NULL "source_crs_auth_name" NEW.(grid_transformation.source_crs_auth_name);
    NOT_NULL "source_crs_code" NEW.(grid_transformation.source_crs_code);
    NOT_NULL "target_crs_auth_name" NEW.(grid_transformation.target_crs_auth_name);
    NOT_NULL "target_crs_code" NEW.(grid_transformation.target_crs_code);
    NOT_NULL "area_of_use_auth_name" NEW.(grid_transformation.area_of_use_auth_name);
    NOT_NULL "area_of_use_code" NEW.(grid_transformation.area_of_use_code);
    CHECK "accuracy" (NEW.(grid_transformation.accuracy) >= num 0);
    NOT_NULL "grid_param_auth_name" NEW.(grid_transformation.grid_param_auth_name);
    NOT_NULL "grid_param_code" NEW.(grid_transformation.grid_param_code);
    NOT_NULL "grid_param_name" NEW.(grid_transformation.grid_param_name);
    NOT_NULL "grid_name" NEW.(grid_transformation.grid_name);
    NOT_NULL "deprecated" NEW.(grid_transformation.deprecated);
    CHECK "deprecated" (NEW.(grid_transformation.deprecated) IN [0; 1]%Z);
    PRIMARY_KEY "pk_grid_transformation"
      (NEW.(grid_transformation.auth_name), NEW.(grid_transformation.code))
      db.(grid_transformation) (grid_transformation.auth_name, grid_transformation.code);
    FOREIGN_KEY "fk_grid_transformation_interpolation_crs"
      (NEW.(grid_transformation.interpolation_crs_auth_name),
       NEW.(grid_transformation.interpolation_crs_code))
      db.(geodetic_crs) (geodetic_crs.auth_name, geodetic_crs.code);
    FOREIGN_KEY "fk_grid_transformation_transformation_area"
      (NEW.(grid_transformation.area_of_use_auth_name),
       NEW.(grid_transformation.area_of_use_code))
      db.(area) (area.auth_name, area.code) ].

Definition insert_grid_transformation (db : database) (NEW : grid_transformation.row)
  : result database :=
  insert (grid_transformation_insert_trigger db NEW) (grid_transformation_constraints db NEW)
         (append_grid_transformation db NEW).

(** *** grid_packages *)

Definition grid_packages_insert_trigger (db : database) (NEW : grid_packages.row)
  : list raise :=
  [ RAISE "insert on grid_packages violates constraint: open_license must be set when url is not NULL"
      WHERE NEW.(grid_packages.open_license) IS_NULL AND NEW.(grid_packages.url) IS_NOT_NULL;
    RAISE "insert on grid_packages violates constraint: direct_download must be set when url is not NULL"
      WHERE NEW.(grid_packages.direct_download) IS_NULL AND NEW.(grid_packages.url) IS_NOT_NULL ].

Definition grid_packages_constraints (db : database) (NEW : grid_packages.row)
  : list constraint :=
  [ NOT_NULL "package_name" NEW.(grid_packages.package_name);
    PRIMARY_KEY1 "package_name" NEW.(grid_packages.package_name)
      db.(grid_packages) grid_packages.package_name;
    CHECK "direct_download" (NEW.(grid_packages.direct_download) IN [0; 1]%Z);
    CHECK "open_license" (NEW.(grid_packages.open_license) IN [0; 1]%Z) ].

Definition insert_grid_packages (db : database) (NEW : grid_packages.row)
  : result database :=
  insert (grid_packages_insert_trigger db NEW) (grid_packages_constraints db NEW)
         (append_grid_packages db NEW).

(** *** grid_alternatives *)

Definition grid_alternatives_insert_trigger (db : database) (NEW : grid_alternatives.row)
  : list raise :=
  [ RAISE "insert on grid_alternatives violates constraint: proj_grid_format must be one of 'CTable2', 'NTv1', 'NTv2', 'GTX'"
      WHERE NEW.(grid_alternatives.proj_grid_format) NOT_IN ["CTable2"; "NTv1"; "NTv2"; "GTX"];
    RAISE "insert on grid_alternatives violates constraint: proj_method must be one of 'hgridshift', 'vgridshift'"
      WHERE NEW.(grid_alternatives.proj_method) NOT_IN ["hgridshift"; "vgridshift"];
    RAISE "insert on grid_alternatives violates constraint: proj_method must be 'hgridshift' when proj_grid_format is 'CTable2', 'NTv1', 'NTv2'"
      WHERE NEW.(grid_alternatives.proj_method) != txt "hgridshift"
            AND NEW.(grid_alternatives.proj_grid_format) IN ["CTable2"; "NTv1"; "NTv2"];
    RAISE "insert on grid_alternatives violates constraint: proj_method must be 'vridshift' when proj_grid_format is 'GTX'"
      WHERE NEW.(grid_alternatives.proj_method) != txt "vgridshift"
            AND NEW.(grid_alternatives.proj_grid_format) IN ["GTX"];
    RAISE "insert on grid_alternatives violates constraint: original_grid_name must be referenced in grid_transformation.grid_name"
      WHERE NEW.(grid_alternatives.original_grid_name) NOT_IN ["null"]
            AND NOT in_select NEW.(grid_alternatives.original_grid_name)
                      (map grid_transformation.grid_name db.(grid_transformation));
    RAISE "insert on grid_alternatives violates constraint: NEW.inverse_direction must be 0 when original_grid_name = proj_grid_name"
      WHERE NEW.(grid_alternatives.original_grid_name) == NEW.(grid_alternatives.proj_grid_name)
            AND NEW.(grid_alternatives.inverse_direction) != int 0;
    RAISE "insert on grid_alternatives violates constraint: package_name must be NULL when url is not NULL"
      WHERE NEW.(grid_alternatives.package_name) IS_NOT_NULL
            AND NEW.(grid_alternatives.url) IS_NOT_NULL;
    RAISE "insert on grid_alternatives violates constraint: direct_download must be set when url is not NULL"
      WHERE NEW.(grid_alternatives.direct_download) IS_NULL
            AND NEW.(grid_alternatives.url) IS_NOT_NULL;
    RAISE "insert on grid_alternatives violates constraint: open_license must be set when url is not NULL"
      WHERE NEW.(grid_alternatives.open_license) IS_NULL
            AND NEW.(grid_alternatives.url) IS_NOT_NULL ].

Definition grid_alternatives_constraints (db : database) (NEW : grid_alternatives.row)
  : list constraint :=
  [ NOT_NULL "original_grid_name" NEW.(grid_alternatives.original_grid_name);
    PRIMARY_KEY1 "original_grid_name" NEW.(grid_alternatives.original_grid_name)
      db.(grid_alternatives) grid_alternatives.original_grid_name;
    NOT_NULL "proj_grid_name" NEW.(grid_alternatives.proj_grid_name);
    NOT_NULL "proj_grid_format" NEW.(grid_alternatives.proj_grid_format);
    NOT_NULL "proj_method" NEW.(grid_alternatives.proj_method);
    NOT_NULL "inverse_direction" NEW.(grid_alternatives.inverse_direction);
    CHECK "inverse_direction" (NEW.(grid_alternatives.inverse_direction) IN [0; 1]%Z);
    CHECK "direct_download" (NEW.(grid_alternatives.direct_download) IN [0; 1]%Z);
    CHECK "open_license" (NEW.(grid_alternatives.open_license) IN [0; 1]%Z);
    FOREIGN_KEY1 "fk_grid_alternatives_grid_packages" NEW.(grid_alternatives.package_name)
      db.(grid_packages) grid_packages.package_name ].

Definition insert_grid_alternatives (db : database) (NEW : grid_alternatives.row)
  : result database :=
  insert (grid_alternatives_insert_trigger db NEW) (grid_alternatives_constraints db NEW)
         (append_grid_alternatives db NEW).

(** *** other_transformation *)

Definition other_transformation_insert_trigger (db : database) (NEW : other_transformation.row)
  : list raise :=
  [ RAISE "insert on other_transformation violates constraint: (auth_name, code) must not already exist in coordinate_operation_with_conversion_view"
      WHERE exists_ (coordinate_operation_with_conversion_view db)
              (fun covwv =>
                 covwv.(coordinate_operation_with_conversion_view.auth_name)
                   == NEW.(other_transformation.auth_name)
                 AND covwv.(coordinate_operation_with_conversion_view.code)
                   == NEW.(other_transformation.code))%sql;
    RAISE "insert on other_transformation violates constraint: source_crs(auth_name, code) not found"
      WHERE NOT exists_ (crs_view db)
                  (fun crs_view =>
                     crs_view.(crs_view.auth_name) == NEW.(other_transformation.source_crs_auth_name)
                     AND crs_view.(crs_view.code) == NEW.(other_transformation.source_crs_code))%sql;
    RAISE "insert on other_transformation violates constraint: target_crs(auth_name, code) not found"
      WHERE NOT exists_ (crs_view db)
                  (fun crs_view =>
                     crs_view.(crs_view.auth_name) == NEW.(other_transformation.target_crs_auth_name)
                     AND crs_view.(crs_view.code) == NEW.(other_transformation.target_crs_code))%sql;
    RAISE "insert on other_transformation violates constraint: method_code should be in (PROJString, WKT) when method_auth_name = PROJ"
      WHERE NEW.(other_transformation.method_auth_name) == txt "PROJ"
            AND NEW.(other_transformation.method_code) NOT_IN ["PROJString"; "WKT"];
    RAISE "insert on other_transformation violates constraint: source_crs must not be deprecated when other_transformation is not deprecated"
      WHERE exists_ (crs_view db)
              (fun crs =>
                 crs.(crs_view.auth_name) == NEW.(other_transformation.source_crs_auth_name)
                 AND crs.(crs_view.code) == NEW.(other_transformation.source_crs_code)
                 AND crs.(crs_view.deprecated) != int 0)%sql
            AND NEW.(other_transformation.deprecated) == int 0
            AND NOT (NEW.(other_transformation.auth_name) == txt "ESRI");
    RAISE "insert on other_transformation violates constraint: target_crs must not be deprecated when other_transformation is not deprecated"
      WHERE exists_ (crs_view db)
              (fun crs =>
                 crs.(crs_view.auth_name) == NEW.(other_transformation.target_crs_auth_name)
                 AND crs.(crs_view.code) == NEW.(other_transformation.target_crs_code)
                 AND crs.(crs_view.deprecated) != int 0)%sql
            AND NEW.(other_transformation.deprecated) == int 0
            AND NOT (NEW.(other_transformation.auth_name) == txt "ESRI");
    RAISE "insert on other_transformation violates constraint: area_of_use must not be deprecated when other_transformation is not deprecated"
      WHERE exists_ db.(area)
              (fun area =>
                 area.(area.auth_name) == NEW.(other_transformation.area_of_use_auth_name)
                 AND area.(area.code) == NEW.(other_transformation.area_of_use_code)
                 AND area.(area.deprecated) != int 0)%sql
            AND NEW.(other_transformation.deprecated) == int 0 ].

(** [CONSTRAINT fk_other_transformation_paramN_uom]. *)
Definition fk_other_transformation_param_uom (db : database) (name : string)
           (p : other_transformation.param) : constraint :=
  FOREIGN_KEY name
    (p.(other_transformation.param_uom_auth_name), p.(other_transformation.param_uom_code))
    db.(unit_of_measure) (unit_of_measure.auth_name, unit_of_measure.code).

Definition other_transformation_constraints (db : database) (NEW : other_transformation.row)
  : list constraint :=
  [ NOT_NULL "auth_name" NEW.(other_transformation.auth_name);
    CHECK "auth_name" (length_ NEW.(other_transformation.auth_name) >= int 1);
    NOT_NULL "code" NEW.(other_transformation.code);
    CHECK "code" (length_ NEW.(other_transformation.code) >= int 1);
    NOT_NULL "name" NEW.(other_transformation.name);
    CHECK "name" (length_ NEW.(other_transformation.name) >= int 2);
    NOT_NULL "method_auth_name" NEW.(other_transformation.method_auth_name);
    CHECK "method_auth_name" (length_ NEW.(other_transformation.method_auth_name) >= int 1);
    NOT_NULL "method_code" NEW.(other_transformation.method_code);
    CHECK "method_code" (length_ NEW.(other_transformation.method_code) >= int 1);
    NOT_NULL "method_name" NEW.(other_transformation.method_name);
    CHECK "method_name" (length_ NEW.(other_transformation.method_name) >= int 2);
    NOT_NULL "source_crs_auth_name" NEW.(other_transformation.source_crs_auth_name);
    NOT_NULL "source_crs_code" NEW.(other_transformation.source_crs_code);
    NOT_NULL "target_crs_auth_name" NEW.(other_transformation.target_crs_auth_name);
    NOT_NULL "target_crs_code" NEW.(other_transformation.target_crs_code);
    NOT_NULL "area_of_use_auth_name" NEW.(other_transformation.area_of_use_auth_name);
    NOT_NULL "area_of_use_code" NEW.(other_transformation.area_of_use_code);
    CHECK "accuracy" (NEW.(other_transformation.accuracy) >= num 0);
    NOT_NULL "deprecated" NEW.(other_transformation.deprecated);
    CHECK "deprecated" (NEW.(other_transformation.deprecated) IN [0; 1]%Z);
    PRIMARY_KEY "pk_other_transformation"
      (NEW.(other_transformation.auth_name), NEW.(other_transformation.code))
      db.(other_transformation) (other_transformation.auth_name, other_transformation.code);
    FOREIGN_KEY "fk_other_transformation_area"
      (NEW.(other_transformation.area_of_use_auth_name),
       NEW.(other_transformation.area_of_use_code))
      db.(area) (area.auth_name, area.code);
    fk_other_transformation_param_uom db "fk_other_transformation_param1_uom"
      NEW.(other_transformation.param1);
    fk_other_transformation_param_uom db "fk_other_transformation_param2_uom"
      NEW.(other_transformation.param2);
    fk_other_transformation_param_uom db "fk_other_transformation_param3_uom"
      NEW.(other_transformation.param3);
    fk_other_transformation_param_uom db "fk_other_transformation_param4_uom"
      NEW.(other_transformation.param4);
    fk_other_transformation_param_uom db "fk_other_transformation_param5_uom"
      NEW.(other_transformation.param5);
    fk_other_transformation_param_uom db "fk_other_transformation_param6_uom"
      NEW.(other_transformation.param6);
    fk_other_transformation_param_uom db "fk_other_transformation_param7_uom"
      NEW.(other_transformation.param7) ].

Definition insert_other_transformation (db : database) (NEW : other_transformation.row)
  : result database :=
  insert (other_transformation_insert_trigger db NEW) (other_transformation_constraints db NEW)
         (append_other_transformation db NEW).

(** *** concatenated_operation *)

Definition concatenated_operation_insert_trigger (db : database)
           (NEW : concatenated_operation.row) : list raise :=
  [ RAISE "insert on concatenated_operation violates constraint: (auth_name, code) must not already exist in coordinate_operation_with_conversion_view"
      WHERE exists_ (coordinate_operation_with_conversion_view db)
              (fun covwv =>
                 covwv.(coordinate_operation_with_conversion_view.auth_name)
                   == NEW.(concatenated_operation.auth_name)
                 AND covwv.(coordinate_operation_with_conversion_view.code)
                   == NEW.(concatenated_operation.code))%sql;
    RAISE "insert on concatenated_operation violates constraint: step1(auth_name, code) must already exist in coordinate_operation_with_conversion_view"
      WHERE NOT exists_ (coordinate_operation_with_conversion_view db)
                  (fun covwv =>
                     covwv.(coordinate_operation_with_conversion_view.auth_name)
                       == NEW.(concatenated_operation.step1_auth_name)
                     AND covwv.(coordinate_operation_with_conversion_view.code)
                       == NEW.(concatenated_operation.step1_code))%sql;
    RAISE "insert on concatenated_operation violates constraint: step2(auth_name, code) must already exist in coordinate_operation_with_conversion_view"
      WHERE NOT exists_ (coordinate_operation_with_conversion_view db)
                  (fun covwv =>
                     covwv.(coordinate_operation_with_conversion_view.auth_name)
                       == NEW.(concatenated_operation.step2_auth_name)
                     AND covwv.(coordinate_operation_with_conversion_view.code)
                       == NEW.(concatenated_operation.step2_code))%sql;
    RAISE "insert on concatenated_operation violates constraint: step3(auth_name, code) must already exist in coordinate_operation_with_conversion_view"
      WHERE NEW.(concatenated_operation.step3_auth_name) IS_NOT_NULL
            AND NOT exists_ (coordinate_operation_with_conversion_view db)
                      (fun covwv =>
                         covwv.(coordinate_operation_with_conversion_view.auth_name)
                           == NEW.(concatenated_operation.step3_auth_name)
                         AND covwv.(coordinate_operation_with_conversion_view.code)
                           == NEW.(concatenated_operation.step3_code))%sql;
    RAISE "insert on concatenated_operation violates constraint: source_crs(auth_name, code) not found"
      WHERE NOT exists_ (crs_view db)
                  (fun crs_view =>
                     crs_view.(crs_view.auth_name)
                       == NEW.(concatenated_operation.source_crs_auth_name)
                     AND crs_view.(crs_view.code)
                       == NEW.(concatenated_operation.source_crs_code))%sql;
    RAISE "insert on concatenated_operation violates constraint: target_crs(auth_name, code) not found"
      WHERE NOT exists_ (crs_view db)
                  (fun crs_view =>
                     crs_view.(crs_view.auth_name)
                       == NEW.(concatenated_operation.target_crs_auth_name)
                     AND crs_view.(crs_view.code)
                       == NEW.(concatenated_operation.target_crs_code))%sql;
    RAISE "insert on concatenated_operation violates constraint: step1 should not be a concatenated_operation"
      WHERE exists_ db.(concatenated_operation)
              (fun c =>
                 c.(concatenated_operation.auth_name) == NEW.(concatenated_operation.step1_auth_name)
                 AND c.(concatenated_operation.code) == NEW.(concatenated_operation.step1_code))%sql;
    RAISE "insert on concatenated_operation violates constraint: step2 should not be a concatenated_operation"
      WHERE exists_ db.(concatenated_operation)
              (fun c =>
                 c.(concatenated_operation.auth_name) == NEW.(concatenated_operation.step2_auth_name)
                 AND c.(concatenated_operation.code) == NEW.(concatenated_operation.step2_code))%sql;
    RAISE "insert on concatenated_operation violates constraint: step3 should not be a concatenated_operation"
      WHERE exists_ db.(concatenated_operation)
              (fun c =>
                 c.(concatenated_operation.auth_name) == NEW.(concatenated_operation.step3_auth_name)
                 AND c.(concatenated_operation.code) == NEW.(concatenated_operation.step3_code))%sql;
    RAISE "insert on concatenated_operation violates constraint: source_crs must not be deprecated when concatenated_operation is not deprecated"
      WHERE exists_ (crs_view db)
              (fun crs =>
                 crs.(crs_view.auth_name) == NEW.(concatenated_operation.source_crs_auth_name)
                 AND crs.(crs_view.code) == NEW.(concatenated_operation.source_crs_code)
                 AND crs.(crs_view.deprecated) != int 0)%sql
            AND NEW.(concatenated_operation.deprecated) == int 0
            AND NOT (NEW.(concatenated_operation.auth_name) == txt "ESRI");
    RAISE "insert on concatenated_operation violates constraint: target_crs must not be deprecated when concatenated_operation is not deprecated"
      WHERE exists_ (crs_view db)
              (fun crs =>
                 crs.(crs_view.auth_name) == NEW.(concatenated_operation.target_crs_auth_name)
                 AND crs.(crs_view.code) == NEW.(concatenated_operation.target_crs_code)
                 AND crs.(crs_view.deprecated) != int 0)%sql
            AND NEW.(concatenated_operation.deprecated) == int 0
            AND NOT (NEW.(concatenated_operation.auth_name) == txt "ESRI");
    RAISE "insert on concatenated_operation violates constraint: area_of_use must not be deprecated when concatenated_operation is not deprecated"
      WHERE exists_ db.(area)
              (fun area =>
                 area.(area.auth_name) == NEW.(concatenated_operation.area_of_use_auth_name)
                 AND area.(area.code) == NEW.(concatenated_operation.area_of_use_code)
                 AND area.(area.deprecated) != int 0)%sql
            AND NEW.(concatenated_operation.deprecated) == int 0 ].

Definition concatenated_operation_constraints (db : database)
           (NEW : concatenated_operation.row) : list constraint :=
  [ NOT_NULL "auth_name" NEW.(concatenated_operation.auth_name);
    CHECK "auth_name" (length_ NEW.(concatenated_operation.auth_name) >= int 1);
    NOT_NULL "code" NEW.(concatenated_operation.code);
    CHECK "code" (length_ NEW.(concatenated_operation.code) >= int 1);
    NOT_NULL "name" NEW.(concatenated_operation.name);
    CHECK "name" (length_ NEW.(concatenated_operation.name) >= int 2);
    NOT_NULL "source_crs_auth_name" NEW.(concatenated_operation.source_crs_auth_name);
    NOT_NULL "source_crs_code" NEW.(concatenated_operation.source_crs_code);
    NOT_NULL "target_crs_auth_name" NEW.(concatenated_operation.target_crs_auth_name);
    NOT_NULL "target_crs_code" NEW.(concatenated_operation.target_crs_code);
    NOT_NULL "area_of_use_auth_name" NEW.(concatenated_operation.area_of_use_auth_name);
    NOT_NULL "area_of_use_code" NEW.(concatenated_operation.area_of_use_code);
    CHECK "accuracy" (NEW.(concatenated_operation.accuracy) >= num 0);
    NOT_NULL "step1_auth_name" NEW.(concatenated_operation.step1_auth_name);
    NOT_NULL "step1_code" NEW.(concatenated_operation.step1_code);
    NOT_NULL "step2_auth_name" NEW.(concatenated_operation.step2_auth_name);
    NOT_NULL "step2_code" NEW.(concatenated_operation.step2_code);
    NOT_NULL "deprecated" NEW.(concatenated_operation.deprecated);
    CHECK "deprecated" (NEW.(concatenated_operation.deprecated) IN [0; 1]%Z);
    PRIMARY_KEY "pk_concatenated_operation"
      (NEW.(concatenated_operation.auth_name), NEW.(concatenated_operation.code))
      db.(concatenated_operation) (concatenated_operation.auth_name, concatenated_operation.code);
    FOREIGN_KEY "fk_concatenated_operation_transformation_area"
      (NEW.(concatenated_operation.area_of_use_auth_name),
       NEW.(concatenated_operation.area_of_use_code))
      db.(area) (area.auth_name, area.code) ].

Definition insert_concatenated_operation (db : database) (NEW : concatenated_operation.row)
  : result database :=
  insert (concatenated_operation_insert_trigger db NEW)
         (concatenated_operation_constraints db NEW)
         (append_concatenated_operation db NEW).

Local Close Scope Q_scope.
Local Close Scope Z_scope.

(** ** Statements and reachable stores

    The store is only ever grown by [INSERT] statements, into a table or into
    one of the two views that carry [INSTEAD OF INSERT] triggers. *)

Inductive statement :=
| INSERT_INTO_unit_of_measure (NEW : unit_of_measure.row)
| INSERT_INTO_celestial_body (NEW : celestial_body.row)
| INSERT_INTO_ellipsoid (NEW : ellipsoid.row)
| INSERT_INTO_area (NEW : area.row)
| INSERT_INTO_prime_meridian (NEW : prime_meridian.row)
| INSERT_INTO_geodetic_datum (NEW : geodetic_datum.row)
| INSERT_INTO_vertical_datum (NEW : vertical_datum.row)
| INSERT_INTO_coordinate_system (NEW : coordinate_system.row)
| INSERT_INTO_geodetic_crs (NEW : geodetic_crs.row)
| INSERT_INTO_vertical_crs (NEW : vertical_crs.row)
| INSERT_INTO_conversion_method (NEW : conversion_method.row)
| INSERT_INTO_conversion_param (NEW : conversion_param.row)
| INSERT_INTO_conversion_table (NEW : conversion_table.row)
| INSERT_INTO_conversion (NEW : conversion.row)
| INSERT_INTO_projected_crs (NEW : projected_crs.row)
| INSERT_INTO_compound_crs (NEW : compound_crs.row)
| INSERT_INTO_coordinate_operation_method (NEW : coordinate_operation_method.row)
| INSERT_INTO_helmert_transformation_table (NEW : helmert_transformation_table.row)
| INSERT_INTO_helmert_transformation (NEW : helmert_transformation.row)
| INSERT_INTO_grid_transformation (NEW : grid_transformation.row)
| INSERT_INTO_grid_packages (NEW : grid_packages.row)
| INSERT_INTO_grid_alternatives (NEW : grid_alternatives.row)
| INSERT_INTO_other_transformation (NEW : other_transformation.row)
| INSERT_INTO_concatenated_operation (NEW : concatenated_operation.row).

Definition execute (db : database) (s : statement) : result database :=
  match s with
  | INSERT_INTO_unit_of_measure NEW => insert_unit_of_measure db NEW
  | INSERT_INTO_celestial_body NEW => insert_celestial_body db NEW
  | INSERT_INTO_ellipsoid NEW => insert_ellipsoid db NEW
  | INSERT_INTO_area NEW => insert_area db NEW
  | INSERT_INTO_prime_meridian NEW => insert_prime_meridian db NEW
  | INSERT_INTO_geodetic_datum NEW => insert_geodetic_datum db NEW
  | INSERT_INTO_vertical_datum NEW => insert_vertical_datum db NEW
  | INSERT_INTO_coordinate_system NEW => insert_coordinate_system db NEW
  | INSERT_INTO_geodetic_crs NEW => insert_geodetic_crs db NEW
  | INSERT_INTO_vertical_crs NEW => insert_vertical_crs db NEW
  | INSERT_INTO_conversion_method NEW => insert_conversion_method db NEW
  | INSERT_INTO_conversion_param NEW => insert_conversion_param db NEW
  | INSERT_INTO_conversion_table NEW => insert_conversion_table db NEW
  | INSERT_INTO_conversion NEW => insert_conversion db NEW
  | INSERT_INTO_projected_crs NEW => insert_projected_crs db NEW
  | INSERT_INTO_compound_crs NEW => insert_compound_crs db NEW
  | INSERT_INTO_coordinate_operation_method NEW => insert_coordinate_operation_method db NEW
  | INSERT_INTO_helmert_transformation_table NEW => insert_helmert_transformation_table db NEW
  | INSERT_INTO_helmert_transformation NEW => insert_helmert_transformation db NEW
  | INSERT_INTO_grid_transformation NEW => insert_grid_transformation db NEW
  | INSERT_INTO_grid_packages NEW => insert_grid_packages db NEW
  | INSERT_INTO_grid_alternatives NEW => insert_grid_alternatives db NEW
  | INSERT_INTO_other_transformation NEW => insert_other_transformation db NEW
  | INSERT_INTO_concatenated_operation NEW => insert_concatenated_operation db NEW
  end.

(** A statement that targets a table directly (not a view). *)
Definition on_table (s : statement) : bool :=
  match s with
  | INSERT_INTO_conversion _ | INSERT_INTO_helmert_transformation _ => false
  | _ => true
  end.

(** A script: statements run one after the other, stopping at the first
    failure. *)
Fixpoint run (db : database) (script : list statement) : result database :=
  match script with
  | [] => ok db
  | s :: rest => bind (execute db s) (fun db' => run db' rest)
  end.

Inductive reachable : database -> Prop :=
| reachable_empty : reachable empty_database
| reachable_execute db s db' :
    reachable db -> execute db s = inr db' -> reachable db'.

(** * The tables and views around the registry

    [metadata], [geodetic_datum_preferred_hub], [axis], [alias_name],
    [supersession], [deprecation] and [authority_to_authority_preference],
    with the views [object_view] and [authority_list].  Their triggers and
    constraints read the tables of [database]; nothing in [database] reads
    them, so that they are kept beside it, in [proj_db]. *)

Module metadata.
Record row := { key : text; value : text }.
End metadata.

Module geodetic_datum_preferred_hub.
Record row := {
  src_auth_name : text;
  src_code : text;
  hub_auth_name : text;
  hub_code : text
}.
End geodetic_datum_preferred_hub.

Module axis.
Record row := {
  auth_name : text;
  code : text;
  name : text;
  abbrev : text;
  orientation : text;
  coordinate_system_auth_name : text;
  coordinate_system_code : text;
  coordinate_system_order : integer;
  uom_auth_name : text;
  uom_code : text
}.
End axis.

Module alias_name.
Record row := {
  table_name : text;
  auth_name : text;
  code : text;
  alt_name : text;
  source : text
}.
End alias_name.

Module supersession.
Record row := {
  superseded_table_name : text;
  superseded_auth_name : text;
  superseded_code : text;
  replacement_table_name : text;
  replacement_auth_name : text;
  replacement_code : text;
  source : text
}.
End supersession.

Module deprecation.
Record row := {
  table_name : text;
  deprecated_auth_name : text;
  deprecated_code : text;
  replacement_auth_name : text;
  replacement_code : text;
  source : text
}.
End deprecation.

Module authority_to_authority_preference.
Record row := {
  source_auth_name : text;
  target_auth_name : text;
  allowed_authorities : text
}.
End authority_to_authority_preference.

(** ** The whole store *)

Record proj_db := {
  tables : database;
  metadata : list metadata.row;
  geodetic_datum_preferred_hub : list geodetic_datum_preferred_hub.row;
  axis : list axis.row;
  alias_name : list alias_name.row;
  supersession : list supersession.row;
  deprecation : list deprecation.row;
  authority_to_authority_preference : list authority_to_authority_preference.row
}.

Definition empty_proj_db : proj_db := {|
  tables := empty_database;
  metadata := [];
  geodetic_datum_preferred_hub := [];
  axis := [];
  alias_name := [];
  supersession := [];
  deprecation := [];
  authority_to_authority_preference := []
|}.

Definition with_tables (p : proj_db) (db : database) : proj_db :=
  {| tables := db;
     metadata := p.(metadata);
     geodetic_datum_preferred_hub := p.(geodetic_datum_preferred_hub);
     axis := p.(axis);
     alias_name := p.(alias_name);
     supersession := p.(supersession);
     deprecation := p.(deprecation);
     authority_to_authority_preference := p.(authority_to_authority_preference) |}.

Definition append_metadata (p : proj_db) (NEW : metadata.row) : proj_db :=
  {| tables := p.(tables);
     metadata := p.(metadata) ++ [NEW];
     geodetic_datum_preferred_hub := p.(geodetic_datum_preferred_hub);
     axis := p.(axis);
     alias_name := p.(alias_name);
     supersession := p.(supersession);
     deprecation := p.(deprecation);
     authority_to_authority_preference := p.(authority_to_authority_preference) |}.

Definition append_geodetic_datum_preferred_hub (p : proj_db)
           (NEW : geodetic_datum_preferred_hub.row) : proj_db :=
  {| tables := p.(tables);
     metadata := p.(metadata);
     geodetic_datum_preferred_hub := p.(geodetic_datum_preferred_hub) ++ [NEW];
     axis := p.(axis);
     alias_name := p.(alias_name);
     supersession := p.(supersession);
     deprecation := p.(deprecation);
     authority_to_authority_preference := p.(authority_to_authority_preference) |}.

Definition append_axis (p : proj_db) (NEW : axis.row) : proj_db :=
  {| tables := p.(tables);
     metadata := p.(metadata);
     geodetic_datum_preferred_hub := p.(geodetic_datum_preferred_hub);
     axis := p.(axis) ++ [NEW];
     alias_name := p.(alias_name);
     supersession := p.(supersession);
     deprecation := p.(deprecation);
     authority_to_authority_preference := p.(authority_to_authority_preference) |}.

Definition append_alias_name (p : proj_db) (NEW : alias_name.row) : proj_db :=
  {| tables := p.(tables);
     metadata := p.(metadata);
     geodetic_datum_preferred_hub := p.(geodetic_datum_preferred_hub);
     axis := p.(axis);
     alias_name := p.(alias_name) ++ [NEW];
     supersession := p.(supersession);
     deprecation := p.(deprecation);
     authority_to_authority_preference := p.(authority_to_authority_preference) |}.

Definition append_supersession (p : proj_db) (NEW : supersession.row) : proj_db :=
  {| tables := p.(tables);
     metadata := p.(metadata);
     geodetic_datum_preferred_hub := p.(geodetic_datum_preferred_hub);
     axis := p.(axis);
     alias_name := p.(alias_name);
     supersession := p.(supersession) ++ [NEW];
     deprecation := p.(deprecation);
     authority_to_authority_preference := p.(authority_to_authority_preference) |}.

Definition append_deprecation (p : proj_db) (NEW : deprecation.row) : proj_db :=
  {| tables := p.(tables);
     metadata := p.(metadata);
     geodetic_datum_preferred_hub := p.(geodetic_datum_preferred_hub);
     axis := p.(axis);
     alias_name := p.(alias_name);
     supersession := p.(supersession);
     deprecation := p.(deprecation) ++ [NEW];
     authority_to_authority_preference := p.(authority_to_authority_preference) |}.

Definition append_authority_to_authority_preference (p : proj_db)
           (NEW : authority_to_authority_preference.row) : proj_db :=
  {| tables := p.(tables);
     metadata := p.(metadata);
     geodetic_datum_preferred_hub := p.(geodetic_datum_preferred_hub);
     axis := p.(axis);
     alias_name := p.(alias_name);
     supersession := p.(supersession);
     deprecation := p.(deprecation);
     authority_to_authority_preference := p.(authority_to_authority_preference) ++ [NEW] |}.

(** ** Views *)

(** [CREATE VIEW object_view]: one [SELECT] per kind of object, under
    [UNION ALL]. *)
Module object_view.
Record row := {
  table_name : text;
  auth_name : text;
  code : text;
  name : text;
  type : text;
  area_of_use_auth_name : text;
  area_of_use_code : text;
  deprecated : boolean
}.
Definition select_unit_of_measure (r : unit_of_measure.row) : row :=
  {| table_name := txt "unit_of_measure";
     auth_name := r.(unit_of_measure.auth_name);
     code := r.(unit_of_measure.code);
     name := r.(unit_of_measure.name);
     type := None;
     area_of_use_auth_name := None;
     area_of_use_code := None;
     deprecated := r.(unit_of_measure.deprecated) |}.
Definition select_celestial_body (r : celestial_body.row) : row :=
  {| table_name := txt "celestial_body";
     auth_name := r.(celestial_body.auth_name);
     code := r.(celestial_body.code);
     name := r.(celestial_body.name);
     type := None;
     area_of_use_auth_name := None;
     area_of_use_code := None;
     deprecated := int 0 |}.
Definition select_ellipsoid (r : ellipsoid.row) : row :=
  {| table_name := txt "ellipsoid";
     auth_name := r.(ellipsoid.auth_name);
     code := r.(ellipsoid.code);
     name := r.(ellipsoid.name);
     type := None;
     area_of_use_auth_name := None;
     area_of_use_code := None;
     deprecated := r.(ellipsoid.deprecated) |}.
Definition select_area (r : area.row) : row :=
  {| table_name := txt "area";
     auth_name := r.(area.auth_name);
     code := r.(area.code);
     name := r.(area.name);
     type := None;
     area_of_use_auth_name := None;
     area_of_use_code := None;
     deprecated := r.(area.deprecated) |}.
Definition select_prime_meridian (r : prime_meridian.row) : row :=
  {| table_name := txt "prime_meridian";
     auth_name := r.(prime_meridian.auth_name);
     code := r.(prime_meridian.code);
     name := r.(prime_meridian.name);
     type := None;
     area_of_use_auth_name := None;
     area_of_use_code := None;
     deprecated := r.(prime_meridian.deprecated) |}.
Definition select_geodetic_datum (r : geodetic_datum.row) : row :=
  {| table_name := txt "geodetic_datum";
     auth_name := r.(geodetic_datum.auth_name);
     code := r.(geodetic_datum.code);
     name := r.(geodetic_datum.name);
     type := None;
     area_of_use_auth_name := r.(geodetic_datum.area_of_use_auth_name);
     area_of_use_code := r.(geodetic_datum.area_of_use_code);
     deprecated := r.(geodetic_datum.deprecated) |}.
Definition select_vertical_datum (r : vertical_datum.row) : row :=
  {| table_name := txt "vertical_datum";
     auth_name := r.(vertical_datum.auth_name);
     code := r.(vertical_datum.code);
     name := r.(vertical_datum.name);
     type := None;
     area_of_use_auth_name := r.(vertical_datum.area_of_use_auth_name);
     area_of_use_code := r.(vertical_datum.area_of_use_code);
     deprecated := r.(vertical_datum.deprecated) |}.
Definition select_axis (r : axis.row) : row :=
  {| table_name := txt "axis";
     auth_name := r.(axis.auth_name);
     code := r.(axis.code);
     name := r.(axis.name);
     type := None;
     area_of_use_auth_name := None;
     area_of_use_code := None;
     deprecated := int 0 |}.
Definition select_crs_view (r : crs_view.row) : row :=
  {| table_name := r.(crs_view.table_name);
     auth_name := r.(crs_view.auth_name);
     code := r.(crs_view.code);
     name := r.(crs_view.name);
     type := r.(crs_view.type);
     area_of_use_auth_name := r.(crs_view.area_of_use_auth_name);
     area_of_use_code := r.(crs_view.area_of_use_code);
     deprecated := r.(crs_view.deprecated) |}.
Definition select_conversion_table (r : conversion_table.row) : row :=
  {| table_name := txt "conversion";
     auth_name := r.(conversion_table.auth_name);
     code := r.(conversion_table.code);
     name := r.(conversion_table.name);
     type := None;
     area_of_use_auth_name := r.(conversion_table.area_of_use_auth_name);
     area_of_use_code := r.(conversion_table.area_of_use_code);
     deprecated := r.(conversion_table.deprecated) |}.
Definition select_coordinate_operation_view (r : coordinate_operation_view.row) : row :=
  {| table_name := r.(coordinate_operation_view.table_name);
     auth_name := r.(coordinate_operation_view.auth_name);
     code := r.(coordinate_operation_view.code);
     name := r.(coordinate_operation_view.name);
     type := None;
     area_of_use_auth_name := r.(coordinate_operation_view.area_of_use_auth_name);
     area_of_use_code := r.(coordinate_operation_view.area_of_use_code);
     deprecated := r.(coordinate_operation_view.deprecated) |}.
End object_view.

Definition object_view (p : proj_db) : list object_view.row :=
  map object_view.select_unit_of_measure p.(tables).(unit_of_measure)
  ++ map object_view.select_celestial_body p.(tables).(celestial_body)
  ++ map object_view.select_ellipsoid p.(tables).(ellipsoid)
  ++ map object_view.select_area p.(tables).(area)
  ++ map object_view.select_prime_meridian p.(tables).(prime_meridian)
  ++ map object_view.select_geodetic_datum p.(tables).(geodetic_datum)
  ++ map object_view.select_vertical_datum p.(tables).(vertical_datum)
  ++ map object_view.select_axis p.(axis)
  ++ map object_view.select_crs_view (crs_view p.(tables))
  ++ map object_view.select_conversion_table p.(tables).(conversion_table)
  ++ map object_view.select_coordinate_operation_view (coordinate_operation_view p.(tables)).

(** Two values are not distinct: equal, or both [NULL]. *)
Definition same_text (x y : text) : bool :=
  match x, y with
  | Some a, Some b => String.eqb a b
  | None, None => true
  | _, _ => false
  end.

(** [SELECT DISTINCT]: each value once.  The order of the values is not
    specified by SQL; here the last occurrence of a value is kept. *)
Fixpoint distinct (l : list text) : list text :=
  match l with
  | [] => []
  | x :: rest => if existsb (same_text x) rest then distinct rest else x :: distinct rest
  end.

(** [l UNION l']: the values of both, each once. *)
Definition union (l l' : list text) : list text := distinct (l ++ l').

(** [CREATE VIEW authority_list]. *)
Definition authority_list (p : proj_db) : list text :=
  union (union (union (union (union (union (union (union (union
    (distinct (map unit_of_measure.auth_name p.(tables).(unit_of_measure)))
    (distinct (map celestial_body.auth_name p.(tables).(celestial_body))))
    (distinct (map ellipsoid.auth_name p.(tables).(ellipsoid))))
    (distinct (map area.auth_name p.(tables).(area))))
    (distinct (map prime_meridian.auth_name p.(tables).(prime_meridian))))
    (distinct (map geodetic_datum.auth_name p.(tables).(geodetic_datum))))
    (distinct (map vertical_datum.auth_name p.(tables).(vertical_datum))))
    (distinct (map axis.auth_name p.(axis))))
    (distinct (map crs_view.auth_name (crs_view p.(tables)))))
    (distinct (map coordinate_operation_view.auth_name
                   (coordinate_operation_view p.(tables)))).

(** ** Tables *)

(** [UNIQUE (...)]: no stored row has the columns of the new row; [same]
    compares a stored row with the new one, column by column. *)
Definition UNIQUE {R} (name : string) (t : list R) (same : R -> tri) : constraint :=
  CONSTRAINT (UniqueFailed name) (negb (truth (exists_ t same))).

(** *** metadata *)

Definition metadata_constraints (p : proj_db) (NEW : metadata.row) : list constraint :=
  [ NOT_NULL "key" NEW.(metadata.key);
    PRIMARY_KEY1 "key" NEW.(metadata.key) p.(metadata) metadata.key;
    CHECK "key" (length_ NEW.(metadata.key) >= int 1);
    NOT_NULL "value" NEW.(metadata.value) ].

Definition insert_metadata (p : proj_db) (NEW : metadata.row) : result proj_db :=
  insert [] (metadata_constraints p NEW) (append_metadata p NEW).

(** *** geodetic_datum_preferred_hub

    The schema gives both foreign keys the name
    [fk_geodetic_datum_preferred_hub_src]. *)

Definition geodetic_datum_preferred_hub_constraints (p : proj_db)
           (NEW : geodetic_datum_preferred_hub.row) : list constraint :=
  [ NOT_NULL "src_auth_name" NEW.(geodetic_datum_preferred_hub.src_auth_name);
    CHECK "src_auth_name"
      (length_ NEW.(geodetic_datum_preferred_hub.src_auth_name) >= int 1);
    NOT_NULL "src_code" NEW.(geodetic_datum_preferred_hub.src_code);
    CHECK "src_code" (length_ NEW.(geodetic_datum_preferred_hub.src_code) >= int 1);
    NOT_NULL "hub_auth_name" NEW.(geodetic_datum_preferred_hub.hub_auth_name);
    CHECK "hub_auth_name"
      (length_ NEW.(geodetic_datum_preferred_hub.hub_auth_name) >= int 1);
    NOT_NULL "hub_code" NEW.(geodetic_datum_preferred_hub.hub_code);
    CHECK "hub_code" (length_ NEW.(geodetic_datum_preferred_hub.hub_code) >= int 1);
    UNIQUE "unique_geodetic_datum_preferred_hub" p.(geodetic_datum_preferred_hub)
      (fun r =>
         r.(geodetic_datum_preferred_hub.src_auth_name)
           == NEW.(geodetic_datum_preferred_hub.src_auth_name)
         AND r.(geodetic_datum_preferred_hub.src_code)
           == NEW.(geodetic_datum_preferred_hub.src_code)
         AND r.(geodetic_datum_preferred_hub.hub_auth_name)
           == NEW.(geodetic_datum_preferred_hub.hub_auth_name)
         AND r.(geodetic_datum_preferred_hub.hub_code)
           == NEW.(geodetic_datum_preferred_hub.hub_code))%sql;
    FOREIGN_KEY "fk_geodetic_datum_preferred_hub_src"
      (NEW.(geodetic_datum_preferred_hub.src_auth_name),
       NEW.(geodetic_datum_preferred_hub.src_code))
      p.(tables).(geodetic_datum) (geodetic_datum.auth_name, geodetic_datum.code);
    FOREIGN_KEY "fk_geodetic_datum_preferred_hub_src"
      (NEW.(geodetic_datum_preferred_hub.hub_auth_name),
       NEW.(geodetic_datum_preferred_hub.hub_code))
      p.(tables).(geodetic_datum) (geodetic_datum.auth_name, geodetic_datum.code) ].

Definition insert_geodetic_datum_preferred_hub (p : proj_db)
           (NEW : geodetic_datum_preferred_hub.row) : result proj_db :=
  insert [] (geodetic_datum_preferred_hub_constraints p NEW)
         (append_geodetic_datum_preferred_hub p NEW).

(** *** axis *)

Definition axis_insert_trigger (p : proj_db) (NEW : axis.row) : list raise :=
  [ RAISE "insert on axis violates constraint: coordinate_system_order should be <= coordinate_system.dimension"
      WHERE NEW.(axis.coordinate_system_order)
            > cs_ref p.(tables) coordinate_system.dimension
                     NEW.(axis.coordinate_system_auth_name)
                     NEW.(axis.coordinate_system_code) ].

Definition axis_constraints (p : proj_db) (NEW : axis.row) : list constraint :=
  [ NOT_NULL "auth_name" NEW.(axis.auth_name);
    CHECK "auth_name" (length_ NEW.(axis.auth_name) >= int 1);
    NOT_NULL "code" NEW.(axis.code);
    CHECK "code" (length_ NEW.(axis.code) >= int 1);
    NOT_NULL "name" NEW.(axis.name);
    CHECK "name" (length_ NEW.(axis.name) >= int 2);
    NOT_NULL "abbrev" NEW.(axis.abbrev);
    NOT_NULL "orientation" NEW.(axis.orientation);
    NOT_NULL "coordinate_system_auth_name" NEW.(axis.coordinate_system_auth_name);
    NOT_NULL "coordinate_system_code" NEW.(axis.coordinate_system_code);
    NOT_NULL "coordinate_system_order" NEW.(axis.coordinate_system_order);
    CHECK "coordinate_system_order"
      (between NEW.(axis.coordinate_system_order) (int 1) (int 3));
    NOT_NULL "uom_auth_name" NEW.(axis.uom_auth_name);
    NOT_NULL "uom_code" NEW.(axis.uom_code);
    PRIMARY_KEY "pk_axis" (NEW.(axis.auth_name), NEW.(axis.code))
      p.(axis) (axis.auth_name, axis.code);
    FOREIGN_KEY "fk_axis_coordinate_system"
      (NEW.(axis.coordinate_system_auth_name), NEW.(axis.coordinate_system_code))
      p.(tables).(coordinate_system) (coordinate_system.auth_name, coordinate_system.code);
    FOREIGN_KEY "fk_axis_unit_of_measure"
      (NEW.(axis.uom_auth_name), NEW.(axis.uom_code))
      p.(tables).(unit_of_measure) (unit_of_measure.auth_name, unit_of_measure.code) ].

Definition insert_axis (p : proj_db) (NEW : axis.row) : result proj_db :=
  insert (axis_insert_trigger p NEW) (axis_constraints p NEW) (append_axis p NEW).

(** *** alias_name, supersession, deprecation *)

(** The table names that the [CHECK]s of the three tables list. *)
Definition object_table_names : list string :=
  [ "unit_of_measure"; "celestial_body"; "ellipsoid";
    "area"; "prime_meridian"; "geodetic_datum"; "vertical_datum"; "geodetic_crs";
    "projected_crs"; "vertical_crs"; "compound_crs"; "conversion"; "grid_transformation";
    "helmert_transformation"; "other_transformation"; "concatenated_operation" ].

(** [EXISTS (SELECT 1 FROM object_view o WHERE o.table_name = ... AND
    o.auth_name = ... AND o.code = ...)]. *)
Definition object_exists (p : proj_db) (table_name auth_name code : text) : tri :=
  exists_ (object_view p)
    (fun o =>
       o.(object_view.table_name) == table_name
       AND o.(object_view.auth_name) == auth_name
       AND o.(object_view.code) == code)%sql.

Definition alias_name_insert_trigger (p : proj_db) (NEW : alias_name.row) : list raise :=
  [ RAISE "insert on alias_name violates constraint: new entry refers to unexisting code"
      WHERE NOT object_exists p NEW.(alias_name.table_name) NEW.(alias_name.auth_name)
                              NEW.(alias_name.code) ].

Definition alias_name_constraints (p : proj_db) (NEW : alias_name.row) : list constraint :=
  [ NOT_NULL "table_name" NEW.(alias_name.table_name);
    CHECK "table_name" (NEW.(alias_name.table_name) IN object_table_names);
    NOT_NULL "auth_name" NEW.(alias_name.auth_name);
    CHECK "auth_name" (length_ NEW.(alias_name.auth_name) >= int 1);
    NOT_NULL "code" NEW.(alias_name.code);
    CHECK "code" (length_ NEW.(alias_name.code) >= int 1);
    NOT_NULL "alt_name" NEW.(alias_name.alt_name);
    CHECK "alt_name" (length_ NEW.(alias_name.alt_name) >= int 2) ].

Definition insert_alias_name (p : proj_db) (NEW : alias_name.row) : result proj_db :=
  insert (alias_name_insert_trigger p NEW) (alias_name_constraints p NEW)
         (append_alias_name p NEW).

Definition supersession_insert_trigger (p : proj_db) (NEW : supersession.row)
  : list raise :=
  [ RAISE "insert on supersession violates constraint: superseded entry refers to unexisting code"
      WHERE NOT object_exists p NEW.(supersession.superseded_table_name)
                              NEW.(supersession.superseded_auth_name)
                              NEW.(supersession.superseded_code);
    RAISE "insert on supersession violates constraint: replacement entry refers to unexisting code"
      WHERE NOT object_exists p NEW.(supersession.replacement_table_name)
                              NEW.(supersession.replacement_auth_name)
                              NEW.(supersession.replacement_code) ].

Definition supersession_constraints (p : proj_db) (NEW : supersession.row)
  : list constraint :=
  [ NOT_NULL "superseded_table_name" NEW.(supersession.superseded_table_name);
    CHECK "superseded_table_name"
      (NEW.(supersession.superseded_table_name) IN object_table_names);
    NOT_NULL "superseded_auth_name" NEW.(supersession.superseded_auth_name);
    NOT_NULL "superseded_code" NEW.(supersession.superseded_code);
    NOT_NULL "replacement_table_name" NEW.(supersession.replacement_table_name);
    CHECK "replacement_table_name"
      (NEW.(supersession.replacement_table_name) IN object_table_names);
    NOT_NULL "replacement_auth_name" NEW.(supersession.replacement_auth_name);
    NOT_NULL "replacement_code" NEW.(supersession.replacement_code) ].

Definition insert_supersession (p : proj_db) (NEW : supersession.row) : result proj_db :=
  insert (supersession_insert_trigger p NEW) (supersession_constraints p NEW)
         (append_supersession p NEW).

Definition deprecation_insert_trigger (p : proj_db) (NEW : deprecation.row) : list raise :=
  [ RAISE "insert on deprecation violates constraint: deprecated entry refers to unexisting code"
      WHERE NOT object_exists p NEW.(deprecation.table_name)
                              NEW.(deprecation.deprecated_auth_name)
                              NEW.(deprecation.deprecated_code);
    RAISE "insert on deprecation violates constraint: replacement entry refers to unexisting code"
      WHERE NOT object_exists p NEW.(deprecation.table_name)
                              NEW.(deprecation.replacement_auth_name)
                              NEW.(deprecation.replacement_code) ].

Definition deprecation_constraints (p : proj_db) (NEW : deprecation.row) : list constraint :=
  [ NOT_NULL "table_name" NEW.(deprecation.table_name);
    CHECK "table_name" (NEW.(deprecation.table_name) IN object_table_names);
    NOT_NULL "deprecated_auth_name" NEW.(deprecation.deprecated_auth_name);
    NOT_NULL "deprecated_code" NEW.(deprecation.deprecated_code);
    NOT_NULL "replacement_auth_name" NEW.(deprecation.replacement_auth_name);
    NOT_NULL "replacement_code" NEW.(deprecation.replacement_code) ].

Definition insert_deprecation (p : proj_db) (NEW : deprecation.row) : result proj_db :=
  insert (deprecation_insert_trigger p NEW) (deprecation_constraints p NEW)
         (append_deprecation p NEW).

(** *** authority_to_authority_preference *)

Definition authority_to_authority_preference_constraints (p : proj_db)
           (NEW : authority_to_authority_preference.row) : list constraint :=
  [ NOT_NULL "source_auth_name" NEW.(authority_to_authority_preference.source_auth_name);
    NOT_NULL "target_auth_name" NEW.(authority_to_authority_preference.target_auth_name);
    NOT_NULL "allowed_authorities"
      NEW.(authority_to_authority_preference.allowed_authorities);
    UNIQUE "unique_authority_to_authority_preference"
      p.(authority_to_authority_preference)
      (fun r =>
         r.(authority_to_authority_preference.source_auth_name)
           == NEW.(authority_to_authority_preference.source_auth_name)
         AND r.(authority_to_authority_preference.target_auth_name)
           == NEW.(authority_to_authority_preference.target_auth_name))%sql ].

Definition insert_authority_to_authority_preference (p : proj_db)
           (NEW : authority_to_authority_preference.row) : result proj_db :=
  insert [] (authority_to_authority_preference_constraints p NEW)
         (append_authority_to_authority_preference p NEW).

(** ** Statements and reachable stores *)

Inductive proj_statement :=
| INSERT (s : statement)
| INSERT_INTO_metadata (NEW : metadata.row)
| INSERT_INTO_geodetic_datum_preferred_hub (NEW : geodetic_datum_preferred_hub.row)
| INSERT_INTO_axis (NEW : axis.row)
| INSERT_INTO_alias_name (NEW : alias_name.row)
| INSERT_INTO_supersession (NEW : supersession.row)
| INSERT_INTO_deprecation (NEW : deprecation.row)
| INSERT_INTO_authority_to_authority_preference
    (NEW : authority_to_authority_preference.row).

Definition proj_execute (p : proj_db) (s : proj_statement) : result proj_db :=
  match s with
  | INSERT s => bind (execute p.(tables) s) (fun db => ok (with_tables p db))
  | INSERT_INTO_metadata NEW => insert_metadata p NEW
  | INSERT_INTO_geodetic_datum_preferred_hub NEW => insert_geodetic_datum_preferred_hub p NEW
  | INSERT_INTO_axis NEW => insert_axis p NEW
  | INSERT_INTO_alias_name NEW => insert_alias_name p NEW
  | INSERT_INTO_supersession NEW => insert_supersession p NEW
  | INSERT_INTO_deprecation NEW => insert_deprecation p NEW
  | INSERT_INTO_authority_to_authority_preference NEW =>
      insert_authority_to_authority_preference p NEW
  end.

Fixpoint proj_run (p : proj_db) (script : list proj_statement) : result proj_db :=
  match script with
  | [] => ok p
  | s :: rest => bind (proj_execute p s) (fun p' => proj_run p' rest)
  end.

Inductive proj_reachable : proj_db -> Prop :=
| proj_reachable_empty : proj_reachable empty_proj_db
| proj_reachable_execute p s p' :
    proj_reachable p -> proj_execute p s = inr p' -> proj_reachable p'.

(** ** A small registry

    Rows of a store that is built by a script of [INSERT] statements; the
    properties below use it as their concrete instance. *)

Module Sample.
Local Open Scope Z_scope.
Local Open Scope Q_scope.
Local Open Scope list_scope.

(** The value of a script that succeeds. *)
Definition built (script : list statement) : database :=
  match run empty_database script with
  | inr db => db
  | inl _ => empty_database
  end.

Definition metre : unit_of_measure.row :=
  {| unit_of_measure.auth_name := txt "EPSG";
     unit_of_measure.code := txt "9001";
     unit_of_measure.name := txt "metre";
     unit_of_measure.type := txt "length";
     unit_of_measure.conv_factor := num 1;
     unit_of_measure.deprecated := int 0 |}.

Definition degree : unit_of_measure.row :=
  {| unit_of_measure.auth_name := txt "EPSG";
     unit_of_measure.code := txt "9102";
     unit_of_measure.name := txt "degree";
     unit_of_measure.type := txt "angle";
     unit_of_measure.conv_factor := num 0.0174532925199433;
     unit_of_measure.deprecated := int 0 |}.

Definition WGS_84_ellipsoid : ellipsoid.row :=
  {| ellipsoid.auth_name := txt "EPSG";
     ellipsoid.code := txt "7030";
     ellipsoid.name := txt "WGS 84";
     ellipsoid.description := None;
     ellipsoid.celestial_body_auth_name := txt "PROJ";
     ellipsoid.celestial_body_code := txt "EARTH";
     ellipsoid.semi_major_axis := num 6378137;
     ellipsoid.uom_auth_name := txt "EPSG";
     ellipsoid.uom_code := txt "9001";
     ellipsoid.inv_flattening := num 298.257223563;
     ellipsoid.semi_minor_axis := None;
     ellipsoid.deprecated := int 0 |}.

(** An ellipsoid row that gives neither shape parameter. *)
Definition shapeless_ellipsoid : ellipsoid.row :=
  {| ellipsoid.auth_name := txt "EPSG";
     ellipsoid.code := txt "7030";
     ellipsoid.name := txt "WGS 84";
     ellipsoid.description := None;
     ellipsoid.celestial_body_auth_name := txt "PROJ";
     ellipsoid.celestial_body_code := txt "EARTH";
     ellipsoid.semi_major_axis := num 6378137;
     ellipsoid.uom_auth_name := txt "EPSG";
     ellipsoid.uom_code := txt "9001";
     ellipsoid.inv_flattening := None;
     ellipsoid.semi_minor_axis := None;
     ellipsoid.deprecated := int 0 |}.

Definition world : area.row :=
  {| area.auth_name := txt "EPSG";
     area.code := txt "1262";
     area.name := txt "World";
     area.description := txt "World.";
     area.south_lat := num (-90);
     area.north_lat := num 90;
     area.west_lon := num (-180);
     area.east_lon := num 180;
     area.deprecated := int 0 |}.

(** An area that crosses the antimeridian. *)
Definition fiji : area.row :=
  {| area.auth_name := txt "EPSG";
     area.code := txt "1094";
     area.name := txt "Fiji";
     area.description := txt "Fiji - onshore.";
     area.south_lat := num (-20.81);
     area.north_lat := num (-12.42);
     area.west_lon := num 176.81;
     area.east_lon := num (-178.15);
     area.deprecated := int 0 |}.

(** [Area(south=10, north=5)]. *)
Definition upside_down : area.row :=
  {| area.auth_name := txt "EPSG";
     area.code := txt "1";
     area.name := txt "Upside down";
     area.description := txt "South of its own south.";
     area.south_lat := num 10;
     area.north_lat := num 5;
     area.west_lon := num 0;
     area.east_lon := num 1;
     area.deprecated := int 0 |}.

(** An area across the antimeridian whose western bound is the double next
    below -20, [-(20 + 2^-48)]: every bound is a double. *)
Definition next_below_twenty : area.row :=
  {| area.auth_name := txt "EPSG";
     area.code := txt "2";
     area.name := txt "Wide";
     area.description := txt "Wider than 200 degrees by less than a double tells.";
     area.south_lat := num (-10);
     area.north_lat := num 10;
     area.west_lon := num (- (5629499534213121 # 281474976710656));
     area.east_lon := num (-180);
     area.deprecated := int 0 |}.

(** An area across the antimeridian, every bound a double. *)
Definition chatham : area.row :=
  {| area.auth_name := txt "EPSG";
     area.code := txt "3";
     area.name := txt "Chatham";
     area.description := txt "Chatham Islands.";
     area.south_lat := num (-44.5);
     area.north_lat := num (-43.25);
     area.west_lon := num 176.5;
     area.east_lon := num (-175.75);
     area.deprecated := int 0 |}.

(** An area that gives no bound. *)
Definition nowhere : area.row :=
  {| area.auth_name := txt "EPSG";
     area.code := txt "4";
     area.name := txt "Nowhere";
     area.description := txt "No bound is given.";
     area.south_lat := None;
     area.north_lat := None;
     area.west_lon := None;
     area.east_lon := None;
     area.deprecated := int 0 |}.

Definition ntv2_grid : grid_alternatives.row :=
  {| grid_alternatives.original_grid_name := txt "null";
     grid_alternatives.proj_grid_name := txt "null";
     grid_alternatives.proj_grid_format := txt "NTv2";
     grid_alternatives.proj_method := txt "hgridshift";
     grid_alternatives.inverse_direction := int 0;
     grid_alternatives.package_name := None;
     grid_alternatives.url := None;
     grid_alternatives.direct_download := None;
     grid_alternatives.open_license := None;
     grid_alternatives.directory := None |}.

(** The same grid paired with the vertical method. *)
Definition ntv2_grid_vertical : grid_alternatives.row :=
  {| grid_alternatives.original_grid_name := txt "null";
     grid_alternatives.proj_grid_name := txt "null";
     grid_alternatives.proj_grid_format := txt "NTv2";
     grid_alternatives.proj_method := txt "vgridshift";
     grid_alternatives.inverse_direction := int 0;
     grid_alternatives.package_name := None;
     grid_alternatives.url := None;
     grid_alternatives.direct_download := None;
     grid_alternatives.open_license := None;
     grid_alternatives.directory := None |}.

(** A [GTX] grid paired with the horizontal method. *)
Definition gtx_grid_horizontal : grid_alternatives.row :=
  {| grid_alternatives.original_grid_name := txt "egm96";
     grid_alternatives.proj_grid_name := txt "egm96_15.gtx";
     grid_alternatives.proj_grid_format := txt "GTX";
     grid_alternatives.proj_method := txt "hgridshift";
     grid_alternatives.inverse_direction := int 0;
     grid_alternatives.package_name := None;
     grid_alternatives.url := None;
     grid_alternatives.direct_download := None;
     grid_alternatives.open_license := None;
     grid_alternatives.directory := None |}.

Definition units : list statement :=
  [ INSERT_INTO_unit_of_measure metre; INSERT_INTO_unit_of_measure degree ].

Definition shapes : list statement :=
  units ++ [ INSERT_INTO_ellipsoid WGS_84_ellipsoid;
             INSERT_INTO_area world;
             INSERT_INTO_area fiji ].

Definition grids : list statement :=
  [ INSERT_INTO_grid_alternatives ntv2_grid ].

(** *** Units, areas, datums and coordinate systems *)

Definition unity : unit_of_measure.row :=
  {| unit_of_measure.auth_name := txt "EPSG";
     unit_of_measure.code := txt "9201";
     unit_of_measure.name := txt "unity";
     unit_of_measure.type := txt "scale";
     unit_of_measure.conv_factor := num 1;
     unit_of_measure.deprecated := int 0 |}.

(** An area that has been retired. *)
Definition retired_area : area.row :=
  {| area.auth_name := txt "EPSG";
     area.code := txt "9998";
     area.name := txt "Retired";
     area.description := txt "No longer in use.";
     area.south_lat := num 0;
     area.north_lat := num 1;
     area.west_lon := num 0;
     area.east_lon := num 1;
     area.deprecated := int 1 |}.

Definition greenwich : prime_meridian.row :=
  {| prime_meridian.auth_name := txt "EPSG";
     prime_meridian.code := txt "8901";
     prime_meridian.name := txt "Greenwich";
     prime_meridian.longitude := num 0;
     prime_meridian.uom_auth_name := txt "EPSG";
     prime_meridian.uom_code := txt "9102";
     prime_meridian.deprecated := int 0 |}.

Definition a_geodetic_datum (code name : string) (deprecated : Z) : geodetic_datum.row :=
  {| geodetic_datum.auth_name := txt "EPSG";
     geodetic_datum.code := txt code;
     geodetic_datum.name := txt name;
     geodetic_datum.description := None;
     geodetic_datum.scope := None;
     geodetic_datum.ellipsoid_auth_name := txt "EPSG";
     geodetic_datum.ellipsoid_code := txt "7030";
     geodetic_datum.prime_meridian_auth_name := txt "EPSG";
     geodetic_datum.prime_meridian_code := txt "8901";
     geodetic_datum.area_of_use_auth_name := txt "EPSG";
     geodetic_datum.area_of_use_code := txt "1262";
     geodetic_datum.deprecated := int deprecated |}.

Definition WGS_84_datum := a_geodetic_datum "6326" "World Geodetic System 1984" 0.

(** A geodetic datum that has been deprecated. *)
Definition old_datum := a_geodetic_datum "6000" "Not specified" 1.

Definition a_vertical_datum (code name : string) (deprecated : Z) : vertical_datum.row :=
  {| vertical_datum.auth_name := txt "EPSG";
     vertical_datum.code := txt code;
     vertical_datum.name := txt name;
     vertical_datum.description := None;
     vertical_datum.scope := None;
     vertical_datum.area_of_use_auth_name := txt "EPSG";
     vertical_datum.area_of_use_code := txt "1262";
     vertical_datum.deprecated := int deprecated |}.

Definition EGM96_geoid := a_vertical_datum "5171" "EGM96 geoid" 0.

(** A vertical datum that has been deprecated. *)
Definition old_vertical_datum := a_vertical_datum "5100" "Mean Sea Level" 1.

Definition a_coordinate_system (code type : string) (dimension : Z) : coordinate_system.row :=
  {| coordinate_system.auth_name := txt "EPSG";
     coordinate_system.code := txt code;
     coordinate_system.type := txt type;
     coordinate_system.dimension := int dimension |}.

Definition ellipsoidal_2D := a_coordinate_system "6422" "ellipsoidal" 2.
Definition ellipsoidal_3D := a_coordinate_system "6423" "ellipsoidal" 3.
Definition cartesian_3D := a_coordinate_system "6500" "Cartesian" 3.
Definition cartesian_2D := a_coordinate_system "4400" "Cartesian" 2.
Definition vertical_1D := a_coordinate_system "6499" "vertical" 1.

(** *** Geodetic CRS *)

Definition a_geodetic_crs (auth code name type cs datum area : string) (deprecated : Z)
  : geodetic_crs.row :=
  {| geodetic_crs.auth_name := txt auth;
     geodetic_crs.code := txt code;
     geodetic_crs.name := txt name;
     geodetic_crs.description := None;
     geodetic_crs.scope := None;
     geodetic_crs.type := txt type;
     geodetic_crs.coordinate_system_auth_name := txt "EPSG";
     geodetic_crs.coordinate_system_code := txt cs;
     geodetic_crs.datum_auth_name := txt "EPSG";
     geodetic_crs.datum_code := txt datum;
     geodetic_crs.area_of_use_auth_name := txt "EPSG";
     geodetic_crs.area_of_use_code := txt area;
     geodetic_crs.text_definition := None;
     geodetic_crs.deprecated := int deprecated |}.

Definition WGS_84 := a_geodetic_crs "EPSG" "4326" "WGS 84" "geographic 2D" "6422" "6326" "1262" 0.

(** A deprecated geographic CRS on the deprecated datum. *)
Definition old_crs :=
  a_geodetic_crs "EPSG" "4000" "Unknown datum" "geographic 2D" "6422" "6000" "1262" 1.

(** A CRS in force, with a structured definition, on the deprecated datum. *)
Definition crs_on_old_datum :=
  a_geodetic_crs "EPSG" "4001" "On a retired datum" "geographic 2D" "6422" "6000" "1262" 0.

(** A CRS in force, with a structured definition, over the retired area. *)
Definition crs_over_retired_area :=
  a_geodetic_crs "EPSG" "4003" "Over a retired area" "geographic 2D" "6422" "6326" "9998" 0.

(** A deprecated geographic 2D CRS on the three-dimensional ellipsoidal
    system. *)
Definition deprecated_2D_on_3D :=
  a_geodetic_crs "EPSG" "4002" "Flat on three axes" "geographic 2D" "6423" "6326" "1262" 1.

(** The same row, in force. *)
Definition current_2D_on_3D :=
  a_geodetic_crs "EPSG" "4002" "Flat on three axes" "geographic 2D" "6423" "6326" "1262" 0.

(** *** Vertical CRS *)

Definition a_vertical_crs (code name datum : string) (deprecated : Z) : vertical_crs.row :=
  {| vertical_crs.auth_name := txt "EPSG";
     vertical_crs.code := txt code;
     vertical_crs.name := txt name;
     vertical_crs.description := None;
     vertical_crs.scope := None;
     vertical_crs.coordinate_system_auth_name := txt "EPSG";
     vertical_crs.coordinate_system_code := txt "6499";
     vertical_crs.datum_auth_name := txt "EPSG";
     vertical_crs.datum_code := txt datum;
     vertical_crs.area_of_use_auth_name := txt "EPSG";
     vertical_crs.area_of_use_code := txt "1262";
     vertical_crs.deprecated := int deprecated |}.

Definition EGM96_height := a_vertical_crs "5773" "EGM96 height" "5171" 0.

(** A vertical CRS in force on the deprecated vertical datum. *)
Definition height_on_old_datum := a_vertical_crs "5714" "MSL height" "5100" 0.

(** A deprecated vertical CRS that carries the key of the datum EPSG:5171,
    which is in force. *)
Definition shadow_height := a_vertical_crs "5171" "Shadow of the geoid" "5171" 1.

(** A vertical CRS in force on the datum EPSG:5171. *)
Definition another_EGM96_height := a_vertical_crs "5774" "EGM96 height (2)" "5171" 0.

Definition registry : list statement :=
  [ INSERT_INTO_unit_of_measure metre;
    INSERT_INTO_unit_of_measure degree;
    INSERT_INTO_unit_of_measure unity;
    INSERT_INTO_ellipsoid WGS_84_ellipsoid;
    INSERT_INTO_area world;
    INSERT_INTO_area retired_area;
    INSERT_INTO_prime_meridian greenwich;
    INSERT_INTO_geodetic_datum WGS_84_datum;
    INSERT_INTO_geodetic_datum old_datum;
    INSERT_INTO_vertical_datum EGM96_geoid;
    INSERT_INTO_vertical_datum old_vertical_datum;
    INSERT_INTO_coordinate_system ellipsoidal_2D;
    INSERT_INTO_coordinate_system ellipsoidal_3D;
    INSERT_INTO_coordinate_system cartesian_3D;
    INSERT_INTO_coordinate_system cartesian_2D;
    INSERT_INTO_coordinate_system vertical_1D;
    INSERT_INTO_geodetic_crs WGS_84;
    INSERT_INTO_geodetic_crs old_crs;
    INSERT_INTO_vertical_crs EGM96_height ].

Definition registry_with_shadow : list statement :=
  registry ++ [ INSERT_INTO_vertical_crs shadow_height ].

(** *** Conversions and projected CRS *)

Definition no_param : conversion_table.param :=
  {| conversion_table.param_auth_name := None;
     conversion_table.param_code := None;
     conversion_table.param_value := None;
     conversion_table.param_uom_auth_name := None;
     conversion_table.param_uom_code := None |}.

Definition a_param (code : string) (value : Q) (uom : string) : conversion_table.param :=
  {| conversion_table.param_auth_name := txt "EPSG";
     conversion_table.param_code := txt code;
     conversion_table.param_value := num value;
     conversion_table.param_uom_auth_name := txt "EPSG";
     conversion_table.param_uom_code := txt uom |}.

(** A slot that names its parameter and gives neither value nor unit. *)
Definition half_param : conversion_table.param :=
  {| conversion_table.param_auth_name := txt "EPSG";
     conversion_table.param_code := txt "8801";
     conversion_table.param_value := None;
     conversion_table.param_uom_auth_name := None;
     conversion_table.param_uom_code := None |}.

Definition pseudo_mercator : conversion_table.row :=
  {| conversion_table.auth_name := txt "EPSG";
     conversion_table.code := txt "3856";
     conversion_table.name := txt "Popular Visualisation Pseudo-Mercator";
     conversion_table.description := None;
     conversion_table.scope := None;
     conversion_table.area_of_use_auth_name := txt "EPSG";
     conversion_table.area_of_use_code := txt "1262";
     conversion_table.method_auth_name := txt "EPSG";
     conversion_table.method_code := txt "1024";
     conversion_table.param1 := a_param "8801" 0 "9102";
     conversion_table.param2 := a_param "8802" 0 "9102";
     conversion_table.param3 := a_param "8806" 0 "9001";
     conversion_table.param4 := a_param "8807" 0 "9001";
     conversion_table.param5 := no_param;
     conversion_table.param6 := no_param;
     conversion_table.param7 := no_param;
     conversion_table.deprecated := int 0 |}.

(** The row of the view [conversion] that stores [pseudo_mercator]. *)
Definition pseudo_mercator_with_names : conversion.row :=
  {| conversion.base := pseudo_mercator;
     conversion.method_name := txt "Popular Visualisation Pseudo Mercator";
     conversion.param1_name := txt "Latitude of natural origin";
     conversion.param2_name := txt "Longitude of natural origin";
     conversion.param3_name := txt "False easting";
     conversion.param4_name := txt "False northing";
     conversion.param5_name := None;
     conversion.param6_name := None;
     conversion.param7_name := None |}.

(** A conversion with no parameter, under the given key. *)
Definition a_conversion_keyed (auth code : string) : conversion_table.row :=
  {| conversion_table.auth_name := txt auth;
     conversion_table.code := txt code;
     conversion_table.name := txt "Keyed";
     conversion_table.description := None;
     conversion_table.scope := None;
     conversion_table.area_of_use_auth_name := txt "EPSG";
     conversion_table.area_of_use_code := txt "1262";
     conversion_table.method_auth_name := txt "EPSG";
     conversion_table.method_code := txt "1024";
     conversion_table.param1 := no_param;
     conversion_table.param2 := no_param;
     conversion_table.param3 := no_param;
     conversion_table.param4 := no_param;
     conversion_table.param5 := no_param;
     conversion_table.param6 := no_param;
     conversion_table.param7 := no_param;
     conversion_table.deprecated := int 0 |}.

(** A conversion whose first slot is half filled. *)
Definition half_filled_conversion : conversion_table.row :=
  {| conversion_table.auth_name := txt "EPSG";
     conversion_table.code := txt "19999";
     conversion_table.name := txt "Half filled";
     conversion_table.description := None;
     conversion_table.scope := None;
     conversion_table.area_of_use_auth_name := txt "EPSG";
     conversion_table.area_of_use_code := txt "1262";
     conversion_table.method_auth_name := txt "EPSG";
     conversion_table.method_code := txt "1024";
     conversion_table.param1 := half_param;
     conversion_table.param2 := no_param;
     conversion_table.param3 := no_param;
     conversion_table.param4 := no_param;
     conversion_table.param5 := no_param;
     conversion_table.param6 := no_param;
     conversion_table.param7 := no_param;
     conversion_table.deprecated := int 0 |}.

(** A slot that names its parameter and gives a value and no unit. *)
Definition valued_param : conversion_table.param :=
  {| conversion_table.param_auth_name := txt "EPSG";
     conversion_table.param_code := txt "8805";
     conversion_table.param_value := num 0.9996;
     conversion_table.param_uom_auth_name := None;
     conversion_table.param_uom_code := None |}.

(** [half_filled_conversion] with other parameters and values in its
    slots, and the same units. *)
Definition valued_conversion : conversion_table.row :=
  {| conversion_table.auth_name := txt "EPSG";
     conversion_table.code := txt "19999";
     conversion_table.name := txt "Half filled";
     conversion_table.description := None;
     conversion_table.scope := None;
     conversion_table.area_of_use_auth_name := txt "EPSG";
     conversion_table.area_of_use_code := txt "1262";
     conversion_table.method_auth_name := txt "EPSG";
     conversion_table.method_code := txt "1024";
     conversion_table.param1 := valued_param;
     conversion_table.param2 := half_param;
     conversion_table.param3 := no_param;
     conversion_table.param4 := valued_param;
     conversion_table.param5 := no_param;
     conversion_table.param6 := no_param;
     conversion_table.param7 := no_param;
     conversion_table.deprecated := int 0 |}.

(** The same conversion with a unit that is not in the store. *)
Definition conversion_in_unknown_unit : conversion_table.row :=
  {| conversion_table.auth_name := txt "EPSG";
     conversion_table.code := txt "19999";
     conversion_table.name := txt "Half filled";
     conversion_table.description := None;
     conversion_table.scope := None;
     conversion_table.area_of_use_auth_name := txt "EPSG";
     conversion_table.area_of_use_code := txt "1262";
     conversion_table.method_auth_name := txt "EPSG";
     conversion_table.method_code := txt "1024";
     conversion_table.param1 := a_param "8801" 0 "1";
     conversion_table.param2 := no_param;
     conversion_table.param3 := no_param;
     conversion_table.param4 := no_param;
     conversion_table.param5 := no_param;
     conversion_table.param6 := no_param;
     conversion_table.param7 := no_param;
     conversion_table.deprecated := int 0 |}.

Definition a_projected_crs (auth code base_auth base_code : string) : projected_crs.row :=
  {| projected_crs.auth_name := txt auth;
     projected_crs.code := txt code;
     projected_crs.name := txt "Pseudo-Mercator";
     projected_crs.description := None;
     projected_crs.scope := None;
     projected_crs.coordinate_system_auth_name := txt "EPSG";
     projected_crs.coordinate_system_code := txt "4400";
     projected_crs.geodetic_crs_auth_name := txt base_auth;
     projected_crs.geodetic_crs_code := txt base_code;
     projected_crs.conversion_auth_name := txt "EPSG";
     projected_crs.conversion_code := txt "3856";
     projected_crs.area_of_use_auth_name := txt "EPSG";
     projected_crs.area_of_use_code := txt "1262";
     projected_crs.text_definition := None;
     projected_crs.deprecated := int 0 |}.

Definition web_mercator := a_projected_crs "EPSG" "3857" "EPSG" "4326".

(** A deprecated geographic CRS of the authority ESRI. *)
Definition old_esri_crs :=
  a_geodetic_crs "ESRI" "104000" "Unknown datum (ESRI)" "geographic 2D" "6422" "6000" "1262" 1.

(** *** Coordinate operations

    Each is in force; its source CRS is a parameter, its target is
    EPSG:4326. *)

Definition a_helmert_transformation (auth code source_auth source_code : string)
  : helmert_transformation_table.row :=
  {| helmert_transformation_table.auth_name := txt auth;
     helmert_transformation_table.code := txt code;
     helmert_transformation_table.name := txt "Unknown datum to WGS 84";
     helmert_transformation_table.description := None;
     helmert_transformation_table.scope := None;
     helmert_transformation_table.method_auth_name := txt "EPSG";
     helmert_transformation_table.method_code := txt "9603";
     helmert_transformation_table.source_crs_auth_name := txt source_auth;
     helmert_transformation_table.source_crs_code := txt source_code;
     helmert_transformation_table.target_crs_auth_name := txt "EPSG";
     helmert_transformation_table.target_crs_code := txt "4326";
     helmert_transformation_table.area_of_use_auth_name := txt "EPSG";
     helmert_transformation_table.area_of_use_code := txt "1262";
     helmert_transformation_table.accuracy := num 5;
     helmert_transformation_table.tx := num 0;
     helmert_transformation_table.ty := num 0;
     helmert_transformation_table.tz := num 0;
     helmert_transformation_table.translation_uom_auth_name := txt "EPSG";
     helmert_transformation_table.translation_uom_code := txt "9001";
     helmert_transformation_table.rx := None;
     helmert_transformation_table.ry := None;
     helmert_transformation_table.rz := None;
     helmert_transformation_table.rotation_uom_auth_name := None;
     helmert_transformation_table.rotation_uom_code := None;
     helmert_transformation_table.scale_difference := None;
     helmert_transformation_table.scale_difference_uom_auth_name := None;
     helmert_transformation_table.scale_difference_uom_code := None;
     helmert_transformation_table.rate_tx := None;
     helmert_transformation_table.rate_ty := None;
     helmert_transformation_table.rate_tz := None;
     helmert_transformation_table.rate_translation_uom_auth_name := None;
     helmert_transformation_table.rate_translation_uom_code := None;
     helmert_transformation_table.rate_rx := None;
     helmert_transformation_table.rate_ry := None;
     helmert_transformation_table.rate_rz := None;
     helmert_transformation_table.rate_rotation_uom_auth_name := None;
     helmert_transformation_table.rate_rotation_uom_code := None;
     helmert_transformation_table.rate_scale_difference := None;
     helmert_transformation_table.rate_scale_difference_uom_auth_name := None;
     helmert_transformation_table.rate_scale_difference_uom_code := None;
     helmert_transformation_table.epoch := None;
     helmert_transformation_table.epoch_uom_auth_name := None;
     helmert_transformation_table.epoch_uom_code := None;
     helmert_transformation_table.px := None;
     helmert_transformation_table.py := None;
     helmert_transformation_table.pz := None;
     helmert_transformation_table.pivot_uom_auth_name := None;
     helmert_transformation_table.pivot_uom_code := None;
     helmert_transformation_table.operation_version := None;
     helmert_transformation_table.deprecated := int 0 |}.

(** The row of the view [helmert_transformation] that stores it. *)
Definition with_method_name (h : helmert_transformation_table.row)
  : helmert_transformation.row :=
  {| helmert_transformation.base := h;
     helmert_transformation.method_name := txt "Geocentric translations (geog2D domain)" |}.

Definition a_grid_transformation (auth code source_auth source_code : string)
  : grid_transformation.row :=
  {| grid_transformation.auth_name := txt auth;
     grid_transformation.code := txt code;
     grid_transformation.name := txt "Unknown datum to WGS 84 (grid)";
     grid_transformation.description := None;
     grid_transformation.scope := None;
     grid_transformation.method_auth_name := txt "EPSG";
     grid_transformation.method_code := txt "9615";
     grid_transformation.method_name := txt "NTv2";
     grid_transformation.source_crs_auth_name := txt source_auth;
     grid_transformation.source_crs_code := txt source_code;
     grid_transformation.target_crs_auth_name := txt "EPSG";
     grid_transformation.target_crs_code := txt "4326";
     grid_transformation.area_of_use_auth_name := txt "EPSG";
     grid_transformation.area_of_use_code := txt "1262";
     grid_transformation.accuracy := num 1;
     grid_transformation.grid_param_auth_name := txt "EPSG";
     grid_transformation.grid_param_code := txt "8656";
     grid_transformation.grid_param_name := txt "Latitude and longitude difference file";
     grid_transformation.grid_name := txt "shift.gsb";
     grid_transformation.grid2_param_auth_name := None;
     grid_transformation.grid2_param_code := None;
     grid_transformation.grid2_param_name := None;
     grid_transformation.grid2_name := None;
     grid_transformation.interpolation_crs_auth_name := None;
     grid_transformation.interpolation_crs_code := None;
     grid_transformation.operation_version := None;
     grid_transformation.deprecated := int 0 |}.

Definition no_other_param : other_transformation.param :=
  {| other_transformation.param_auth_name := None;
     other_transformation.param_code := None;
     other_transformation.param_name := None;
     other_transformation.param_value := None;
     other_transformation.param_uom_auth_name := None;
     other_transformation.param_uom_code := None |}.

Definition an_other_transformation (auth code source_auth source_code : string)
  : other_transformation.row :=
  {| other_transformation.auth_name := txt auth;
     other_transformation.code := txt code;
     other_transformation.name := txt "Unknown datum to WGS 84 (rotation)";
     other_transformation.description := None;
     other_transformation.scope := None;
     other_transformation.method_auth_name := txt "EPSG";
     other_transformation.method_code := txt "9601";
     other_transformation.method_name := txt "Longitude rotation";
     other_transformation.source_crs_auth_name := txt source_auth;
     other_transformation.source_crs_code := txt source_code;
     other_transformation.target_crs_auth_name := txt "EPSG";
     other_transformation.target_crs_code := txt "4326";
     other_transformation.area_of_use_auth_name := txt "EPSG";
     other_transformation.area_of_use_code := txt "1262";
     other_transformation.accuracy := None;
     other_transformation.param1 := no_other_param;
     other_transformation.param2 := no_other_param;
     other_transformation.param3 := no_other_param;
     other_transformation.param4 := no_other_param;
     other_transformation.param5 := no_other_param;
     other_transformation.param6 := no_other_param;
     other_transformation.param7 := no_other_param;
     other_transformation.operation_version := None;
     other_transformation.deprecated := int 0 |}.

(** A concatenated operation of two or, with [step3], three steps, each
    step given by the (authority, code) of an operation. *)
Definition a_concatenated_operation (auth code source_auth source_code : string)
           (step1 step2 : string * string) (step3 : option (string * string))
  : concatenated_operation.row :=
  {| concatenated_operation.auth_name := txt auth;
     concatenated_operation.code := txt code;
     concatenated_operation.name := txt "Unknown datum to WGS 84 (chain)";
     concatenated_operation.description := None;
     concatenated_operation.scope := None;
     concatenated_operation.source_crs_auth_name := txt source_auth;
     concatenated_operation.source_crs_code := txt source_code;
     concatenated_operation.target_crs_auth_name := txt "EPSG";
     concatenated_operation.target_crs_code := txt "4326";
     concatenated_operation.area_of_use_auth_name := txt "EPSG";
     concatenated_operation.area_of_use_code := txt "1262";
     concatenated_operation.accuracy := None;
     concatenated_operation.step1_auth_name := txt (fst step1);
     concatenated_operation.step1_code := txt (snd step1);
     concatenated_operation.step2_auth_name := txt (fst step2);
     concatenated_operation.step2_code := txt (snd step2);
     concatenated_operation.step3_auth_name := option_map fst step3;
     concatenated_operation.step3_code := option_map snd step3;
     concatenated_operation.operation_version := None;
     concatenated_operation.deprecated := int 0 |}.

(** The registry with a conversion, a projected CRS, one operation of each
    kind between CRS in force, and a deprecated CRS of the authority ESRI. *)
Definition operations : list statement :=
  registry
  ++ [ INSERT_INTO_geodetic_crs old_esri_crs;
       INSERT_INTO_conversion pseudo_mercator_with_names;
       INSERT_INTO_projected_crs web_mercator;
       INSERT_INTO_helmert_transformation
         (with_method_name (a_helmert_transformation "EPSG" "1" "EPSG" "4326"));
       INSERT_INTO_grid_transformation (a_grid_transformation "EPSG" "2" "EPSG" "4326");
       INSERT_INTO_other_transformation (an_other_transformation "EPSG" "3" "EPSG" "4326");
       INSERT_INTO_concatenated_operation
         (a_concatenated_operation "EPSG" "4" "EPSG" "4326"
            ("EPSG", "1") ("EPSG", "2") (Some ("EPSG", "3"))) ].

(** Rows of the authority ESRI, in force, on the deprecated CRS EPSG:4000. *)
Definition exempted_statements : list statement :=
  [ INSERT_INTO_helmert_transformation_table
      (a_helmert_transformation "ESRI" "10" "EPSG" "4000");
    INSERT_INTO_grid_transformation (a_grid_transformation "ESRI" "10" "EPSG" "4000");
    INSERT_INTO_other_transformation (an_other_transformation "ESRI" "10" "EPSG" "4000");
    INSERT_INTO_concatenated_operation
      (a_concatenated_operation "ESRI" "10" "EPSG" "4000" ("EPSG", "1") ("EPSG", "2") None);
    INSERT_INTO_projected_crs (a_projected_crs "ESRI" "102100" "EPSG" "4000") ].

(** The same rows under the authority EPSG, and the ESRI projected CRS on a
    deprecated base of the authority ESRI. *)
Definition unexempted_statements : list statement :=
  [ INSERT_INTO_helmert_transformation_table
      (a_helmert_transformation "EPSG" "10" "EPSG" "4000");
    INSERT_INTO_grid_transformation (a_grid_transformation "EPSG" "10" "EPSG" "4000");
    INSERT_INTO_other_transformation (an_other_transformation "EPSG" "10" "EPSG" "4000");
    INSERT_INTO_concatenated_operation
      (a_concatenated_operation "EPSG" "10" "EPSG" "4000" ("EPSG", "1") ("EPSG", "2") None);
    INSERT_INTO_projected_crs (a_projected_crs "EPSG" "102100" "EPSG" "4000");
    INSERT_INTO_projected_crs (a_projected_crs "ESRI" "102100" "ESRI" "104000") ].

End Sample.

(** ** More rows

    Rows that the properties of the remaining rules take as their concrete
    instance, on the store [built Sample.operations]. *)

Module Example.
Local Open Scope Z_scope.
Local Open Scope Q_scope.
Local Open Scope list_scope.

Definition db : database := Sample.built Sample.operations.

(** An ellipsoid under the given key, its axes in the unit EPSG:[uom]. *)
Definition an_ellipsoid (code uom : string) (inv_flattening semi_minor_axis : float)
           (deprecated : Z) : ellipsoid.row :=
  {| ellipsoid.auth_name := txt "EPSG";
     ellipsoid.code := txt code;
     ellipsoid.name := txt "GRS 1980";
     ellipsoid.description := None;
     ellipsoid.celestial_body_auth_name := txt "PROJ";
     ellipsoid.celestial_body_code := txt "EARTH";
     ellipsoid.semi_major_axis := num 6378137;
     ellipsoid.uom_auth_name := txt "EPSG";
     ellipsoid.uom_code := txt uom;
     ellipsoid.inv_flattening := inv_flattening;
     ellipsoid.semi_minor_axis := semi_minor_axis;
     ellipsoid.deprecated := int deprecated |}.

(** The store of [Sample.registry] with an ellipsoid that has been
    deprecated. *)
Definition with_old_ellipsoid : database :=
  Sample.built
    (Sample.registry
     ++ [ INSERT_INTO_ellipsoid (an_ellipsoid "7001" "9001" (num 299.3249646) None 1) ]).

(** A geodetic datum in force on the ellipsoid EPSG:[ellipsoid]. *)
Definition a_geodetic_datum_on (code ellipsoid : string) : geodetic_datum.row :=
  {| geodetic_datum.auth_name := txt "EPSG";
     geodetic_datum.code := txt code;
     geodetic_datum.name := txt "OSGB 1936";
     geodetic_datum.description := None;
     geodetic_datum.scope := None;
     geodetic_datum.ellipsoid_auth_name := txt "EPSG";
     geodetic_datum.ellipsoid_code := txt ellipsoid;
     geodetic_datum.prime_meridian_auth_name := txt "EPSG";
     geodetic_datum.prime_meridian_code := txt "8901";
     geodetic_datum.area_of_use_auth_name := txt "EPSG";
     geodetic_datum.area_of_use_code := txt "1262";
     geodetic_datum.deprecated := int 0 |}.

(** A vertical datum in force over the area EPSG:[area]. *)
Definition a_vertical_datum_over (code area : string) : vertical_datum.row :=
  {| vertical_datum.auth_name := txt "EPSG";
     vertical_datum.code := txt code;
     vertical_datum.name := txt "Ordnance Datum Newlyn";
     vertical_datum.description := None;
     vertical_datum.scope := None;
     vertical_datum.area_of_use_auth_name := txt "EPSG";
     vertical_datum.area_of_use_code := txt area;
     vertical_datum.deprecated := int 0 |}.

(** A prime meridian whose longitude is given in the unit EPSG:[uom]. *)
Definition a_prime_meridian (code uom : string) : prime_meridian.row :=
  {| prime_meridian.auth_name := txt "EPSG";
     prime_meridian.code := txt code;
     prime_meridian.name := txt "Paris";
     prime_meridian.longitude := num 2.5969213;
     prime_meridian.uom_auth_name := txt "EPSG";
     prime_meridian.uom_code := txt uom;
     prime_meridian.deprecated := int 0 |}.

(** A Helmert transformation with rotations, their unit EPSG:[rotation_uom]. *)
Definition a_helmert_transformation_rotated (auth code rotation_uom : string)
  : helmert_transformation_table.row :=
  let h := Sample.a_helmert_transformation auth code "EPSG" "4326" in
  {| helmert_transformation_table.auth_name := h.(helmert_transformation_table.auth_name);
     helmert_transformation_table.code := h.(helmert_transformation_table.code);
     helmert_transformation_table.name := h.(helmert_transformation_table.name);
     helmert_transformation_table.description := None;
     helmert_transformation_table.scope := None;
     helmert_transformation_table.method_auth_name := txt "EPSG";
     helmert_transformation_table.method_code := txt "9606";
     helmert_transformation_table.source_crs_auth_name :=
       h.(helmert_transformation_table.source_crs_auth_name);
     helmert_transformation_table.source_crs_code :=
       h.(helmert_transformation_table.source_crs_code);
     helmert_transformation_table.target_crs_auth_name :=
       h.(helmert_transformation_table.target_crs_auth_name);
     helmert_transformation_table.target_crs_code :=
       h.(helmert_transformation_table.target_crs_code);
     helmert_transformation_table.area_of_use_auth_name := txt "EPSG";
     helmert_transformation_table.area_of_use_code := txt "1262";
     helmert_transformation_table.accuracy := num 1;
     helmert_transformation_table.tx := num 0;
     helmert_transformation_table.ty := num 0;
     helmert_transformation_table.tz := num 0;
     helmert_transformation_table.translation_uom_auth_name := txt "EPSG";
     helmert_transformation_table.translation_uom_code := txt "9001";
     helmert_transformation_table.rx := num 0.1;
     helmert_transformation_table.ry := num 0.2;
     helmert_transformation_table.rz := num 0.3;
     helmert_transformation_table.rotation_uom_auth_name := txt "EPSG";
     helmert_transformation_table.rotation_uom_code := txt rotation_uom;
     helmert_transformation_table.scale_difference := None;
     helmert_transformation_table.scale_difference_uom_auth_name := None;
     helmert_transformation_table.scale_difference_uom_code := None;
     helmert_transformation_table.rate_tx := None;
     helmert_transformation_table.rate_ty := None;
     helmert_transformation_table.rate_tz := None;
     helmert_transformation_table.rate_translation_uom_auth_name := None;
     helmert_transformation_table.rate_translation_uom_code := None;
     helmert_transformation_table.rate_rx := None;
     helmert_transformation_table.rate_ry := None;
     helmert_transformation_table.rate_rz := None;
     helmert_transformation_table.rate_rotation_uom_auth_name := None;
     helmert_transformation_table.rate_rotation_uom_code := None;
     helmert_transformation_table.rate_scale_difference := None;
     helmert_transformation_table.rate_scale_difference_uom_auth_name := None;
     helmert_transformation_table.rate_scale_difference_uom_code := None;
     helmert_transformation_table.epoch := None;
     helmert_transformation_table.epoch_uom_auth_name := None;
     helmert_transformation_table.epoch_uom_code := None;
     helmert_transformation_table.px := None;
     helmert_transformation_table.py := None;
     helmert_transformation_table.pz := None;
     helmert_transformation_table.pivot_uom_auth_name := None;
     helmert_transformation_table.pivot_uom_code := None;
     helmert_transformation_table.operation_version := None;
     helmert_transformation_table.deprecated := int 0 |}.

(** A vertical CRS on the coordinate system EPSG:[cs]. *)
Definition a_vertical_crs_on (code cs : string) : vertical_crs.row :=
  {| vertical_crs.auth_name := txt "EPSG";
     vertical_crs.code := txt code;
     vertical_crs.name := txt "Heights";
     vertical_crs.description := None;
     vertical_crs.scope := None;
     vertical_crs.coordinate_system_auth_name := txt "EPSG";
     vertical_crs.coordinate_system_code := txt cs;
     vertical_crs.datum_auth_name := txt "EPSG";
     vertical_crs.datum_code := txt "5171";
     vertical_crs.area_of_use_auth_name := txt "EPSG";
     vertical_crs.area_of_use_code := txt "1262";
     vertical_crs.deprecated := int 0 |}.

(** A geographic CRS that gives the coordinate system and the datum it is
    asked for, and the text definition it is asked for. *)
Definition a_geodetic_crs_defined (code : string) (cs datum text_definition : text)
  : geodetic_crs.row :=
  {| geodetic_crs.auth_name := txt "IGNF";
     geodetic_crs.code := txt code;
     geodetic_crs.name := txt "World Geodetic System 1984";
     geodetic_crs.description := None;
     geodetic_crs.scope := None;
     geodetic_crs.type := txt "geographic 2D";
     geodetic_crs.coordinate_system_auth_name := option_map (fun _ => "EPSG") cs;
     geodetic_crs.coordinate_system_code := cs;
     geodetic_crs.datum_auth_name := option_map (fun _ => "EPSG") datum;
     geodetic_crs.datum_code := datum;
     geodetic_crs.area_of_use_auth_name := txt "EPSG";
     geodetic_crs.area_of_use_code := txt "1262";
     geodetic_crs.text_definition := text_definition;
     geodetic_crs.deprecated := int 0 |}.

(** A CRS defined by a PROJ string. *)
Definition crs_by_text : geodetic_crs.row :=
  a_geodetic_crs_defined "WGS84G" None None (txt "+proj=longlat +datum=WGS84 +no_defs").

Definition with_crs_by_text : database :=
  Sample.built (Sample.operations ++ [ INSERT_INTO_geodetic_crs crs_by_text ]).

(** A compound CRS in force, of the horizontal CRS EPSG:[horiz] and the
    vertical CRS EPSG:5773. *)
Definition a_compound_crs (code horiz : string) : compound_crs.row :=
  {| compound_crs.auth_name := txt "EPSG";
     compound_crs.code := txt code;
     compound_crs.name := txt "WGS 84 + EGM96 height";
     compound_crs.description := None;
     compound_crs.scope := None;
     compound_crs.horiz_crs_auth_name := txt "EPSG";
     compound_crs.horiz_crs_code := txt horiz;
     compound_crs.vertical_crs_auth_name := txt "EPSG";
     compound_crs.vertical_crs_code := txt "5773";
     compound_crs.area_of_use_auth_name := txt "EPSG";
     compound_crs.area_of_use_code := txt "1262";
     compound_crs.deprecated := int 0 |}.

Definition with_compound_crs : database :=
  Sample.built (Sample.operations ++ [ INSERT_INTO_compound_crs (a_compound_crs "9707" "4326") ]).

(** A projected CRS on the coordinate system EPSG:[cs]. *)
Definition a_projected_crs_on (code cs : string) : projected_crs.row :=
  {| projected_crs.auth_name := txt "EPSG";
     projected_crs.code := txt code;
     projected_crs.name := txt "World Mercator";
     projected_crs.description := None;
     projected_crs.scope := None;
     projected_crs.coordinate_system_auth_name := txt "EPSG";
     projected_crs.coordinate_system_code := txt cs;
     projected_crs.geodetic_crs_auth_name := txt "EPSG";
     projected_crs.geodetic_crs_code := txt "4326";
     projected_crs.conversion_auth_name := txt "EPSG";
     projected_crs.conversion_code := txt "3856";
     projected_crs.area_of_use_auth_name := txt "EPSG";
     projected_crs.area_of_use_code := txt "1262";
     projected_crs.text_definition := None;
     projected_crs.deprecated := int 0 |}.

(** A package of grids that can be downloaded. *)
Definition us_grids : grid_packages.row :=
  {| grid_packages.package_name := txt "proj-datumgrid-north-america";
     grid_packages.description := txt "North American grids";
     grid_packages.url := txt "https://download.osgeo.org/proj/";
     grid_packages.direct_download := int 1;
     grid_packages.open_license := int 1 |}.

(** The PROJ name of the grid [shift.gsb] of the grid transformation EPSG:2,
    found in the package. *)
Definition shift_grid : grid_alternatives.row :=
  {| grid_alternatives.original_grid_name := txt "shift.gsb";
     grid_alternatives.proj_grid_name := txt "shift.gsb";
     grid_alternatives.proj_grid_format := txt "NTv2";
     grid_alternatives.proj_method := txt "hgridshift";
     grid_alternatives.inverse_direction := int 0;
     grid_alternatives.package_name := txt "proj-datumgrid-north-america";
     grid_alternatives.url := None;
     grid_alternatives.direct_download := None;
     grid_alternatives.open_license := None;
     grid_alternatives.directory := None |}.

Definition with_grids : database :=
  Sample.built (Sample.operations
                ++ [ INSERT_INTO_grid_packages us_grids;
                     INSERT_INTO_grid_alternatives shift_grid ]).

(** A second Helmert transformation, given to the view with the name of its
    method. *)
Definition second_helmert : helmert_transformation.row :=
  Sample.with_method_name (Sample.a_helmert_transformation "EPSG" "20" "EPSG" "4326").

Definition with_second_helmert : database :=
  Sample.built (Sample.operations ++ [ INSERT_INTO_helmert_transformation second_helmert ]).

(** A row of the view [conversion] with one parameter slot. *)
Definition a_conversion_by (code method_code : string) (method_name : text)
           (param1 : conversion_table.param) (param1_name : text) : conversion.row :=
  {| conversion.base :=
       {| conversion_table.auth_name := txt "EPSG";
          conversion_table.code := txt code;
          conversion_table.name := txt "World Mercator";
          conversion_table.description := None;
          conversion_table.scope := None;
          conversion_table.area_of_use_auth_name := txt "EPSG";
          conversion_table.area_of_use_code := txt "1262";
          conversion_table.method_auth_name := txt "EPSG";
          conversion_table.method_code := txt method_code;
          conversion_table.param1 := param1;
          conversion_table.param2 := Sample.a_param "8802" 0 "9102";
          conversion_table.param3 := Sample.no_param;
          conversion_table.param4 := Sample.no_param;
          conversion_table.param5 := Sample.no_param;
          conversion_table.param6 := Sample.no_param;
          conversion_table.param7 := Sample.no_param;
          conversion_table.deprecated := int 0 |};
     conversion.method_name := method_name;
     conversion.param1_name := param1_name;
     conversion.param2_name := txt "Longitude of natural origin";
     conversion.param3_name := None;
     conversion.param4_name := None;
     conversion.param5_name := None;
     conversion.param6_name := None;
     conversion.param7_name := None |}.

(** Mercator (variant B), with a parameter the store does not hold yet and
    one it holds. *)
Definition world_mercator : conversion.row :=
  a_conversion_by "19883" "9805" (txt "Mercator (variant B)")
                  (Sample.a_param "8823" 0 "9102") (txt "Latitude of 1st standard parallel").

Definition with_world_mercator : database :=
  Sample.built (Sample.operations ++ [ INSERT_INTO_conversion world_mercator ]).

(** A row of the view whose first slot names the parameter EPSG:8801 by the
    name it is stored under, and gives neither value nor unit. *)
Definition half_filled_by_view : conversion.row :=
  a_conversion_by "19885" "9805" (txt "Mercator (variant B)")
                  Sample.half_param (txt "Latitude of natural origin").

(** The same row with no name for the parameter of its first slot. *)
Definition unnamed_by_view : conversion.row :=
  a_conversion_by "19885" "9805" (txt "Mercator (variant B)") Sample.half_param None.

(** The same row with another name for EPSG:8801 than the stored one. *)
Definition renamed_by_view : conversion.row :=
  a_conversion_by "19885" "9805" (txt "Mercator (variant B)")
                  Sample.half_param (txt "Latitude of origin").

(** A conversion by a method that the trigger of [conversion_method] does not
    list. *)
Definition by_unlisted_method : conversion.row :=
  a_conversion_by "19884" "9999" (txt "Space oblique Mercator") Sample.no_param None.

(** A grid transformation in force between CRS in force, over the given
    area. *)
Definition a_grid_transformation_over (auth code area : string) : grid_transformation.row :=
  {| grid_transformation.auth_name := txt auth;
     grid_transformation.code := txt code;
     grid_transformation.name := txt "Unknown datum to WGS 84 (grid)";
     grid_transformation.description := None;
     grid_transformation.scope := None;
     grid_transformation.method_auth_name := txt "EPSG";
     grid_transformation.method_code := txt "9615";
     grid_transformation.method_name := txt "NTv2";
     grid_transformation.source_crs_auth_name := txt "EPSG";
     grid_transformation.source_crs_code := txt "4326";
     grid_transformation.target_crs_auth_name := txt "EPSG";
     grid_transformation.target_crs_code := txt "4326";
     grid_transformation.area_of_use_auth_name := txt "EPSG";
     grid_transformation.area_of_use_code := txt area;
     grid_transformation.accuracy := num 1;
     grid_transformation.grid_param_auth_name := txt "EPSG";
     grid_transformation.grid_param_code := txt "8656";
     grid_transformation.grid_param_name := txt "Latitude and longitude difference file";
     grid_transformation.grid_name := txt "shift.gsb";
     grid_transformation.grid2_param_auth_name := None;
     grid_transformation.grid2_param_code := None;
     grid_transformation.grid2_param_name := None;
     grid_transformation.grid2_name := None;
     grid_transformation.interpolation_crs_auth_name := None;
     grid_transformation.interpolation_crs_code := None;
     grid_transformation.operation_version := None;
     grid_transformation.deprecated := int 0 |}.

(** A transformation given as a PROJ string or otherwise by PROJ. *)
Definition a_proj_transformation (code method_code : string) : other_transformation.row :=
  {| other_transformation.auth_name := txt "PROJ";
     other_transformation.code := txt code;
     other_transformation.name := txt "WGS 84 to WGS 84 (identity)";
     other_transformation.description := None;
     other_transformation.scope := None;
     other_transformation.method_auth_name := txt "PROJ";
     other_transformation.method_code := txt method_code;
     other_transformation.method_name := txt "+proj=noop";
     other_transformation.source_crs_auth_name := txt "EPSG";
     other_transformation.source_crs_code := txt "4326";
     other_transformation.target_crs_auth_name := txt "EPSG";
     other_transformation.target_crs_code := txt "4326";
     other_transformation.area_of_use_auth_name := txt "EPSG";
     other_transformation.area_of_use_code := txt "1262";
     other_transformation.accuracy := None;
     other_transformation.param1 := Sample.no_other_param;
     other_transformation.param2 := Sample.no_other_param;
     other_transformation.param3 := Sample.no_other_param;
     other_transformation.param4 := Sample.no_other_param;
     other_transformation.param5 := Sample.no_other_param;
     other_transformation.param6 := Sample.no_other_param;
     other_transformation.param7 := Sample.no_other_param;
     other_transformation.operation_version := None;
     other_transformation.deprecated := int 0 |}.

Definition with_proj_string : database :=
  Sample.built (Sample.operations
                ++ [ INSERT_INTO_other_transformation
                       (a_proj_transformation "NOOP" "PROJString") ]).

(** *** Around the registry *)

(** The registry of [db] with nothing around it. *)
Definition registry_only : proj_db := with_tables empty_proj_db db.

Definition an_axis (code cs : string) (order : Z) : axis.row :=
  {| axis.auth_name := txt "EPSG";
     axis.code := txt code;
     axis.name := txt "Geodetic latitude";
     axis.abbrev := txt "Lat";
     axis.orientation := txt "north";
     axis.coordinate_system_auth_name := txt "EPSG";
     axis.coordinate_system_code := txt cs;
     axis.coordinate_system_order := int order;
     axis.uom_auth_name := txt "EPSG";
     axis.uom_code := txt "9102" |}.

Definition an_alias (table_name code : string) : alias_name.row :=
  {| alias_name.table_name := txt table_name;
     alias_name.auth_name := txt "EPSG";
     alias_name.code := txt code;
     alias_name.alt_name := txt "WGS84";
     alias_name.source := txt "EPSG" |}.

Definition a_supersession (superseded replacement : string) : supersession.row :=
  {| supersession.superseded_table_name := txt "geodetic_crs";
     supersession.superseded_auth_name := txt "EPSG";
     supersession.superseded_code := txt superseded;
     supersession.replacement_table_name := txt "geodetic_crs";
     supersession.replacement_auth_name := txt "EPSG";
     supersession.replacement_code := txt replacement;
     supersession.source := txt "EPSG" |}.

Definition a_deprecation (deprecated replacement : string) : deprecation.row :=
  {| deprecation.table_name := txt "geodetic_crs";
     deprecation.deprecated_auth_name := txt "EPSG";
     deprecation.deprecated_code := txt deprecated;
     deprecation.replacement_auth_name := txt "EPSG";
     deprecation.replacement_code := txt replacement;
     deprecation.source := txt "EPSG" |}.

Definition a_preferred_hub (src hub : string) : geodetic_datum_preferred_hub.row :=
  {| geodetic_datum_preferred_hub.src_auth_name := txt "EPSG";
     geodetic_datum_preferred_hub.src_code := txt src;
     geodetic_datum_preferred_hub.hub_auth_name := txt "EPSG";
     geodetic_datum_preferred_hub.hub_code := txt hub |}.

(** The statements of [Sample.operations], then rows of the tables around
    the registry. *)
Definition around : list proj_statement :=
  map INSERT Sample.operations
  ++ [ INSERT_INTO_axis (an_axis "106" "6422" 1);
       INSERT_INTO_axis (an_axis "107" "6422" 2);
       INSERT_INTO_alias_name (an_alias "geodetic_crs" "4326");
       INSERT_INTO_supersession (a_supersession "4000" "4326");
       INSERT_INTO_deprecation (a_deprecation "4000" "4326");
       INSERT_INTO_geodetic_datum_preferred_hub (a_preferred_hub "6000" "6326") ].

Definition built_around (script : list proj_statement) : proj_db :=
  match proj_run empty_proj_db script with
  | inr p => p
  | inl _ => empty_proj_db
  end.

Definition with_around : proj_db := built_around around.

(** A coordinate system whose authority name is a NUL byte followed by "a":
    two bytes, and nothing that [length()] counts. *)
Definition nul_keyed_coordinate_system : coordinate_system.row :=
  {| coordinate_system.auth_name := txt (String Ascii.zero "a");
     coordinate_system.code := txt "6404";
     coordinate_system.type := txt "spherical";
     coordinate_system.dimension := int 3 |}.

End Example.

(** ** Notions used by the properties *)

(** No statement of a trigger body raises. *)
Definition silent (body : list raise) : bool :=
  forallb (fun s => negb (truth (condition s))) body.

(** What an [INSERT] into a view does is a script of [INSERT]s into tables. *)
Definition table_script (db db' : database) : Prop :=
  exists script, forallb on_table script = true /\ run db script = inr db'.

(** The row a table statement stores. *)
Definition stored (db : database) (s : statement) : database :=
  match s with
  | INSERT_INTO_unit_of_measure NEW => append_unit_of_measure db NEW
  | INSERT_INTO_celestial_body NEW => append_celestial_body db NEW
  | INSERT_INTO_ellipsoid NEW => append_ellipsoid db NEW
  | INSERT_INTO_area NEW => append_area db NEW
  | INSERT_INTO_prime_meridian NEW => append_prime_meridian db NEW
  | INSERT_INTO_geodetic_datum NEW => append_geodetic_datum db NEW
  | INSERT_INTO_vertical_datum NEW => append_vertical_datum db NEW
  | INSERT_INTO_coordinate_system NEW => append_coordinate_system db NEW
  | INSERT_INTO_geodetic_crs NEW => append_geodetic_crs db NEW
  | INSERT_INTO_vertical_crs NEW => append_vertical_crs db NEW
  | INSERT_INTO_conversion_method NEW => append_conversion_method db NEW
  | INSERT_INTO_conversion_param NEW => append_conversion_param db NEW
  | INSERT_INTO_conversion_table NEW => append_conversion_table db NEW
  | INSERT_INTO_projected_crs NEW => append_projected_crs db NEW
  | INSERT_INTO_compound_crs NEW => append_compound_crs db NEW
  | INSERT_INTO_coordinate_operation_method NEW => append_coordinate_operation_method db NEW
  | INSERT_INTO_helmert_transformation_table NEW => append_helmert_transformation_table db NEW
  | INSERT_INTO_grid_transformation NEW => append_grid_transformation db NEW
  | INSERT_INTO_grid_packages NEW => append_grid_packages db NEW
  | INSERT_INTO_grid_alternatives NEW => append_grid_alternatives db NEW
  | INSERT_INTO_other_transformation NEW => append_other_transformation db NEW
  | INSERT_INTO_concatenated_operation NEW => append_concatenated_operation db NEW
  | INSERT_INTO_conversion _ | INSERT_INTO_helmert_transformation _ => db
  end.


(** Exactly one of two nullable columns holds a value. *)
Definition exactly_one {A B} (x : option A) (y : option B) : Prop :=
  (x <> None /\ y = None) \/ (x = None /\ y <> None).

(** The bounding box of an area, on the bounds that are present: south is not
    north of north, and west is not east of east unless the box wraps the
    antimeridian over at most 200 degrees.  The sum [e + 360 - w] is the
    exact one. *)
Definition ordered_bounds (a : area.row) : Prop :=
  (forall s n, a.(area.south_lat) = Some s -> a.(area.north_lat) = Some n -> (s <= n)%Q)
  /\ (forall w e, a.(area.west_lon) = Some w -> a.(area.east_lon) = Some e ->
        (w <= e)%Q \/ (e + 360 - w <= 200)%Q).

(** The same box with the sum taken as [area_insert_trigger] takes it: the
    double nearest to [e + 360], less [w], rounded to a double again. *)
Definition ordered_bounds_in_doubles (a : area.row) : Prop :=
  (forall s n, a.(area.south_lat) = Some s -> a.(area.north_lat) = Some n -> (s <= n)%Q)
  /\ (forall w e, a.(area.west_lon) = Some w -> a.(area.east_lon) = Some e ->
        (w <= e)%Q
        \/ (round_double (round_double (e + 360) - w) <= 200)%Q).

(** A row that leaves a bound of each pair NULL. *)
Definition unbounded (a : area.row) : Prop :=
  (a.(area.south_lat) = None \/ a.(area.north_lat) = None)
  /\ (a.(area.west_lon) = None \/ a.(area.east_lon) = None).

(** The method a grid format goes with. *)
Definition format_method_paired (g : grid_alternatives.row) : Prop :=
  (In g.(grid_alternatives.proj_grid_format) [txt "CTable2"; txt "NTv1"; txt "NTv2"] ->
   g.(grid_alternatives.proj_method) = txt "hgridshift")
  /\ (g.(grid_alternatives.proj_grid_format) = txt "GTX" ->
      g.(grid_alternatives.proj_method) = txt "vgridshift").

(** *** The two namespaces *)

(** In a kind-tagged view, no two rows of different kinds carry the same
    (authority, code). *)
Definition namespace_disjoint {V} (kind auth_name code : V -> text) (view : list V) : Prop :=
  forall v1 v2,
    In v1 view -> In v2 view -> kind v1 <> kind v2 ->
    ~ (auth_name v1 = auth_name v2 /\ code v1 = code v2).

Definition crs_namespace_disjoint (db : database) : Prop :=
  namespace_disjoint crs_view.table_name crs_view.auth_name crs_view.code (crs_view db).

Definition operation_namespace_disjoint (db : database) : Prop :=
  namespace_disjoint coordinate_operation_with_conversion_view.type
                     coordinate_operation_with_conversion_view.auth_name
                     coordinate_operation_with_conversion_view.code
                     (coordinate_operation_with_conversion_view db).

(** The key (a, c) is taken in the CRS namespace. *)
Definition in_crs_view (db : database) (a c : string) : Prop :=
  exists v, In v (crs_view db)
            /\ v.(crs_view.auth_name) = Some a /\ v.(crs_view.code) = Some c.

(** The key (a, c) is taken in the operation namespace. *)
Definition in_coordinate_operation_with_conversion_view (db : database) (a c : string) : Prop :=
  exists v, In v (coordinate_operation_with_conversion_view db)
            /\ v.(coordinate_operation_with_conversion_view.auth_name) = Some a
            /\ v.(coordinate_operation_with_conversion_view.code) = Some c.

Inductive namespace := CRS | Operation.

Definition taken (db : database) (ns : namespace) (a c : string) : Prop :=
  match ns with
  | CRS => in_crs_view db a c
  | Operation => in_coordinate_operation_with_conversion_view db a c
  end.

(** The statements that admit a row into one of the two namespaces: the
    namespace, the key of the row, and the message of the rule that guards
    the namespace in the trigger of the table. *)
Definition enters (s : statement) : option (namespace * (text * text) * string) :=
  match s with
  | INSERT_INTO_geodetic_crs NEW =>
      Some (CRS, (NEW.(geodetic_crs.auth_name), NEW.(geodetic_crs.code)),
            "insert on geodetic_crs violates constraint: (auth_name, code) must not already exist in crs_view")
  | INSERT_INTO_projected_crs NEW =>
      Some (CRS, (NEW.(projected_crs.auth_name), NEW.(projected_crs.code)),
            "insert on projected_crs violates constraint: (auth_name, code) must not already exist in crs_view")
  | INSERT_INTO_vertical_crs NEW =>
      Some (CRS, (NEW.(vertical_crs.auth_name), NEW.(vertical_crs.code)),
            "insert on vertical_crs violates constraint: (auth_name, code) must not already exist in crs_view")
  | INSERT_INTO_compound_crs NEW =>
      Some (CRS, (NEW.(compound_crs.auth_name), NEW.(compound_crs.code)),
            "insert on compound_crs violates constraint: (auth_name, code) must not already exist in crs_view")
  | INSERT_INTO_conversion_table NEW =>
      Some (Operation, (NEW.(conversion_table.auth_name), NEW.(conversion_table.code)),
            "insert on conversion_table violates constraint: (auth_name, code) must not already exist in coordinate_operation_with_conversion_view")
  | INSERT_INTO_helmert_transformation_table NEW =>
      Some (Operation,
            (NEW.(helmert_transformation_table.auth_name),
             NEW.(helmert_transformation_table.code)),
            "insert on helmert_transformation violates constraint: (auth_name, code) must not already exist in coordinate_operation_with_conversion_view")
  | INSERT_INTO_grid_transformation NEW =>
      Some (Operation, (NEW.(grid_transformation.auth_name), NEW.(grid_transformation.code)),
            "insert on grid_transformation violates constraint: (auth_name, code) must not already exist in coordinate_operation_with_conversion_view")
  | INSERT_INTO_other_transformation NEW =>
      Some (Operation, (NEW.(other_transformation.auth_name), NEW.(other_transformation.code)),
            "insert on other_transformation violates constraint: (auth_name, code) must not already exist in coordinate_operation_with_conversion_view")
  | INSERT_INTO_concatenated_operation NEW =>
      Some (Operation,
            (NEW.(concatenated_operation.auth_name), NEW.(concatenated_operation.code)),
            "insert on concatenated_operation violates constraint: (auth_name, code) must not already exist in coordinate_operation_with_conversion_view")
  | _ => None
  end.

(** The rows of the operation namespace, read off the tables. *)
Definition operation_key (kind : string) (a c : text)
  : coordinate_operation_with_conversion_view.row :=
  {| coordinate_operation_with_conversion_view.auth_name := a;
     coordinate_operation_with_conversion_view.code := c;
     coordinate_operation_with_conversion_view.type := txt kind |}.

Definition operation_keys (db : database)
  : list coordinate_operation_with_conversion_view.row :=
  (map (fun r => operation_key "grid_transformation"
                   r.(grid_transformation.auth_name) r.(grid_transformation.code))
       db.(grid_transformation)
   ++ map (fun r => operation_key "helmert_transformation"
                      r.(helmert_transformation_table.auth_name)
                      r.(helmert_transformation_table.code))
          db.(helmert_transformation_table)
   ++ map (fun r => operation_key "other_transformation"
                      r.(other_transformation.auth_name) r.(other_transformation.code))
          db.(other_transformation)
   ++ map (fun r => operation_key "concatenated_operation"
                      r.(concatenated_operation.auth_name) r.(concatenated_operation.code))
          db.(concatenated_operation)
   ++ map (fun r => operation_key "conversion"
                      r.(conversion_table.auth_name) r.(conversion_table.code))
          db.(conversion_table))%list.

(** *** Geodetic CRS and what it refers to *)

(** [d] is the geodetic datum the CRS row names. *)
Definition datum_of (db : database) (r : geodetic_crs.row) (d : geodetic_datum.row) : Prop :=
  In d db.(geodetic_datum)
  /\ d.(geodetic_datum.auth_name) = r.(geodetic_crs.datum_auth_name)
  /\ d.(geodetic_datum.code) = r.(geodetic_crs.datum_code).

(** [a] is the area of use the CRS row names. *)
Definition area_of (db : database) (r : geodetic_crs.row) (a : area.row) : Prop :=
  In a db.(area)
  /\ a.(area.auth_name) = r.(geodetic_crs.area_of_use_auth_name)
  /\ a.(area.code) = r.(geodetic_crs.area_of_use_code).

(** The row is in force and defined by references: [deprecated] is 0,
    [text_definition] is [NULL], and the datum and the area are named. *)
Definition structured_in_force (r : geodetic_crs.row) : Prop :=
  r.(geodetic_crs.deprecated) = int 0
  /\ r.(geodetic_crs.text_definition) = None
  /\ r.(geodetic_crs.datum_auth_name) <> None /\ r.(geodetic_crs.datum_code) <> None
  /\ r.(geodetic_crs.area_of_use_auth_name) <> None
  /\ r.(geodetic_crs.area_of_use_code) <> None.

(** [cs] is the coordinate system the CRS row names. *)
Definition coordinate_system_of (db : database) (r : geodetic_crs.row)
           (cs : coordinate_system.row) : Prop :=
  In cs db.(coordinate_system)
  /\ cs.(coordinate_system.auth_name) = r.(geodetic_crs.coordinate_system_auth_name)
  /\ cs.(coordinate_system.code) = r.(geodetic_crs.coordinate_system_code).

(** The coordinate system each type of geodetic CRS calls for. *)
Definition required_coordinate_system (type : string) : option (string * Z) :=
  if String.eqb type "geocentric" then Some ("Cartesian", 3%Z)
  else if String.eqb type "geographic 2D" then Some ("ellipsoidal", 2%Z)
  else if String.eqb type "geographic 3D" then Some ("ellipsoidal", 3%Z)
  else None.

(** The coordinate system has the type and the dimension the CRS type calls
    for. *)
Definition coordinate_system_matches (r : geodetic_crs.row) (cs : coordinate_system.row)
  : Prop :=
  forall type cs_type cs_dimension,
    r.(geodetic_crs.type) = Some type ->
    required_coordinate_system type = Some (cs_type, cs_dimension) ->
    cs.(coordinate_system.type) = Some cs_type
    /\ cs.(coordinate_system.dimension) = Some cs_dimension.

(** The same, with the dimension of a geographic 2D CRS left free when the
    CRS row is deprecated. *)
Definition coordinate_system_matches_unless_deprecated
           (r : geodetic_crs.row) (cs : coordinate_system.row) : Prop :=
  forall type cs_type cs_dimension,
    r.(geodetic_crs.type) = Some type ->
    required_coordinate_system type = Some (cs_type, cs_dimension) ->
    cs.(coordinate_system.type) = Some cs_type
    /\ (cs.(coordinate_system.dimension) = Some cs_dimension
        \/ (type = "geographic 2D" /\ r.(geodetic_crs.deprecated) = int 1)).

(** Rows of a table are told apart by their primary key. *)
Definition unique_keys {R} (auth_name code : R -> text) (t : list R) : Prop :=
  NoDup (map (fun r => (auth_name r, code r)) t).

(** *** Vertical CRS and its datum *)

(** The store with its vertical datums replaced. *)
Definition with_vertical_datum (db : database) (rows : list vertical_datum.row) : database :=
  {| unit_of_measure := db.(unit_of_measure);
     celestial_body := db.(celestial_body);
     ellipsoid := db.(ellipsoid);
     area := db.(area);
     prime_meridian := db.(prime_meridian);
     geodetic_datum := db.(geodetic_datum);
     vertical_datum := rows;
     coordinate_system := db.(coordinate_system);
     geodetic_crs := db.(geodetic_crs);
     vertical_crs := db.(vertical_crs);
     conversion_method := db.(conversion_method);
     conversion_param := db.(conversion_param);
     conversion_table := db.(conversion_table);
     projected_crs := db.(projected_crs);
     compound_crs := db.(compound_crs);
     coordinate_operation_method := db.(coordinate_operation_method);
     helmert_transformation_table := db.(helmert_transformation_table);
     grid_transformation := db.(grid_transformation);
     grid_packages := db.(grid_packages);
     grid_alternatives := db.(grid_alternatives);
     other_transformation := db.(other_transformation);
     concatenated_operation := db.(concatenated_operation) |}.

(** Two lists of vertical datums hold the same keys in the same order: they
    differ at most in the other columns, among them [deprecated]. *)
Definition same_vertical_datum_keys (rows rows' : list vertical_datum.row) : Prop :=
  map (fun d => (d.(vertical_datum.auth_name), d.(vertical_datum.code))) rows
  = map (fun d => (d.(vertical_datum.auth_name), d.(vertical_datum.code))) rows'.

(** No stored vertical CRS carries the key that the row gives for its
    datum. *)
Definition no_vertical_crs_keyed_like_datum (db : database) (r : vertical_crs.row) : Prop :=
  forall v, In v db.(vertical_crs) ->
            ~ (v.(vertical_crs.auth_name) = r.(vertical_crs.datum_auth_name)
               /\ v.(vertical_crs.code) = r.(vertical_crs.datum_code)).

(** [d] is the vertical datum the CRS row names. *)
Definition vertical_datum_of (db : database) (r : vertical_crs.row) (d : vertical_datum.row)
  : Prop :=
  In d db.(vertical_datum)
  /\ d.(vertical_datum.auth_name) = r.(vertical_crs.datum_auth_name)
  /\ d.(vertical_datum.code) = r.(vertical_crs.datum_code).

(** Every rule of the table other than the one on the deprecated datum lets
    the row in. *)
Definition vertical_crs_other_rules_pass (db : database) (r : vertical_crs.row) : Prop :=
  (forall s, In s (vertical_crs_insert_trigger db r) ->
             message s <> "insert on vertical_crs violates constraint: datum must not be deprecated when vertical_crs is not deprecated" ->
             truth (condition s) = false)
  /\ forallb satisfied (vertical_crs_constraints db r) = true.

(** *** The parameter slots of a conversion *)

Definition slot_fully_null (p : conversion_table.param) : Prop :=
  p.(conversion_table.param_auth_name) = None
  /\ p.(conversion_table.param_code) = None
  /\ p.(conversion_table.param_value) = None
  /\ p.(conversion_table.param_uom_auth_name) = None
  /\ p.(conversion_table.param_uom_code) = None.

Definition slot_fully_populated (p : conversion_table.param) : Prop :=
  p.(conversion_table.param_auth_name) <> None
  /\ p.(conversion_table.param_code) <> None
  /\ p.(conversion_table.param_value) <> None
  /\ p.(conversion_table.param_uom_auth_name) <> None
  /\ p.(conversion_table.param_uom_code) <> None.

Definition slot_all_or_nothing (p : conversion_table.param) : Prop :=
  slot_fully_null p \/ slot_fully_populated p.

(** The unit of the slot, when the slot names one in full, is a stored unit
    of measure. *)
Definition slot_unit_known (db : database) (p : conversion_table.param) : Prop :=
  forall a c,
    p.(conversion_table.param_uom_auth_name) = Some a ->
    p.(conversion_table.param_uom_code) = Some c ->
    exists u, In u db.(unit_of_measure)
              /\ u.(unit_of_measure.auth_name) = Some a
              /\ u.(unit_of_measure.code) = Some c.

Definition same_unit (p p' : conversion_table.param) : Prop :=
  p.(conversion_table.param_uom_auth_name) = p'.(conversion_table.param_uom_auth_name)
  /\ p.(conversion_table.param_uom_code) = p'.(conversion_table.param_uom_code).

(** Two conversion rows that differ at most in the parameter reference and
    the value of their slots. *)
Definition same_but_parameters (r r' : conversion_table.row) : Prop :=
  r.(conversion_table.auth_name) = r'.(conversion_table.auth_name)
  /\ r.(conversion_table.code) = r'.(conversion_table.code)
  /\ r.(conversion_table.name) = r'.(conversion_table.name)
  /\ r.(conversion_table.description) = r'.(conversion_table.description)
  /\ r.(conversion_table.scope) = r'.(conversion_table.scope)
  /\ r.(conversion_table.area_of_use_auth_name) = r'.(conversion_table.area_of_use_auth_name)
  /\ r.(conversion_table.area_of_use_code) = r'.(conversion_table.area_of_use_code)
  /\ r.(conversion_table.method_auth_name) = r'.(conversion_table.method_auth_name)
  /\ r.(conversion_table.method_code) = r'.(conversion_table.method_code)
  /\ r.(conversion_table.deprecated) = r'.(conversion_table.deprecated)
  /\ Forall2 same_unit (conversion_table.params r) (conversion_table.params r').

(** *** Deprecated references and the exemption of the authority ESRI *)

(** The key (a, c) is that of a deprecated row of [t]. *)
Definition deprecated_row {R} (auth_name code : R -> text) (deprecated : R -> boolean)
           (t : list R) (a c : text) : Prop :=
  exists r z,
    In r t /\ a <> None /\ c <> None
    /\ auth_name r = a /\ code r = c /\ deprecated r = Some z /\ z <> 0%Z.

Definition deprecated_geodetic_crs (db : database) : text -> text -> Prop :=
  deprecated_row geodetic_crs.auth_name geodetic_crs.code geodetic_crs.deprecated
                 db.(geodetic_crs).

Definition deprecated_crs (db : database) : text -> text -> Prop :=
  deprecated_row crs_view.auth_name crs_view.code crs_view.deprecated (crs_view db).

(** The row of the statement is in force: [deprecated = 0]. *)
Definition in_force (s : statement) : Prop :=
  match s with
  | INSERT_INTO_helmert_transformation_table NEW =>
      NEW.(helmert_transformation_table.deprecated) = int 0
  | INSERT_INTO_grid_transformation NEW => NEW.(grid_transformation.deprecated) = int 0
  | INSERT_INTO_other_transformation NEW => NEW.(other_transformation.deprecated) = int 0
  | INSERT_INTO_concatenated_operation NEW => NEW.(concatenated_operation.deprecated) = int 0
  | INSERT_INTO_projected_crs NEW => NEW.(projected_crs.deprecated) = int 0
  | _ => False
  end.

(** The source or the target CRS of the operation, or the base geodetic CRS
    of the projected CRS, is deprecated in the store. *)
Definition names_deprecated_crs (db : database) (s : statement) : Prop :=
  match s with
  | INSERT_INTO_helmert_transformation_table NEW =>
      deprecated_geodetic_crs db NEW.(helmert_transformation_table.source_crs_auth_name)
                              NEW.(helmert_transformation_table.source_crs_code)
      \/ deprecated_geodetic_crs db NEW.(helmert_transformation_table.target_crs_auth_name)
                                 NEW.(helmert_transformation_table.target_crs_code)
  | INSERT_INTO_grid_transformation NEW =>
      deprecated_crs db NEW.(grid_transformation.source_crs_auth_name)
                     NEW.(grid_transformation.source_crs_code)
      \/ deprecated_crs db NEW.(grid_transformation.target_crs_auth_name)
                        NEW.(grid_transformation.target_crs_code)
  | INSERT_INTO_other_transformation NEW =>
      deprecated_crs db NEW.(other_transformation.source_crs_auth_name)
                     NEW.(other_transformation.source_crs_code)
      \/ deprecated_crs db NEW.(other_transformation.target_crs_auth_name)
                        NEW.(other_transformation.target_crs_code)
  | INSERT_INTO_concatenated_operation NEW =>
      deprecated_crs db NEW.(concatenated_operation.source_crs_auth_name)
                     NEW.(concatenated_operation.source_crs_code)
      \/ deprecated_crs db NEW.(concatenated_operation.target_crs_auth_name)
                        NEW.(concatenated_operation.target_crs_code)
  | INSERT_INTO_projected_crs NEW =>
      deprecated_geodetic_crs db NEW.(projected_crs.geodetic_crs_auth_name)
                              NEW.(projected_crs.geodetic_crs_code)
  | _ => False
  end.

(** The row is of the authority ESRI; for a projected CRS, moreover, its
    base geodetic CRS is of another authority. *)
Definition exempted (s : statement) : Prop :=
  match s with
  | INSERT_INTO_helmert_transformation_table NEW =>
      NEW.(helmert_transformation_table.auth_name) = txt "ESRI"
  | INSERT_INTO_grid_transformation NEW => NEW.(grid_transformation.auth_name) = txt "ESRI"
  | INSERT_INTO_other_transformation NEW => NEW.(other_transformation.auth_name) = txt "ESRI"
  | INSERT_INTO_concatenated_operation NEW =>
      NEW.(concatenated_operation.auth_name) = txt "ESRI"
  | INSERT_INTO_projected_crs NEW =>
      NEW.(projected_crs.auth_name) = txt "ESRI"
      /\ exists base, NEW.(projected_crs.geodetic_crs_auth_name) = Some base
                      /\ base <> "ESRI"
  | _ => False
  end.

(** The messages of the rules that reject a deprecated reference. *)
Definition deprecated_reference_messages (s : statement) : list string :=
  match s with
  | INSERT_INTO_helmert_transformation_table _ =>
      [ "insert on helmert_transformation violates constraint: source_crs must not be deprecated when helmert_transformation is not deprecated";
        "insert on helmert_transformation violates constraint: target_crs must not be deprecated when helmert_transformation is not deprecated" ]
  | INSERT_INTO_grid_transformation _ =>
      [ "insert on grid_transformation violates constraint: source_crs must not be deprecated when grid_transformation is not deprecated";
        "insert on grid_transformation violates constraint: target_crs must not be deprecated when grid_transformation is not deprecated" ]
  | INSERT_INTO_other_transformation _ =>
      [ "insert on other_transformation violates constraint: source_crs must not be deprecated when other_transformation is not deprecated";
        "insert on other_transformation violates constraint: target_crs must not be deprecated when other_transformation is not deprecated" ]
  | INSERT_INTO_concatenated_operation _ =>
      [ "insert on concatenated_operation violates constraint: source_crs must not be deprecated when concatenated_operation is not deprecated";
        "insert on concatenated_operation violates constraint: target_crs must not be deprecated when concatenated_operation is not deprecated" ]
  | INSERT_INTO_projected_crs _ =>
      [ "insert on projected_crs violates constraint: geodetic_crs must not be deprecated when projected_crs is not deprecated" ]
  | _ => []
  end.

(** *** The steps of a concatenated operation *)

(** The two steps of the row, and the third when [step3_auth_name] is set. *)
Definition steps (c : concatenated_operation.row) : list (text * text) :=
  ([ (c.(concatenated_operation.step1_auth_name), c.(concatenated_operation.step1_code));
     (c.(concatenated_operation.step2_auth_name), c.(concatenated_operation.step2_code)) ]
   ++ match c.(concatenated_operation.step3_auth_name) with
      | Some _ =>
          [ (c.(concatenated_operation.step3_auth_name),
             c.(concatenated_operation.step3_code)) ]
      | None => []
      end)%list.

(** The step names an operation of the unified operation namespace. *)
Definition resolves (db : database) (step : text * text) : Prop :=
  exists a c, step = (Some a, Some c)
              /\ in_coordinate_operation_with_conversion_view db a c.

(** The step names a concatenated operation. *)
Definition is_concatenated (db : database) (step : text * text) : Prop :=
  exists a c o, step = (Some a, Some c)
                /\ In o db.(concatenated_operation)
                /\ o.(concatenated_operation.auth_name) = Some a
                /\ o.(concatenated_operation.code) = Some c.

Definition steps_resolved (db : database) (c : concatenated_operation.row) : Prop :=
  forall step, In step (steps c) -> resolves db step /\ ~ is_concatenated db step.

(** *** Growth of the store *)

(** [l'] begins with [l]: the rows of [l] are kept, in place, and rows may
    follow. *)
Definition begins {A} (l l' : list A) : Prop := exists more, l' = (l ++ more)%list.

(** Every table of [db'] begins with the same table of [db]. *)
Record extends (db db' : database) : Prop := {
  extends_unit_of_measure : begins db.(unit_of_measure) db'.(unit_of_measure);
  extends_celestial_body : begins db.(celestial_body) db'.(celestial_body);
  extends_ellipsoid : begins db.(ellipsoid) db'.(ellipsoid);
  extends_area : begins db.(area) db'.(area);
  extends_prime_meridian : begins db.(prime_meridian) db'.(prime_meridian);
  extends_geodetic_datum : begins db.(geodetic_datum) db'.(geodetic_datum);
  extends_vertical_datum : begins db.(vertical_datum) db'.(vertical_datum);
  extends_coordinate_system : begins db.(coordinate_system) db'.(coordinate_system);
  extends_geodetic_crs : begins db.(geodetic_crs) db'.(geodetic_crs);
  extends_vertical_crs : begins db.(vertical_crs) db'.(vertical_crs);
  extends_conversion_method : begins db.(conversion_method) db'.(conversion_method);
  extends_conversion_param : begins db.(conversion_param) db'.(conversion_param);
  extends_conversion_table : begins db.(conversion_table) db'.(conversion_table);
  extends_projected_crs : begins db.(projected_crs) db'.(projected_crs);
  extends_compound_crs : begins db.(compound_crs) db'.(compound_crs);
  extends_coordinate_operation_method :
    begins db.(coordinate_operation_method) db'.(coordinate_operation_method);
  extends_helmert_transformation_table :
    begins db.(helmert_transformation_table) db'.(helmert_transformation_table);
  extends_grid_transformation : begins db.(grid_transformation) db'.(grid_transformation);
  extends_grid_packages : begins db.(grid_packages) db'.(grid_packages);
  extends_grid_alternatives : begins db.(grid_alternatives) db'.(grid_alternatives);
  extends_other_transformation : begins db.(other_transformation) db'.(other_transformation);
  extends_concatenated_operation :
    begins db.(concatenated_operation) db'.(concatenated_operation)
}.

(** The row that a table statement carries is a row of its table. *)
Definition row_stored (db : database) (s : statement) : Prop :=
  match s with
  | INSERT_INTO_unit_of_measure r => In r db.(unit_of_measure)
  | INSERT_INTO_celestial_body r => In r db.(celestial_body)
  | INSERT_INTO_ellipsoid r => In r db.(ellipsoid)
  | INSERT_INTO_area r => In r db.(area)
  | INSERT_INTO_prime_meridian r => In r db.(prime_meridian)
  | INSERT_INTO_geodetic_datum r => In r db.(geodetic_datum)
  | INSERT_INTO_vertical_datum r => In r db.(vertical_datum)
  | INSERT_INTO_coordinate_system r => In r db.(coordinate_system)
  | INSERT_INTO_geodetic_crs r => In r db.(geodetic_crs)
  | INSERT_INTO_vertical_crs r => In r db.(vertical_crs)
  | INSERT_INTO_conversion_method r => In r db.(conversion_method)
  | INSERT_INTO_conversion_param r => In r db.(conversion_param)
  | INSERT_INTO_conversion_table r => In r db.(conversion_table)
  | INSERT_INTO_projected_crs r => In r db.(projected_crs)
  | INSERT_INTO_compound_crs r => In r db.(compound_crs)
  | INSERT_INTO_coordinate_operation_method r => In r db.(coordinate_operation_method)
  | INSERT_INTO_helmert_transformation_table r => In r db.(helmert_transformation_table)
  | INSERT_INTO_grid_transformation r => In r db.(grid_transformation)
  | INSERT_INTO_grid_packages r => In r db.(grid_packages)
  | INSERT_INTO_grid_alternatives r => In r db.(grid_alternatives)
  | INSERT_INTO_other_transformation r => In r db.(other_transformation)
  | INSERT_INTO_concatenated_operation r => In r db.(concatenated_operation)
  | INSERT_INTO_conversion _ | INSERT_INTO_helmert_transformation _ => False
  end.

(** The row was admitted by the [INSERT] of its table into a reachable store
    that [db] extends. *)
Definition admitted_before (db : database) (s : statement) : Prop :=
  exists db0,
    reachable db0 /\ execute db0 s = inr (stored db0 s) /\ extends (stored db0 s) db.

(** *** Keys and references *)

(** Rows of a table with a one-column primary key are told apart by it. *)
Definition unique_key {R} (key : R -> text) (t : list R) : Prop := NoDup (map key t).

(** The [PRIMARY KEY] of every table holds. *)
Record primary_keys_unique (db : database) : Prop := {
  pk_unit_of_measure :
    unique_keys unit_of_measure.auth_name unit_of_measure.code db.(unit_of_measure);
  pk_celestial_body :
    unique_keys celestial_body.auth_name celestial_body.code db.(celestial_body);
  pk_ellipsoid : unique_keys ellipsoid.auth_name ellipsoid.code db.(ellipsoid);
  pk_area : unique_keys area.auth_name area.code db.(area);
  pk_prime_meridian :
    unique_keys prime_meridian.auth_name prime_meridian.code db.(prime_meridian);
  pk_geodetic_datum :
    unique_keys geodetic_datum.auth_name geodetic_datum.code db.(geodetic_datum);
  pk_vertical_datum :
    unique_keys vertical_datum.auth_name vertical_datum.code db.(vertical_datum);
  pk_coordinate_system :
    unique_keys coordinate_system.auth_name coordinate_system.code db.(coordinate_system);
  pk_geodetic_crs : unique_keys geodetic_crs.auth_name geodetic_crs.code db.(geodetic_crs);
  pk_vertical_crs : unique_keys vertical_crs.auth_name vertical_crs.code db.(vertical_crs);
  pk_conversion_method :
    unique_keys conversion_method.auth_name conversion_method.code db.(conversion_method);
  pk_conversion_param :
    unique_keys conversion_param.auth_name conversion_param.code db.(conversion_param);
  pk_conversion :
    unique_keys conversion_table.auth_name conversion_table.code db.(conversion_table);
  pk_projected_crs :
    unique_keys projected_crs.auth_name projected_crs.code db.(projected_crs);
  pk_compound_crs : unique_keys compound_crs.auth_name compound_crs.code db.(compound_crs);
  pk_coordinate_operation_method :
    unique_keys coordinate_operation_method.auth_name coordinate_operation_method.code
                db.(coordinate_operation_method);
  pk_helmert_transformation :
    unique_keys helmert_transformation_table.auth_name helmert_transformation_table.code
                db.(helmert_transformation_table);
  pk_grid_transformation :
    unique_keys grid_transformation.auth_name grid_transformation.code
                db.(grid_transformation);
  pk_grid_packages : unique_key grid_packages.package_name db.(grid_packages);
  pk_grid_alternatives :
    unique_key grid_alternatives.original_grid_name db.(grid_alternatives);
  pk_other_transformation :
    unique_keys other_transformation.auth_name other_transformation.code
                db.(other_transformation);
  pk_concatenated_operation :
    unique_keys concatenated_operation.auth_name concatenated_operation.code
                db.(concatenated_operation)
}.

(** Every row of [child] that gives both columns of its reference names a
    row of [parent] by its key. *)
Definition references {C P} (child : list C) (columns : (C -> text) * (C -> text))
           (parent : list P) (key : (P -> text) * (P -> text)) : Prop :=
  forall c a k,
    In c child -> fst columns c = Some a -> snd columns c = Some k ->
    exists p, In p parent /\ fst key p = Some a /\ snd key p = Some k.

(** The same for a one-column reference. *)
Definition references1 {C P} (child : list C) (column : C -> text)
           (parent : list P) (key : P -> text) : Prop :=
  forall c k,
    In c child -> column c = Some k -> exists p, In p parent /\ key p = Some k.

Definition other_transformation_params (r : other_transformation.row)
  : list other_transformation.param :=
  [ other_transformation.param1 r; other_transformation.param2 r;
    other_transformation.param3 r; other_transformation.param4 r;
    other_transformation.param5 r; other_transformation.param6 r;
    other_transformation.param7 r ].

(** The [FOREIGN KEY] constraints of the schema, each under its own name; the
    seven [fk_conversion_paramN_uom] and the seven
    [fk_other_transformation_paramN_uom] are taken slot by slot. *)
Record foreign_keys_hold (db : database) : Prop := {
  fk_ellipsoid_celestial_body :
    references db.(ellipsoid)
               (ellipsoid.celestial_body_auth_name, ellipsoid.celestial_body_code)
               db.(celestial_body) (celestial_body.auth_name, celestial_body.code);
  fk_ellipsoid_unit_of_measure :
    references db.(ellipsoid) (ellipsoid.uom_auth_name, ellipsoid.uom_code)
               db.(unit_of_measure) (unit_of_measure.auth_name, unit_of_measure.code);
  fk_prime_meridian_unit_of_measure :
    references db.(prime_meridian) (prime_meridian.uom_auth_name, prime_meridian.uom_code)
               db.(unit_of_measure) (unit_of_measure.auth_name, unit_of_measure.code);
  fk_geodetic_datum_ellipsoid :
    references db.(geodetic_datum)
               (geodetic_datum.ellipsoid_auth_name, geodetic_datum.ellipsoid_code)
               db.(ellipsoid) (ellipsoid.auth_name, ellipsoid.code);
  fk_geodetic_datum_prime_meridian :
    references db.(geodetic_datum)
               (geodetic_datum.prime_meridian_auth_name, geodetic_datum.prime_meridian_code)
               db.(prime_meridian) (prime_meridian.auth_name, prime_meridian.code);
  fk_geodetic_datum_area :
    references db.(geodetic_datum)
               (geodetic_datum.area_of_use_auth_name, geodetic_datum.area_of_use_code)
               db.(area) (area.auth_name, area.code);
  fk_vertical_datum_area :
    references db.(vertical_datum)
               (vertical_datum.area_of_use_auth_name, vertical_datum.area_of_use_code)
               db.(area) (area.auth_name, area.code);
  fk_geodetic_crs_coordinate_system :
    references db.(geodetic_crs)
               (geodetic_crs.coordinate_system_auth_name, geodetic_crs.coordinate_system_code)
               db.(coordinate_system) (coordinate_system.auth_name, coordinate_system.code);
  fk_geodetic_crs_datum :
    references db.(geodetic_crs) (geodetic_crs.datum_auth_name, geodetic_crs.datum_code)
               db.(geodetic_datum) (geodetic_datum.auth_name, geodetic_datum.code);
  fk_geodetic_crs_area :
    references db.(geodetic_crs)
               (geodetic_crs.area_of_use_auth_name, geodetic_crs.area_of_use_code)
               db.(area) (area.auth_name, area.code);
  fk_vertical_crs_coordinate_system :
    references db.(vertical_crs)
               (vertical_crs.coordinate_system_auth_name, vertical_crs.coordinate_system_code)
               db.(coordinate_system) (coordinate_system.auth_name, coordinate_system.code);
  fk_vertical_crs_datum :
    references db.(vertical_crs) (vertical_crs.datum_auth_name, vertical_crs.datum_code)
               db.(vertical_datum) (vertical_datum.auth_name, vertical_datum.code);
  fk_vertical_crs_area :
    references db.(vertical_crs)
               (vertical_crs.area_of_use_auth_name, vertical_crs.area_of_use_code)
               db.(area) (area.auth_name, area.code);
  fk_conversion_area :
    references db.(conversion_table)
               (conversion_table.area_of_use_auth_name, conversion_table.area_of_use_code)
               db.(area) (area.auth_name, area.code);
  fk_conversion_method :
    references db.(conversion_table)
               (conversion_table.method_auth_name, conversion_table.method_code)
               db.(conversion_method) (conversion_method.auth_name, conversion_method.code);
  fk_conversion_paramN_uom :
    references (flat_map conversion_table.params db.(conversion_table))
               (conversion_table.param_uom_auth_name, conversion_table.param_uom_code)
               db.(unit_of_measure) (unit_of_measure.auth_name, unit_of_measure.code);
  fk_projected_crs_coordinate_system :
    references db.(projected_crs)
               (projected_crs.coordinate_system_auth_name,
                projected_crs.coordinate_system_code)
               db.(coordinate_system) (coordinate_system.auth_name, coordinate_system.code);
  fk_projected_crs_geodetic_crs :
    references db.(projected_crs)
               (projected_crs.geodetic_crs_auth_name, projected_crs.geodetic_crs_code)
               db.(geodetic_crs) (geodetic_crs.auth_name, geodetic_crs.code);
  fk_projected_crs_conversion :
    references db.(projected_crs)
               (projected_crs.conversion_auth_name, projected_crs.conversion_code)
               db.(conversion_table) (conversion_table.auth_name, conversion_table.code);
  fk_projected_crs_area :
    references db.(projected_crs)
               (projected_crs.area_of_use_auth_name, projected_crs.area_of_use_code)
               db.(area) (area.auth_name, area.code);
  fk_compound_crs_vertical_crs :
    references db.(compound_crs)
               (compound_crs.vertical_crs_auth_name, compound_crs.vertical_crs_code)
               db.(vertical_crs) (vertical_crs.auth_name, vertical_crs.code);
  fk_compoundcrs_area :
    references db.(compound_crs)
               (compound_crs.area_of_use_auth_name, compound_crs.area_of_use_code)
               db.(area) (area.auth_name, area.code);
  fk_helmert_transformation_source_crs :
    references db.(helmert_transformation_table)
               (helmert_transformation_table.source_crs_auth_name,
                helmert_transformation_table.source_crs_code)
               db.(geodetic_crs) (geodetic_crs.auth_name, geodetic_crs.code);
  fk_helmert_transformation_target_crs :
    references db.(helmert_transformation_table)
               (helmert_transformation_table.target_crs_auth_name,
                helmert_transformation_table.target_crs_code)
               db.(geodetic_crs) (geodetic_crs.auth_name, geodetic_crs.code);
  fk_helmert_transformation_area :
    references db.(helmert_transformation_table)
               (helmert_transformation_table.area_of_use_auth_name,
                helmert_transformation_table.area_of_use_code)
               db.(area) (area.auth_name, area.code);
  fk_helmert_transformation_method :
    references db.(helmert_transformation_table)
               (helmert_transformation_table.method_auth_name,
                helmert_transformation_table.method_code)
               db.(coordinate_operation_method)
               (coordinate_operation_method.auth_name, coordinate_operation_method.code);
  fk_helmert_translation_uom :
    references db.(helmert_transformation_table)
               (helmert_transformation_table.translation_uom_auth_name,
                helmert_transformation_table.translation_uom_code)
               db.(unit_of_measure) (unit_of_measure.auth_name, unit_of_measure.code);
  fk_helmert_rotation_uom :
    references db.(helmert_transformation_table)
               (helmert_transformation_table.rotation_uom_auth_name,
                helmert_transformation_table.rotation_uom_code)
               db.(unit_of_measure) (unit_of_measure.auth_name, unit_of_measure.code);
  fk_helmert_scale_difference_uom :
    references db.(helmert_transformation_table)
               (helmert_transformation_table.scale_difference_uom_auth_name,
                helmert_transformation_table.scale_difference_uom_code)
               db.(unit_of_measure) (unit_of_measure.auth_name, unit_of_measure.code);
  fk_helmert_rate_translation_uom :
    references db.(helmert_transformation_table)
               (helmert_transformation_table.rate_translation_uom_auth_name,
                helmert_transformation_table.rate_translation_uom_code)
               db.(unit_of_measure) (unit_of_measure.auth_name, unit_of_measure.code);
  fk_helmert_rate_rotation_uom :
    references db.(helmert_transformation_table)
               (helmert_transformation_table.rate_rotation_uom_auth_name,
                helmert_transformation_table.rate_rotation_uom_code)
               db.(unit_of_measure) (unit_of_measure.auth_name, unit_of_measure.code);
  fk_helmert_rate_scale_difference_uom :
    references db.(helmert_transformation_table)
               (helmert_transformation_table.rate_scale_difference_uom_auth_name,
                helmert_transformation_table.rate_scale_difference_uom_code)
               db.(unit_of_measure) (unit_of_measure.auth_name, unit_of_measure.code);
  fk_helmert_epoch_uom :
    references db.(helmert_transformation_table)
               (helmert_transformation_table.epoch_uom_auth_name,
                helmert_transformation_table.epoch_uom_code)
               db.(unit_of_measure) (unit_of_measure.auth_name, unit_of_measure.code);
  fk_helmert_pivot_uom :
    references db.(helmert_transformation_table)
               (helmert_transformation_table.pivot_uom_auth_name,
                helmert_transformation_table.pivot_uom_code)
               db.(unit_of_measure) (unit_of_measure.auth_name, unit_of_measure.code);
  fk_grid_transformation_interpolation_crs :
    references db.(grid_transformation)
               (grid_transformation.interpolation_crs_auth_name,
                grid_transformation.interpolation_crs_code)
               db.(geodetic_crs) (geodetic_crs.auth_name, geodetic_crs.code);
  fk_grid_transformation_transformation_area :
    references db.(grid_transformation)
               (grid_transformation.area_of_use_auth_name,
                grid_transformation.area_of_use_code)
               db.(area) (area.auth_name, area.code);
  fk_grid_alternatives_grid_packages :
    references1 db.(grid_alternatives) grid_alternatives.package_name
                db.(grid_packages) grid_packages.package_name;
  fk_other_transformation_area :
    references db.(other_transformation)
               (other_transformation.area_of_use_auth_name,
                other_transformation.area_of_use_code)
               db.(area) (area.auth_name, area.code);
  fk_other_transformation_paramN_uom :
    references (flat_map other_transformation_params db.(other_transformation))
               (other_transformation.param_uom_auth_name,
                other_transformation.param_uom_code)
               db.(unit_of_measure) (unit_of_measure.auth_name, unit_of_measure.code);
  fk_concatenated_operation_transformation_area :
    references db.(concatenated_operation)
               (concatenated_operation.area_of_use_auth_name,
                concatenated_operation.area_of_use_code)
               db.(area) (area.auth_name, area.code)
}.

(** *** Rows found by their key *)

(** [r] is the row of [t] under the key (a, c). *)
Definition keyed {R} (auth_name code : R -> text) (t : list R) (a c : text) (r : R) : Prop :=
  In r t /\ a <> None /\ c <> None /\ auth_name r = a /\ code r = c.

Definition unit_at (db : database) : text -> text -> unit_of_measure.row -> Prop :=
  keyed unit_of_measure.auth_name unit_of_measure.code db.(unit_of_measure).

Definition ellipsoid_at (db : database) : text -> text -> ellipsoid.row -> Prop :=
  keyed ellipsoid.auth_name ellipsoid.code db.(ellipsoid).

Definition prime_meridian_at (db : database) : text -> text -> prime_meridian.row -> Prop :=
  keyed prime_meridian.auth_name prime_meridian.code db.(prime_meridian).

Definition area_at (db : database) : text -> text -> area.row -> Prop :=
  keyed area.auth_name area.code db.(area).

Definition coordinate_system_at (db : database)
  : text -> text -> coordinate_system.row -> Prop :=
  keyed coordinate_system.auth_name coordinate_system.code db.(coordinate_system).

Definition vertical_crs_at (db : database) : text -> text -> vertical_crs.row -> Prop :=
  keyed vertical_crs.auth_name vertical_crs.code db.(vertical_crs).

Definition conversion_at (db : database) : text -> text -> conversion_table.row -> Prop :=
  keyed conversion_table.auth_name conversion_table.code db.(conversion_table).

(** [v] is the row of [crs_view] under the key (a, c). *)
Definition crs_at (db : database) : text -> text -> crs_view.row -> Prop :=
  keyed crs_view.auth_name crs_view.code (crs_view db).

(** *** Units of measure *)

(** When the two columns of the reference are given, they name a stored unit
    of the type [type]. *)
Definition unit_of_type (db : database) (a c : text) (type : string) : Prop :=
  a <> None -> c <> None ->
  exists u, unit_at db a c u /\ u.(unit_of_measure.type) = txt type.

(** The unit references of a Helmert transformation, each with the type the
    trigger [helmert_transformation_insert_trigger] asks of it. *)
Definition helmert_units (h : helmert_transformation_table.row)
  : list (text * text * string) :=
  [ (h.(helmert_transformation_table.translation_uom_auth_name),
     h.(helmert_transformation_table.translation_uom_code), "length");
    (h.(helmert_transformation_table.rotation_uom_auth_name),
     h.(helmert_transformation_table.rotation_uom_code), "angle");
    (h.(helmert_transformation_table.scale_difference_uom_auth_name),
     h.(helmert_transformation_table.scale_difference_uom_code), "scale");
    (h.(helmert_transformation_table.rate_translation_uom_auth_name),
     h.(helmert_transformation_table.rate_translation_uom_code), "length");
    (h.(helmert_transformation_table.rate_rotation_uom_auth_name),
     h.(helmert_transformation_table.rate_rotation_uom_code), "angle");
    (h.(helmert_transformation_table.rate_scale_difference_uom_auth_name),
     h.(helmert_transformation_table.rate_scale_difference_uom_code), "scale");
    (h.(helmert_transformation_table.epoch_uom_auth_name),
     h.(helmert_transformation_table.epoch_uom_code), "time");
    (h.(helmert_transformation_table.pivot_uom_auth_name),
     h.(helmert_transformation_table.pivot_uom_code), "length") ].

(** *** Coordinate systems *)

(** The pairs (type, dimension) that the rules of [coordinate_system] let in:
    the trigger fixes the dimension of the vertical, Cartesian and ellipsoidal
    types, the [CHECK]s the types and the range 1..3. *)
Definition coordinate_system_shapes : list (string * Z) :=
  [ ("vertical", 1); ("Cartesian", 2); ("Cartesian", 3);
    ("ellipsoidal", 2); ("ellipsoidal", 3);
    ("spherical", 1); ("spherical", 2); ("spherical", 3) ]%Z.

(** The text holds a character, as [length()] counts them: it has a first
    byte, and that byte is not NUL. *)
Definition holds_a_character (a : string) : Prop :=
  exists c rest, a = String c rest /\ c <> Ascii.zero.

(** What [insert_coordinate_system] asks of a row: a key of two columns that
    each hold a character and that is not stored, and a type with a dimension
    it goes with. *)
Definition coordinate_system_admissible (db : database) (r : coordinate_system.row) : Prop :=
  exists a c type dimension,
    r.(coordinate_system.auth_name) = Some a /\ holds_a_character a
    /\ r.(coordinate_system.code) = Some c /\ holds_a_character c
    /\ r.(coordinate_system.type) = Some type
    /\ r.(coordinate_system.dimension) = Some dimension
    /\ In (type, dimension) coordinate_system_shapes
    /\ ~ (exists cs, coordinate_system_at db (Some a) (Some c) cs).

(** *** Definition by references or by text *)

Definition geodetic_datum_at (db : database) : text -> text -> geodetic_datum.row -> Prop :=
  keyed geodetic_datum.auth_name geodetic_datum.code db.(geodetic_datum).

Definition geodetic_crs_at (db : database) : text -> text -> geodetic_crs.row -> Prop :=
  keyed geodetic_crs.auth_name geodetic_crs.code db.(geodetic_crs).

(** Both columns of a reference are given. *)
Definition given (auth_name code : text) : Prop := auth_name <> None /\ code <> None.

(** *** The two ends of a coordinate operation *)

(** The source and the target name rows of [crs_view]; both are in force
    when the operation is in force and is not of the authority ESRI. *)
Definition ends_in_crs_view (db : database) (source target : text * text)
           (deprecated : boolean) (auth_name : text) : Prop :=
  exists s t,
    crs_at db (fst source) (snd source) s
    /\ crs_at db (fst target) (snd target) t
    /\ (deprecated = int 0 -> auth_name <> txt "ESRI" ->
        s.(crs_view.deprecated) = int 0 /\ t.(crs_view.deprecated) = int 0).

(** The same for a Helmert transformation, whose ends are geodetic CRS. *)
Definition ends_in_geodetic_crs (db : database) (source target : text * text)
           (deprecated : boolean) (auth_name : text) : Prop :=
  exists s t,
    geodetic_crs_at db (fst source) (snd source) s
    /\ geodetic_crs_at db (fst target) (snd target) t
    /\ (deprecated = int 0 -> auth_name <> txt "ESRI" ->
        s.(geodetic_crs.deprecated) = int 0 /\ t.(geodetic_crs.deprecated) = int 0).

(** *** The area of use of a coordinate operation *)

(** The area of use names a stored area, in force when the operation is. *)
Definition area_of_use_in_force (db : database) (area_of_use : text * text)
           (deprecated : boolean) : Prop :=
  exists a,
    area_at db (fst area_of_use) (snd area_of_use) a
    /\ (deprecated = int 0 -> a.(area.deprecated) = int 0).

(** *** Grids *)

(** What the trigger of [grid_alternatives] and the foreign key to
    [grid_packages] ask of an alternative beyond its format and method. *)
Definition grid_alternative_sound (db : database) (g : grid_alternatives.row) : Prop :=
  (g.(grid_alternatives.original_grid_name) = txt "null"
   \/ exists t, In t db.(grid_transformation)
                /\ t.(grid_transformation.grid_name) = g.(grid_alternatives.original_grid_name))
  /\ (g.(grid_alternatives.original_grid_name) = g.(grid_alternatives.proj_grid_name) ->
      g.(grid_alternatives.inverse_direction) = int 0)
  /\ (g.(grid_alternatives.url) <> None ->
      g.(grid_alternatives.package_name) = None
      /\ g.(grid_alternatives.direct_download) <> None
      /\ g.(grid_alternatives.open_license) <> None)
  /\ (g.(grid_alternatives.package_name) <> None ->
      exists p, In p db.(grid_packages)
                /\ p.(grid_packages.package_name) = g.(grid_alternatives.package_name)).

(** *** Conversions through the view *)

(** The text that [conversion_method_insert_trigger] looks up in its list:
    [auth_name || '_' || code || '_' || name]. *)
Definition method_id (auth_name code name : string) : string :=
  (((auth_name ++ "_") ++ code) ++ "_") ++ name.

(** The seven parameter slots of a row of the view, each with the name the
    row gives to its parameter. *)
Definition named_params (v : conversion.row) : list (conversion_table.param * text) :=
  [ (conversion_table.param1 (conversion.base v), conversion.param1_name v);
    (conversion_table.param2 (conversion.base v), conversion.param2_name v);
    (conversion_table.param3 (conversion.base v), conversion.param3_name v);
    (conversion_table.param4 (conversion.base v), conversion.param4_name v);
    (conversion_table.param5 (conversion.base v), conversion.param5_name v);
    (conversion_table.param6 (conversion.base v), conversion.param6_name v);
    (conversion_table.param7 (conversion.base v), conversion.param7_name v) ].

(** No name is given for a slot that names no parameter. *)
Definition names_follow_params (v : conversion.row) : Prop :=
  forall p n,
    In (p, n) (named_params v) -> p.(conversion_table.param_auth_name) = None -> n = None.

(** The parameter of the slot [p] is stored under the name [n], or the slot
    names no parameter and [n] is [NULL]. *)
Definition slot_named (db : database) (p : conversion_table.param) (n : text) : Prop :=
  (p.(conversion_table.param_auth_name) = None /\ n = None)
  \/ exists q,
      In q db.(conversion_param)
      /\ truth (and3 (eq3 p.(conversion_table.param_auth_name) q.(conversion_param.auth_name))
                     (eq3 p.(conversion_table.param_code) q.(conversion_param.code))) = true
      /\ q.(conversion_param.name) = n.

(** The triggers [conversion_insert_trigger_param1] to
    [conversion_insert_trigger_param7], one after the other on the slots of a
    row, as [insert_conversion] runs them. *)
Fixpoint conversion_insert_trigger_params (db : database)
         (slots : list (conversion_table.param * text)) : result database :=
  match slots with
  | [] => ok db
  | (p, n) :: rest =>
      bind (conversion_insert_trigger_param db p n)
           (fun db => conversion_insert_trigger_params db rest)
  end.

(** The slot [p] gives the authority and the code of a parameter, the row
    gives its name [n], and [conversion_param] holds the parameter under
    that name. *)
Definition slot_parameter_stored (db : database) (p : conversion_table.param) (n : text)
  : Prop :=
  exists a c s q,
    p.(conversion_table.param_auth_name) = Some a
    /\ p.(conversion_table.param_code) = Some c
    /\ n = Some s
    /\ In q db.(conversion_param)
    /\ q.(conversion_param.auth_name) = Some a
    /\ q.(conversion_param.code) = Some c
    /\ q.(conversion_param.name) = Some s.

(** The parameter that the slot [p] names is stored, under another name than
    [n]. *)
Definition stored_under_another_name (db : database) (p : conversion_table.param)
           (n : text) : Prop :=
  exists q,
    In q db.(conversion_param)
    /\ p.(conversion_table.param_auth_name) <> None
    /\ q.(conversion_param.auth_name) = p.(conversion_table.param_auth_name)
    /\ q.(conversion_param.code) = p.(conversion_table.param_code)
    /\ q.(conversion_param.name) <> n.

(** *** The shape of an ellipsoid *)

(** A positive semi-major axis with either an inverse flattening that is 0
    (a sphere) or at least 1, or a positive semi-minor axis that is not above
    the semi-major axis. *)
Definition ellipsoid_shape (e : ellipsoid.row) : Prop :=
  exists a,
    e.(ellipsoid.semi_major_axis) = Some a /\ (0 < a)%Q
    /\ ((exists f,
            e.(ellipsoid.inv_flattening) = Some f
            /\ e.(ellipsoid.semi_minor_axis) = None
            /\ ((f == 0)%Q \/ (1 <= f)%Q))
        \/ (exists b,
               e.(ellipsoid.semi_minor_axis) = Some b
               /\ e.(ellipsoid.inv_flattening) = None
               /\ (0 < b)%Q /\ (b <= a)%Q)).

(** *** The tables around the registry *)

(** Every table of [p'] begins with the same table of [p]. *)
Record proj_extends (p p' : proj_db) : Prop := {
  extends_tables : extends p.(tables) p'.(tables);
  extends_metadata : begins p.(metadata) p'.(metadata);
  extends_geodetic_datum_preferred_hub :
    begins p.(geodetic_datum_preferred_hub) p'.(geodetic_datum_preferred_hub);
  extends_axis : begins p.(axis) p'.(axis);
  extends_alias_name : begins p.(alias_name) p'.(alias_name);
  extends_supersession : begins p.(supersession) p'.(supersession);
  extends_deprecation : begins p.(deprecation) p'.(deprecation);
  extends_authority_to_authority_preference :
    begins p.(authority_to_authority_preference) p'.(authority_to_authority_preference)
}.

(** The row that a statement on one of these tables carries is a row of its
    table. *)
Definition proj_row_stored (p : proj_db) (s : proj_statement) : Prop :=
  match s with
  | INSERT _ => False
  | INSERT_INTO_metadata r => In r p.(metadata)
  | INSERT_INTO_geodetic_datum_preferred_hub r => In r p.(geodetic_datum_preferred_hub)
  | INSERT_INTO_axis r => In r p.(axis)
  | INSERT_INTO_alias_name r => In r p.(alias_name)
  | INSERT_INTO_supersession r => In r p.(supersession)
  | INSERT_INTO_deprecation r => In r p.(deprecation)
  | INSERT_INTO_authority_to_authority_preference r =>
      In r p.(authority_to_authority_preference)
  end.

(** The store with the row of the statement. *)
Definition proj_stored (p : proj_db) (s : proj_statement) : proj_db :=
  match s with
  | INSERT _ => p
  | INSERT_INTO_metadata r => append_metadata p r
  | INSERT_INTO_geodetic_datum_preferred_hub r => append_geodetic_datum_preferred_hub p r
  | INSERT_INTO_axis r => append_axis p r
  | INSERT_INTO_alias_name r => append_alias_name p r
  | INSERT_INTO_supersession r => append_supersession p r
  | INSERT_INTO_deprecation r => append_deprecation p r
  | INSERT_INTO_authority_to_authority_preference r =>
      append_authority_to_authority_preference p r
  end.

(** The row was admitted by the [INSERT] of its table into a reachable store
    that [p] extends. *)
Definition proj_admitted_before (p : proj_db) (s : proj_statement) : Prop :=
  exists p0,
    proj_reachable p0 /\ proj_execute p0 s = inr (proj_stored p0 s)
    /\ proj_extends (proj_stored p0 s) p.

(** The three columns name a row of [object_view]. *)
Definition names_object (p : proj_db) (table_name auth_name code : text) : Prop :=
  table_name <> None /\ auth_name <> None /\ code <> None
  /\ exists o,
      In o (object_view p)
      /\ o.(object_view.table_name) = table_name
      /\ o.(object_view.auth_name) = auth_name
      /\ o.(object_view.code) = code.

(** The authorities of the rows that [authority_list] selects from. *)
Definition listed_authorities (p : proj_db) : list text :=
  map unit_of_measure.auth_name p.(tables).(unit_of_measure)
  ++ map celestial_body.auth_name p.(tables).(celestial_body)
  ++ map ellipsoid.auth_name p.(tables).(ellipsoid)
  ++ map area.auth_name p.(tables).(area)
  ++ map prime_meridian.auth_name p.(tables).(prime_meridian)
  ++ map geodetic_datum.auth_name p.(tables).(geodetic_datum)
  ++ map vertical_datum.auth_name p.(tables).(vertical_datum)
  ++ map axis.auth_name p.(axis)
  ++ map crs_view.auth_name (crs_view p.(tables))
  ++ map coordinate_operation_view.auth_name (coordinate_operation_view p.(tables)).

(** The [PRIMARY KEY] of [metadata] and of [axis], and the [UNIQUE]
    constraints of [geodetic_datum_preferred_hub] and of
    [authority_to_authority_preference], hold. *)
Record around_keys_unique (p : proj_db) : Prop := {
  pk_metadata : unique_key metadata.key p.(metadata);
  pk_axis : unique_keys axis.auth_name axis.code p.(axis);
  unique_geodetic_datum_preferred_hub :
    NoDup (map (fun r => (r.(geodetic_datum_preferred_hub.src_auth_name),
                          r.(geodetic_datum_preferred_hub.src_code),
                          r.(geodetic_datum_preferred_hub.hub_auth_name),
                          r.(geodetic_datum_preferred_hub.hub_code)))
               p.(geodetic_datum_preferred_hub));
  unique_authority_to_authority_preference :
    NoDup (map (fun r => (r.(authority_to_authority_preference.source_auth_name),
                          r.(authority_to_authority_preference.target_auth_name)))
               p.(authority_to_authority_preference))
}.

(** The statement stores into a table with a [PRIMARY KEY] or a [UNIQUE]
    constraint. *)
Definition has_key (s : proj_statement) : bool :=
  match s with
  | INSERT_INTO_metadata _ | INSERT_INTO_axis _
  | INSERT_INTO_geodetic_datum_preferred_hub _
  | INSERT_INTO_authority_to_authority_preference _ => true
  | INSERT _ | INSERT_INTO_alias_name _ | INSERT_INTO_supersession _
  | INSERT_INTO_deprecation _ => false
  end.

(** The columns by which [alias_name], [supersession] and [deprecation] name
    a row of [object_view]. *)
Definition object_key (o : object_view.row) : text * text * text :=
  (o.(object_view.table_name), o.(object_view.auth_name), o.(object_view.code)).

(** * Properties *)

(** ** Three-valued conditions *)

Lemma truth_and3 (a b : tri) : truth (and3 a b) = truth a && truth b.
Proof. destruct a as [[|]|], b as [[|]|]; reflexivity. Qed.

Lemma truth_or3 (a b : tri) : truth (or3 a b) = truth a || truth b.
Proof. destruct a as [[|]|], b as [[|]|]; reflexivity. Qed.

Lemma truth_not3_true (a : tri) : truth (not3 a) = true <-> a = Some false.
Proof. destruct a as [[|]|]; simpl; split; congruence. Qed.

Lemma truth_exists (R : Type) (t : list R) (p : R -> tri) :
  truth (exists_ t p) = existsb (fun r => truth (p r)) t.
Proof. unfold exists_. simpl. destruct (existsb _ t); reflexivity. Qed.

Lemma truth_not_exists (R : Type) (t : list R) (p : R -> tri) :
  truth (not3 (exists_ t p)) = negb (existsb (fun r => truth (p r)) t).
Proof. unfold exists_. simpl. destruct (existsb _ t); reflexivity. Qed.

Lemma truth_is_null (A : Type) (x : option A) :
  truth (is_null x) = true <-> x = None.
Proof. destruct x; simpl; split; congruence. Qed.

Lemma truth_is_not_null (A : Type) (x : option A) :
  truth (is_not_null x) = true <-> x <> None.
Proof. destruct x; simpl; split; congruence. Qed.

Lemma truth_eq_text (x y : text) :
  truth (eq3 x y) = true <-> exists s, x = Some s /\ y = Some s.
Proof.
  destruct x as [a|], y as [b|]; simpl; split;
    try discriminate; try (intros [s [? ?]]; discriminate).
  - destruct (String.eqb_spec a b) as [->|]; [eauto | discriminate].
  - intros [s [Ha Hb]]. injection Ha as ->. injection Hb as ->.
    now rewrite String.eqb_refl.
Qed.

Lemma truth_eq_text_some (x : text) (s : string) :
  truth (eq3 x (Some s)) = true <-> x = Some s.
Proof.
  rewrite truth_eq_text. split.
  - intros [s' [-> E]]. now injection E as ->.
  - intros ->. eauto.
Qed.

Lemma truth_eq_int_some (x : integer) (z : Z) :
  truth (eq3 x (Some z)) = true <-> x = Some z.
Proof.
  destruct x as [a|]; simpl; [|split; discriminate].
  destruct (Z.eqb_spec a z) as [->|]; split; congruence.
Qed.

Lemma truth_ne_int_some (x : integer) (z : Z) :
  truth (ne3 x (Some z)) = true <-> exists a, x = Some a /\ a <> z.
Proof.
  destruct x as [a|]; simpl.
  - destruct (Z.eqb_spec a z) as [->|]; simpl; split; try discriminate; eauto.
    intros [b [E N]]. injection E as ->. congruence.
  - split; [discriminate | intros [a [? ?]]; discriminate].
Qed.

(** ** Running a trigger and the constraints *)

Lemma run_trigger_ok (body : list raise) :
  run_trigger body = inr tt <-> silent body = true.
Proof.
  induction body as [|s rest IH]; simpl.
  - split; reflexivity.
  - destruct (truth (condition s)); simpl.
    + split; discriminate.
    + exact IH.
Qed.

Lemma run_trigger_raises (body : list raise) (e : error) :
  run_trigger body = inl e ->
  exists s, In s body /\ truth (condition s) = true /\ e = RaiseAbort (message s).
Proof.
  induction body as [|s rest IH]; simpl; [discriminate|].
  destruct (truth (condition s)) eqn:E.
  - intros [= <-]. exists s. auto.
  - intros H. destruct (IH H) as [s' [? ?]]. exists s'. auto.
Qed.

Lemma run_constraints_ok (cs : list constraint) :
  run_constraints cs = inr tt <-> forallb satisfied cs = true.
Proof.
  induction cs as [|c rest IH]; simpl.
  - split; reflexivity.
  - destruct (satisfied c); simpl.
    + exact IH.
    + split; discriminate.
Qed.

Lemma insert_ok (DB : Type) (body : list raise) (cs : list constraint) (stored db' : DB) :
  insert body cs stored = inr db' <->
  silent body = true /\ forallb satisfied cs = true /\ db' = stored.
Proof.
  unfold insert, bind.
  destruct (run_trigger body) as [e|[]] eqn:T.
  - split; [discriminate|]. intros [S _].
    apply run_trigger_ok in S. congruence.
  - apply run_trigger_ok in T.
    destruct (run_constraints cs) as [e|[]] eqn:C.
    + split; [discriminate|]. intros [_ [S _]].
      apply run_constraints_ok in S. congruence.
    + apply run_constraints_ok in C. unfold ok.
      split; [intros [= <-]; auto | intros [_ [_ ->]]; reflexivity].
Qed.

(** A statement that raises aborts the [INSERT] with its message when no
    earlier statement of the body raised. *)
Lemma insert_raises (DB : Type) (before after : list raise) (s : raise)
      (cs : list constraint) (stored : DB) :
  silent before = true ->
  truth (condition s) = true ->
  insert (before ++ s :: after) cs stored = inl (RaiseAbort (message s)).
Proof.
  intros B T. unfold insert.
  assert (run_trigger (before ++ s :: after) = inl (RaiseAbort (message s))) as ->;
    [|reflexivity].
  induction before as [|b before IH]; simpl in *.
  - now rewrite T.
  - apply andb_true_iff in B as [Hb B].
    apply negb_true_iff in Hb. rewrite Hb. auto.
Qed.


(** ** Scripts and reachability *)

Lemma run_app (db : database) (s1 s2 : list statement) :
  run db (s1 ++ s2)%list = bind (run db s1) (fun db' => run db' s2).
Proof.
  revert db. induction s1 as [|s rest IH]; intros db; simpl; [reflexivity|].
  destruct (execute db s) as [e|db']; simpl; auto.
Qed.

Lemma run_reachable (script : list statement) (db db' : database) :
  reachable db -> run db script = inr db' -> reachable db'.
Proof.
  revert db. induction script as [|s rest IH]; intros db R; simpl.
  - intros [= <-]. exact R.
  - destruct (execute db s) as [e|db1] eqn:E; simpl; [discriminate|].
    apply IH. exact (reachable_execute db s db1 R E).
Qed.

Lemma table_script_nil (db : database) : table_script db db.
Proof. exists []. split; reflexivity. Qed.

Lemma table_script_one (db db' : database) (s : statement) :
  on_table s = true -> execute db s = inr db' -> table_script db db'.
Proof.
  intros T E. exists [s]. split; simpl.
  - now rewrite T.
  - now rewrite E.
Qed.

Lemma table_script_trans (db1 db2 db3 : database) :
  table_script db1 db2 -> table_script db2 db3 -> table_script db1 db3.
Proof.
  intros [s1 [T1 R1]] [s2 [T2 R2]]. exists (s1 ++ s2)%list. split.
  - rewrite forallb_app, T1, T2. reflexivity.
  - rewrite run_app, R1. exact R2.
Qed.

Lemma conversion_insert_trigger_method_script (db db' : database) (NEW : conversion.row) :
  conversion_insert_trigger_method db NEW = inr db' -> table_script db db'.
Proof.
  unfold conversion_insert_trigger_method.
  destruct (truth _).
  - intros E. eapply (table_script_one _ _ (INSERT_INTO_conversion_method _)); [reflexivity|].
    exact E.
  - intros [= <-]. apply table_script_nil.
Qed.

Lemma conversion_insert_trigger_param_script (db db' : database)
      (p : conversion_table.param) (n : text) :
  conversion_insert_trigger_param db p n = inr db' -> table_script db db'.
Proof.
  unfold conversion_insert_trigger_param.
  destruct (truth _).
  - intros E. eapply (table_script_one _ _ (INSERT_INTO_conversion_param _)); [reflexivity|].
    exact E.
  - intros [= <-]. apply table_script_nil.
Qed.

Lemma bind_ok (A B : Type) (m : result A) (k : A -> result B) (b : B) :
  bind m k = inr b -> exists a, m = inr a /\ k a = inr b.
Proof. destruct m as [e|a]; simpl; [discriminate | eauto]. Qed.

Lemma insert_conversion_script (db db' : database) (NEW : conversion.row) :
  insert_conversion db NEW = inr db' -> table_script db db'.
Proof.
  unfold insert_conversion. intros H.
  apply bind_ok in H as [d0 [H0 H]].
  apply conversion_insert_trigger_method_script in H0.
  repeat (let d := fresh "d" in
          let Hs := fresh "Hs" in
          apply bind_ok in H as [d [Hs H]];
          apply conversion_insert_trigger_param_script in Hs).
  repeat (eapply table_script_trans; [eassumption|]).
  eapply (table_script_one _ _ (INSERT_INTO_conversion_table _)); [reflexivity|].
  exact H.
Qed.

Lemma insert_helmert_transformation_script (db db' : database)
      (NEW : helmert_transformation.row) :
  insert_helmert_transformation db NEW = inr db' -> table_script db db'.
Proof.
  unfold insert_helmert_transformation. intros H.
  apply bind_ok in H as [d0 [H0 H]].
  apply table_script_trans with d0.
  - unfold helmert_transformation_insert_trigger_method in H0.
    destruct (truth _).
    + eapply (table_script_one _ _ (INSERT_INTO_coordinate_operation_method _));
        [reflexivity | exact H0].
    + injection H0 as <-. apply table_script_nil.
  - eapply (table_script_one _ _ (INSERT_INTO_helmert_transformation_table _));
      [reflexivity | exact H].
Qed.

Lemma execute_script (db db' : database) (s : statement) :
  execute db s = inr db' -> table_script db db'.
Proof.
  destruct s;
    try (match goal with
         | |- execute _ ?s = _ -> _ =>
             intros E; apply (table_script_one _ _ s); [reflexivity | exact E]
         end).
  - apply insert_conversion_script.
  - apply insert_helmert_transformation_script.
Qed.

(** Induction over the reachable stores, one table [INSERT] at a time. *)
Theorem reachable_table_ind (P : database -> Prop) :
  P empty_database ->
  (forall db s db',
      on_table s = true -> reachable db -> P db -> execute db s = inr db' -> P db') ->
  forall db, reachable db -> P db.
Proof.
  intros P0 Pstep db R.
  induction R as [|db s db' R IH E]; [exact P0|].
  apply execute_script in E as [script [T E]].
  clear s. revert db R IH E.
  induction script as [|s rest IHs]; intros db R IH; simpl.
  - intros [= <-]. exact IH.
  - simpl in T. apply andb_true_iff in T as [Ts T].
    destruct (execute db s) as [e|db1] eqn:E1; simpl; [discriminate|].
    apply (IHs T db1).
    + exact (reachable_execute db s db1 R E1).
    + exact (Pstep db s db1 Ts R IH E1).
Qed.

Lemma execute_stored (db db' : database) (s : statement) :
  on_table s = true -> execute db s = inr db' -> db' = stored db s.
Proof.
  destruct s; simpl; try discriminate; intros _ E;
    apply insert_ok in E as [_ [_ ->]]; reflexivity.
Qed.

(** ** Stored rows were admitted *)

Ltac stored_step IH :=
  match goal with
  | T : on_table ?s = true, E : execute ?db ?s = inr ?db' |- _ =>
      let E' := fresh "E" in
      pose proof (execute_stored db db' s T E) as E'; subst db';
      destruct s; try discriminate T; simpl in *; try (exact IH)
  end.

Ltac by_reachable_table_ind :=
  match goal with
  | |- forall db, reachable db -> @?P db => apply (reachable_table_ind P)
  end.

Lemma ellipsoid_rows_admitted (db : database) :
  reachable db ->
  forall e, In e db.(ellipsoid) ->
  exists db0 db1, reachable db0 /\ insert_ellipsoid db0 e = inr db1.
Proof.
  revert db. by_reachable_table_ind.
  - intros e [].
  - intros db s db' T R IH E. stored_step IH.
    intros e I. apply in_app_iff in I as [I|[<-|[]]]; eauto.
Qed.

Lemma area_rows_admitted (db : database) :
  reachable db ->
  forall a, In a db.(area) ->
  exists db0 db1, reachable db0 /\ insert_area db0 a = inr db1.
Proof.
  revert db. by_reachable_table_ind.
  - intros e [].
  - intros db s db' T R IH E. stored_step IH.
    intros e I. apply in_app_iff in I as [I|[<-|[]]]; eauto.
Qed.

(** ** Ellipsoid *)

Lemma ellipsoid_admitted_exactly_one (db db' : database) (NEW : ellipsoid.row) :
  insert_ellipsoid db NEW = inr db' ->
  exactly_one NEW.(ellipsoid.inv_flattening) NEW.(ellipsoid.semi_minor_axis).
Proof.
  intros H. apply insert_ok in H as [S _].
  unfold silent, ellipsoid_insert_trigger in S. simpl in S.
  apply andb_true_iff in S as [S _]. apply negb_true_iff in S.
  unfold exactly_one.
  destruct (ellipsoid.inv_flattening NEW), (ellipsoid.semi_minor_axis NEW);
    simpl in S; try discriminate; [left | right]; split; congruence.
Qed.

(** C3. Exactly one of inverse flattening and semi-minor axis is present in
    every admitted ellipsoid, at the [INSERT] and in every reachable store;
    an [INSERT] with both [NULL], or with both set, aborts with the message
    of the "inv_flattening (exclusive) or semi_minor_axis" rule. *)
Theorem ellipsoid_exactly_one_shape_parameter :
  (forall db NEW db',
      insert_ellipsoid db NEW = inr db' ->
      exactly_one NEW.(ellipsoid.inv_flattening) NEW.(ellipsoid.semi_minor_axis))
  /\ (forall db e,
         reachable db -> In e db.(ellipsoid) ->
         exactly_one e.(ellipsoid.inv_flattening) e.(ellipsoid.semi_minor_axis))
  /\ (forall db NEW,
         ~ exactly_one NEW.(ellipsoid.inv_flattening) NEW.(ellipsoid.semi_minor_axis) ->
         insert_ellipsoid db NEW
         = inl (RaiseAbort "insert on ellipsoid violates constraint: inv_flattening (exclusive) or semi_minor_axis should be defined")).
Proof.
  split; [|split].
  - intros db NEW db'. apply ellipsoid_admitted_exactly_one.
  - intros db e R I.
    destruct (ellipsoid_rows_admitted db R e I) as [db0 [db1 [_ H]]].
    exact (ellipsoid_admitted_exactly_one _ _ _ H).
  - intros db NEW N. unfold insert_ellipsoid, ellipsoid_insert_trigger.
    apply (insert_raises _ []); [reflexivity|]. simpl.
    unfold exactly_one in N.
    destruct (ellipsoid.inv_flattening NEW), (ellipsoid.semi_minor_axis NEW);
      simpl; try reflexivity; exfalso; apply N;
      [left | right]; split; congruence.
Qed.

Lemma ellipsoid_exactly_one_shape_parameter_witness :
  exactly_one Sample.WGS_84_ellipsoid.(ellipsoid.inv_flattening)
              Sample.WGS_84_ellipsoid.(ellipsoid.semi_minor_axis)
  /\ (forall e, In e (Sample.built Sample.shapes).(ellipsoid) ->
        exactly_one e.(ellipsoid.inv_flattening) e.(ellipsoid.semi_minor_axis))
  /\ insert_ellipsoid (Sample.built Sample.units) Sample.shapeless_ellipsoid
     = inl (RaiseAbort "insert on ellipsoid violates constraint: inv_flattening (exclusive) or semi_minor_axis should be defined").
Proof.
  destruct ellipsoid_exactly_one_shape_parameter as [admitted [kept rejected]].
  split; [|split].
  - apply (admitted (Sample.built Sample.units) Sample.WGS_84_ellipsoid
                    (append_ellipsoid (Sample.built Sample.units) Sample.WGS_84_ellipsoid)).
    vm_compute. reflexivity.
  - intros e. apply kept.
    apply (run_reachable Sample.shapes empty_database); [constructor|].
    vm_compute. reflexivity.
  - apply rejected. intros [[N _]|[_ N]]; apply N; reflexivity.
Defined.

(** ** Area *)

(** [round_double] at some values: a double is kept, 0.1 goes to the double
    nearest to it, a value half way between two doubles goes to the one with
    the even significand, and [200 + 2^-48] goes to 200. *)
Lemma round_double_values :
  (round_double 200 == 200)%Q
  /\ (round_double 0.1 == 3602879701896397 # 36028797018963968)%Q
  /\ (round_double (inject_Z (2 ^ 53 + 1)) == inject_Z (2 ^ 53))%Q
  /\ (round_double (inject_Z (2 ^ 53 + 3)) == inject_Z (2 ^ 53 + 4))%Q
  /\ (round_double (200 + (1 # 281474976710656)) == 200)%Q.
Proof. repeat split; apply Qeq_bool_iff; vm_compute; reflexivity. Qed.

(** What the two statements of [area_insert_trigger] ask, no more and no
    less. *)
Lemma area_silent_iff (db : database) (NEW : area.row) :
  silent (area_insert_trigger db NEW) = true <-> ordered_bounds_in_doubles NEW.
Proof.
  unfold silent, area_insert_trigger, ordered_bounds_in_doubles. simpl.
  rewrite !andb_true_iff, !negb_true_iff.
  destruct (area.south_lat NEW) as [s|], (area.north_lat NEW) as [n|],
           (area.west_lon NEW) as [w|], (area.east_lon NEW) as [e|]; simpl;
    (split;
     [ intros [S1 [S2 _]]; split;
       [ intros s' n' [= <-] [= <-] || (intros s' n' Hs Hn; discriminate)
       | intros w' e' [= <-] [= <-] || (intros w' e' Hw He; discriminate) ]
     | intros [S W]; split; [|split; [|reflexivity]] ]);
    try reflexivity.
  all: try (apply Qle_bool_iff; now destruct (Qle_bool s n)).
  all: try (destruct (Qle_bool w e) eqn:E1;
            [ left; now apply Qle_bool_iff
            | right; apply Qle_bool_iff;
              now destruct (Qle_bool (round_double (round_double (e + 360) - w)) 200) ]).
  all: try (specialize (S s n eq_refl eq_refl); apply Qle_bool_iff in S; now rewrite S).
  all: try (destruct (W w e eq_refl eq_refl) as [L|L]; apply Qle_bool_iff in L;
            rewrite L; [reflexivity | now destruct (Qle_bool w e)]).
Qed.

Lemma area_admitted_ordered (db db' : database) (NEW : area.row) :
  insert_area db NEW = inr db' -> ordered_bounds_in_doubles NEW.
Proof.
  intros H. apply insert_ok in H as [S _]. exact (proj1 (area_silent_iff db NEW) S).
Qed.

Lemma area_unbounded_silent (db : database) (NEW : area.row) :
  unbounded NEW -> run_trigger (area_insert_trigger db NEW) = inr tt.
Proof.
  intros [S W]. apply run_trigger_ok, area_silent_iff. split.
  - intros s n Hs Hn. destruct S; congruence.
  - intros w e Hw He. destruct W; congruence.
Qed.

(** C4, as the claim states it, fails: the double next below -20 as western
    bound and -180 as eastern bound make a box of [200 + 2^-48] degrees; the
    sum of the trigger rounds to 200 and the row is stored, though neither
    [west <= east] nor [east + 360 - west <= 200] holds of it. *)
Lemma area_bounds_counterexample :
  ~ (forall db NEW db',
        reachable db -> insert_area db NEW = inr db' -> ordered_bounds NEW).
Proof.
  intros H.
  destruct (H (Sample.built Sample.units) Sample.next_below_twenty
              (append_area (Sample.built Sample.units) Sample.next_below_twenty))
    as [_ B].
  - apply (run_reachable Sample.units empty_database); [constructor|].
    vm_compute. reflexivity.
  - vm_compute. reflexivity.
  - destruct (B _ _ eq_refl eq_refl) as [L|L];
      apply Qle_bool_iff in L; vm_compute in L; discriminate.
Qed.

(** C4, amended. Every admitted area has, on the bounds it gives,
    south <= north and either west <= east or east + 360 - west <= 200 with
    the sum taken in doubles, at the [INSERT] and in every reachable store; an
    [INSERT] of an area with south 10 and north 5 aborts on the
    "south_lat <= north_lat" rule; the trigger asks nothing of a row that
    leaves a bound of each pair NULL, and raises no error exactly when the
    bounds that are given are so ordered. *)
Theorem area_bounds_ordered :
  (forall db NEW db', insert_area db NEW = inr db' -> ordered_bounds_in_doubles NEW)
  /\ (forall db a, reachable db -> In a db.(area) -> ordered_bounds_in_doubles a)
  /\ (forall db NEW,
         NEW.(area.south_lat) = num 10 -> NEW.(area.north_lat) = num 5 ->
         insert_area db NEW
         = inl (RaiseAbort "insert on area violates constraint: south_lat <= north_lat"))
  /\ (forall db NEW,
         unbounded NEW ->
         insert_area db NEW = insert [] (area_constraints db NEW) (append_area db NEW))
  /\ (forall db NEW,
         run_trigger (area_insert_trigger db NEW) = inr tt
         <-> ordered_bounds_in_doubles NEW).
Proof.
  split; [|split; [|split; [|split]]].
  - intros db NEW db'. apply area_admitted_ordered.
  - intros db a R I.
    destruct (area_rows_admitted db R a I) as [db0 [db1 [_ H]]].
    exact (area_admitted_ordered _ _ _ H).
  - intros db NEW S N. unfold insert_area, area_insert_trigger.
    apply (insert_raises _ []); [reflexivity|]. simpl.
    rewrite S, N. reflexivity.
  - intros db NEW U. unfold insert_area, insert.
    now rewrite (area_unbounded_silent db NEW U).
  - intros db NEW. rewrite run_trigger_ok. apply area_silent_iff.
Qed.

Lemma area_bounds_ordered_witness :
  ordered_bounds_in_doubles Sample.chatham
  /\ ordered_bounds_in_doubles Sample.next_below_twenty
  /\ (forall a, In a (Sample.built Sample.shapes).(area) -> ordered_bounds_in_doubles a)
  /\ insert_area (Sample.built Sample.shapes) Sample.upside_down
     = inl (RaiseAbort "insert on area violates constraint: south_lat <= north_lat")
  /\ insert_area (Sample.built Sample.shapes) Sample.nowhere
     = inr (append_area (Sample.built Sample.shapes) Sample.nowhere).
Proof.
  destruct area_bounds_ordered as [admitted [kept [rejected [nothing_asked _]]]].
  split; [|split; [|split; [|split]]].
  - apply (admitted (Sample.built Sample.units) Sample.chatham
                    (append_area (Sample.built Sample.units) Sample.chatham)).
    vm_compute. reflexivity.
  - apply (admitted (Sample.built Sample.units) Sample.next_below_twenty
                    (append_area (Sample.built Sample.units) Sample.next_below_twenty)).
    vm_compute. reflexivity.
  - intros a. apply kept.
    apply (run_reachable Sample.shapes empty_database); [constructor|].
    vm_compute. reflexivity.
  - apply rejected; reflexivity.
  - rewrite (nothing_asked (Sample.built Sample.shapes) Sample.nowhere).
    + vm_compute. reflexivity.
    + split; left; reflexivity.
Defined.

(** ** Grid alternatives *)

Lemma grid_alternatives_rows_admitted (db : database) :
  reachable db ->
  forall g, In g db.(grid_alternatives) ->
  exists db0 db1, reachable db0 /\ insert_grid_alternatives db0 g = inr db1.
Proof.
  revert db. by_reachable_table_ind.
  - intros e [].
  - intros db s db' T R IH E. stored_step IH.
    intros e I. apply in_app_iff in I as [I|[<-|[]]]; eauto.
Qed.

Lemma grid_alternatives_admitted_paired (db db' : database) (NEW : grid_alternatives.row) :
  insert_grid_alternatives db NEW = inr db' -> format_method_paired NEW.
Proof.
  intros H. apply insert_ok in H as [S [C _]].
  unfold silent, grid_alternatives_insert_trigger in S.
  cbn [forallb condition] in S.
  apply andb_true_iff in S as [_ S]. apply andb_true_iff in S as [_ S].
  apply andb_true_iff in S as [S3 S]. apply andb_true_iff in S as [S4 _].
  apply negb_true_iff in S3, S4.
  unfold grid_alternatives_constraints in C. cbn [forallb satisfied NOT_NULL] in C.
  repeat (apply andb_true_iff in C as [? C]).
  destruct (grid_alternatives.proj_method NEW) as [m|] eqn:M; [|discriminate].
  unfold format_method_paired. split.
  - intros F.
    assert (truth (in_values (grid_alternatives.proj_grid_format NEW)
                             ["CTable2"; "NTv1"; "NTv2"]) = true) as I.
    { destruct F as [<-|[<-|[<-|[]]]]; reflexivity. }
    rewrite truth_and3, I, andb_true_r in S3.
    simpl in S3. destruct (String.eqb_spec m "hgridshift"); [subst|discriminate].
    exact M.
  - intros F. rewrite F in S4.
    rewrite truth_and3, andb_true_r in S4.
    simpl in S4. destruct (String.eqb_spec m "vgridshift"); [subst|discriminate].
    exact M.
Qed.

(** C7. In every admitted grid alternative the formats CTable2, NTv1 and NTv2
    go with the method hgridshift and the format GTX with vgridshift, at the
    [INSERT] and in every reachable store; an [INSERT] that pairs a format
    with the other method aborts on the rule of that format. *)
Theorem grid_alternatives_format_method :
  (forall db NEW db',
      insert_grid_alternatives db NEW = inr db' -> format_method_paired NEW)
  /\ (forall db g,
         reachable db -> In g db.(grid_alternatives) -> format_method_paired g)
  /\ (forall db NEW,
         In NEW.(grid_alternatives.proj_grid_format) [txt "CTable2"; txt "NTv1"; txt "NTv2"] ->
         NEW.(grid_alternatives.proj_method) = txt "vgridshift" ->
         insert_grid_alternatives db NEW
         = inl (RaiseAbort "insert on grid_alternatives violates constraint: proj_method must be 'hgridshift' when proj_grid_format is 'CTable2', 'NTv1', 'NTv2'"))
  /\ (forall db NEW,
         NEW.(grid_alternatives.proj_grid_format) = txt "GTX" ->
         NEW.(grid_alternatives.proj_method) = txt "hgridshift" ->
         insert_grid_alternatives db NEW
         = inl (RaiseAbort "insert on grid_alternatives violates constraint: proj_method must be 'vridshift' when proj_grid_format is 'GTX'")).
Proof.
  split; [|split; [|split]].
  - intros db NEW db'. apply grid_alternatives_admitted_paired.
  - intros db g R I.
    destruct (grid_alternatives_rows_admitted db R g I) as [db0 [db1 [_ H]]].
    exact (grid_alternatives_admitted_paired _ _ _ H).
  - intros db NEW F M.
    unfold insert_grid_alternatives, insert, grid_alternatives_insert_trigger.
    cbn [run_trigger condition message]. rewrite M.
    destruct F as [<-|[<-|[<-|[]]]]; reflexivity.
  - intros db NEW F M.
    unfold insert_grid_alternatives, insert, grid_alternatives_insert_trigger.
    cbn [run_trigger condition message]. rewrite M, F. reflexivity.
Qed.

Lemma grid_alternatives_format_method_witness :
  format_method_paired Sample.ntv2_grid
  /\ (forall g, In g (Sample.built Sample.grids).(grid_alternatives) ->
        format_method_paired g)
  /\ insert_grid_alternatives empty_database Sample.ntv2_grid_vertical
     = inl (RaiseAbort "insert on grid_alternatives violates constraint: proj_method must be 'hgridshift' when proj_grid_format is 'CTable2', 'NTv1', 'NTv2'")
  /\ insert_grid_alternatives empty_database Sample.gtx_grid_horizontal
     = inl (RaiseAbort "insert on grid_alternatives violates constraint: proj_method must be 'vridshift' when proj_grid_format is 'GTX'").
Proof.
  destruct grid_alternatives_format_method as [admitted [kept [horizontal vertical]]].
  split; [|split; [|split]].
  - apply (admitted empty_database Sample.ntv2_grid
                    (append_grid_alternatives empty_database Sample.ntv2_grid)).
    vm_compute. reflexivity.
  - intros g. apply kept.
    apply (run_reachable Sample.grids empty_database); [constructor|].
    vm_compute. reflexivity.
  - apply horizontal; [right; right; left|]; reflexivity.
  - apply vertical; reflexivity.
Defined.

(** ** Keys in a table or a view *)

Lemma exists_key_true (R : Type) (ka kc : R -> text) (l : list R) (a c : string) (r : R) :
  In r l -> ka r = Some a -> kc r = Some c ->
  truth (exists_ l (fun r => and3 (eq3 (ka r) (Some a)) (eq3 (kc r) (Some c)))) = true.
Proof.
  intros I A C. rewrite truth_exists. apply existsb_exists. exists r. split; [exact I|].
  rewrite truth_and3, A, C. simpl. now rewrite !String.eqb_refl.
Qed.

Lemma exists_key_inv (R : Type) (ka kc : R -> text) (l : list R) (x y : text) :
  truth (exists_ l (fun r => and3 (eq3 (ka r) x) (eq3 (kc r) y))) = true ->
  exists r a c, In r l /\ x = Some a /\ y = Some c /\ ka r = Some a /\ kc r = Some c.
Proof.
  rewrite truth_exists. intros H. apply existsb_exists in H as [r [I H]].
  rewrite truth_and3 in H. apply andb_true_iff in H as [Ha Hc].
  apply truth_eq_text in Ha as [a [Ha ->]]. apply truth_eq_text in Hc as [c [Hc ->]].
  exists r, a, c. auto.
Qed.

Lemma exists_key_false (R : Type) (ka kc : R -> text) (l : list R) (a c : string) :
  truth (exists_ l (fun r => and3 (eq3 (ka r) (Some a)) (eq3 (kc r) (Some c)))) = false ->
  forall r, In r l -> ~ (ka r = Some a /\ kc r = Some c).
Proof.
  intros F r I [A C]. rewrite (exists_key_true R ka kc l a c r I A C) in F. discriminate.
Qed.

(** ** Left joins keep every row of their left side *)

Lemma in_left_join_fst (L R : Type) (l : list L) (r : list R) (on : L -> R -> tri)
      (x : L * option R) :
  In x (left_join l r on) -> In (fst x) l.
Proof.
  unfold left_join. intros H. apply in_flat_map in H as [a [I H]].
  destruct (filter _ r) as [|b bs].
  - destruct H as [<-|[]]. exact I.
  - apply in_map_iff in H as [b' [<- _]]. exact I.
Qed.

Lemma in_left_join_ex (L R : Type) (l : list L) (r : list R) (on : L -> R -> tri) (a : L) :
  In a l -> exists m, In (a, m) (left_join l r on).
Proof.
  unfold left_join. intros I.
  destruct (filter (fun b => truth (on a b)) r) as [|b bs] eqn:F.
  - exists None. apply in_flat_map. exists a. split; [exact I|]. rewrite F. now left.
  - exists (Some b). apply in_flat_map. exists a. split; [exact I|]. rewrite F.
    apply in_map_iff. exists b. split; [reflexivity | now left].
Qed.

(** ** The operation namespace, row by row *)

Lemma in_coordinate_operation_with_conversion_view_iff (db : database)
      (w : coordinate_operation_with_conversion_view.row) :
  In w (coordinate_operation_with_conversion_view db) <-> In w (operation_keys db).
Proof.
  unfold coordinate_operation_with_conversion_view, coordinate_operation_view,
    operation_keys, helmert_transformation.
  rewrite !map_app, !map_map, !in_app_iff.
  assert (In w (map (fun x =>
                  coordinate_operation_with_conversion_view.select_coordinate_operation_view
                    (coordinate_operation_view.select_helmert_transformation
                       (helmert_transformation.select x)))
                  (left_join db.(helmert_transformation_table)
                     db.(coordinate_operation_method)
                     (fun h m =>
                        (h.(helmert_transformation_table.method_auth_name)
                         == m.(coordinate_operation_method.auth_name)
                         AND h.(helmert_transformation_table.method_code)
                         == m.(coordinate_operation_method.code))%sql)))
          <-> In w (map (fun r => operation_key "helmert_transformation"
                                   r.(helmert_transformation_table.auth_name)
                                   r.(helmert_transformation_table.code))
                        db.(helmert_transformation_table))) as Helmert.
  { rewrite !in_map_iff. split.
    - intros [x [<- I]]. exists (fst x). split; [reflexivity|].
      exact (in_left_join_fst _ _ _ _ _ _ I).
    - intros [h [<- I]].
      destruct (in_left_join_ex _ _ _ db.(coordinate_operation_method)
                  (fun h m =>
                     (h.(helmert_transformation_table.method_auth_name)
                      == m.(coordinate_operation_method.auth_name)
                      AND h.(helmert_transformation_table.method_code)
                      == m.(coordinate_operation_method.code))%sql) h I) as [m Im].
      exists (h, m). split; [reflexivity | exact Im]. }
  rewrite Helmert. tauto.
Qed.

Lemma taken_operation_iff (db : database) (a c : string) :
  in_coordinate_operation_with_conversion_view db a c <->
  exists v, In v (operation_keys db)
            /\ v.(coordinate_operation_with_conversion_view.auth_name) = Some a
            /\ v.(coordinate_operation_with_conversion_view.code) = Some c.
Proof.
  unfold in_coordinate_operation_with_conversion_view.
  split; intros [v [I K]]; exists v; split; auto;
    now apply in_coordinate_operation_with_conversion_view_iff.
Qed.

(** ** Disjointness is kept by adding a fresh key *)

Lemma namespace_disjoint_same (V : Type) (kind ka kc : V -> text) (l l' : list V) :
  (forall v, In v l' <-> In v l) ->
  namespace_disjoint kind ka kc l -> namespace_disjoint kind ka kc l'.
Proof.
  intros M D v1 v2 I1 I2. apply D; now apply M.
Qed.

Lemma namespace_disjoint_add (V : Type) (kind ka kc : V -> text) (l l' : list V) (new : V) :
  (forall v, In v l' <-> In v l \/ new = v) ->
  namespace_disjoint kind ka kc l ->
  (forall v, In v l -> ~ (ka v = ka new /\ kc v = kc new)) ->
  namespace_disjoint kind ka kc l'.
Proof.
  intros M D F v1 v2 I1 I2 K [A C].
  apply M in I1, I2.
  destruct I1 as [I1|<-], I2 as [I2|<-].
  - exact (D v1 v2 I1 I2 K (conj A C)).
  - exact (F v1 I1 (conj A C)).
  - apply (F v2 I2). split; congruence.
  - apply K. reflexivity.
Qed.

Lemma operation_namespace_disjoint_iff (db : database) :
  operation_namespace_disjoint db <->
  namespace_disjoint coordinate_operation_with_conversion_view.type
                     coordinate_operation_with_conversion_view.auth_name
                     coordinate_operation_with_conversion_view.code
                     (operation_keys db).
Proof.
  split; apply namespace_disjoint_same; intros v;
    [symmetry|]; apply in_coordinate_operation_with_conversion_view_iff.
Qed.

(** ** The rule that guards a namespace *)

Lemma enters_fresh (db db' : database) (s : statement) (ns : namespace)
      (k : text * text) (msg : string) :
  enters s = Some (ns, k, msg) ->
  execute db s = inr db' ->
  exists a c, k = (Some a, Some c) /\ ~ taken db ns a c.
Proof.
  destruct s; simpl; try discriminate; intros [= <- <- <-] E;
    apply insert_ok in E as [S [C _]];
    match type of S with silent (?trigger _ _) = true => unfold trigger in S end;
    cbn [silent forallb condition] in S;
    apply andb_true_iff in S as [S _]; apply negb_true_iff in S;
    match type of C with forallb _ (?constraints _ _) = true => unfold constraints in C end;
    cbn [forallb satisfied NOT_NULL] in C;
    apply andb_true_iff in C as [Na C]; apply andb_true_iff in C as [_ C];
    apply andb_true_iff in C as [Nc _];
    apply truth_is_not_null in Na, Nc;
    match type of Na with ?x <> None => destruct x as [a|]; [|congruence] end;
    match type of Nc with ?x <> None => destruct x as [c|]; [|congruence] end;
    exists a, c; (split; [reflexivity|]);
    intros [v [I [A K]]];
    match type of S with
    | truth (exists_ ?l (fun r => (@?ka r == _ AND @?kc r == _)%sql)) = false =>
        rewrite (exists_key_true _ ka kc l a c v I A K) in S
    end; discriminate.
Qed.

Lemma enters_taken (db : database) (s : statement) (ns : namespace)
      (a c : string) (msg : string) :
  enters s = Some (ns, (Some a, Some c), msg) ->
  taken db ns a c ->
  execute db s = inl (RaiseAbort msg).
Proof.
  destruct s; simpl; try discriminate; intros [= <- A C <-] [v [I [Ka Kc]]];
    match goal with |- ?ins _ _ = _ => unfold ins end;
    match goal with |- insert (?trigger _ _) _ _ = _ => unfold trigger end;
    cbv zeta;
    match goal with
    | |- insert (?s :: ?rest) _ _ = _ => apply (insert_raises _ [] rest s); [reflexivity|]
    end;
    cbn [condition]; rewrite A, C;
    match goal with
    | |- truth (exists_ ?l (fun r => (@?ka r == _ AND @?kc r == _)%sql)) = true =>
        exact (exists_key_true _ ka kc l a c v I Ka Kc)
    end.
Qed.

(** ** The namespaces stay disjoint *)

Ltac view_membership :=
  intros ?; unfold crs_view, operation_keys, stored;
  cbn [geodetic_crs projected_crs vertical_crs compound_crs
       grid_transformation helmert_transformation_table other_transformation
       concatenated_operation conversion_table
       append_geodetic_crs append_projected_crs append_vertical_crs append_compound_crs
       append_grid_transformation append_helmert_transformation_table
       append_other_transformation append_concatenated_operation append_conversion_table];
  rewrite ?map_app, ?in_app_iff; cbn [map In]; tauto.

Lemma namespaces_kept (db db' : database) (s : statement) :
  on_table s = true ->
  execute db s = inr db' ->
  crs_namespace_disjoint db
  /\ namespace_disjoint coordinate_operation_with_conversion_view.type
                        coordinate_operation_with_conversion_view.auth_name
                        coordinate_operation_with_conversion_view.code
                        (operation_keys db) ->
  crs_namespace_disjoint db'
  /\ namespace_disjoint coordinate_operation_with_conversion_view.type
                        coordinate_operation_with_conversion_view.auth_name
                        coordinate_operation_with_conversion_view.code
                        (operation_keys db').
Proof.
  intros T E [Dc Do].
  pose proof (execute_stored db db' s T E) as ->.
  destruct (enters s) as [[[ns k] msg]|] eqn:N.
  - destruct (enters_fresh db _ s ns k msg N E) as [a [c [-> F]]].
    destruct s; try discriminate N; injection N as <- Ha Hc _;
      (split; [first [exact Dc | idtac] | first [exact Do | idtac]]).
    all: unfold crs_namespace_disjoint.
    all: match goal with
         | |- namespace_disjoint _ _ _ (crs_view (stored _ (INSERT_INTO_geodetic_crs ?r))) =>
             apply (namespace_disjoint_add _ _ _ _ (crs_view db) _
                      (crs_view.select_geodetic_crs r)); [view_membership | exact Dc |]
         | |- namespace_disjoint _ _ _ (crs_view (stored _ (INSERT_INTO_projected_crs ?r))) =>
             apply (namespace_disjoint_add _ _ _ _ (crs_view db) _
                      (crs_view.select_projected_crs r)); [view_membership | exact Dc |]
         | |- namespace_disjoint _ _ _ (crs_view (stored _ (INSERT_INTO_vertical_crs ?r))) =>
             apply (namespace_disjoint_add _ _ _ _ (crs_view db) _
                      (crs_view.select_vertical_crs r)); [view_membership | exact Dc |]
         | |- namespace_disjoint _ _ _ (crs_view (stored _ (INSERT_INTO_compound_crs ?r))) =>
             apply (namespace_disjoint_add _ _ _ _ (crs_view db) _
                      (crs_view.select_compound_crs r)); [view_membership | exact Dc |]
         | |- namespace_disjoint _ _ _
                (operation_keys (stored _ (INSERT_INTO_conversion_table ?r))) =>
             apply (namespace_disjoint_add _ _ _ _ (operation_keys db) _
                      (operation_key "conversion" r.(conversion_table.auth_name)
                                     r.(conversion_table.code)));
             [view_membership | exact Do |]
         | |- namespace_disjoint _ _ _
                (operation_keys (stored _ (INSERT_INTO_helmert_transformation_table ?r))) =>
             apply (namespace_disjoint_add _ _ _ _ (operation_keys db) _
                      (operation_key "helmert_transformation"
                                     r.(helmert_transformation_table.auth_name)
                                     r.(helmert_transformation_table.code)));
             [view_membership | exact Do |]
         | |- namespace_disjoint _ _ _
                (operation_keys (stored _ (INSERT_INTO_grid_transformation ?r))) =>
             apply (namespace_disjoint_add _ _ _ _ (operation_keys db) _
                      (operation_key "grid_transformation" r.(grid_transformation.auth_name)
                                     r.(grid_transformation.code)));
             [view_membership | exact Do |]
         | |- namespace_disjoint _ _ _
                (operation_keys (stored _ (INSERT_INTO_other_transformation ?r))) =>
             apply (namespace_disjoint_add _ _ _ _ (operation_keys db) _
                      (operation_key "other_transformation" r.(other_transformation.auth_name)
                                     r.(other_transformation.code)));
             [view_membership | exact Do |]
         | |- namespace_disjoint _ _ _
                (operation_keys (stored _ (INSERT_INTO_concatenated_operation ?r))) =>
             apply (namespace_disjoint_add _ _ _ _ (operation_keys db) _
                      (operation_key "concatenated_operation"
                                     r.(concatenated_operation.auth_name)
                                     r.(concatenated_operation.code)));
             [view_membership | exact Do |]
         end.
    all: cbn [crs_view.auth_name crs_view.code
              crs_view.select_geodetic_crs crs_view.select_projected_crs
              crs_view.select_vertical_crs crs_view.select_compound_crs
              coordinate_operation_with_conversion_view.auth_name
              coordinate_operation_with_conversion_view.code operation_key];
      rewrite Ha, Hc; intros v I K; apply F.
    all: try (exists v; split; [exact I | exact K]).
    all: apply taken_operation_iff; exists v; split; [exact I | exact K].
  - destruct s; try discriminate N; try discriminate T; split; first [exact Dc | exact Do].
Qed.

Lemma reachable_namespaces_disjoint (db : database) :
  reachable db -> crs_namespace_disjoint db /\ operation_namespace_disjoint db.
Proof.
  intros R. rewrite operation_namespace_disjoint_iff. revert db R.
  by_reachable_table_ind.
  - split; intros v1 v2 [].
  - intros db s db' T _ IH E. exact (namespaces_kept db db' s T E IH).
Qed.

(** C5. In every reachable store no (authority, code) is shared between two
    kinds of CRS, nor between two kinds of coordinate operation; and an
    [INSERT] into any of the nine tables whose key is already taken in the
    kind-tagged view of its namespace aborts on the rule that consults that
    view. *)
Theorem namespaces_disjoint :
  (forall db, reachable db -> crs_namespace_disjoint db /\ operation_namespace_disjoint db)
  /\ (forall db s ns a c msg,
         enters s = Some (ns, (Some a, Some c), msg) ->
         taken db ns a c ->
         execute db s = inl (RaiseAbort msg))
  /\ (forall db s ns k msg db',
         enters s = Some (ns, k, msg) ->
         execute db s = inr db' ->
         exists a c, k = (Some a, Some c) /\ ~ taken db ns a c).
Proof.
  split; [|split].
  - exact reachable_namespaces_disjoint.
  - intros db s ns a c msg. apply enters_taken.
  - intros db s ns k msg db' N E. exact (enters_fresh db db' s ns k msg N E).
Qed.

Lemma namespaces_disjoint_witness :
  let db := Sample.built Sample.operations in
  (crs_namespace_disjoint db /\ operation_namespace_disjoint db)
  /\ execute db (INSERT_INTO_projected_crs (Sample.a_projected_crs "EPSG" "4326" "EPSG" "4326"))
     = inl (RaiseAbort "insert on projected_crs violates constraint: (auth_name, code) must not already exist in crs_view")
  /\ execute db (INSERT_INTO_conversion_table
                   (Sample.a_conversion_keyed "EPSG" "4"))
     = inl (RaiseAbort "insert on conversion_table violates constraint: (auth_name, code) must not already exist in coordinate_operation_with_conversion_view")
  /\ ~ taken db Operation "EPSG" "19999".
Proof.
  intros db.
  destruct namespaces_disjoint as [disjoint [rejected fresh]].
  split; [|split; [|split]].
  - apply disjoint.
    apply (run_reachable Sample.operations empty_database); [constructor|].
    vm_compute. reflexivity.
  - apply (rejected db _ CRS "EPSG" "4326"); [reflexivity|].
    exists (crs_view.select_geodetic_crs Sample.WGS_84).
    split; [vm_compute; auto 10 | split; reflexivity].
  - apply (rejected db _ Operation "EPSG" "4"); [reflexivity|].
    apply taken_operation_iff.
    exists (operation_key "concatenated_operation" (txt "EPSG") (txt "4")).
    split; [vm_compute; auto 10 | split; reflexivity].
  - destruct (fresh db (INSERT_INTO_conversion_table Sample.half_filled_conversion)
                    Operation _ _
                    (append_conversion_table db Sample.half_filled_conversion)
                    eq_refl)
      as [a [c [[= <- <-] F]]]; [vm_compute; reflexivity | exact F].
Defined.

(** ** Geodetic CRS: the deprecation rules *)

Lemma exists_key_and_inv (R : Type) (ka kc : R -> text) (p : R -> tri) (l : list R)
      (x y : text) :
  truth (exists_ l (fun r => and3 (and3 (eq3 (ka r) x) (eq3 (kc r) y)) (p r))) = true ->
  exists r a c,
    In r l /\ x = Some a /\ y = Some c /\ ka r = Some a /\ kc r = Some c
    /\ truth (p r) = true.
Proof.
  rewrite truth_exists. intros H. apply existsb_exists in H as [r [I H]].
  rewrite !truth_and3 in H. apply andb_true_iff in H as [H Hp].
  apply andb_true_iff in H as [Ha Hc].
  apply truth_eq_text in Ha as [a [Ha ->]]. apply truth_eq_text in Hc as [c [Hc ->]].
  exists r, a, c. auto 6.
Qed.

(** The rule "datum must not be deprecated when geodetic_crs is not
    deprecated" asks for a text definition, and a row with a text definition
    that names a datum is stopped two statements earlier: the rule never
    fires. *)
Lemma geodetic_crs_datum_rule_never_fires (db : database) (NEW : geodetic_crs.row) :
  run_trigger (geodetic_crs_insert_trigger db NEW)
  <> inl (RaiseAbort "insert on geodetic_crs violates constraint: datum must not be deprecated when geodetic_crs is not deprecated").
Proof.
  unfold geodetic_crs_insert_trigger. cbv zeta. cbn [run_trigger condition message].
  repeat match goal with
         | |- (if truth ?c then _ else _) <> _ =>
             let E := fresh "E" in destruct (truth c) eqn:E; [try discriminate|]
         end.
  - exfalso.
    rewrite !truth_and3 in E4. apply andb_true_iff in E4 as [E4 T].
    apply andb_true_iff in E4 as [E4 _].
    apply exists_key_and_inv in E4 as [d [a [c [_ [A [C _]]]]]].
    rewrite A, C in E3. destruct (geodetic_crs.text_definition NEW); discriminate.
  - discriminate.
Qed.

(** On a row with no text definition neither deprecation rule fires. *)
Lemma geodetic_crs_structured_rules_silent (db : database) (NEW : geodetic_crs.row) :
  NEW.(geodetic_crs.text_definition) = None ->
  forall s,
    In s (geodetic_crs_insert_trigger db NEW) ->
    In (message s)
       [ "insert on geodetic_crs violates constraint: datum must not be deprecated when geodetic_crs is not deprecated";
         "insert on geodetic_crs violates constraint: area_of_use must not be deprecated when geodetic_crs is not deprecated" ] ->
    truth (condition s) = false.
Proof.
  intros T s I M. unfold geodetic_crs_insert_trigger in I. cbv zeta in I.
  cbn [In] in I.
  repeat (destruct I as [<-|I]);
    try (cbn [message In] in M; destruct M as [M|[M|[]]]; discriminate M);
    try contradiction.
  all: cbn [condition]; rewrite T, !truth_and3; cbn; apply andb_false_r.
Qed.

(** C1. The rule of the claim does not hold on the code: in the store of
    [Sample.registry], a geodetic CRS in force, defined by references, that
    names the deprecated datum EPSG:6000 is admitted, and so is one that names
    the deprecated area EPSG:9998. *)
Theorem geodetic_crs_on_deprecated_datum_admitted :
  let db := Sample.built Sample.registry in
  reachable db
  /\ (structured_in_force Sample.crs_on_old_datum
      /\ datum_of db Sample.crs_on_old_datum Sample.old_datum
      /\ Sample.old_datum.(geodetic_datum.deprecated) = int 1
      /\ insert_geodetic_crs db Sample.crs_on_old_datum
         = inr (append_geodetic_crs db Sample.crs_on_old_datum))
  /\ (structured_in_force Sample.crs_over_retired_area
      /\ area_of db Sample.crs_over_retired_area Sample.retired_area
      /\ Sample.retired_area.(area.deprecated) = int 1
      /\ insert_geodetic_crs db Sample.crs_over_retired_area
         = inr (append_geodetic_crs db Sample.crs_over_retired_area)).
Proof.
  intros db. split; [|split].
  - apply (run_reachable Sample.registry empty_database); [constructor|].
    vm_compute. reflexivity.
  - split; [|split; [|split]].
    + unfold structured_in_force. cbn. repeat split; (reflexivity || discriminate).
    + unfold datum_of. vm_compute. auto 10.
    + reflexivity.
    + vm_compute. reflexivity.
  - split; [|split; [|split]].
    + unfold structured_in_force. cbn. repeat split; (reflexivity || discriminate).
    + unfold area_of. vm_compute. auto 10.
    + reflexivity.
    + vm_compute. reflexivity.
Qed.

(** ** Stored coordinate systems *)

Lemma coordinate_system_rows_admitted (db : database) :
  reachable db ->
  forall cs, In cs db.(coordinate_system) ->
  exists db0 db1, reachable db0 /\ insert_coordinate_system db0 cs = inr db1.
Proof.
  revert db. by_reachable_table_ind.
  - intros e [].
  - intros db s db' T R IH E. stored_step IH.
    intros e I. apply in_app_iff in I as [I|[<-|[]]]; eauto.
Qed.

Lemma coordinate_system_not_null (db : database) (cs : coordinate_system.row) :
  reachable db -> In cs db.(coordinate_system) ->
  cs.(coordinate_system.type) <> None /\ cs.(coordinate_system.dimension) <> None.
Proof.
  intros R I.
  destruct (coordinate_system_rows_admitted db R cs I) as [db0 [db1 [_ H]]].
  apply insert_ok in H as [_ [C _]].
  unfold coordinate_system_constraints in C. cbn [forallb satisfied NOT_NULL] in C.
  repeat (apply andb_true_iff in C as [? C]).
  split; now apply truth_is_not_null.
Qed.

Lemma primary_key_fresh (R : Type) (name : string) (ka kc : R -> text) (l : list R)
      (a c : string) :
  satisfied (PRIMARY_KEY name (Some a, Some c) l (ka, kc)) = true ->
  ~ In (Some a, Some c) (map (fun r => (ka r, kc r)) l).
Proof.
  cbn [satisfied PRIMARY_KEY fst snd]. intros F I.
  apply negb_true_iff in F.
  apply in_map_iff in I as [r [K I]]. injection K as A C.
  now rewrite (exists_key_true _ ka kc l a c r I A C) in F.
Qed.

Lemma coordinate_system_keys_unique (db : database) :
  reachable db ->
  unique_keys coordinate_system.auth_name coordinate_system.code db.(coordinate_system).
Proof.
  revert db. by_reachable_table_ind.
  - constructor.
  - intros db s db' T R IH E.
    pose proof (execute_stored db db' s T E) as ->.
    destruct s; try discriminate T; try exact IH.
    cbn [stored append_coordinate_system coordinate_system].
    unfold unique_keys. rewrite map_app. cbn [map].
    apply insert_ok in E as [_ [C _]].
    unfold coordinate_system_constraints in C. cbn [forallb] in C.
    repeat (apply andb_true_iff in C as [? C]).
    cbn [satisfied NOT_NULL] in *.
    destruct (coordinate_system.auth_name NEW) as [a|]; [|discriminate].
    destruct (coordinate_system.code NEW) as [c|]; [|discriminate].
    match goal with
    | P : satisfied (PRIMARY_KEY _ _ _ _) = true |- _ => apply primary_key_fresh in P
    end.
    apply NoDup_app; [exact IH | repeat constructor; intros [] | ].
    intros k I [<-|[]]. contradiction.
Qed.

Lemma unique_key_found (R : Type) (ka kc : R -> text) (l : list R) (a c : string) (r : R) :
  unique_keys ka kc l ->
  In r l -> ka r = Some a -> kc r = Some c ->
  find (fun x => truth (and3 (eq3 (ka x) (Some a)) (eq3 (kc x) (Some c)))) l = Some r.
Proof.
  unfold unique_keys. induction l as [|x l IH]; intros U I A C; [contradiction|].
  cbn [map] in U. apply NoDup_cons_iff in U as [N U]. cbn [find].
  destruct I as [->|I].
  - rewrite truth_and3, A, C. simpl. now rewrite !String.eqb_refl.
  - destruct (truth _) eqn:E; [|now apply IH].
    exfalso. apply N. rewrite truth_and3 in E. apply andb_true_iff in E as [Ea Ec].
    apply truth_eq_text_some in Ea, Ec. rewrite Ea, Ec.
    apply in_map_iff. exists r. split; [congruence | exact I].
Qed.

Lemma cs_ref_found (db : database) (A : Type) (col : coordinate_system.row -> option A)
      (cs : coordinate_system.row) (a c : string) :
  reachable db ->
  In cs db.(coordinate_system) ->
  cs.(coordinate_system.auth_name) = Some a -> cs.(coordinate_system.code) = Some c ->
  cs_ref db col (Some a) (Some c) = col cs.
Proof.
  intros R I Ka Kc. unfold cs_ref, scalar.
  now rewrite (unique_key_found _ _ _ _ a c cs (coordinate_system_keys_unique db R) I Ka Kc).
Qed.

(** ** Geodetic CRS: the coordinate system *)

Lemma ne_text_not_true (x : string) (y : string) :
  truth (ne3 (Some x) (Some y)) = false -> x = y.
Proof.
  simpl. destruct (String.eqb_spec x y); [auto | discriminate].
Qed.

Lemma ne_int_not_true (x y : Z) :
  truth (ne3 (Some x) (Some y)) = false -> x = y.
Proof.
  simpl. destruct (Z.eqb_spec x y); [auto | discriminate].
Qed.

(** Replaces, in [H], the conditions that are closed by their truth value. *)
Ltac eval_closed H :=
  repeat match type of H with
         | context [truth ?c] =>
             let v := eval vm_compute in (truth c) in
             match v with
             | true => change (truth c) with true in H
             | false => change (truth c) with false in H
             end
         end;
  cbn [andb orb negb] in H.

Lemma geodetic_crs_admitted_coordinate_system (db db' : database) (NEW : geodetic_crs.row) :
  reachable db ->
  insert_geodetic_crs db NEW = inr db' ->
  NEW.(geodetic_crs.text_definition) = None ->
  (exists cs, coordinate_system_of db NEW cs)
  /\ (forall cs, coordinate_system_of db NEW cs ->
                 coordinate_system_matches_unless_deprecated NEW cs).
Proof.
  intros R E T. apply insert_ok in E as [S [C _]].
  unfold geodetic_crs_insert_trigger in S. cbv zeta in S.
  cbn [silent forallb condition] in S.
  apply andb_true_iff in S as [_ S]. apply andb_true_iff in S as [S2 S].
  do 6 (apply andb_true_iff in S as [_ S]).
  apply andb_true_iff in S as [S9 S]. apply andb_true_iff in S as [S10 S].
  apply andb_true_iff in S as [S11 S]. apply andb_true_iff in S as [S12 S].
  apply andb_true_iff in S as [S13 _].
  apply negb_true_iff in S2, S9, S10, S11, S12, S13.
  unfold geodetic_crs_constraints in C. cbn [forallb] in C.
  do 8 (apply andb_true_iff in C as [_ C]).
  apply andb_true_iff in C as [Nd C]. apply andb_true_iff in C as [Cd C].
  apply andb_true_iff in C as [_ C]. apply andb_true_iff in C as [Fk _].
  rewrite T in S2.
  destruct (geodetic_crs.coordinate_system_auth_name NEW) as [ca|] eqn:Ea;
    [|discriminate S2].
  destruct (geodetic_crs.coordinate_system_code NEW) as [cc|] eqn:Ec;
    [|discriminate S2].
  split.
  - cbn [satisfied FOREIGN_KEY fst snd is_null or3 truth orb] in Fk.
    apply exists_key_inv in Fk as [cs [a [c [I [[= <-] [[= <-] [Ka Kc]]]]]]].
    exists cs. unfold coordinate_system_of. rewrite Ea, Ec. auto.
  - intros cs [I [Ka Kc]]. rewrite Ea in Ka. rewrite Ec in Kc.
    rewrite !(cs_ref_found db _ _ cs ca cc R I Ka Kc) in *.
    destruct (coordinate_system_not_null db cs R I) as [Nt Nn].
    unfold coordinate_system_matches_unless_deprecated.
    destruct (coordinate_system.type cs) as [ty0|]; [|congruence].
    destruct (coordinate_system.dimension cs) as [d0|]; [|congruence].
    cbn [satisfied NOT_NULL CHECK] in Nd, Cd.
    destruct (geodetic_crs.deprecated NEW) as [z|]; [|discriminate Nd].
    intros type ty d Ht Q. rewrite Ht in *.
    repeat rewrite truth_and3 in S9. repeat rewrite truth_and3 in S10.
    repeat rewrite truth_and3 in S11. repeat rewrite truth_and3 in S12.
    repeat rewrite truth_and3 in S13.
    unfold required_coordinate_system in Q.
    destruct (String.eqb_spec type "geocentric") as [->|_].
    { injection Q as <- <-. eval_closed S9. eval_closed S10.
      apply ne_int_not_true in S9. apply ne_text_not_true in S10. subst. auto. }
    destruct (String.eqb_spec type "geographic 2D") as [->|_].
    { injection Q as <- <-. eval_closed S11. eval_closed S12.
      apply ne_text_not_true in S11. subst. split; [reflexivity|].
      destruct (truth (ne3 (Some z) (int 1))) eqn:D.
      - left. apply ne_int_not_true in S12. now subst.
      - right. apply ne_int_not_true in D. now subst. }
    destruct (String.eqb_spec type "geographic 3D") as [->|_]; [|discriminate Q].
    injection Q as <- <-. eval_closed S11. eval_closed S13.
    apply ne_text_not_true in S11. apply ne_int_not_true in S13. subst. auto.
Qed.

(** C9, as the claim states it, fails: the deprecated geographic 2D CRS
    EPSG:4002 is admitted on the ellipsoidal coordinate system EPSG:6423 of
    dimension 3. *)
Lemma geodetic_crs_coordinate_system_counterexample :
  ~ (forall db NEW db' cs,
        reachable db ->
        insert_geodetic_crs db NEW = inr db' ->
        NEW.(geodetic_crs.text_definition) = None ->
        coordinate_system_of db NEW cs ->
        coordinate_system_matches NEW cs).
Proof.
  intros claim.
  assert (coordinate_system_matches Sample.deprecated_2D_on_3D Sample.ellipsoidal_3D) as M.
  { apply (claim (Sample.built Sample.registry) _
                 (append_geodetic_crs (Sample.built Sample.registry)
                                      Sample.deprecated_2D_on_3D)).
    - apply (run_reachable Sample.registry empty_database); [constructor|].
      vm_compute. reflexivity.
    - vm_compute. reflexivity.
    - reflexivity.
    - unfold coordinate_system_of. vm_compute. auto 20. }
  destruct (M "geographic 2D" "ellipsoidal" 2%Z eq_refl eq_refl) as [_ D].
  discriminate D.
Qed.

(** C9, amended. For a geodetic CRS admitted with no text definition into a
    reachable store, the coordinate system it names exists, is Cartesian of
    dimension 3 for a geocentric CRS, ellipsoidal of dimension 3 for a
    geographic 3D CRS, and ellipsoidal for a geographic 2D CRS, of dimension
    2 unless the CRS row is deprecated; an [INSERT] that names a coordinate
    system which does not fit is rejected. *)
Theorem geodetic_crs_coordinate_system (db : database) (NEW : geodetic_crs.row) :
  reachable db ->
  NEW.(geodetic_crs.text_definition) = None ->
  (forall db',
      insert_geodetic_crs db NEW = inr db' ->
      (exists cs, coordinate_system_of db NEW cs)
      /\ (forall cs, coordinate_system_of db NEW cs ->
                     coordinate_system_matches_unless_deprecated NEW cs))
  /\ (forall cs,
         coordinate_system_of db NEW cs ->
         ~ coordinate_system_matches_unless_deprecated NEW cs ->
         exists e, insert_geodetic_crs db NEW = inl e).
Proof.
  intros R T. split.
  - intros db' E. exact (geodetic_crs_admitted_coordinate_system db db' NEW R E T).
  - intros cs I N.
    destruct (insert_geodetic_crs db NEW) as [e|db'] eqn:E; [eauto|].
    exfalso. apply N.
    exact (proj2 (geodetic_crs_admitted_coordinate_system db db' NEW R E T) cs I).
Qed.

Lemma geodetic_crs_coordinate_system_witness :
  ((exists cs, coordinate_system_of (Sample.built Sample.registry)
                                    Sample.deprecated_2D_on_3D cs)
   /\ (forall cs,
          coordinate_system_of (Sample.built Sample.registry) Sample.deprecated_2D_on_3D cs ->
          coordinate_system_matches_unless_deprecated Sample.deprecated_2D_on_3D cs))
  /\ exists e,
      insert_geodetic_crs (Sample.built Sample.registry) Sample.current_2D_on_3D = inl e.
Proof.
  assert (reachable (Sample.built Sample.registry)) as R.
  { apply (run_reachable Sample.registry empty_database); [constructor|].
    vm_compute. reflexivity. }
  split.
  - apply (proj1 (geodetic_crs_coordinate_system _ Sample.deprecated_2D_on_3D R eq_refl)
                 (append_geodetic_crs (Sample.built Sample.registry)
                                      Sample.deprecated_2D_on_3D)).
    vm_compute. reflexivity.
  - apply (proj2 (geodetic_crs_coordinate_system _ Sample.current_2D_on_3D R eq_refl)
                 Sample.ellipsoidal_3D).
    + unfold coordinate_system_of. vm_compute. auto 20.
    + intros M.
      destruct (M "geographic 2D" "ellipsoidal" 2%Z eq_refl eq_refl) as [_ [D|[_ D]]];
        discriminate D.
Defined.

(** ** Vertical CRS: the rule on the deprecated datum *)

Lemma vertical_crs_datum_rule_reads_vertical_crs (db : database) (NEW : vertical_crs.row) :
  no_vertical_crs_keyed_like_datum db NEW ->
  truth (exists_ db.(vertical_crs)
           (fun datum =>
              (datum.(vertical_crs.auth_name) == NEW.(vertical_crs.datum_auth_name)
               AND datum.(vertical_crs.code) == NEW.(vertical_crs.datum_code)
               AND datum.(vertical_crs.deprecated) != int 0)%sql)
         AND NEW.(vertical_crs.deprecated) == int 0)%sql = false.
Proof.
  intros N. rewrite truth_and3.
  destruct (truth (exists_ _ _)) eqn:E; [|reflexivity].
  apply exists_key_and_inv in E as [v [a [c [I [A [C [Ka [Kc _]]]]]]]].
  exfalso. apply (N v I). split; congruence.
Qed.

Lemma vertical_crs_admitted_on_deprecated_datum (db : database) (NEW : vertical_crs.row) :
  no_vertical_crs_keyed_like_datum db NEW ->
  vertical_crs_other_rules_pass db NEW ->
  insert_vertical_crs db NEW = inr (append_vertical_crs db NEW).
Proof.
  intros N [O C]. unfold insert_vertical_crs. apply insert_ok.
  split; [|split; [exact C | reflexivity]].
  unfold silent. apply forallb_forall. intros s I. apply negb_true_iff.
  destruct (string_dec (message s)
              "insert on vertical_crs violates constraint: datum must not be deprecated when vertical_crs is not deprecated")
    as [M|M]; [|exact (O s I M)].
  unfold vertical_crs_insert_trigger in I. cbn [In] in I.
  destruct I as [<-|[<-|[<-|[<-|[<-|[]]]]]]; try discriminate M.
  exact (vertical_crs_datum_rule_reads_vertical_crs db NEW N).
Qed.

Lemma exists_key_same_keys (l l' : list vertical_datum.row) (x y : text) :
  same_vertical_datum_keys l l' ->
  exists_ l (fun r => and3 (eq3 (vertical_datum.auth_name r) x)
                           (eq3 (vertical_datum.code r) y))
  = exists_ l' (fun r => and3 (eq3 (vertical_datum.auth_name r) x)
                              (eq3 (vertical_datum.code r) y)).
Proof.
  unfold same_vertical_datum_keys, exists_. intros K. f_equal.
  revert l' K. induction l as [|d l IH]; intros [|d' l'] K; try discriminate K.
  - reflexivity.
  - cbn [map] in K. injection K as Ka Kc K. cbn [existsb].
    rewrite Ka, Kc, (IH l' K). reflexivity.
Qed.

Lemma deprecated_row_fires (R : Type) (ka kc : R -> text) (kd : R -> boolean)
      (l : list R) (x y : text) (dep : boolean) :
  deprecated_row ka kc kd l x y ->
  dep = int 0 ->
  truth (and3 (exists_ l (fun r => and3 (and3 (eq3 (ka r) x) (eq3 (kc r) y))
                                        (ne3 (kd r) (int 0))))
              (eq3 dep (int 0))) = true.
Proof.
  intros [r [z [I [Nx [Ny [Ka [Kc [Kd Nz]]]]]]]] ->.
  rewrite truth_and3, truth_exists. cbn [truth eq3 cmp val_eqb integer_value int].
  rewrite Z.eqb_refl, andb_true_r.
  apply existsb_exists. exists r. split; [exact I|].
  rewrite !truth_and3, Ka, Kc, Kd.
  destruct x as [a|]; [|congruence]. destruct y as [c|]; [|congruence].
  cbn. rewrite !String.eqb_refl. cbn.
  destruct (Z.eqb_spec z 0); [contradiction | reflexivity].
Qed.

Lemma vertical_crs_rejected_on_vertical_crs (db : database) (NEW : vertical_crs.row) :
  (forall a c, NEW.(vertical_crs.auth_name) = Some a -> NEW.(vertical_crs.code) = Some c ->
               ~ in_crs_view db a c) ->
  deprecated_row vertical_crs.auth_name vertical_crs.code vertical_crs.deprecated
                 db.(vertical_crs)
                 NEW.(vertical_crs.datum_auth_name) NEW.(vertical_crs.datum_code) ->
  NEW.(vertical_crs.deprecated) = int 0 ->
  insert_vertical_crs db NEW
  = inl (RaiseAbort "insert on vertical_crs violates constraint: datum must not be deprecated when vertical_crs is not deprecated").
Proof.
  intros Fresh D F. unfold insert_vertical_crs, vertical_crs_insert_trigger.
  match goal with
  | |- insert (?s1 :: ?s2 :: ?rest) _ _ = _ => apply (insert_raises _ [s1] rest s2)
  end.
  - cbn [silent forallb condition]. rewrite andb_true_r. apply negb_true_iff.
    destruct (truth _) eqn:E; [|reflexivity].
    apply exists_key_inv in E as [v [a [c [I [A [C K]]]]]].
    exfalso. apply (Fresh a c A C). exists v. auto.
  - cbn [condition]. exact (deprecated_row_fires _ _ _ _ _ _ _ _ D F).
Qed.

(** C10. Whether a vertical CRS is admitted does not depend on the
    [deprecated] column of the vertical datums: the [INSERT] has the same
    outcome in any store that differs only in columns of [vertical_datum]
    other than its key.  The rule "datum must not be deprecated" reads
    [vertical_crs] under the key of the datum: a vertical CRS in force that
    names a deprecated vertical datum is admitted whenever no stored vertical
    CRS carries the key of that datum and the other rules let the row in;
    and a vertical CRS in force under a fresh key is rejected on that rule
    whenever a deprecated vertical CRS carries the key of its datum. *)
Theorem vertical_crs_datum_deprecation_unchecked (db : database) (NEW : vertical_crs.row) :
  (forall rows,
      same_vertical_datum_keys db.(vertical_datum) rows ->
      match insert_vertical_crs db NEW,
            insert_vertical_crs (with_vertical_datum db rows) NEW with
      | inl e, inl e' => e = e'
      | inr db', inr db'' => db'' = with_vertical_datum db' rows
      | _, _ => False
      end)
  /\ (forall d,
         vertical_datum_of db NEW d ->
         d.(vertical_datum.deprecated) = int 1 ->
         NEW.(vertical_crs.deprecated) = int 0 ->
         no_vertical_crs_keyed_like_datum db NEW ->
         vertical_crs_other_rules_pass db NEW ->
         insert_vertical_crs db NEW = inr (append_vertical_crs db NEW))
  /\ ((forall a c,
          NEW.(vertical_crs.auth_name) = Some a -> NEW.(vertical_crs.code) = Some c ->
          ~ in_crs_view db a c) ->
      deprecated_row vertical_crs.auth_name vertical_crs.code vertical_crs.deprecated
                     db.(vertical_crs)
                     NEW.(vertical_crs.datum_auth_name) NEW.(vertical_crs.datum_code) ->
      NEW.(vertical_crs.deprecated) = int 0 ->
      insert_vertical_crs db NEW
      = inl (RaiseAbort "insert on vertical_crs violates constraint: datum must not be deprecated when vertical_crs is not deprecated")).
Proof.
  split; [|split; [|apply vertical_crs_rejected_on_vertical_crs]].
  - intros rows K. unfold insert_vertical_crs, insert.
    change (vertical_crs_insert_trigger (with_vertical_datum db rows) NEW)
      with (vertical_crs_insert_trigger db NEW).
    destruct (run_trigger (vertical_crs_insert_trigger db NEW)) as [e|[]];
      cbn [bind]; [reflexivity|].
    assert (vertical_crs_constraints (with_vertical_datum db rows) NEW
            = vertical_crs_constraints db NEW) as ->.
    { unfold vertical_crs_constraints, FOREIGN_KEY.
      cbn [with_vertical_datum vertical_datum vertical_crs coordinate_system area fst snd].
      now rewrite (exists_key_same_keys _ _ _ _ K). }
    destruct (run_constraints (vertical_crs_constraints db NEW)) as [e|[]];
      cbn [bind ok]; reflexivity.
  - intros d _ _ _. apply vertical_crs_admitted_on_deprecated_datum.
Qed.

Lemma vertical_crs_datum_deprecation_unchecked_witness :
  let db := Sample.built Sample.registry in
  let in_force := [Sample.EGM96_geoid; Sample.a_vertical_datum "5100" "Mean Sea Level" 0] in
  insert_vertical_crs (with_vertical_datum db in_force) Sample.height_on_old_datum
  = inr (with_vertical_datum (append_vertical_crs db Sample.height_on_old_datum) in_force)
  /\ insert_vertical_crs db Sample.height_on_old_datum
     = inr (append_vertical_crs db Sample.height_on_old_datum)
  /\ insert_vertical_crs (Sample.built Sample.registry_with_shadow)
                         Sample.another_EGM96_height
     = inl (RaiseAbort "insert on vertical_crs violates constraint: datum must not be deprecated when vertical_crs is not deprecated").
Proof.
  intros db in_force.
  assert (insert_vertical_crs (Sample.built Sample.registry_with_shadow)
                              Sample.another_EGM96_height
          = inl (RaiseAbort "insert on vertical_crs violates constraint: datum must not be deprecated when vertical_crs is not deprecated"))
    as Shadow.
  { apply (proj2 (proj2 (vertical_crs_datum_deprecation_unchecked
                           (Sample.built Sample.registry_with_shadow)
                           Sample.another_EGM96_height))).
    - intros a c [= <-] [= <-] [v [I K]].
      refine (exists_key_false _ crs_view.auth_name crs_view.code _ "EPSG" "5774"
                               _ v I K).
      vm_compute. reflexivity.
    - exists Sample.shadow_height, 1%Z. vm_compute. repeat split; auto 10; discriminate.
    - reflexivity. }
  destruct (vertical_crs_datum_deprecation_unchecked db Sample.height_on_old_datum)
    as [independent [admitted _]].
  assert (insert_vertical_crs db Sample.height_on_old_datum
          = inr (append_vertical_crs db Sample.height_on_old_datum)) as E.
  { apply (admitted Sample.old_vertical_datum).
    - unfold vertical_datum_of. vm_compute. auto 10.
    - reflexivity.
    - reflexivity.
    - intros v I [_ C]. vm_compute in I. destruct I as [<-|[]]. discriminate C.
    - split; [|vm_compute; reflexivity].
      intros s I M. unfold vertical_crs_insert_trigger in I. cbn [In] in I.
      destruct I as [<-|[<-|[<-|[<-|[<-|[]]]]]]; vm_compute; reflexivity. }
  split; [|split; [exact E | exact Shadow]].
  specialize (independent in_force eq_refl). rewrite E in independent.
  destruct (insert_vertical_crs (with_vertical_datum db in_force)
                                Sample.height_on_old_datum) as [e|db'];
    [contradiction | now subst].
Defined.

(** ** Conversion: the parameter slots *)

(** C2, as the claim states it, fails: in the store of [Sample.operations] a
    conversion whose first slot names its parameter and gives neither value
    nor unit is admitted. *)
Lemma conversion_slots_counterexample :
  ~ (forall db NEW db',
        reachable db ->
        insert_conversion_table db NEW = inr db' ->
        forall p, In p (conversion_table.params NEW) -> slot_all_or_nothing p).
Proof.
  intros claim.
  assert (slot_all_or_nothing Sample.half_param) as [N|P].
  { apply (claim (Sample.built Sample.operations) Sample.half_filled_conversion
                 (append_conversion_table (Sample.built Sample.operations)
                                          Sample.half_filled_conversion)).
    - apply (run_reachable Sample.operations empty_database); [constructor|].
      vm_compute. reflexivity.
    - vm_compute. reflexivity.
    - left. reflexivity. }
  - destruct N as [N _]. discriminate N.
  - destruct P as [_ [_ [P _]]]. apply P. reflexivity.
Qed.

Lemma fk_conversion_param_uom_known (db : database) (name : string)
      (p : conversion_table.param) :
  satisfied (fk_conversion_param_uom db name p) = true -> slot_unit_known db p.
Proof.
  unfold fk_conversion_param_uom. cbn [satisfied FOREIGN_KEY fst snd].
  intros F a c A C. rewrite A, C in F. cbn [is_null or3 truth orb] in F.
  apply exists_key_inv in F as [u [a' [c' [I [[= <-] [[= <-] [Ka Kc]]]]]]].
  exists u. auto.
Qed.

Lemma fk_conversion_param_uom_same (db : database) (name : string)
      (p p' : conversion_table.param) :
  same_unit p p' -> fk_conversion_param_uom db name p = fk_conversion_param_uom db name p'.
Proof.
  intros [A C]. unfold fk_conversion_param_uom. now rewrite A, C.
Qed.

(** What [conversion_table] asks of a slot: its unit, when both unit columns
    are set, is a stored unit of measure. *)
Lemma conversion_table_units_known (db db' : database) (NEW : conversion_table.row) :
  insert_conversion_table db NEW = inr db' ->
  forall p, In p (conversion_table.params NEW) -> slot_unit_known db p.
Proof.
  intros E p I. apply insert_ok in E as [_ [C _]].
  unfold conversion_table_constraints in C. cbn [forallb] in C.
  do 15 (apply andb_true_iff in C as [_ C]).
  repeat (apply andb_true_iff in C as [? C]).
  unfold conversion_table.params in I. cbn [In] in I.
  repeat (destruct I as [<-|I]; [eapply fk_conversion_param_uom_known; eassumption|]).
  contradiction.
Qed.

(** [conversion_table] reads neither the parameter references nor the values
    of the slots. *)
Lemma conversion_table_same_outcome (db : database) (NEW NEW' : conversion_table.row) :
  same_but_parameters NEW NEW' ->
  (forall e, insert_conversion_table db NEW = inl e ->
             insert_conversion_table db NEW' = inl e)
  /\ (forall db', insert_conversion_table db NEW = inr db' ->
                  insert_conversion_table db NEW'
                  = inr (append_conversion_table db NEW')).
Proof.
  intros S. unfold same_but_parameters in S.
  destruct S as [Ea [Ec [En [_ [_ [Eaa [Eac [Ema [Emc [Ed F]]]]]]]]]].
  unfold conversion_table.params in F.
  repeat match goal with
         | H : Forall2 _ (_ :: _) (_ :: _) |- _ =>
             apply Forall2_cons_iff in H as [? H]
         end.
  assert (conversion_table_insert_trigger db NEW
          = conversion_table_insert_trigger db NEW') as T.
  { unfold conversion_table_insert_trigger. now rewrite Ea, Ec. }
  assert (conversion_table_constraints db NEW
          = conversion_table_constraints db NEW') as K.
  { unfold conversion_table_constraints.
    rewrite Ea, Ec, En, Eaa, Eac, Ema, Emc, Ed.
    repeat match goal with
           | H : same_unit ?p ?p' |- _ =>
               rewrite !(fun n => fk_conversion_param_uom_same db n p p' H); clear H
           end.
    reflexivity. }
  unfold insert_conversion_table, insert. rewrite T, K.
  destruct (run_trigger _) as [e|[]]; cbn [bind].
  - split; [auto | discriminate].
  - destruct (run_constraints _) as [e|[]]; cbn [bind ok];
      (split; [auto; discriminate | try discriminate; reflexivity]).
Qed.

(** ** Deprecated references and the authority ESRI *)

Lemma insert_abort_inv (DB : Type) (body : list raise) (cs : list constraint)
      (stored : DB) (m : string) :
  (forall c, In c cs -> forall m', violation c <> RaiseAbort m') ->
  insert body cs stored = inl (RaiseAbort m) ->
  exists s, In s body /\ truth (condition s) = true /\ message s = m.
Proof.
  intros N. unfold insert, bind.
  destruct (run_trigger body) as [e|[]] eqn:T.
  - intros [= ->]. apply run_trigger_raises in T as [s [I [C [= ->]]]]. eauto.
  - destruct (run_constraints cs) as [e|[]] eqn:C; [|discriminate].
    intros [= ->]. exfalso. clear T.
    induction cs as [|c rest IH]; simpl in C; [discriminate|].
    destruct (satisfied c).
    + apply IH; [|exact C]. intros c' I. apply N. now right.
    + apply (N c (or_introl eq_refl) m). congruence.
Qed.

Lemma deprecated_reference_fires (R : Type) (ka kc : R -> text) (kd : R -> boolean)
      (l : list R) (x y : text) (dep : boolean) (guard : tri) :
  deprecated_row ka kc kd l x y ->
  dep = int 0 ->
  truth guard = true ->
  truth (and3 (and3 (exists_ l (fun r => and3 (and3 (eq3 (ka r) x) (eq3 (kc r) y))
                                              (ne3 (kd r) (int 0))))
                    (eq3 dep (int 0)))
              guard) = true.
Proof.
  intros [r [z [I [Nx [Ny [Ka [Kc [Kd Nz]]]]]]]] -> G.
  rewrite !truth_and3, G, truth_exists. cbn [truth eq3 cmp val_eqb integer_value int].
  rewrite Z.eqb_refl, !andb_true_r.
  apply existsb_exists. exists r. split; [exact I|].
  rewrite !truth_and3, Ka, Kc, Kd.
  destruct x as [a|]; [|congruence]. destruct y as [c|]; [|congruence].
  cbn. rewrite !String.eqb_refl. cbn.
  destruct (Z.eqb_spec z 0); [contradiction | reflexivity].
Qed.

Lemma not_esri_guard (auth : text) (a : string) :
  auth = Some a -> a <> "ESRI" -> truth (not3 (eq3 auth (txt "ESRI"))) = true.
Proof.
  intros -> N. cbn. apply String.eqb_neq in N. now rewrite N.
Qed.

Lemma esri_guard (auth : text) :
  auth = txt "ESRI" -> truth (not3 (eq3 auth (txt "ESRI"))) = false.
Proof. intros ->. reflexivity. Qed.

Lemma projected_guard_exempted (auth base_auth : text) (base : string) :
  auth = txt "ESRI" -> base_auth = Some base -> base <> "ESRI" ->
  truth (not3 (and3 (eq3 auth (txt "ESRI")) (ne3 base_auth (txt "ESRI")))) = false.
Proof.
  intros -> -> N. cbn. apply String.eqb_neq in N. now rewrite N.
Qed.

Lemma projected_guard_unexempted (auth base_auth : text) (a base : string) :
  auth = Some a -> base_auth = Some base ->
  ~ (auth = txt "ESRI" /\ exists b, base_auth = Some b /\ b <> "ESRI") ->
  truth (not3 (and3 (eq3 auth (txt "ESRI")) (ne3 base_auth (txt "ESRI")))) = true.
Proof.
  intros -> -> N. cbn.
  destruct (String.eqb_spec a "ESRI") as [->|]; [|reflexivity].
  destruct (String.eqb_spec base "ESRI") as [->|D]; [reflexivity|].
  exfalso. apply N. split; [reflexivity|]. exists base. auto.
Qed.

Ltac no_abort_among_constraints :=
  let c := fresh "c" in
  let I := fresh "I" in
  let m := fresh "m" in
  intros c I m;
  match type of I with In _ (?constraints _ _) => unfold constraints in I end;
  cbn [In] in I;
  repeat (destruct I as [<-|I];
          [cbv [violation NOT_NULL CHECK PRIMARY_KEY PRIMARY_KEY1 FOREIGN_KEY FOREIGN_KEY1
                fk_unit_of_measure fk_other_transformation_param_uom
                fk_conversion_param_uom]; discriminate|]);
  contradiction.

Lemma exempted_never_rejected_for_deprecation (db : database) (s : statement) (m : string) :
  exempted s ->
  In m (deprecated_reference_messages s) ->
  execute db s <> inl (RaiseAbort m).
Proof.
  destruct s; cbn [exempted deprecated_reference_messages execute];
    try contradiction; intros X Hm E;
    match type of E with ?ins _ _ = _ => unfold ins in E end;
    (apply insert_abort_inv in E; [|no_abort_among_constraints]);
    destruct E as [st [I [C M]]];
    match type of I with In _ (?trigger _ _) => unfold trigger in I end;
    cbn [In] in I;
    repeat (destruct I as [<-|I];
            [cbn [message] in M; subst m; cbn [In] in Hm;
             repeat (destruct Hm as [Hm|Hm]; [try discriminate Hm|]);
             try contradiction|]);
    try contradiction;
    cbn [condition] in C; rewrite truth_and3 in C; apply andb_true_iff in C as [_ C].
  - destruct X as [Xa [base [Xb Xn]]].
    now rewrite (projected_guard_exempted _ _ base Xa Xb Xn) in C.
  - now rewrite (esri_guard _ X) in C.
  - now rewrite (esri_guard _ X) in C.
  - now rewrite (esri_guard _ X) in C.
  - now rewrite (esri_guard _ X) in C.
  - now rewrite (esri_guard _ X) in C.
  - now rewrite (esri_guard _ X) in C.
  - now rewrite (esri_guard _ X) in C.
  - now rewrite (esri_guard _ X) in C.
Qed.

Ltac contradict_silent S H :=
  match type of S with silent (?trigger _ _) = true => unfold trigger in S end;
  cbn [silent forallb condition] in S; rewrite H in S; cbn [negb andb] in S;
  repeat rewrite andb_false_r in S; discriminate S.

Lemma insert_rejected_cases (DB : Type) (body : list raise) (cs : list constraint)
      (stored : DB) :
  (silent body = true -> exists e, run_constraints cs = inl e /\ e = NotNullFailed "auth_name") ->
  exists e, insert body cs stored = inl e
            /\ ((exists m, e = RaiseAbort m) \/ e = NotNullFailed "auth_name").
Proof.
  intros H. unfold insert, bind.
  destruct (run_trigger body) as [e|[]] eqn:T.
  - exists e. split; [reflexivity|]. left.
    apply run_trigger_raises in T as [s [_ [_ ->]]]. eauto.
  - apply run_trigger_ok in T. destruct (H T) as [e [-> ->]]. eauto.
Qed.

(** A row in force that names a deprecated CRS and is not exempted is
    stopped by a statement of the trigger, or has no authority at all and is
    stopped by [NOT NULL]. *)
Lemma unexempted_rejected (db : database) (s : statement) :
  in_force s ->
  names_deprecated_crs db s ->
  ~ exempted s ->
  exists e, execute db s = inl e
            /\ ((exists m, e = RaiseAbort m) \/ e = NotNullFailed "auth_name").
Proof.
  intros F D X.
  destruct s; cbn [in_force names_deprecated_crs exempted execute] in *;
    try contradiction;
    match goal with |- exists e, ?ins _ _ = _ /\ _ => unfold ins end;
    apply insert_rejected_cases; intros S;
    match goal with
    | |- exists e, run_constraints (?constraints _ ?NEW) = _ /\ _ =>
        unfold constraints; cbn [run_constraints satisfied violation NOT_NULL]
    end;
    match goal with
    | |- context [truth (is_not_null ?x)] => destruct x as [a|] eqn:Ea
    end;
    try (cbn [truth is_not_null]; eauto; fail);
    exfalso.
  - (* projected_crs *)
    assert (exists base, projected_crs.geodetic_crs_auth_name NEW = Some base) as [base Eb].
    { destruct D as [r [z [_ [Nx _]]]].
      destruct (projected_crs.geodetic_crs_auth_name NEW) as [b|]; [eauto | congruence]. }
    rewrite <- Ea in X.
    pose proof (deprecated_reference_fires _ _ _ _ _ _ _ _
                  (not3 (and3 (eq3 (projected_crs.auth_name NEW) (txt "ESRI"))
                              (ne3 (projected_crs.geodetic_crs_auth_name NEW) (txt "ESRI"))))
                  D F (projected_guard_unexempted _ _ a base Ea Eb X)) as H.
    contradict_silent S H.
  - (* helmert_transformation_table *)
    assert (a <> "ESRI") as N by (intros ->; apply X; reflexivity).
    destruct D as [D|D];
      pose proof (deprecated_reference_fires _ _ _ _ _ _ _ _ _
                    D F (not_esri_guard _ a Ea N)) as H;
      contradict_silent S H.
  - (* grid_transformation *)
    assert (a <> "ESRI") as N by (intros ->; apply X; reflexivity).
    destruct D as [D|D];
      pose proof (deprecated_reference_fires _ _ _ _ _ _ _ _ _
                    D F (not_esri_guard _ a Ea N)) as H;
      contradict_silent S H.
  - (* other_transformation *)
    assert (a <> "ESRI") as N by (intros ->; apply X; reflexivity).
    destruct D as [D|D];
      pose proof (deprecated_reference_fires _ _ _ _ _ _ _ _ _
                    D F (not_esri_guard _ a Ea N)) as H;
      contradict_silent S H.
  - (* concatenated_operation *)
    assert (a <> "ESRI") as N by (intros ->; apply X; reflexivity).
    destruct D as [D|D];
      pose proof (deprecated_reference_fires _ _ _ _ _ _ _ _ _
                    D F (not_esri_guard _ a Ea N)) as H;
      contradict_silent S H.
Qed.

Lemma old_crs_deprecated :
  deprecated_geodetic_crs (Sample.built Sample.operations) (txt "EPSG") (txt "4000")
  /\ deprecated_crs (Sample.built Sample.operations) (txt "EPSG") (txt "4000")
  /\ deprecated_geodetic_crs (Sample.built Sample.operations) (txt "ESRI") (txt "104000").
Proof.
  split; [|split].
  - exists Sample.old_crs, 1%Z. vm_compute. repeat split; auto 10; discriminate.
  - exists (crs_view.select_geodetic_crs Sample.old_crs), 1%Z.
    vm_compute. repeat split; auto 10; discriminate.
  - exists Sample.old_esri_crs, 1%Z. vm_compute. repeat split; auto 10; discriminate.
Qed.

Lemma exempted_statements_admitted (s : statement) :
  In s Sample.exempted_statements ->
  in_force s /\ names_deprecated_crs (Sample.built Sample.operations) s /\ exempted s
  /\ execute (Sample.built Sample.operations) s
     = inr (stored (Sample.built Sample.operations) s).
Proof.
  destruct old_crs_deprecated as [G [V _]].
  unfold Sample.exempted_statements. cbn [In].
  intros [<-|[<-|[<-|[<-|[<-|[]]]]]];
    (split; [reflexivity|]);
    (split; [cbn [names_deprecated_crs]; first [exact G | left; exact G | left; exact V]|]);
    (split; [cbn [exempted]; first [reflexivity | split; [reflexivity|]; exists "EPSG";
                                    split; [reflexivity | discriminate]]|]);
    vm_compute; reflexivity.
Qed.

(** C8. A row of the authority ESRI is never rejected by the rules on a
    deprecated source or target CRS (Helmert, grid and other transformations,
    concatenated operations), nor, when its base geodetic CRS is of another
    authority, by the rule on a deprecated base CRS (projected CRS); a row in
    force that names a deprecated CRS and is not exempted in this way is
    rejected; and in the store of [Sample.operations] the five exempted rows
    of [Sample.exempted_statements], all in force on the deprecated CRS
    EPSG:4000, are admitted. *)
Theorem deprecated_reference_exemption :
  (forall db s m,
      exempted s -> In m (deprecated_reference_messages s) ->
      execute db s <> inl (RaiseAbort m))
  /\ (forall db s,
         in_force s -> names_deprecated_crs db s -> ~ exempted s ->
         exists e, execute db s = inl e
                   /\ ((exists m, e = RaiseAbort m) \/ e = NotNullFailed "auth_name"))
  /\ (forall s,
         In s Sample.exempted_statements ->
         in_force s /\ names_deprecated_crs (Sample.built Sample.operations) s /\ exempted s
         /\ execute (Sample.built Sample.operations) s
            = inr (stored (Sample.built Sample.operations) s)).
Proof.
  split; [|split].
  - exact exempted_never_rejected_for_deprecation.
  - exact unexempted_rejected.
  - exact exempted_statements_admitted.
Qed.

Lemma deprecated_reference_exemption_witness :
  let db := Sample.built Sample.operations in
  execute db (INSERT_INTO_grid_transformation
                (Sample.a_grid_transformation "ESRI" "10" "EPSG" "4000"))
  <> inl (RaiseAbort "insert on grid_transformation violates constraint: source_crs must not be deprecated when grid_transformation is not deprecated")
  /\ (forall s, In s Sample.unexempted_statements ->
                 exists e, execute db s = inl e
                           /\ ((exists m, e = RaiseAbort m) \/ e = NotNullFailed "auth_name"))
  /\ execute db (INSERT_INTO_projected_crs
                   (Sample.a_projected_crs "ESRI" "102100" "EPSG" "4000"))
     = inr (append_projected_crs db (Sample.a_projected_crs "ESRI" "102100" "EPSG" "4000")).
Proof.
  intros db.
  destruct deprecated_reference_exemption as [skipped [rejected admitted]].
  destruct old_crs_deprecated as [G [V E]].
  split; [|split].
  - apply skipped; [reflexivity | left; reflexivity].
  - unfold Sample.unexempted_statements. cbn [In].
    intros s [<-|[<-|[<-|[<-|[<-|[<-|[]]]]]]]; apply rejected;
      try reflexivity;
      try (cbn [names_deprecated_crs]; first [exact G | exact E | left; exact G | left; exact V]);
      cbn [exempted]; try discriminate.
    + intros [A _]. discriminate A.
    + intros [_ [b [B N]]]. apply N. now injection B as <-.
  - apply (admitted (INSERT_INTO_projected_crs _)). cbn. auto 10.
Defined.

(** ** Concatenated operations *)

Lemma operation_keys_grow (db : database) (s : statement)
      (v : coordinate_operation_with_conversion_view.row) :
  In v (operation_keys db) -> In v (operation_keys (stored db s)).
Proof.
  destruct s; unfold operation_keys, stored;
    cbn [grid_transformation helmert_transformation_table other_transformation
         concatenated_operation conversion_table
         append_unit_of_measure append_celestial_body append_ellipsoid append_area
         append_prime_meridian append_geodetic_datum append_vertical_datum
         append_coordinate_system append_geodetic_crs append_vertical_crs
         append_conversion_method append_conversion_param append_conversion_table
         append_projected_crs append_compound_crs append_coordinate_operation_method
         append_helmert_transformation_table append_grid_transformation
         append_grid_packages append_grid_alternatives append_other_transformation
         append_concatenated_operation];
    rewrite ?map_app, ?in_app_iff; tauto.
Qed.

Lemma resolves_grows (db : database) (s : statement) (step : text * text) :
  resolves db step -> resolves (stored db s) step.
Proof.
  intros [a [c [-> T]]]. exists a, c. split; [reflexivity|].
  apply taken_operation_iff in T as [v [I K]]. apply taken_operation_iff.
  exists v. split; [now apply operation_keys_grow | exact K].
Qed.

Lemma concatenated_key_taken (db : database) (o : concatenated_operation.row) (a c : string) :
  In o db.(concatenated_operation) ->
  o.(concatenated_operation.auth_name) = Some a ->
  o.(concatenated_operation.code) = Some c ->
  in_coordinate_operation_with_conversion_view db a c.
Proof.
  intros I A C. apply taken_operation_iff.
  exists (operation_key "concatenated_operation" (Some a) (Some c)).
  split; [|split; reflexivity].
  unfold operation_keys. rewrite !in_app_iff. right. right. right. left.
  apply in_map_iff. exists o. split; [now rewrite A, C | exact I].
Qed.

Lemma concatenated_admitted_steps (db db' : database) (NEW : concatenated_operation.row) :
  insert_concatenated_operation db NEW = inr db' ->
  (forall step, In step (steps NEW) -> resolves db step /\ ~ is_concatenated db step)
  /\ steps_resolved db' NEW.
Proof.
  intros E.
  pose proof (enters_fresh db db' (INSERT_INTO_concatenated_operation NEW) _ _ _ eq_refl E)
    as [a0 [c0 [K0 Fresh]]]. injection K0 as Ka0 Kc0.
  apply insert_ok in E as [S [_ ->]].
  unfold concatenated_operation_insert_trigger in S.
  cbn [silent forallb condition] in S.
  apply andb_true_iff in S as [_ S]. apply andb_true_iff in S as [S2 S].
  apply andb_true_iff in S as [S3 S]. apply andb_true_iff in S as [S4 S].
  apply andb_true_iff in S as [_ S]. apply andb_true_iff in S as [_ S].
  apply andb_true_iff in S as [S7 S]. apply andb_true_iff in S as [S8 S].
  apply andb_true_iff in S as [S9 _].
  rewrite truth_not_exists, negb_involutive in S2, S3.
  apply negb_true_iff in S4, S7, S8, S9.
  rewrite truth_and3, truth_not_exists in S4.
  rewrite <- truth_exists in S2, S3.
  assert (forall step, In step (steps NEW) -> resolves db step /\ ~ is_concatenated db step)
    as Before.
  { intros step I. unfold steps in I. cbn [In app] in I.
    destruct I as [<-|[<-|I]].
    - split.
      + apply exists_key_inv in S2 as [v [a [c [I [A [C K]]]]]].
        exists a, c. rewrite A, C. split; [reflexivity|]. exists v. auto.
      + intros [a [c [o [[= A C] [I [Ka Kc]]]]]]. rewrite A, C in S7.
        now rewrite (exists_key_true _ _ _ _ a c o I Ka Kc) in S7.
    - split.
      + apply exists_key_inv in S3 as [v [a [c [I [A [C K]]]]]].
        exists a, c. rewrite A, C. split; [reflexivity|]. exists v. auto.
      + intros [a [c [o [[= A C] [I [Ka Kc]]]]]]. rewrite A, C in S8.
        now rewrite (exists_key_true _ _ _ _ a c o I Ka Kc) in S8.
    - destruct (concatenated_operation.step3_auth_name NEW) as [a3|] eqn:E3;
        [|contradiction].
      destruct I as [<-|[]]. split.
      + cbn [truth is_not_null andb] in S4. apply negb_false_iff in S4.
        rewrite <- truth_exists in S4.
        apply exists_key_inv in S4 as [v [a [c [I [A [C K]]]]]].
        exists a, c. rewrite A, C. split; [reflexivity|]. exists v. auto.
      + intros [a [c [o [[= A C] [I [Ka Kc]]]]]]. rewrite A, C in S9.
        now rewrite (exists_key_true _ _ _ _ a c o I Ka Kc) in S9. }
  split; [exact Before|].
  intros step I. destruct (Before step I) as [Res NotC]. split.
  - exact (resolves_grows db (INSERT_INTO_concatenated_operation NEW) step Res).
  - intros [a [c [o [-> [Io [Ka Kc]]]]]].
    cbn [append_concatenated_operation concatenated_operation] in Io.
    apply in_app_iff in Io as [Io|[<-|[]]].
    + apply NotC. exists a, c, o. auto.
    + apply Fresh. destruct Res as [a' [c' [[= <- <-] T]]].
      rewrite Ka in Ka0. rewrite Kc in Kc0.
      injection Ka0 as <-. injection Kc0 as <-. exact T.
Qed.

Lemma is_concatenated_grows (db : database) (s : statement) (step : text * text) :
  is_concatenated db step -> is_concatenated (stored db s) step.
Proof.
  intros [a [c [o [K [I Ko]]]]]. exists a, c, o. split; [exact K|]. split; [|exact Ko].
  destruct s; cbn [stored]; try exact I.
  cbn [append_concatenated_operation concatenated_operation].
  apply in_app_iff. now left.
Qed.

Lemma reachable_steps_resolved (db : database) :
  reachable db ->
  forall c, In c db.(concatenated_operation) -> steps_resolved db c.
Proof.
  revert db. by_reachable_table_ind.
  - intros c [].
  - intros db s db' T R IH E c I.
    pose proof (execute_stored db db' s T E) as ->.
    assert (In c db.(concatenated_operation)
            \/ s = INSERT_INTO_concatenated_operation c) as [Old | ->].
    { destruct s; cbn [stored] in I; try (left; exact I).
      cbn [append_concatenated_operation concatenated_operation] in I.
      apply in_app_iff in I as [I|[<-|[]]]; auto. }
    + intros step Is. destruct (IH c Old step Is) as [Res NotC]. split.
      * now apply resolves_grows.
      * intros [a [k [o [-> [Io [Ka Kc]]]]]]. 
        assert (In o db.(concatenated_operation)
                \/ s = INSERT_INTO_concatenated_operation o) as [Oo | ->].
        { destruct s; cbn [stored] in Io; try (left; exact Io).
          cbn [append_concatenated_operation concatenated_operation] in Io.
          apply in_app_iff in Io as [Io|[<-|[]]]; auto. }
        -- apply NotC. exists a, k, o. auto.
        -- destruct (enters_fresh db _ (INSERT_INTO_concatenated_operation o) _ _ _
                       eq_refl E) as [a0 [c0 [K0 Fresh]]].
           apply Fresh. injection K0 as Ka0 Kc0.
           rewrite Ka in Ka0. rewrite Kc in Kc0.
           injection Ka0 as <-. injection Kc0 as <-.
           destruct Res as [a' [c' [[= <- <-] Tk]]]. exact Tk.
    + exact (proj2 (concatenated_admitted_steps db _ c E)).
Qed.

(** C6. Each of the two or three steps of an admitted concatenated operation
    names an operation of the unified operation namespace and none names a
    concatenated operation, when the row is stored and in every reachable
    store; an [INSERT] one of whose steps names a concatenated operation, or
    names no stored operation, fails. *)
Theorem concatenated_operation_steps :
  (forall db NEW db',
      insert_concatenated_operation db NEW = inr db' ->
      (2 <= List.length (steps NEW) <= 3) /\ steps_resolved db' NEW)
  /\ (forall db c,
         reachable db -> In c db.(concatenated_operation) -> steps_resolved db c)
  /\ (forall db NEW step,
         In step (steps NEW) ->
         is_concatenated db step \/ ~ resolves db step ->
         exists e, insert_concatenated_operation db NEW = inl e).
Proof.
  split; [|split].
  - intros db NEW db' E. split.
    + unfold steps.
      destruct (concatenated_operation.step3_auth_name NEW); cbn [List.length app]; lia.
    + exact (proj2 (concatenated_admitted_steps db db' NEW E)).
  - intros db c R I. exact (reachable_steps_resolved db R c I).
  - intros db NEW step I Bad.
    destruct (insert_concatenated_operation db NEW) as [e|db'] eqn:E; [eauto|].
    exfalso.
    destruct (proj1 (concatenated_admitted_steps db db' NEW E) step I) as [Res NotC].
    destruct Bad as [B|B]; auto.
Qed.

Lemma concatenated_operation_steps_witness :
  let db := Sample.built Sample.operations in
  steps_resolved
    (append_concatenated_operation db
       (Sample.a_concatenated_operation "EPSG" "10" "EPSG" "4326"
          ("EPSG", "1") ("EPSG", "3856") None))
    (Sample.a_concatenated_operation "EPSG" "10" "EPSG" "4326"
       ("EPSG", "1") ("EPSG", "3856") None)
  /\ (forall c, In c db.(concatenated_operation) -> steps_resolved db c)
  /\ (exists e,
         insert_concatenated_operation db
           (Sample.a_concatenated_operation "EPSG" "10" "EPSG" "4326"
              ("EPSG", "1") ("EPSG", "4") None) = inl e)
  /\ (exists e,
         insert_concatenated_operation db
           (Sample.a_concatenated_operation "EPSG" "10" "EPSG" "4326"
              ("EPSG", "1") ("EPSG", "77") None) = inl e).
Proof.
  intros db.
  destruct concatenated_operation_steps as [admitted [kept rejected]].
  split; [|split; [|split]].
  - apply (admitted db). vm_compute. reflexivity.
  - intros c. apply kept.
    apply (run_reachable Sample.operations empty_database); [constructor|].
    vm_compute. reflexivity.
  - apply (rejected db _ (txt "EPSG", txt "4")); [right; left; reflexivity|].
    left. exists "EPSG", "4",
      (Sample.a_concatenated_operation "EPSG" "4" "EPSG" "4326"
         ("EPSG", "1") ("EPSG", "2") (Some ("EPSG", "3"))).
    split; [reflexivity|]. split; [|split; reflexivity].
    vm_compute. auto.
  - apply (rejected db _ (txt "EPSG", txt "77")); [right; left; reflexivity|].
    right. intros [a [c [[= <- <-] T]]].
    apply taken_operation_iff in T as [v [I [Ka Kc]]].
    vm_compute in I.
    repeat (destruct I as [<-|I]; [discriminate Kc|]). contradiction.
Defined.

(** ** The store only grows *)

Lemma begins_refl (A : Type) (l : list A) : begins l l.
Proof. exists []. now rewrite app_nil_r. Qed.

Lemma begins_app (A : Type) (l more : list A) : begins l (l ++ more).
Proof. now exists more. Qed.

Lemma begins_trans (A : Type) (l1 l2 l3 : list A) :
  begins l1 l2 -> begins l2 l3 -> begins l1 l3.
Proof. intros [m1 ->] [m2 ->]. exists (m1 ++ m2)%list. now rewrite app_assoc. Qed.

Lemma begins_in (A : Type) (l l' : list A) (x : A) : begins l l' -> In x l -> In x l'.
Proof. intros [m ->] I. apply in_app_iff. now left. Qed.

Lemma extends_refl (db : database) : extends db db.
Proof. constructor; apply begins_refl. Qed.

Lemma extends_trans (db1 db2 db3 : database) :
  extends db1 db2 -> extends db2 db3 -> extends db1 db3.
Proof. intros [] []. constructor; eapply begins_trans; eassumption. Qed.

Lemma stored_extends (db : database) (s : statement) : extends db (stored db s).
Proof. destruct s; constructor; cbn; first [apply begins_refl | apply begins_app]. Qed.

Lemma table_script_extends (db db' : database) : table_script db db' -> extends db db'.
Proof.
  intros [script [T E]]. revert db T E.
  induction script as [|s rest IH]; intros db T; simpl.
  - intros [= <-]. apply extends_refl.
  - simpl in T. apply andb_true_iff in T as [Ts T].
    destruct (execute db s) as [e|db1] eqn:E1; simpl; [discriminate|]. intros E.
    apply extends_trans with db1; [|now apply IH].
    rewrite (execute_stored db db1 s Ts E1). apply stored_extends.
Qed.

Lemma execute_extends (db db' : database) (s : statement) :
  execute db s = inr db' -> extends db db'.
Proof. intros E. apply table_script_extends. exact (execute_script db db' s E). Qed.

Lemma run_extends (script : list statement) (db db' : database) :
  run db script = inr db' -> extends db db'.
Proof.
  revert db. induction script as [|s rest IH]; intros db; simpl.
  - intros [= <-]. apply extends_refl.
  - destruct (execute db s) as [e|db1] eqn:E1; simpl; [discriminate|]. intros E.
    apply extends_trans with db1; [exact (execute_extends db db1 s E1) | now apply IH].
Qed.

(** ** Every stored row was admitted *)

Lemma row_stored_extends (db db' : database) (s : statement) :
  extends db db' -> row_stored db s -> row_stored db' s.
Proof. intros [] I. destruct s; cbn in *; try contradiction; eapply begins_in; eassumption. Qed.

(** A stored row is a row of the schema's own seed, or was admitted by the
    [INSERT] of its table into an earlier reachable store. *)
Lemma stored_row_history (db : database) (s : statement) :
  reachable db -> row_stored db s ->
  row_stored empty_database s \/ admitted_before db s.
Proof.
  intros R. revert db R s. by_reachable_table_ind.
  - intros s I. now left.
  - intros db s1 db' T R IH E s I.
    pose proof (execute_stored db db' s1 T E) as ->.
    assert (row_stored db s \/ s = s1) as [Old | ->].
    { destruct s1; try discriminate T; destruct s; cbn in I; try contradiction;
        try (left; exact I);
        (apply in_app_iff in I as [I|[<-|[]]]; [left; exact I | right; reflexivity]). }
    + destruct (IH s Old) as [Seed | [db0 [R0 [E0 X0]]]]; [now left | right].
      exists db0. split; [exact R0 | split; [exact E0|]].
      apply extends_trans with db; [exact X0 | apply stored_extends].
    + right. exists db. split; [exact R | split; [exact E | apply extends_refl]].
Qed.

(** What [insert_ok] gives for a stored row: the trigger of its table was
    silent and its constraints held in a reachable store [db0] that the
    store extends. *)
Tactic Notation "admitted" constr(s) "by" hyp(R) hyp(I)
       "as" ident(db0) ident(R0) ident(S0) ident(C0) ident(X0) :=
  let Seed := fresh "Seed" in
  let E0 := fresh "E0" in
  let X := fresh "X" in
  destruct (stored_row_history _ s R I) as [Seed | [db0 [R0 [E0 X]]]];
  [ try (cbn in Seed; contradiction)
  | pose proof (extends_trans _ _ _ (stored_extends db0 s) X) as X0; clear X;
    cbn [execute] in E0; apply insert_ok in E0 as [S0 [C0 _]] ].

Ltac head_of t := match t with ?f _ => head_of f | _ => t end.

(** One hypothesis per constraint of the table. *)
Ltac split_constraints C :=
  match type of C with
  | forallb satisfied ?cs = true => let h := head_of cs in unfold h in C
  end;
  cbn [forallb] in C;
  repeat (let F := fresh "F" in apply andb_true_iff in C as [F C]);
  clear C.

(** One hypothesis per statement of the trigger. *)
Ltac split_silent S :=
  match type of S with
  | silent ?body = true => let h := head_of body in try unfold h in S
  end;
  unfold silent in S;
  cbn [forallb condition] in S;
  repeat (let F := fresh "T" in apply andb_true_iff in S as [F S]);
  clear S.

Lemma not_null_some (A : Type) (column : string) (x : option A) :
  satisfied (NOT_NULL column x) = true -> exists v, x = Some v.
Proof. destruct x; simpl; [eauto | discriminate]. Qed.

(** ** Primary keys *)

Lemma unique_keys_add (R : Type) (ka kc : R -> text) (l : list R) (NEW : R)
      (na nc name : string) :
  unique_keys ka kc l ->
  satisfied (NOT_NULL na (ka NEW)) = true ->
  satisfied (NOT_NULL nc (kc NEW)) = true ->
  satisfied (PRIMARY_KEY name (ka NEW, kc NEW) l (ka, kc)) = true ->
  unique_keys ka kc (l ++ [NEW]).
Proof.
  intros U Na Nc P. unfold unique_keys. rewrite map_app. cbn [map].
  apply not_null_some in Na as [a Ea], Nc as [c Ec]. rewrite Ea, Ec in *.
  apply primary_key_fresh in P.
  apply NoDup_app; [exact U | repeat constructor; intros [] | ].
  intros k I [<-|[]]. contradiction.
Qed.

Lemma unique_key_add (R : Type) (key : R -> text) (l : list R) (NEW : R)
      (column name : string) :
  unique_key key l ->
  satisfied (NOT_NULL column (key NEW)) = true ->
  satisfied (PRIMARY_KEY1 name (key NEW) l key) = true ->
  unique_key key (l ++ [NEW]).
Proof.
  intros U N P. unfold unique_key. rewrite map_app. cbn [map].
  apply not_null_some in N as [k E]. rewrite E in *.
  apply NoDup_app; [exact U | repeat constructor; intros [] | ].
  intros k' I [<-|[]].
  cbn [satisfied PRIMARY_KEY1] in P. apply negb_true_iff in P.
  rewrite truth_exists in P.
  apply in_map_iff in I as [r [K I]].
  assert (existsb (fun r => truth (eq3 (key r) (Some k))) l = true) as Ex; [|congruence].
  apply existsb_exists. exists r. split; [exact I|]. rewrite K. simpl.
  now rewrite String.eqb_refl.
Qed.

Lemma reachable_primary_keys_unique (db : database) :
  reachable db -> primary_keys_unique db.
Proof.
  revert db. by_reachable_table_ind.
  - constructor; try (constructor; fail). repeat constructor. intros [].
  - intros db s db' T R [] E.
    pose proof (execute_stored db db' s T E) as ->.
    destruct s; try discriminate T;
      cbn [execute] in E; apply insert_ok in E as [_ [C _]]; split_constraints C;
      constructor; cbn; try assumption;
      first [ eapply unique_keys_add; eassumption
            | eapply unique_key_add; eassumption ].
Qed.

(** ** Foreign keys *)

Lemma foreign_key_resolves (R : Type) (name : string) (t : list R) (ka kc : R -> text)
      (a k : string) :
  satisfied (FOREIGN_KEY name (Some a, Some k) t (ka, kc)) = true ->
  exists p, In p t /\ ka p = Some a /\ kc p = Some k.
Proof.
  cbn [satisfied FOREIGN_KEY fst snd is_null or3 truth orb]. intros F.
  apply exists_key_inv in F as [p [a' [k' [I [[= <-] [[= <-] [Ka Kc]]]]]]]. eauto.
Qed.

Lemma foreign_key1_resolves (R : Type) (name : string) (t : list R) (key : R -> text)
      (k : string) :
  satisfied (FOREIGN_KEY1 name (Some k) t key) = true ->
  exists p, In p t /\ key p = Some k.
Proof.
  cbn [satisfied FOREIGN_KEY1 is_null truth orb]. rewrite truth_exists. intros F.
  apply existsb_exists in F as [p [I E]]. apply truth_eq_text_some in E. eauto.
Qed.

(** The [INSERT] that stored a row, from the table the row is found in. *)
Ltac statement_of I k :=
  match type of I with
  | In ?r (unit_of_measure _) => k (INSERT_INTO_unit_of_measure r)
  | In ?r (celestial_body _) => k (INSERT_INTO_celestial_body r)
  | In ?r (ellipsoid _) => k (INSERT_INTO_ellipsoid r)
  | In ?r (area _) => k (INSERT_INTO_area r)
  | In ?r (prime_meridian _) => k (INSERT_INTO_prime_meridian r)
  | In ?r (geodetic_datum _) => k (INSERT_INTO_geodetic_datum r)
  | In ?r (vertical_datum _) => k (INSERT_INTO_vertical_datum r)
  | In ?r (coordinate_system _) => k (INSERT_INTO_coordinate_system r)
  | In ?r (geodetic_crs _) => k (INSERT_INTO_geodetic_crs r)
  | In ?r (vertical_crs _) => k (INSERT_INTO_vertical_crs r)
  | In ?r (conversion_method _) => k (INSERT_INTO_conversion_method r)
  | In ?r (conversion_param _) => k (INSERT_INTO_conversion_param r)
  | In ?r (conversion_table _) => k (INSERT_INTO_conversion_table r)
  | In ?r (projected_crs _) => k (INSERT_INTO_projected_crs r)
  | In ?r (compound_crs _) => k (INSERT_INTO_compound_crs r)
  | In ?r (coordinate_operation_method _) => k (INSERT_INTO_coordinate_operation_method r)
  | In ?r (helmert_transformation_table _) => k (INSERT_INTO_helmert_transformation_table r)
  | In ?r (grid_transformation _) => k (INSERT_INTO_grid_transformation r)
  | In ?r (grid_packages _) => k (INSERT_INTO_grid_packages r)
  | In ?r (grid_alternatives _) => k (INSERT_INTO_grid_alternatives r)
  | In ?r (other_transformation _) => k (INSERT_INTO_other_transformation r)
  | In ?r (concatenated_operation _) => k (INSERT_INTO_concatenated_operation r)
  end.

(** Facts about a stored row [I], from its admission: the statements of the
    trigger as [T...], the constraints as [F...]. *)
Tactic Notation "admission" "of" hyp(I) "by" hyp(R) "as" ident(db0) ident(R0) ident(X0) :=
  let S0 := fresh "S0" in
  let C0 := fresh "C0" in
  statement_of I ltac:(fun s => admitted s by R I as db0 R0 S0 C0 X0);
  [ split_silent S0; split_constraints C0 ].

Ltac stored_in X0 :=
  eapply begins_in; [destruct X0; eassumption|].

Lemma reachable_foreign_keys_hold (db : database) :
  reachable db -> foreign_keys_hold db.
Proof.
  intros R.
  constructor;
    try (intros c a k I A K; cbn [fst snd] in A, K;
         admission of I by R as db0 R0 X0;
         match goal with
         | F : satisfied (FOREIGN_KEY _ (?ca c, _) _ _) = true, A : ?ca c = Some a |- _ =>
             rewrite A, K in F; apply foreign_key_resolves in F as [p [Ip [Ka Kc]]]
         | F : satisfied (fk_unit_of_measure _ _ (?ca c) _) = true, A : ?ca c = Some a |- _ =>
             unfold fk_unit_of_measure in F;
             rewrite A, K in F; apply foreign_key_resolves in F as [p [Ip [Ka Kc]]]
         end;
         exists p; split; [stored_in X0; exact Ip | split; assumption]).
  - intros p a k I A K. cbn [fst snd] in A, K.
    apply in_flat_map in I as [c [I Ip]].
    admission of I by R as db0 R0 X0.
    unfold fk_conversion_param_uom in *. cbn [conversion_table.params In] in Ip.
    repeat (destruct Ip as [<-|Ip];
            [ match goal with
              | F : satisfied (FOREIGN_KEY _ (conversion_table.param_uom_auth_name ?q, _) _ _)
                    = true,
                A : conversion_table.param_uom_auth_name ?q = Some a |- _ =>
                  rewrite A, K in F; apply foreign_key_resolves in F as [u [Iu [Ka Kc]]]
              end;
              exists u; split; [stored_in X0; exact Iu | split; assumption] |]).
    contradiction.
  - intros c k I K.
    admission of I by R as db0 R0 X0.
    match goal with
    | F : satisfied (FOREIGN_KEY1 _ _ _ _) = true |- _ =>
        rewrite K in F; apply foreign_key1_resolves in F as [p [Ip Kp]]
    end.
    exists p; split; [stored_in X0; exact Ip | assumption].
  - intros p a k I A K. cbn [fst snd] in A, K.
    apply in_flat_map in I as [c [I Ip]].
    admission of I by R as db0 R0 X0.
    unfold fk_other_transformation_param_uom in *. cbn [other_transformation_params In] in Ip.
    repeat (destruct Ip as [<-|Ip];
            [ match goal with
              | F : satisfied (FOREIGN_KEY _ (other_transformation.param_uom_auth_name ?q, _)
                                           _ _) = true,
                A : other_transformation.param_uom_auth_name ?q = Some a |- _ =>
                  rewrite A, K in F; apply foreign_key_resolves in F as [u [Iu [Ka Kc]]]
              end;
              exists u; split; [stored_in X0; exact Iu | split; assumption] |]).
    contradiction.
Qed.

(** ** Looking a row up by its key *)

Lemma scalar_by_key (R A : Type) (ka kc : R -> text) (col : R -> option A)
      (t : list R) (a c : string) (r : R) :
  unique_keys ka kc t ->
  In r t -> ka r = Some a -> kc r = Some c ->
  scalar col t (fun x => and3 (eq3 (ka x) (Some a)) (eq3 (kc x) (Some c))) = col r.
Proof.
  intros U I Ka Kc. unfold scalar.
  now rewrite (unique_key_found _ ka kc t a c r U I Ka Kc).
Qed.

(** A [SELECT] by key that finds nothing gives [NULL]. *)
Lemma scalar_none (R A : Type) (col : R -> option A) (t : list R) (p : R -> tri) :
  truth (exists_ t p) = false -> scalar col t p = None.
Proof.
  rewrite truth_exists. intros N. unfold scalar.
  destruct (find (fun r => truth (p r)) t) as [r|] eqn:F; [|reflexivity].
  apply find_some in F as [I T].
  assert (existsb (fun r => truth (p r)) t = true) as E; [|congruence].
  apply existsb_exists. eauto.
Qed.

Lemma keyed_some (R : Type) (ka kc : R -> text) (t : list R) (x y : text) (r : R) :
  keyed ka kc t x y r -> exists a c, x = Some a /\ y = Some c /\ ka r = Some a /\ kc r = Some c.
Proof.
  intros [_ [Nx [Ny [Ka Kc]]]].
  destruct x as [a|]; [|congruence]. destruct y as [c|]; [|congruence].
  exists a, c. auto.
Qed.

Lemma keyed_extends (R : Type) (ka kc : R -> text) (t t' : list R) (x y : text) (r : R) :
  begins t t' -> keyed ka kc t x y r -> keyed ka kc t' x y r.
Proof. intros B [I K]. split; [exact (begins_in _ t t' r B I) | exact K]. Qed.

(** A reference that its [NOT NULL] columns and its [FOREIGN KEY] hold names
    a stored row. *)
Lemma reference_keyed (R : Type) (na nc name : string) (t : list R) (ka kc : R -> text)
      (x y : text) :
  satisfied (NOT_NULL na x) = true ->
  satisfied (NOT_NULL nc y) = true ->
  satisfied (FOREIGN_KEY name (x, y) t (ka, kc)) = true ->
  exists r, keyed ka kc t x y r.
Proof.
  intros Nx Ny F. apply not_null_some in Nx as [a ->], Ny as [c ->].
  apply foreign_key_resolves in F as [r [I [Ka Kc]]].
  exists r. repeat split; try assumption; congruence.
Qed.

(** The same for a nullable reference whose two columns are given. *)
Lemma given_reference_keyed (R : Type) (name : string) (t : list R) (ka kc : R -> text)
      (x y : text) :
  x <> None -> y <> None ->
  satisfied (FOREIGN_KEY name (x, y) t (ka, kc)) = true ->
  exists r, keyed ka kc t x y r.
Proof.
  intros Nx Ny F.
  destruct x as [a|]; [|congruence]. destruct y as [c|]; [|congruence].
  apply foreign_key_resolves in F as [r [I [Ka Kc]]].
  exists r. repeat split; try assumption; congruence.
Qed.

(** The flag [deprecated] of a stored row is 0 or 1. *)
Lemma deprecated_flag (x : boolean) :
  satisfied (NOT_NULL "deprecated" x) = true ->
  satisfied (CHECK "deprecated" (in_values x [0; 1]%Z)) = true ->
  x = int 0 \/ x = int 1.
Proof.
  intros N C. apply not_null_some in N as [z ->]. cbn in C.
  destruct (Z.eqb_spec z 0) as [E|]; [left; now subst|].
  destruct (Z.eqb_spec z 1) as [E|]; [right; now subst | discriminate].
Qed.

(** ** Units of measure *)

Lemma unit_of_measure_type_known (db : database) (u : unit_of_measure.row) :
  reachable db -> In u db.(unit_of_measure) ->
  exists type, u.(unit_of_measure.type) = Some type
               /\ In type ["length"; "angle"; "scale"; "time"].
Proof.
  intros R I. admission of I by R as db0 R0 X0.
  match goal with
  | N : satisfied (NOT_NULL "type" _) = true |- _ => apply not_null_some in N as [ty E]
  end.
  exists ty. split; [exact E|].
  match goal with
  | C : satisfied (CHECK "type" _) = true |- _ => rewrite E in C; cbn in C
  end.
  repeat match goal with
         | C : context [String.eqb ty ?s] |- _ =>
             destruct (String.eqb_spec ty s) as [->|]; [cbn; tauto|]
         end.
  discriminate.
Qed.

(** The type of the unit under a key, as the triggers read it. *)
Lemma uom_type_found (db : database) (x y : text) (u : unit_of_measure.row) :
  reachable db -> unit_at db x y u ->
  uom_type db x y = u.(unit_of_measure.type).
Proof.
  intros R K. destruct (keyed_some _ _ _ _ _ _ _ K) as [a [c [-> [-> [Ka Kc]]]]].
  destruct K as [I _]. unfold uom_type.
  exact (scalar_by_key _ _ _ _ _ _ a c u
           (pk_unit_of_measure db (reachable_primary_keys_unique db R)) I Ka Kc).
Qed.

(** A rule [uom_type ... != type] that did not fire, on a unit that is
    stored. *)
Lemma unit_rule_silent (db : database) (x y : text) (type : string)
      (u : unit_of_measure.row) :
  reachable db -> unit_at db x y u ->
  negb (truth (ne3 (uom_type db x y) (txt type))) = true ->
  u.(unit_of_measure.type) = txt type.
Proof.
  intros R K T. rewrite (uom_type_found db x y u R K) in T.
  destruct K as [I _].
  destruct (unit_of_measure_type_known db u R I) as [ty [E _]]. rewrite E in *.
  apply negb_true_iff in T. apply ne_text_not_true in T. now subst.
Qed.

Lemma unit_rule_fires (db : database) (x y : text) (type : string)
      (u : unit_of_measure.row) :
  reachable db -> unit_at db x y u ->
  u.(unit_of_measure.type) <> txt type ->
  truth (ne3 (uom_type db x y) (txt type)) = true.
Proof.
  intros R K N. rewrite (uom_type_found db x y u R K).
  destruct K as [I _].
  destruct (unit_of_measure_type_known db u R I) as [ty [E _]]. rewrite E in *.
  cbn. destruct (String.eqb_spec ty type) as [->|]; [now elim N | reflexivity].
Qed.

Lemma operations_reachable : reachable Example.db.
Proof.
  apply (run_reachable Sample.operations empty_database); [constructor|].
  vm_compute. reflexivity.
Qed.

Lemma ellipsoid_unit_is_length (db : database) (e : ellipsoid.row) :
  reachable db -> In e db.(ellipsoid) ->
  exists u, unit_at db e.(ellipsoid.uom_auth_name) e.(ellipsoid.uom_code) u
            /\ u.(unit_of_measure.type) = txt "length".
Proof.
  intros R I. admission of I by R as db0 R0 X0.
  match goal with
  | Na : satisfied (NOT_NULL "uom_auth_name" _) = true,
    Nc : satisfied (NOT_NULL "uom_code" _) = true,
    F : satisfied (FOREIGN_KEY "fk_ellipsoid_unit_of_measure" _ _ _) = true |- _ =>
      destruct (reference_keyed _ _ _ _ _ _ _ _ _ Na Nc F) as [u K]
  end.
  exists u. split.
  - exact (keyed_extends _ _ _ _ _ _ _ _ (extends_unit_of_measure _ _ X0) K).
  - eapply (unit_rule_silent db0); eassumption.
Qed.

Lemma prime_meridian_unit_is_angle (db : database) (m : prime_meridian.row) :
  reachable db -> In m db.(prime_meridian) ->
  exists u, unit_at db m.(prime_meridian.uom_auth_name) m.(prime_meridian.uom_code) u
            /\ u.(unit_of_measure.type) = txt "angle".
Proof.
  intros R I. admission of I by R as db0 R0 X0.
  match goal with
  | Na : satisfied (NOT_NULL "uom_auth_name" _) = true,
    Nc : satisfied (NOT_NULL "uom_code" _) = true,
    F : satisfied (FOREIGN_KEY "fk_prime_meridian_unit_of_measure" _ _ _) = true |- _ =>
      destruct (reference_keyed _ _ _ _ _ _ _ _ _ Na Nc F) as [u K]
  end.
  exists u. split.
  - exact (keyed_extends _ _ _ _ _ _ _ _ (extends_unit_of_measure _ _ X0) K).
  - eapply (unit_rule_silent db0); eassumption.
Qed.

(** X1. In every reachable store the unit of each ellipsoid is a stored unit
    of type 'length' and the unit of each prime meridian a stored unit of
    type 'angle'.  An [INSERT] that names a stored unit of another type
    aborts on the "uom should be of type" rule of its table (for an
    ellipsoid, when exactly one shape parameter is given, so that the first
    rule of the trigger is passed). *)
Theorem ellipsoid_and_prime_meridian_units :
  (forall db e,
      reachable db -> In e db.(ellipsoid) ->
      exists u, unit_at db e.(ellipsoid.uom_auth_name) e.(ellipsoid.uom_code) u
                /\ u.(unit_of_measure.type) = txt "length")
  /\ (forall db m,
         reachable db -> In m db.(prime_meridian) ->
         exists u, unit_at db m.(prime_meridian.uom_auth_name) m.(prime_meridian.uom_code) u
                   /\ u.(unit_of_measure.type) = txt "angle")
  /\ (forall db NEW u,
         reachable db ->
         exactly_one NEW.(ellipsoid.inv_flattening) NEW.(ellipsoid.semi_minor_axis) ->
         unit_at db NEW.(ellipsoid.uom_auth_name) NEW.(ellipsoid.uom_code) u ->
         u.(unit_of_measure.type) <> txt "length" ->
         insert_ellipsoid db NEW
         = inl (RaiseAbort "insert on ellipsoid violates constraint: uom should be of type 'length'"))
  /\ (forall db NEW u,
         reachable db ->
         unit_at db NEW.(prime_meridian.uom_auth_name) NEW.(prime_meridian.uom_code) u ->
         u.(unit_of_measure.type) <> txt "angle" ->
         insert_prime_meridian db NEW
         = inl (RaiseAbort "insert on prime_meridian violates constraint: uom should be of type 'angle'")).
Proof.
  split; [exact ellipsoid_unit_is_length | split; [exact prime_meridian_unit_is_angle|]].
  split.
  - intros db NEW u R One K N.
    unfold insert_ellipsoid, ellipsoid_insert_trigger.
    match goal with
    | |- insert [?r1; ?r2] _ _ = _ => apply (insert_raises _ [r1] [] r2)
    end.
    + cbn. destruct One as [[A ->]|[-> B]].
      * destruct (ellipsoid.inv_flattening NEW); [reflexivity | congruence].
      * destruct (ellipsoid.semi_minor_axis NEW); [reflexivity | congruence].
    + exact (unit_rule_fires db _ _ _ u R K N).
  - intros db NEW u R K N.
    unfold insert_prime_meridian, prime_meridian_insert_trigger.
    match goal with
    | |- insert [?r1] _ _ = _ => apply (insert_raises _ [] [] r1)
    end; [reflexivity|].
    exact (unit_rule_fires db _ _ _ u R K N).
Qed.

Lemma ellipsoid_and_prime_meridian_units_witness :
  (exists u, unit_at Example.db (txt "EPSG") (txt "9001") u
             /\ u.(unit_of_measure.type) = txt "length")
  /\ (exists u, unit_at Example.db (txt "EPSG") (txt "9102") u
                /\ u.(unit_of_measure.type) = txt "angle")
  /\ insert_ellipsoid Example.db (Example.an_ellipsoid "7019" "9102" (num 298.257222101) None 0)
     = inl (RaiseAbort "insert on ellipsoid violates constraint: uom should be of type 'length'")
  /\ insert_prime_meridian Example.db (Example.a_prime_meridian "8903" "9001")
     = inl (RaiseAbort "insert on prime_meridian violates constraint: uom should be of type 'angle'").
Proof.
  destruct ellipsoid_and_prime_meridian_units as [lengths [angles [not_length not_angle]]].
  split; [|split; [|split]].
  - apply (lengths Example.db Sample.WGS_84_ellipsoid operations_reachable).
    vm_compute. auto.
  - apply (angles Example.db Sample.greenwich operations_reachable).
    vm_compute. auto.
  - apply (not_length Example.db _ Sample.degree operations_reachable).
    + left. split; [discriminate | reflexivity].
    + vm_compute. repeat split; auto; discriminate.
    + discriminate.
  - apply (not_angle Example.db _ Sample.metre operations_reachable).
    + vm_compute. repeat split; auto; discriminate.
    + discriminate.
Defined.

(** ** The units of a Helmert transformation *)

Lemma keyed_unique (R : Type) (ka kc : R -> text) (t : list R) (x y : text) (r r' : R) :
  unique_keys ka kc t -> keyed ka kc t x y r -> keyed ka kc t x y r' -> r = r'.
Proof.
  unfold unique_keys. intros U [I [_ [_ [Ka Kc]]]] [I' [_ [_ [Ka' Kc']]]].
  assert ((ka r, kc r) = (ka r', kc r')) as E by congruence. clear Ka Kc Ka' Kc'.
  induction t as [|z t IH]; [contradiction|].
  cbn [map] in U. apply NoDup_cons_iff in U as [N U].
  destruct I as [->|I], I' as [->|I']; [reflexivity | | | now apply IH].
  - exfalso. apply N. rewrite E. apply in_map_iff. now exists r'.
  - exfalso. apply N. rewrite <- E. apply in_map_iff. now exists r.
Qed.

Lemma helmert_units_typed (db : database) (h : helmert_transformation_table.row) :
  reachable db -> In h db.(helmert_transformation_table) ->
  forall a c type, In (a, c, type) (helmert_units h) -> unit_of_type db a c type.
Proof.
  intros R I a c type U.
  admission of I by R as db0 R0 X0.
  cbn [helmert_units In] in U.
  repeat (destruct U as [[= <- <- <-]|U];
          [ intros Na Nc;
            match goal with
            | |- exists u, unit_at _ ?x ?y u /\ _ =>
                match goal with
                | F : satisfied (fk_unit_of_measure _ _ x y) = true,
                  T : negb (truth (ne3 (uom_type _ x y) _)) = true |- _ =>
                    destruct (given_reference_keyed _ _ _ _ _ _ _ Na Nc F) as [u K];
                    exists u; split;
                    [ exact (keyed_extends _ _ _ _ _ _ _ _ (extends_unit_of_measure _ _ X0) K)
                    | exact (unit_rule_silent db0 _ _ _ u R0 K T) ]
                end
            end |]).
  contradiction.
Qed.

(** X2. In every reachable store each unit reference of a Helmert
    transformation that is given (translation, rotation, scale difference,
    their rates, epoch, pivot) names a stored unit of the type its rule asks
    for; the translation unit is always given.  An [INSERT] one of whose unit
    references names a stored unit of another type fails. *)
Theorem helmert_transformation_units :
  (forall db h a c type,
      reachable db -> In h db.(helmert_transformation_table) ->
      In (a, c, type) (helmert_units h) -> unit_of_type db a c type)
  /\ (forall db h,
         reachable db -> In h db.(helmert_transformation_table) ->
         h.(helmert_transformation_table.translation_uom_auth_name) <> None
         /\ h.(helmert_transformation_table.translation_uom_code) <> None)
  /\ (forall db NEW a c type u,
         reachable db ->
         In (a, c, type) (helmert_units NEW) ->
         unit_at db a c u -> u.(unit_of_measure.type) <> txt type ->
         exists e, insert_helmert_transformation_table db NEW = inl e).
Proof.
  split; [|split].
  - intros db h a c type R I. exact (helmert_units_typed db h R I a c type).
  - intros db h R I. admission of I by R as db0 R0 X0.
    repeat match goal with
           | N : satisfied (NOT_NULL _ _) = true |- _ => apply not_null_some in N as [? N]
           end.
    split; congruence.
  - intros db NEW a c type u R U K N.
    destruct (insert_helmert_transformation_table db NEW) as [e|db'] eqn:E; [eauto|].
    exfalso.
    assert (reachable db') as R'
        by exact (reachable_execute db (INSERT_INTO_helmert_transformation_table NEW) db' R E).
    pose proof (execute_extends db db' (INSERT_INTO_helmert_transformation_table NEW) E) as X.
    apply insert_ok in E as [_ [_ ->]].
    assert (In NEW (helmert_transformation_table (append_helmert_transformation_table db NEW)))
      as I by (cbn; apply in_app_iff; right; now left).
    destruct (keyed_some _ _ _ _ _ _ _ K) as [a' [c' [-> [-> _]]]].
    destruct (helmert_units_typed _ NEW R' I _ _ type U) as [u' [K' T']]; try discriminate.
    apply (keyed_extends _ _ _ _ _ _ _ _ (extends_unit_of_measure _ _ X)) in K.
    rewrite (keyed_unique _ _ _ _ _ _ u u'
               (pk_unit_of_measure _ (reachable_primary_keys_unique _ R')) K K') in N.
    contradiction.
Qed.

Lemma helmert_transformation_units_witness :
  unit_of_type Example.db (txt "EPSG") (txt "9001") "length"
  /\ unit_of_type Example.db None None "angle"
  /\ exists e,
      insert_helmert_transformation_table Example.db
        (Example.a_helmert_transformation_rotated "EPSG" "1188" "9001") = inl e.
Proof.
  destruct helmert_transformation_units as [typed [_ rejected]].
  assert (In (Sample.a_helmert_transformation "EPSG" "1" "EPSG" "4326")
             (helmert_transformation_table Example.db)) as I
      by (vm_compute; auto).
  split; [|split].
  - apply (typed Example.db _ _ _ _ operations_reachable I). left. reflexivity.
  - apply (typed Example.db _ _ _ _ operations_reachable I). right. left. reflexivity.
  - apply (rejected Example.db _ (txt "EPSG") (txt "9001") "angle" Sample.metre
                    operations_reachable).
    + right. left. reflexivity.
    + vm_compute. repeat split; auto; discriminate.
    + discriminate.
Defined.

(** ** References to rows in force *)

(** A rule "must not be deprecated when ... is not deprecated" that did not
    fire, on a row in force: the row under the key is in force. *)
Lemma reference_in_force (R : Type) (ka kc : R -> text) (kd : R -> boolean)
      (t : list R) (x y : text) (dep : boolean) (r : R) :
  keyed ka kc t x y r ->
  kd r = int 0 \/ kd r = int 1 ->
  negb (truth (and3 (exists_ t (fun r => and3 (and3 (eq3 (ka r) x) (eq3 (kc r) y))
                                              (ne3 (kd r) (int 0))))
                    (eq3 dep (int 0)))) = true ->
  dep = int 0 ->
  kd r = int 0.
Proof.
  intros [I [Nx [Ny [Ka Kc]]]] [Z|O] T D; [exact Z|]. exfalso.
  apply negb_true_iff in T.
  rewrite (deprecated_row_fires R ka kc kd t x y dep) in T; [discriminate | | exact D].
  exists r, 1%Z. repeat split; try assumption. discriminate.
Qed.

Lemma ellipsoid_flag (db : database) (e : ellipsoid.row) :
  reachable db -> In e db.(ellipsoid) ->
  e.(ellipsoid.deprecated) = int 0 \/ e.(ellipsoid.deprecated) = int 1.
Proof. intros R I. admission of I by R as db0 R0 X0. eapply deprecated_flag; eassumption. Qed.

Lemma prime_meridian_flag (db : database) (m : prime_meridian.row) :
  reachable db -> In m db.(prime_meridian) ->
  m.(prime_meridian.deprecated) = int 0 \/ m.(prime_meridian.deprecated) = int 1.
Proof. intros R I. admission of I by R as db0 R0 X0. eapply deprecated_flag; eassumption. Qed.

Lemma area_flag (db : database) (a : area.row) :
  reachable db -> In a db.(area) ->
  a.(area.deprecated) = int 0 \/ a.(area.deprecated) = int 1.
Proof. intros R I. admission of I by R as db0 R0 X0. eapply deprecated_flag; eassumption. Qed.

(** The area of use of a row in force, from the rule of its table on the
    area and the foreign key to [area]. *)
Lemma area_in_force (db0 db : database) (x y : text) (dep : boolean) (na nc name : string) :
  reachable db0 -> extends db0 db ->
  satisfied (NOT_NULL na x) = true ->
  satisfied (NOT_NULL nc y) = true ->
  satisfied (FOREIGN_KEY name (x, y) db0.(area) (area.auth_name, area.code)) = true ->
  negb (truth (and3 (exists_ db0.(area)
                             (fun r => and3 (and3 (eq3 (area.auth_name r) x)
                                                  (eq3 (area.code r) y))
                                            (ne3 (area.deprecated r) (int 0))))
                    (eq3 dep (int 0)))) = true ->
  dep = int 0 ->
  exists a, area_at db x y a /\ a.(area.deprecated) = int 0.
Proof.
  intros R0 X0 Na Nc F T D.
  destruct (reference_keyed _ _ _ _ _ _ _ _ _ Na Nc F) as [a K].
  exists a. split.
  - exact (keyed_extends _ _ _ _ _ _ _ _ (extends_area _ _ X0) K).
  - apply (reference_in_force _ _ _ _ _ _ _ dep a K); [|exact T | exact D].
    destruct K as [I _]. exact (area_flag db0 a R0 I).
Qed.

Lemma geodetic_datum_references_in_force (db : database) (d : geodetic_datum.row) :
  reachable db -> In d db.(geodetic_datum) ->
  d.(geodetic_datum.deprecated) = int 0 ->
  (exists e, ellipsoid_at db d.(geodetic_datum.ellipsoid_auth_name)
                          d.(geodetic_datum.ellipsoid_code) e
             /\ e.(ellipsoid.deprecated) = int 0)
  /\ (exists m, prime_meridian_at db d.(geodetic_datum.prime_meridian_auth_name)
                                  d.(geodetic_datum.prime_meridian_code) m
                /\ m.(prime_meridian.deprecated) = int 0)
  /\ (exists a, area_at db d.(geodetic_datum.area_of_use_auth_name)
                        d.(geodetic_datum.area_of_use_code) a
                /\ a.(area.deprecated) = int 0).
Proof.
  intros R I D. admission of I by R as db0 R0 X0.
  split; [|split].
  - match goal with
    | Na : satisfied (NOT_NULL "ellipsoid_auth_name" _) = true,
      Nc : satisfied (NOT_NULL "ellipsoid_code" _) = true,
      F : satisfied (FOREIGN_KEY "fk_geodetic_datum_ellipsoid" _ _ _) = true |- _ =>
        destruct (reference_keyed _ _ _ _ _ _ _ _ _ Na Nc F) as [e K]
    end.
    exists e. split.
    + exact (keyed_extends _ _ _ _ _ _ _ _ (extends_ellipsoid _ _ X0) K).
    + eapply reference_in_force; [exact K | | eassumption | exact D].
      destruct K as [Ie _]. exact (ellipsoid_flag db0 e R0 Ie).
  - match goal with
    | Na : satisfied (NOT_NULL "prime_meridian_auth_name" _) = true,
      Nc : satisfied (NOT_NULL "prime_meridian_code" _) = true,
      F : satisfied (FOREIGN_KEY "fk_geodetic_datum_prime_meridian" _ _ _) = true |- _ =>
        destruct (reference_keyed _ _ _ _ _ _ _ _ _ Na Nc F) as [m K]
    end.
    exists m. split.
    + exact (keyed_extends _ _ _ _ _ _ _ _ (extends_prime_meridian _ _ X0) K).
    + eapply reference_in_force; [exact K | | eassumption | exact D].
      destruct K as [Im _]. exact (prime_meridian_flag db0 m R0 Im).
  - eapply (area_in_force db0 db); eassumption.
Qed.

Lemma vertical_datum_area_in_force (db : database) (d : vertical_datum.row) :
  reachable db -> In d db.(vertical_datum) ->
  d.(vertical_datum.deprecated) = int 0 ->
  exists a, area_at db d.(vertical_datum.area_of_use_auth_name)
                    d.(vertical_datum.area_of_use_code) a
            /\ a.(area.deprecated) = int 0.
Proof.
  intros R I D. admission of I by R as db0 R0 X0.
  eapply (area_in_force db0 db); eassumption.
Qed.

(** X3. In every reachable store a geodetic datum in force names an
    ellipsoid, a prime meridian and an area of use that are stored and in
    force, and a vertical datum in force an area of use that is stored and in
    force.  An [INSERT] of a geodetic datum in force on a deprecated
    ellipsoid, or of a vertical datum in force over a deprecated area, aborts
    on the rule of its trigger. *)
Theorem datums_refer_to_rows_in_force :
  (forall db d,
      reachable db -> In d db.(geodetic_datum) ->
      d.(geodetic_datum.deprecated) = int 0 ->
      (exists e, ellipsoid_at db d.(geodetic_datum.ellipsoid_auth_name)
                              d.(geodetic_datum.ellipsoid_code) e
                 /\ e.(ellipsoid.deprecated) = int 0)
      /\ (exists m, prime_meridian_at db d.(geodetic_datum.prime_meridian_auth_name)
                                      d.(geodetic_datum.prime_meridian_code) m
                    /\ m.(prime_meridian.deprecated) = int 0)
      /\ (exists a, area_at db d.(geodetic_datum.area_of_use_auth_name)
                            d.(geodetic_datum.area_of_use_code) a
                    /\ a.(area.deprecated) = int 0))
  /\ (forall db d,
         reachable db -> In d db.(vertical_datum) ->
         d.(vertical_datum.deprecated) = int 0 ->
         exists a, area_at db d.(vertical_datum.area_of_use_auth_name)
                           d.(vertical_datum.area_of_use_code) a
                   /\ a.(area.deprecated) = int 0)
  /\ (forall db NEW,
         NEW.(geodetic_datum.deprecated) = int 0 ->
         deprecated_row ellipsoid.auth_name ellipsoid.code ellipsoid.deprecated
                        db.(ellipsoid)
                        NEW.(geodetic_datum.ellipsoid_auth_name)
                        NEW.(geodetic_datum.ellipsoid_code) ->
         insert_geodetic_datum db NEW
         = inl (RaiseAbort "insert on geodetic_datum violates constraint: ellipsoid must not be deprecated when geodetic_datum is not deprecated"))
  /\ (forall db NEW,
         NEW.(vertical_datum.deprecated) = int 0 ->
         deprecated_row area.auth_name area.code area.deprecated db.(area)
                        NEW.(vertical_datum.area_of_use_auth_name)
                        NEW.(vertical_datum.area_of_use_code) ->
         insert_vertical_datum db NEW
         = inl (RaiseAbort "insert on vertical_datum violates constraint: area_of_use must not be deprecated when vertical_datum is not deprecated")).
Proof.
  split; [exact geodetic_datum_references_in_force|].
  split; [exact vertical_datum_area_in_force|].
  split.
  - intros db NEW D Old. unfold insert_geodetic_datum, geodetic_datum_insert_trigger.
    match goal with
    | |- insert (?r1 :: ?rest) _ _ = _ => apply (insert_raises _ [] rest r1)
    end; [reflexivity|].
    exact (deprecated_row_fires _ _ _ _ _ _ _ _ Old D).
  - intros db NEW D Old. unfold insert_vertical_datum, vertical_datum_insert_trigger.
    match goal with
    | |- insert (?r1 :: ?rest) _ _ = _ => apply (insert_raises _ [] rest r1)
    end; [reflexivity|].
    exact (deprecated_row_fires _ _ _ _ _ _ _ _ Old D).
Qed.

Lemma datums_refer_to_rows_in_force_witness :
  (exists e, ellipsoid_at Example.db (txt "EPSG") (txt "7030") e
             /\ e.(ellipsoid.deprecated) = int 0)
  /\ (exists a, area_at Example.db (txt "EPSG") (txt "1262") a
                /\ a.(area.deprecated) = int 0)
  /\ insert_geodetic_datum Example.with_old_ellipsoid
       (Example.a_geodetic_datum_on "6277" "7001")
     = inl (RaiseAbort "insert on geodetic_datum violates constraint: ellipsoid must not be deprecated when geodetic_datum is not deprecated")
  /\ insert_vertical_datum Example.db (Example.a_vertical_datum_over "5101" "9998")
     = inl (RaiseAbort "insert on vertical_datum violates constraint: area_of_use must not be deprecated when vertical_datum is not deprecated").
Proof.
  destruct datums_refer_to_rows_in_force as [geodetic [vertical [on_old over_old]]].
  split; [|split; [|split]].
  - apply (geodetic Example.db Sample.WGS_84_datum operations_reachable);
      [vm_compute; auto | reflexivity].
  - apply (vertical Example.db Sample.EGM96_geoid operations_reachable);
      [vm_compute; auto | reflexivity].
  - apply on_old; [reflexivity|].
    exists (Example.an_ellipsoid "7001" "9001" (num 299.3249646) None 1), 1%Z.
    vm_compute. repeat split; auto; discriminate.
  - apply over_old; [reflexivity|].
    exists Sample.retired_area, 1%Z.
    vm_compute. repeat split; auto; discriminate.
Defined.

(** ** Coordinate systems *)

Lemma characters_positive (a : string) :
  (1 <= characters false a)%nat <-> holds_a_character a.
Proof.
  destruct a as [|ch a]; cbn [characters andb]; cbv zeta.
  - split; [lia | intros [c [rest [E _]]]; discriminate].
  - destruct (Nat.eqb_spec (nat_of_ascii ch) 0) as [Z|N]; cbv iota.
    + split; [lia|]. intros [c [rest [[= <- <-] N]]]. exfalso. apply N.
      rewrite <- (ascii_nat_embedding ch), Z. reflexivity.
    + split; [|lia]. intros _. exists ch, a. split; [reflexivity|].
      intros ->. now apply N.
Qed.

Lemma check_not_empty (column : string) (a : string) :
  satisfied (CHECK column (ge3 (length_ (Some a)) (int 1))) = true
  <-> holds_a_character a.
Proof.
  rewrite <- characters_positive. cbn -[characters Z.of_nat].
  destruct (Z.leb_spec 1 (Z.of_nat (characters false a)));
    split; intros; try reflexivity; try discriminate; lia.
Qed.

Lemma primary_key_iff (R : Type) (name : string) (ka kc : R -> text) (t : list R)
      (a c : string) :
  satisfied (PRIMARY_KEY name (Some a, Some c) t (ka, kc)) = true
  <-> ~ (exists r, keyed ka kc t (Some a) (Some c) r).
Proof.
  cbn [satisfied PRIMARY_KEY fst snd]. rewrite negb_true_iff. split.
  - intros F [r [I [_ [_ [Ka Kc]]]]].
    now rewrite (exists_key_true _ ka kc t a c r I Ka Kc) in F.
  - intros N. destruct (truth _) eqn:E; [|reflexivity]. exfalso. apply N.
    apply exists_key_inv in E as [r [a' [c' [I [[= <-] [[= <-] [Ka Kc]]]]]]].
    exists r. repeat split; try assumption; discriminate.
Qed.

Lemma coordinate_system_admitted_iff (db : database) (NEW : coordinate_system.row) :
  insert_coordinate_system db NEW = inr (append_coordinate_system db NEW)
  <-> coordinate_system_admissible db NEW.
Proof.
  unfold insert_coordinate_system. rewrite insert_ok. split.
  - intros [S [C _]]. split_silent S. split_constraints C.
    repeat match goal with
           | N : satisfied (NOT_NULL _ _) = true |- _ => apply not_null_some in N as [? N]
           end.
    match goal with
    | A : coordinate_system.auth_name NEW = Some ?a,
      B : coordinate_system.code NEW = Some ?c,
      T : coordinate_system.type NEW = Some ?t,
      D : coordinate_system.dimension NEW = Some ?d |- _ =>
        exists a, c, t, d; rewrite A, B, T, D in *
    end.
    repeat match goal with
           | F : satisfied (CHECK _ (ge3 (length_ _) _)) = true |- _ =>
               apply check_not_empty in F
           | F : satisfied (PRIMARY_KEY _ _ _ _) = true |- _ => apply primary_key_iff in F
           end.
    repeat split; try assumption.
    match goal with
    | F : satisfied (CHECK "type" _) = true |- _ => cbn in F
    end.
    match goal with
    | F : satisfied (CHECK "dimension" _) = true |- _ => cbn in F
    end.
    cbn in T, T0, T1.
    unfold coordinate_system_shapes.
    repeat match goal with
           | H : context [String.eqb ?x ?s] |- _ =>
               destruct (String.eqb_spec x s); [subst x|]
           end;
      cbn in *; try discriminate;
      repeat match goal with
             | H : context [Z.eqb ?x ?z] |- _ => destruct (Z.eqb_spec x z); [subst x|]
             end;
      cbn in *; try discriminate; try tauto;
      repeat match goal with
             | H : context [Z.leb ?x ?z] |- _ => destruct (Z.leb_spec x z)
             end;
      cbn in *; try discriminate; try tauto; try lia.
    match goal with
    | L : (1 <= ?d)%Z, U : (?d <= 3)%Z |- _ =>
        assert (d = 1 \/ d = 2 \/ d = 3)%Z as [-> | [-> | ->]] by lia; tauto
    end.
  - intros [a [c [type [dimension [A [Na [B [Nc [T [D [Shape Fresh]]]]]]]]]]].
    split; [|split; [|reflexivity]].
    + unfold silent, coordinate_system_insert_trigger. cbn [forallb condition].
      rewrite T, D. cbn [coordinate_system_shapes In] in Shape.
      repeat (destruct Shape as [[= <- <-]|Shape]; [reflexivity|]). contradiction.
    + apply (check_not_empty "auth_name") in Na. apply (check_not_empty "code") in Nc.
      apply (primary_key_iff _ "pk_coordinate_system") in Fresh.
      apply forallb_forall. intros k Ik.
      unfold coordinate_system_constraints in Ik. rewrite A, B, T, D in Ik.
      cbn [In] in Ik.
      repeat (destruct Ik as [<-|Ik]; [first [reflexivity | assumption | idtac]|]);
        try contradiction;
        cbn [coordinate_system_shapes In] in Shape;
        repeat (destruct Shape as [[= <- <-]|Shape]; [reflexivity|]); contradiction.
Qed.

(** X4. An [INSERT] into [coordinate_system] is admitted exactly when the row
    gives a key of two columns that each hold a character as [length()]
    counts them (a first byte that is not NUL), a key that is not stored yet,
    and a type with a dimension it goes with: vertical with 1, Cartesian or
    ellipsoidal with 2 or 3, spherical with 1, 2 or 3; a key that begins with
    a NUL byte is rejected.  Every coordinate system of a
    reachable store has such a type and dimension, and a vertical system of
    another dimension aborts on the first rule of the trigger. *)
Theorem coordinate_system_admission :
  (forall db NEW db',
      insert_coordinate_system db NEW = inr db'
      <-> coordinate_system_admissible db NEW /\ db' = append_coordinate_system db NEW)
  /\ (forall db cs,
         reachable db -> In cs db.(coordinate_system) ->
         exists type dimension,
           cs.(coordinate_system.type) = Some type
           /\ cs.(coordinate_system.dimension) = Some dimension
           /\ In (type, dimension) coordinate_system_shapes)
  /\ (forall db NEW dimension,
         NEW.(coordinate_system.type) = txt "vertical" ->
         NEW.(coordinate_system.dimension) = Some dimension -> dimension <> 1%Z ->
         insert_coordinate_system db NEW
         = inl (RaiseAbort "insert on coordinate_system violates constraint: dimension must be equal to 1 for type = 'vertical'"))
  /\ (forall db NEW rest,
         NEW.(coordinate_system.auth_name) = Some (String Ascii.zero rest) ->
         exists e, insert_coordinate_system db NEW = inl e).
Proof.
  split; [|split; [|split]]; cycle 3.
  - intros db NEW rest A.
    destruct (insert_coordinate_system db NEW) as [e|db'] eqn:E; [now exists e|].
    assert (db' = append_coordinate_system db NEW) as ->.
    { apply insert_ok in E. tauto. }
    apply coordinate_system_admitted_iff in E as [a [c [t [d [A' [[b [r [-> N]]] _]]]]]].
    rewrite A in A'. injection A' as <- _. now elim N.
  - intros db NEW db'. split.
    + intros E. assert (db' = append_coordinate_system db NEW) as ->.
      { apply insert_ok in E. tauto. }
      split; [now apply coordinate_system_admitted_iff | reflexivity].
    + intros [A ->]. now apply coordinate_system_admitted_iff.
  - intros db cs R I.
    destruct (stored_row_history db (INSERT_INTO_coordinate_system cs) R I)
      as [[] | [db0 [_ [E _]]]].
    apply coordinate_system_admitted_iff in E
      as [a [c [type [dimension [_ [_ [_ [_ [T [D [Shape _]]]]]]]]]]].
    exists type, dimension. auto.
  - intros db NEW dimension T D N.
    unfold insert_coordinate_system, coordinate_system_insert_trigger.
    match goal with
    | |- insert (?r1 :: ?rest) _ _ = _ => apply (insert_raises _ [] rest r1)
    end; [reflexivity|].
    cbn [condition]. rewrite T, D. cbn.
    destruct (Z.eqb_spec dimension 1); [contradiction | reflexivity].
Qed.

Lemma coordinate_system_admission_witness :
  insert_coordinate_system Example.db (Sample.a_coordinate_system "6404" "spherical" 3)
  = inr (append_coordinate_system Example.db
           (Sample.a_coordinate_system "6404" "spherical" 3))
  /\ (exists type dimension,
         Sample.vertical_1D.(coordinate_system.type) = Some type
         /\ Sample.vertical_1D.(coordinate_system.dimension) = Some dimension
         /\ In (type, dimension) coordinate_system_shapes)
  /\ insert_coordinate_system Example.db (Sample.a_coordinate_system "6498" "vertical" 2)
     = inl (RaiseAbort "insert on coordinate_system violates constraint: dimension must be equal to 1 for type = 'vertical'")
  /\ (exists e, insert_coordinate_system Example.db Example.nul_keyed_coordinate_system
                = inl e).
Proof.
  destruct coordinate_system_admission as [admitted [kept [rejected nul]]].
  split; [|split; [|split]]; cycle 3.
  - apply (nul Example.db Example.nul_keyed_coordinate_system "a"). reflexivity.
  - apply admitted. split; [|reflexivity].
    exists "EPSG", "6404", "spherical", 3%Z.
    repeat split; try discriminate;
      [exists "E"%char, "PSG" | exists "6"%char, "404" | cbn; tauto |];
      try (split; [reflexivity | discriminate]).
    intros [cs [I [_ [_ [_ C]]]]]. vm_compute in I.
    repeat (destruct I as [<-|I]; [discriminate C|]). contradiction.
  - apply (kept Example.db _ operations_reachable). vm_compute. auto 10.
  - apply (rejected Example.db _ 2%Z); [reflexivity | reflexivity | discriminate].
Defined.

(** ** The coordinate system a CRS names *)

Lemma cs_ref_keyed (db : database) (A : Type) (col : coordinate_system.row -> option A)
      (x y : text) (cs : coordinate_system.row) :
  reachable db -> coordinate_system_at db x y cs -> cs_ref db col x y = col cs.
Proof.
  intros R K. destruct (keyed_some _ _ _ _ _ _ _ K) as [a [c [-> [-> [Ka Kc]]]]].
  destruct K as [I _]. exact (cs_ref_found db A col cs a c R I Ka Kc).
Qed.

Lemma cs_type_rule_silent (db : database) (x y : text) (type : string)
      (cs : coordinate_system.row) :
  reachable db -> coordinate_system_at db x y cs ->
  negb (truth (ne3 (cs_ref db coordinate_system.type x y) (txt type))) = true ->
  cs.(coordinate_system.type) = txt type.
Proof.
  intros R K T. rewrite (cs_ref_keyed db _ _ x y cs R K) in T.
  destruct K as [I _].
  destruct (coordinate_system_not_null db cs R I) as [N _].
  destruct (coordinate_system.type cs) as [ty|]; [|congruence].
  apply negb_true_iff in T. apply ne_text_not_true in T. now subst.
Qed.

Lemma cs_dimension_rule_silent (db : database) (x y : text) (dimension : Z)
      (cs : coordinate_system.row) :
  reachable db -> coordinate_system_at db x y cs ->
  negb (truth (ne3 (cs_ref db coordinate_system.dimension x y) (int dimension))) = true ->
  cs.(coordinate_system.dimension) = int dimension.
Proof.
  intros R K T. rewrite (cs_ref_keyed db _ _ x y cs R K) in T.
  destruct K as [I _].
  destruct (coordinate_system_not_null db cs R I) as [_ N].
  destruct (coordinate_system.dimension cs) as [d|]; [|congruence].
  apply negb_true_iff in T. apply ne_int_not_true in T. now subst.
Qed.

(** ** Vertical CRS *)

Lemma vertical_crs_well_formed (db : database) (v : vertical_crs.row) :
  reachable db -> In v db.(vertical_crs) ->
  (exists cs, coordinate_system_at db v.(vertical_crs.coordinate_system_auth_name)
                                   v.(vertical_crs.coordinate_system_code) cs
              /\ cs.(coordinate_system.type) = txt "vertical"
              /\ cs.(coordinate_system.dimension) = int 1)
  /\ (v.(vertical_crs.deprecated) = int 0 ->
      exists a, area_at db v.(vertical_crs.area_of_use_auth_name)
                        v.(vertical_crs.area_of_use_code) a
                /\ a.(area.deprecated) = int 0).
Proof.
  intros R I. admission of I by R as db0 R0 X0. split.
  - match goal with
    | Na : satisfied (NOT_NULL "coordinate_system_auth_name" _) = true,
      Nc : satisfied (NOT_NULL "coordinate_system_code" _) = true,
      F : satisfied (FOREIGN_KEY "fk_vertical_crs_coordinate_system" _ _ _) = true |- _ =>
        destruct (reference_keyed _ _ _ _ _ _ _ _ _ Na Nc F) as [cs K]
    end.
    exists cs. split; [|split].
    + exact (keyed_extends _ _ _ _ _ _ _ _ (extends_coordinate_system _ _ X0) K).
    + eapply (cs_type_rule_silent db0); eassumption.
    + eapply (cs_dimension_rule_silent db0); eassumption.
  - intros D. eapply (area_in_force db0 db); eassumption.
Qed.

(** X5. In every reachable store a vertical CRS names a stored coordinate
    system of type 'vertical' and dimension 1, and, when it is in force, a
    stored area of use that is in force.  An [INSERT] that names a stored
    coordinate system of another type or dimension fails. *)
Theorem vertical_crs_coordinate_system_and_area :
  (forall db v,
      reachable db -> In v db.(vertical_crs) ->
      exists cs, coordinate_system_at db v.(vertical_crs.coordinate_system_auth_name)
                                      v.(vertical_crs.coordinate_system_code) cs
                 /\ cs.(coordinate_system.type) = txt "vertical"
                 /\ cs.(coordinate_system.dimension) = int 1)
  /\ (forall db v,
         reachable db -> In v db.(vertical_crs) ->
         v.(vertical_crs.deprecated) = int 0 ->
         exists a, area_at db v.(vertical_crs.area_of_use_auth_name)
                           v.(vertical_crs.area_of_use_code) a
                   /\ a.(area.deprecated) = int 0)
  /\ (forall db NEW cs,
         reachable db ->
         coordinate_system_at db NEW.(vertical_crs.coordinate_system_auth_name)
                              NEW.(vertical_crs.coordinate_system_code) cs ->
         cs.(coordinate_system.type) <> txt "vertical"
         \/ cs.(coordinate_system.dimension) <> int 1 ->
         exists e, insert_vertical_crs db NEW = inl e).
Proof.
  split; [|split].
  - intros db v R I. exact (proj1 (vertical_crs_well_formed db v R I)).
  - intros db v R I. exact (proj2 (vertical_crs_well_formed db v R I)).
  - intros db NEW cs R K Bad.
    destruct (insert_vertical_crs db NEW) as [e|db'] eqn:E; [eauto|]. exfalso.
    assert (reachable db') as R'
        by exact (reachable_execute db (INSERT_INTO_vertical_crs NEW) db' R E).
    pose proof (execute_extends db db' (INSERT_INTO_vertical_crs NEW) E) as X.
    apply insert_ok in E as [_ [_ ->]].
    assert (In NEW (vertical_crs (append_vertical_crs db NEW))) as I
        by (cbn; apply in_app_iff; right; now left).
    destruct (proj1 (vertical_crs_well_formed _ NEW R' I)) as [cs' [K' [T' D']]].
    apply (keyed_extends _ _ _ _ _ _ _ _ (extends_coordinate_system _ _ X)) in K.
    rewrite <- (keyed_unique _ _ _ _ _ _ cs cs'
                  (pk_coordinate_system _ (reachable_primary_keys_unique _ R')) K K')
      in T', D'.
    destruct Bad; contradiction.
Qed.

Lemma vertical_crs_coordinate_system_and_area_witness :
  (exists cs, coordinate_system_at Example.db (txt "EPSG") (txt "6499") cs
              /\ cs.(coordinate_system.type) = txt "vertical"
              /\ cs.(coordinate_system.dimension) = int 1)
  /\ (exists a, area_at Example.db (txt "EPSG") (txt "1262") a
                /\ a.(area.deprecated) = int 0)
  /\ exists e, insert_vertical_crs Example.db (Example.a_vertical_crs_on "5799" "6422")
               = inl e.
Proof.
  destruct vertical_crs_coordinate_system_and_area as [vertical [in_force rejected]].
  assert (In Sample.EGM96_height (vertical_crs Example.db)) as I by (vm_compute; auto).
  split; [|split].
  - exact (vertical Example.db _ operations_reachable I).
  - exact (in_force Example.db _ operations_reachable I eq_refl).
  - apply (rejected Example.db _ Sample.ellipsoidal_2D operations_reachable).
    + vm_compute. repeat split; auto; discriminate.
    + left. discriminate.
Defined.

(** ** The view [conversion], row by row *)

Lemma in_conversion_base (db : database) (v : conversion.row) :
  In v (conversion db) -> In v.(conversion.base) db.(conversion_table).
Proof.
  unfold conversion, join_param. intros H.
  apply in_map_iff in H as [x [<- H]].
  destruct x as [[[[[[[[c m] p1] p2] p3] p4] p5] p6] p7]. cbn [conversion.base].
  repeat (apply in_left_join_fst in H; cbn [fst] in H).
  exact H.
Qed.

Lemma in_conversion_table_view (db : database) (c : conversion_table.row) :
  In c db.(conversion_table) -> exists v, In v (conversion db) /\ v.(conversion.base) = c.
Proof.
  unfold conversion, join_param. intros H.
  repeat match goal with
         | H : In ?x ?l |- context [left_join ?l ?r ?on] =>
             let m := fresh "m" in
             apply (in_left_join_ex _ _ l r on) in H as [m H]
         end.
  eexists. split; [apply in_map_iff; eexists; split; [reflexivity | exact H] | reflexivity].
Qed.

(** An [EXISTS] on the view that reads columns of [conversion_table] only is
    the same [EXISTS] on the table. *)
Lemma exists_conversion (db : database) (p : conversion_table.row -> tri) :
  exists_ (conversion db) (fun v => p v.(conversion.base))
  = exists_ db.(conversion_table) p.
Proof.
  unfold exists_. f_equal. apply eq_true_iff_eq. rewrite !existsb_exists. split.
  - intros [v [I T]]. exists v.(conversion.base). split; [now apply in_conversion_base | exact T].
  - intros [c [I T]]. destruct (in_conversion_table_view db c I) as [v [Iv <-]]. eauto.
Qed.

(** ** CRS defined by references or by text *)

Lemma must_be_given (x y text : text) :
  negb (truth (and3 (or3 (is_null x) (is_null y)) (is_null text))) = true ->
  text = None -> given x y.
Proof. intros T ->. destruct x, y; cbn in T; try discriminate. split; discriminate. Qed.

Lemma must_not_be_given (x y text : text) :
  negb (truth (and3 (not3 (or3 (is_null x) (is_null y))) (is_not_null text))) = true ->
  text <> None -> ~ given x y.
Proof.
  intros T N [Nx Ny]. destruct text; [|congruence].
  destruct x; [|congruence]. destruct y; [|congruence]. discriminate T.
Qed.

(** The rule on a deprecated area that is guarded by [text_definition IS NOT
    NULL]. *)
Lemma guarded_area_in_force (db0 db : database) (x y text : text) (dep : boolean)
      (name : string) :
  reachable db0 -> extends db0 db ->
  satisfied (FOREIGN_KEY name (x, y) db0.(area) (area.auth_name, area.code)) = true ->
  negb (truth (and3 (and3 (exists_ db0.(area)
                                   (fun r => and3 (and3 (eq3 (area.auth_name r) x)
                                                        (eq3 (area.code r) y))
                                                  (ne3 (area.deprecated r) (int 0))))
                          (eq3 dep (int 0)))
                    (is_not_null text))) = true ->
  text <> None -> dep = int 0 -> given x y ->
  exists a, area_at db x y a /\ a.(area.deprecated) = int 0.
Proof.
  intros R0 X0 F T Nt D [Nx Ny].
  destruct (given_reference_keyed _ _ _ _ _ _ _ Nx Ny F) as [a K].
  exists a. split.
  - exact (keyed_extends _ _ _ _ _ _ _ _ (extends_area _ _ X0) K).
  - eapply reference_in_force; [exact K | | | exact D].
    + destruct K as [I _]. exact (area_flag db0 a R0 I).
    + rewrite truth_and3 in T.
      destruct text; [|congruence]. cbn [is_not_null truth] in T.
      now rewrite andb_true_r in T.
Qed.

Lemma geodetic_crs_defined (db : database) (g : geodetic_crs.row) :
  reachable db -> In g db.(geodetic_crs) ->
  (g.(geodetic_crs.text_definition) = None ->
   (exists cs, coordinate_system_at db g.(geodetic_crs.coordinate_system_auth_name)
                                    g.(geodetic_crs.coordinate_system_code) cs)
   /\ (exists d, geodetic_datum_at db g.(geodetic_crs.datum_auth_name)
                                   g.(geodetic_crs.datum_code) d)
   /\ (exists a, area_at db g.(geodetic_crs.area_of_use_auth_name)
                         g.(geodetic_crs.area_of_use_code) a))
  /\ (g.(geodetic_crs.text_definition) <> None ->
      ~ given g.(geodetic_crs.coordinate_system_auth_name)
              g.(geodetic_crs.coordinate_system_code)
      /\ ~ given g.(geodetic_crs.datum_auth_name) g.(geodetic_crs.datum_code)
      /\ (g.(geodetic_crs.deprecated) = int 0 ->
          given g.(geodetic_crs.area_of_use_auth_name) g.(geodetic_crs.area_of_use_code) ->
          exists a, area_at db g.(geodetic_crs.area_of_use_auth_name)
                            g.(geodetic_crs.area_of_use_code) a
                    /\ a.(area.deprecated) = int 0)).
Proof.
  intros R I. admission of I by R as db0 R0 X0. split.
  - intros Text.
    repeat match goal with
           | T : negb (truth (and3 (or3 (is_null _) (is_null _)) (is_null _))) = true |- _ =>
               apply must_be_given in T; [destruct T | exact Text]
           end.
    split; [|split].
    + match goal with
      | F : satisfied (FOREIGN_KEY "fk_geodetic_crs_coordinate_system" (?x, ?y) _ _) = true,
        Nx : ?x <> None, Ny : ?y <> None |- _ =>
          destruct (given_reference_keyed _ _ _ _ _ _ _ Nx Ny F) as [cs K]
      end.
      exists cs. exact (keyed_extends _ _ _ _ _ _ _ _ (extends_coordinate_system _ _ X0) K).
    + match goal with
      | F : satisfied (FOREIGN_KEY "fk_geodetic_crs_datum" (?x, ?y) _ _) = true,
        Nx : ?x <> None, Ny : ?y <> None |- _ =>
          destruct (given_reference_keyed _ _ _ _ _ _ _ Nx Ny F) as [d K]
      end.
      exists d. exact (keyed_extends _ _ _ _ _ _ _ _ (extends_geodetic_datum _ _ X0) K).
    + match goal with
      | F : satisfied (FOREIGN_KEY "fk_geodetic_crs_area" (?x, ?y) _ _) = true,
        Nx : ?x <> None, Ny : ?y <> None |- _ =>
          destruct (given_reference_keyed _ _ _ _ _ _ _ Nx Ny F) as [a K]
      end.
      exists a. exact (keyed_extends _ _ _ _ _ _ _ _ (extends_area _ _ X0) K).
  - intros Text.
    repeat match goal with
           | T : negb (truth (and3 (not3 (or3 (is_null _) (is_null _))) (is_not_null _)))
                 = true |- _ =>
               apply must_not_be_given in T; [|exact Text]
           end.
    split; [assumption | split; [assumption|]].
    intros D G. eapply (guarded_area_in_force db0 db); eassumption.
Qed.

Lemma conversion_flag (db : database) (c : conversion_table.row) :
  reachable db -> In c db.(conversion_table) ->
  c.(conversion_table.deprecated) = int 0 \/ c.(conversion_table.deprecated) = int 1.
Proof. intros R I. admission of I by R as db0 R0 X0. eapply deprecated_flag; eassumption. Qed.

Lemma projected_crs_defined (db : database) (p : projected_crs.row) :
  reachable db -> In p db.(projected_crs) ->
  (p.(projected_crs.text_definition) = None ->
   (exists cs, coordinate_system_at db p.(projected_crs.coordinate_system_auth_name)
                                    p.(projected_crs.coordinate_system_code) cs)
   /\ (exists g, geodetic_crs_at db p.(projected_crs.geodetic_crs_auth_name)
                                 p.(projected_crs.geodetic_crs_code) g)
   /\ (exists c, conversion_at db p.(projected_crs.conversion_auth_name)
                               p.(projected_crs.conversion_code) c)
   /\ (exists a, area_at db p.(projected_crs.area_of_use_auth_name)
                         p.(projected_crs.area_of_use_code) a))
  /\ (p.(projected_crs.text_definition) <> None ->
      ~ given p.(projected_crs.coordinate_system_auth_name)
              p.(projected_crs.coordinate_system_code)
      /\ ~ given p.(projected_crs.conversion_auth_name) p.(projected_crs.conversion_code)
      /\ (p.(projected_crs.deprecated) = int 0 ->
          given p.(projected_crs.area_of_use_auth_name) p.(projected_crs.area_of_use_code) ->
          exists a, area_at db p.(projected_crs.area_of_use_auth_name)
                            p.(projected_crs.area_of_use_code) a
                    /\ a.(area.deprecated) = int 0)).
Proof.
  intros R I. admission of I by R as db0 R0 X0. split.
  - intros Text.
    repeat match goal with
           | T : negb (truth (and3 (or3 (is_null _) (is_null _)) (is_null _))) = true |- _ =>
               apply must_be_given in T; [destruct T | exact Text]
           end.
    split; [|split; [|split]].
    + match goal with
      | F : satisfied (FOREIGN_KEY "fk_projected_crs_coordinate_system" (?x, ?y) _ _) = true,
        Nx : ?x <> None, Ny : ?y <> None |- _ =>
          destruct (given_reference_keyed _ _ _ _ _ _ _ Nx Ny F) as [cs K]
      end.
      exists cs. exact (keyed_extends _ _ _ _ _ _ _ _ (extends_coordinate_system _ _ X0) K).
    + match goal with
      | F : satisfied (FOREIGN_KEY "fk_projected_crs_geodetic_crs" (?x, ?y) _ _) = true,
        Nx : ?x <> None, Ny : ?y <> None |- _ =>
          destruct (given_reference_keyed _ _ _ _ _ _ _ Nx Ny F) as [g K]
      end.
      exists g. exact (keyed_extends _ _ _ _ _ _ _ _ (extends_geodetic_crs _ _ X0) K).
    + match goal with
      | T : negb (truth (and3 (not3 (exists_ (conversion db0) _)) (is_null _))) = true |- _ =>
          rewrite Text in T; rewrite truth_and3 in T; cbn [is_null truth] in T;
          rewrite andb_true_r in T; apply negb_true_iff in T;
          rewrite truth_not_exists in T; apply negb_false_iff in T;
          rewrite <- truth_exists in T
      end.
      match goal with
      | T : truth (exists_ (conversion db0) _) = true |- _ =>
          rewrite (exists_conversion db0
                     (fun c => and3 (eq3 (conversion_table.auth_name c)
                                         (projected_crs.conversion_auth_name p))
                                    (eq3 (conversion_table.code c)
                                         (projected_crs.conversion_code p)))) in T;
          apply exists_key_inv in T as [c [a [k [Ic [Ea [Ek [Ka Kk]]]]]]]
      end.
      exists c. apply (keyed_extends _ _ _ _ _ _ _ _ (extends_conversion_table _ _ X0)).
      rewrite Ea, Ek. repeat split; try assumption; discriminate.
    + match goal with
      | F : satisfied (FOREIGN_KEY "fk_projected_crs_area" (?x, ?y) _ _) = true,
        Nx : ?x <> None, Ny : ?y <> None |- _ =>
          destruct (given_reference_keyed _ _ _ _ _ _ _ Nx Ny F) as [a K]
      end.
      exists a. exact (keyed_extends _ _ _ _ _ _ _ _ (extends_area _ _ X0) K).
  - intros Text.
    repeat match goal with
           | T : negb (truth (and3 (not3 (or3 (is_null _) (is_null _))) (is_not_null _)))
                 = true |- _ =>
               apply must_not_be_given in T; [|exact Text]
           end.
    split; [assumption | split; [assumption|]].
    intros D G. eapply (guarded_area_in_force db0 db); eassumption.
Qed.

(** X6. In every reachable store a geodetic or projected CRS is defined
    either by references or by text.  With [text_definition] [NULL] its
    coordinate system, its datum (geodetic) or its base CRS and conversion
    (projected) and its area of use are given and stored.  With a text
    definition the coordinate system is not given, nor the datum (geodetic)
    or the conversion (projected), and an area of use that is given for a row
    in force is stored and in force.  An [INSERT] without text definition and
    without datum, or with both a text definition and a coordinate system,
    fails. *)
Theorem crs_defined_by_references_or_text :
  (forall db g,
      reachable db -> In g db.(geodetic_crs) ->
      (g.(geodetic_crs.text_definition) = None ->
       (exists cs, coordinate_system_at db g.(geodetic_crs.coordinate_system_auth_name)
                                        g.(geodetic_crs.coordinate_system_code) cs)
       /\ (exists d, geodetic_datum_at db g.(geodetic_crs.datum_auth_name)
                                       g.(geodetic_crs.datum_code) d)
       /\ (exists a, area_at db g.(geodetic_crs.area_of_use_auth_name)
                             g.(geodetic_crs.area_of_use_code) a))
      /\ (g.(geodetic_crs.text_definition) <> None ->
          ~ given g.(geodetic_crs.coordinate_system_auth_name)
                  g.(geodetic_crs.coordinate_system_code)
          /\ ~ given g.(geodetic_crs.datum_auth_name) g.(geodetic_crs.datum_code)
          /\ (g.(geodetic_crs.deprecated) = int 0 ->
              given g.(geodetic_crs.area_of_use_auth_name)
                    g.(geodetic_crs.area_of_use_code) ->
              exists a, area_at db g.(geodetic_crs.area_of_use_auth_name)
                                g.(geodetic_crs.area_of_use_code) a
                        /\ a.(area.deprecated) = int 0)))
  /\ (forall db p,
         reachable db -> In p db.(projected_crs) ->
         (p.(projected_crs.text_definition) = None ->
          (exists cs, coordinate_system_at db p.(projected_crs.coordinate_system_auth_name)
                                           p.(projected_crs.coordinate_system_code) cs)
          /\ (exists g, geodetic_crs_at db p.(projected_crs.geodetic_crs_auth_name)
                                        p.(projected_crs.geodetic_crs_code) g)
          /\ (exists c, conversion_at db p.(projected_crs.conversion_auth_name)
                                      p.(projected_crs.conversion_code) c)
          /\ (exists a, area_at db p.(projected_crs.area_of_use_auth_name)
                                p.(projected_crs.area_of_use_code) a))
         /\ (p.(projected_crs.text_definition) <> None ->
             ~ given p.(projected_crs.coordinate_system_auth_name)
                     p.(projected_crs.coordinate_system_code)
             /\ ~ given p.(projected_crs.conversion_auth_name)
                        p.(projected_crs.conversion_code)
             /\ (p.(projected_crs.deprecated) = int 0 ->
                 given p.(projected_crs.area_of_use_auth_name)
                       p.(projected_crs.area_of_use_code) ->
                 exists a, area_at db p.(projected_crs.area_of_use_auth_name)
                                   p.(projected_crs.area_of_use_code) a
                           /\ a.(area.deprecated) = int 0)))
  /\ (forall db NEW,
         (NEW.(geodetic_crs.text_definition) = None
          /\ ~ given NEW.(geodetic_crs.datum_auth_name) NEW.(geodetic_crs.datum_code))
         \/ (NEW.(geodetic_crs.text_definition) <> None
             /\ given NEW.(geodetic_crs.coordinate_system_auth_name)
                      NEW.(geodetic_crs.coordinate_system_code)) ->
         exists e, insert_geodetic_crs db NEW = inl e).
Proof.
  split; [exact geodetic_crs_defined | split; [exact projected_crs_defined|]].
  intros db NEW Bad.
  destruct (insert_geodetic_crs db NEW) as [e|db'] eqn:E; [eauto|]. exfalso.
  apply insert_ok in E as [S _]. split_silent S.
  destruct Bad as [[Text N]|[Text G]].
  - apply N.
    match goal with
    | T : negb (truth (and3 (or3 (is_null (geodetic_crs.datum_auth_name NEW)) _) _)) = true
      |- _ => exact (must_be_given _ _ _ T Text)
    end.
  - match goal with
    | T : negb (truth (and3 (not3 (or3 (is_null (geodetic_crs.coordinate_system_auth_name
                                                   NEW)) _)) _)) = true
      |- _ => exact (must_not_be_given _ _ _ T Text G)
    end.
Qed.

Lemma with_crs_by_text_reachable : reachable Example.with_crs_by_text.
Proof.
  apply (run_reachable (Sample.operations ++ [INSERT_INTO_geodetic_crs Example.crs_by_text])
                       empty_database); [constructor|].
  vm_compute. reflexivity.
Qed.

Lemma crs_defined_by_references_or_text_witness :
  (exists d, geodetic_datum_at Example.db (txt "EPSG") (txt "6326") d)
  /\ (exists c, conversion_at Example.db (txt "EPSG") (txt "3856") c)
  /\ (exists a, area_at Example.with_crs_by_text (txt "EPSG") (txt "1262") a
                /\ a.(area.deprecated) = int 0)
  /\ (exists e, insert_geodetic_crs Example.db
                  (Example.a_geodetic_crs_defined "WGS84" (txt "6422") None None) = inl e)
  /\ (exists e, insert_geodetic_crs Example.db
                  (Example.a_geodetic_crs_defined "WGS84" (txt "6422") None
                     (txt "+proj=longlat")) = inl e).
Proof.
  destruct crs_defined_by_references_or_text as [geodetic [projected rejected]].
  split; [|split; [|split; [|split]]].
  - assert (In Sample.WGS_84 (geodetic_crs Example.db)) as I by (vm_compute; auto).
    destruct (geodetic Example.db _ operations_reachable I) as [by_references _].
    destruct (by_references eq_refl) as [_ [datum _]]. exact datum.
  - assert (In Sample.web_mercator (projected_crs Example.db)) as I by (vm_compute; auto).
    destruct (projected Example.db _ operations_reachable I) as [by_references _].
    destruct (by_references eq_refl) as [_ [_ [conversion _]]]. exact conversion.
  - assert (In Example.crs_by_text (geodetic_crs Example.with_crs_by_text)) as I
        by (vm_compute; auto).
    destruct (geodetic _ _ with_crs_by_text_reachable I) as [_ by_text].
    destruct by_text as [_ [_ area]]; [discriminate|].
    apply area; [reflexivity | split; discriminate].
  - apply rejected. left. split; [reflexivity|]. intros [N _]. now apply N.
  - apply rejected. right. split; [discriminate | split; discriminate].
Defined.

(** ** The view [crs_view], row by row *)

Lemma in_crs_view_cases (db : database) (v : crs_view.row) :
  In v (crs_view db) <->
  (exists r, In r db.(geodetic_crs) /\ v = crs_view.select_geodetic_crs r)
  \/ (exists r, In r db.(projected_crs) /\ v = crs_view.select_projected_crs r)
  \/ (exists r, In r db.(vertical_crs) /\ v = crs_view.select_vertical_crs r)
  \/ (exists r, In r db.(compound_crs) /\ v = crs_view.select_compound_crs r).
Proof.
  unfold crs_view. rewrite !in_app_iff, !in_map_iff.
  split; intros H;
    repeat match goal with
           | H : _ \/ _ |- _ => destruct H as [H|H]
           | H : exists _, _ |- _ => destruct H as [? [? ?]]
           end;
    subst; eauto 8.
Qed.

Lemma crs_view_extends (db db' : database) (v : crs_view.row) :
  extends db db' -> In v (crs_view db) -> In v (crs_view db').
Proof.
  intros X. rewrite !in_crs_view_cases.
  intros [[r [I E]]|[[r [I E]]|[[r [I E]]|[r [I E]]]]];
    [left | right; left | right; right; left | right; right; right];
    exists r; (split; [|exact E]); (eapply begins_in; [|exact I]); apply X.
Qed.

Lemma crs_at_extends (db db' : database) (x y : text) (v : crs_view.row) :
  extends db db' -> crs_at db x y v -> crs_at db' x y v.
Proof. intros X [I K]. split; [exact (crs_view_extends db db' v X I) | exact K]. Qed.

Lemma geodetic_crs_flag (db : database) (g : geodetic_crs.row) :
  reachable db -> In g db.(geodetic_crs) ->
  g.(geodetic_crs.deprecated) = int 0 \/ g.(geodetic_crs.deprecated) = int 1.
Proof. intros R I. admission of I by R as db0 R0 X0. eapply deprecated_flag; eassumption. Qed.

Lemma projected_crs_flag (db : database) (p : projected_crs.row) :
  reachable db -> In p db.(projected_crs) ->
  p.(projected_crs.deprecated) = int 0 \/ p.(projected_crs.deprecated) = int 1.
Proof. intros R I. admission of I by R as db0 R0 X0. eapply deprecated_flag; eassumption. Qed.

Lemma vertical_crs_flag (db : database) (v : vertical_crs.row) :
  reachable db -> In v db.(vertical_crs) ->
  v.(vertical_crs.deprecated) = int 0 \/ v.(vertical_crs.deprecated) = int 1.
Proof. intros R I. admission of I by R as db0 R0 X0. eapply deprecated_flag; eassumption. Qed.

Lemma compound_crs_flag (db : database) (c : compound_crs.row) :
  reachable db -> In c db.(compound_crs) ->
  c.(compound_crs.deprecated) = int 0 \/ c.(compound_crs.deprecated) = int 1.
Proof. intros R I. admission of I by R as db0 R0 X0. eapply deprecated_flag; eassumption. Qed.

Lemma crs_view_flag (db : database) (v : crs_view.row) :
  reachable db -> In v (crs_view db) ->
  v.(crs_view.deprecated) = int 0 \/ v.(crs_view.deprecated) = int 1.
Proof.
  intros R I. apply in_crs_view_cases in I
    as [[r [I ->]]|[[r [I ->]]|[[r [I ->]]|[r [I ->]]]]]; cbn.
  - exact (geodetic_crs_flag db r R I).
  - exact (projected_crs_flag db r R I).
  - exact (vertical_crs_flag db r R I).
  - exact (compound_crs_flag db r R I).
Qed.

(** The kinds of CRS, as [crs_view] names them in its column [type]. *)
Lemma crs_view_type_known (db : database) (v : crs_view.row) :
  reachable db -> In v (crs_view db) ->
  exists type,
    v.(crs_view.type) = Some type
    /\ In type ["geographic 2D"; "geographic 3D"; "geocentric";
                "projected"; "vertical"; "compound"].
Proof.
  intros R I. apply in_crs_view_cases in I
    as [[r [I ->]]|[[r [I ->]]|[[r [I ->]]|[r [I ->]]]]]; cbn;
    try (eexists; split; [reflexivity | tauto]).
  admission of I by R as db0 R0 X0.
  match goal with
  | N : satisfied (NOT_NULL "type" _) = true |- _ => apply not_null_some in N as [ty E]
  end.
  exists ty. split; [exact E|].
  match goal with
  | C : satisfied (CHECK "type" _) = true |- _ => rewrite E in C; cbn in C
  end.
  repeat match goal with
         | C : context [String.eqb ty ?s] |- _ =>
             destruct (String.eqb_spec ty s) as [->|]; [tauto|]
         end.
  discriminate.
Qed.

(** A key names at most one row of [crs_view]: the primary keys tell rows of
    one kind apart, the rule on [crs_view] rows of different kinds. *)
Lemma crs_view_functional (db : database) (x y : text) (v1 v2 : crs_view.row) :
  reachable db -> crs_at db x y v1 -> crs_at db x y v2 -> v1 = v2.
Proof.
  intros R [I1 [Nx [Ny [A1 C1]]]] [I2 [_ [_ [A2 C2]]]].
  destruct (reachable_namespaces_disjoint db R) as [Disjoint _].
  pose proof (reachable_primary_keys_unique db R) as [].
  assert (crs_view.table_name v1 = crs_view.table_name v2) as Kind.
  { destruct x as [a|]; [|congruence]. destruct y as [c|]; [|congruence].
    destruct (crs_view.table_name v1) as [k1|] eqn:E1,
             (crs_view.table_name v2) as [k2|] eqn:E2;
      try reflexivity;
      try (destruct (string_dec k1 k2) as [->|N]; [reflexivity|]);
      exfalso; (apply (Disjoint v1 v2 I1 I2); [congruence | split; congruence]). }
  apply in_crs_view_cases in I1
    as [[r1 [I1 ->]]|[[r1 [I1 ->]]|[[r1 [I1 ->]]|[r1 [I1 ->]]]]];
    apply in_crs_view_cases in I2
      as [[r2 [I2 ->]]|[[r2 [I2 ->]]|[[r2 [I2 ->]]|[r2 [I2 ->]]]]];
    try discriminate Kind; cbn in A1, C1, A2, C2; f_equal;
    (eapply (keyed_unique _ _ _ _ x y); [eassumption | |]; repeat split; assumption).
Qed.

(** A [SELECT] by key on [crs_view] reads the row under the key. *)
Lemma scalar_crs_view (db : database) (A : Type) (col : crs_view.row -> option A)
      (x y : text) (v : crs_view.row) :
  reachable db -> crs_at db x y v ->
  scalar col (crs_view db)
         (fun r => and3 (eq3 (crs_view.auth_name r) x) (eq3 (crs_view.code r) y))
  = col v.
Proof.
  intros R K. unfold scalar.
  destruct (find _ (crs_view db)) as [v'|] eqn:F.
  - apply find_some in F as [I' T]. f_equal.
    apply (crs_view_functional db x y v' v R); [|exact K].
    destruct (keyed_some _ _ _ _ _ _ _ K) as [a [c [-> [-> _]]]].
    rewrite truth_and3 in T. apply andb_true_iff in T as [Ta Tc].
    apply truth_eq_text_some in Ta, Tc.
    repeat split; try assumption; discriminate.
  - exfalso. destruct (keyed_some _ _ _ _ _ _ _ K) as [a [c [-> [-> [Ka Kc]]]]].
    destruct K as [I _]. apply (find_none _ _ F) in I.
    rewrite truth_and3, Ka, Kc in I. cbn in I. now rewrite !String.eqb_refl in I.
Qed.

(** ** Compound CRS *)

Lemma compound_crs_components (db : database) (c : compound_crs.row) :
  reachable db -> In c db.(compound_crs) ->
  (exists h, crs_at db c.(compound_crs.horiz_crs_auth_name) c.(compound_crs.horiz_crs_code) h
             /\ (h.(crs_view.type) = txt "geographic 2D"
                 \/ h.(crs_view.type) = txt "projected")
             /\ (c.(compound_crs.deprecated) = int 0 -> h.(crs_view.deprecated) = int 0))
  /\ (exists v, vertical_crs_at db c.(compound_crs.vertical_crs_auth_name)
                                c.(compound_crs.vertical_crs_code) v
                /\ (c.(compound_crs.deprecated) = int 0 ->
                    v.(vertical_crs.deprecated) = int 0))
  /\ (c.(compound_crs.deprecated) = int 0 ->
      exists a, area_at db c.(compound_crs.area_of_use_auth_name)
                        c.(compound_crs.area_of_use_code) a
                /\ a.(area.deprecated) = int 0).
Proof.
  intros R I. admission of I by R as db0 R0 X0. split; [|split].
  - match goal with
    | T : negb (truth (not3 (exists_ (crs_view db0) _))) = true |- _ =>
        apply negb_true_iff in T; rewrite truth_not_exists in T;
        apply negb_false_iff in T; rewrite <- truth_exists in T;
        apply exists_key_inv in T as [h [a [k [Ih [Ea [Ek [Ka Kk]]]]]]]
    end.
    assert (crs_at db0 (compound_crs.horiz_crs_auth_name c)
                   (compound_crs.horiz_crs_code c) h) as K
        by (rewrite Ea, Ek; repeat split; try assumption; discriminate).
    exists h. split; [exact (crs_at_extends db0 db _ _ h X0 K) | split].
    + match goal with
      | T : negb (truth (not3 (in_values (scalar crs_view.type _ _)
                                         ["geographic 2D"; "projected"]))) = true |- _ =>
          rewrite (scalar_crs_view db0 _ crs_view.type _ _ h R0 K) in T
      end.
      destruct (crs_view_type_known db0 h R0 Ih) as [ty [Ety _]]. rewrite Ety in *.
      match goal with
      | T : negb (truth (not3 (in_values (Some ty) _))) = true |- _ => cbn in T
      end.
      destruct (String.eqb_spec ty "geographic 2D") as [G|]; [left; now rewrite G|].
      destruct (String.eqb_spec ty "projected") as [P|]; [right; now rewrite P|].
      discriminate.
    + intros D. eapply reference_in_force; [exact K | | eassumption | exact D].
      exact (crs_view_flag db0 h R0 Ih).
  - match goal with
    | Na : satisfied (NOT_NULL "vertical_crs_auth_name" _) = true,
      Nc : satisfied (NOT_NULL "vertical_crs_code" _) = true,
      F : satisfied (FOREIGN_KEY "fk_compound_crs_vertical_crs" _ _ _) = true |- _ =>
        destruct (reference_keyed _ _ _ _ _ _ _ _ _ Na Nc F) as [v K]
    end.
    exists v. split.
    + exact (keyed_extends _ _ _ _ _ _ _ _ (extends_vertical_crs _ _ X0) K).
    + intros D. eapply reference_in_force; [exact K | | eassumption | exact D].
      destruct K as [Iv _]. exact (vertical_crs_flag db0 v R0 Iv).
  - intros D. eapply (area_in_force db0 db); eassumption.
Qed.

(** X7. In every reachable store the horizontal component of a compound CRS
    is a row of [crs_view] of type 'geographic 2D' or 'projected' and its
    vertical component a stored vertical CRS; when the compound CRS is in
    force, so are both components and its area of use.  An [INSERT] whose
    horizontal component is a CRS of another type fails. *)
Theorem compound_crs_components_typed :
  (forall db c,
      reachable db -> In c db.(compound_crs) ->
      (exists h, crs_at db c.(compound_crs.horiz_crs_auth_name)
                        c.(compound_crs.horiz_crs_code) h
                 /\ (h.(crs_view.type) = txt "geographic 2D"
                     \/ h.(crs_view.type) = txt "projected")
                 /\ (c.(compound_crs.deprecated) = int 0 ->
                     h.(crs_view.deprecated) = int 0))
      /\ (exists v, vertical_crs_at db c.(compound_crs.vertical_crs_auth_name)
                                    c.(compound_crs.vertical_crs_code) v
                    /\ (c.(compound_crs.deprecated) = int 0 ->
                        v.(vertical_crs.deprecated) = int 0))
      /\ (c.(compound_crs.deprecated) = int 0 ->
          exists a, area_at db c.(compound_crs.area_of_use_auth_name)
                            c.(compound_crs.area_of_use_code) a
                    /\ a.(area.deprecated) = int 0))
  /\ (forall db NEW h,
         reachable db ->
         crs_at db NEW.(compound_crs.horiz_crs_auth_name)
                NEW.(compound_crs.horiz_crs_code) h ->
         h.(crs_view.type) <> txt "geographic 2D" ->
         h.(crs_view.type) <> txt "projected" ->
         exists e, insert_compound_crs db NEW = inl e).
Proof.
  split; [exact compound_crs_components|].
  intros db NEW h R K N2 Np.
  destruct (insert_compound_crs db NEW) as [e|db'] eqn:E; [eauto|]. exfalso.
  assert (reachable db') as R'
      by exact (reachable_execute db (INSERT_INTO_compound_crs NEW) db' R E).
  pose proof (execute_extends db db' (INSERT_INTO_compound_crs NEW) E) as X.
  apply insert_ok in E as [_ [_ ->]].
  assert (In NEW (compound_crs (append_compound_crs db NEW))) as I
      by (cbn; apply in_app_iff; right; now left).
  destruct (compound_crs_components _ NEW R' I) as [[h' [K' [Ty _]]] _].
  apply (crs_at_extends _ _ _ _ _ X) in K.
  rewrite (crs_view_functional _ _ _ h' h R' K' K) in Ty.
  destruct Ty; contradiction.
Qed.

Lemma with_compound_crs_reachable : reachable Example.with_compound_crs.
Proof.
  apply (run_reachable
           (Sample.operations
            ++ [INSERT_INTO_compound_crs (Example.a_compound_crs "9707" "4326")])
           empty_database); [constructor|].
  vm_compute. reflexivity.
Qed.

Lemma compound_crs_components_typed_witness :
  (exists h, crs_at Example.with_compound_crs (txt "EPSG") (txt "4326") h
             /\ (h.(crs_view.type) = txt "geographic 2D"
                 \/ h.(crs_view.type) = txt "projected")
             /\ h.(crs_view.deprecated) = int 0)
  /\ (exists e, insert_compound_crs Example.db (Example.a_compound_crs "9708" "5773")
                = inl e).
Proof.
  destruct compound_crs_components_typed as [components rejected].
  split.
  - assert (In (Example.a_compound_crs "9707" "4326")
               (compound_crs Example.with_compound_crs)) as I by (vm_compute; auto).
    destruct (components _ _ with_compound_crs_reachable I) as [[h [K [T D]]] _].
    exists h. split; [exact K | split; [exact T | exact (D eq_refl)]].
  - apply (rejected Example.db _ (crs_view.select_vertical_crs Sample.EGM96_height)
                    operations_reachable).
    + split; [vm_compute; auto 10 | repeat split; discriminate].
    + discriminate.
    + discriminate.
Defined.

(** ** Projected CRS *)

Lemma keyed_back (R : Type) (ka kc : R -> text) (t0 t : list R) (x y : text) (r0 r : R) :
  unique_keys ka kc t -> begins t0 t ->
  keyed ka kc t0 x y r0 -> keyed ka kc t x y r -> r = r0.
Proof.
  intros U B K0 K. apply (keyed_unique _ ka kc t x y r r0 U K).
  exact (keyed_extends _ _ _ _ _ _ _ _ B K0).
Qed.

Lemma projected_crs_coordinate_system_and_conversion (db : database) (p : projected_crs.row) :
  reachable db -> In p db.(projected_crs) ->
  (forall cs,
      coordinate_system_at db p.(projected_crs.coordinate_system_auth_name)
                           p.(projected_crs.coordinate_system_code) cs ->
      cs.(coordinate_system.type) = txt "Cartesian"
      /\ (cs.(coordinate_system.dimension) = int 2
          \/ (p.(projected_crs.coordinate_system_auth_name) = txt "EPSG"
              /\ p.(projected_crs.coordinate_system_code) = txt "4461")))
  /\ (p.(projected_crs.deprecated) = int 0 ->
      forall c,
        conversion_at db p.(projected_crs.conversion_auth_name)
                      p.(projected_crs.conversion_code) c ->
        c.(conversion_table.deprecated) = int 0).
Proof.
  intros R I. pose proof (reachable_primary_keys_unique db R) as U.
  admission of I by R as db0 R0 X0. split.
  - intros cs K.
    destruct (keyed_some _ _ _ _ _ _ _ K) as [a [c [Ea [Ec _]]]].
    pose proof K as [_ [Nx [Ny _]]].
    match goal with
    | F : satisfied (FOREIGN_KEY "fk_projected_crs_coordinate_system" _ _ _) = true |- _ =>
        destruct (given_reference_keyed _ _ _ _ _ _ _ Nx Ny F) as [cs0 K0]
    end.
    rewrite (keyed_back _ _ _ _ _ _ _ cs0 cs (pk_coordinate_system _ U)
                        (extends_coordinate_system _ _ X0) K0 K).
    split.
    + eapply (cs_type_rule_silent db0); eassumption.
    + match goal with
      | T : negb (truth (and3 (not3 _) (ne3 (cs_ref db0 coordinate_system.dimension _ _) _)))
            = true |- _ =>
          rewrite (cs_ref_keyed db0 _ _ _ _ cs0 R0 K0) in T;
          rewrite Ea, Ec in T |- *
      end.
      destruct K0 as [I0 _].
      destruct (coordinate_system_not_null db0 cs0 R0 I0) as [_ N].
      destruct (coordinate_system.dimension cs0) as [d|]; [|congruence].
      match goal with
      | T : negb (truth (and3 (not3 _) (ne3 (Some d) _))) = true |- _ =>
          cbn in T;
          destruct (String.eqb_spec a "EPSG") as [Ga|], (String.eqb_spec c "4461") as [Gc|];
          try (right; split; [now rewrite Ga | now rewrite Gc]);
          left; (destruct (Z.eqb_spec d 2) as [Gd|]; [now rewrite Gd | cbn in T; discriminate T])
      end.
  - intros D c K.
    pose proof K as [_ [Nx [Ny _]]].
    match goal with
    | F : satisfied (FOREIGN_KEY "fk_projected_crs_conversion" _ _ _) = true |- _ =>
        destruct (given_reference_keyed _ _ _ _ _ _ _ Nx Ny F) as [c0 K0]
    end.
    rewrite (keyed_back _ _ _ _ _ _ _ c0 c (pk_conversion _ U)
                        (extends_conversion_table _ _ X0) K0 K).
    eapply reference_in_force; [exact K0 | | | exact D].
    + destruct K0 as [I0 _]. exact (conversion_flag db0 c0 R0 I0).
    + match goal with
      | T : negb (truth (and3 (exists_ (conversion db0) _) _)) = true |- _ =>
          rewrite (exists_conversion db0
                     (fun c => and3 (and3 (eq3 (conversion_table.auth_name c)
                                               (projected_crs.conversion_auth_name p))
                                          (eq3 (conversion_table.code c)
                                               (projected_crs.conversion_code p)))
                                    (ne3 (conversion_table.deprecated c) (int 0)))) in T;
          exact T
      end.
Qed.

(** X8. In every reachable store the coordinate system of a projected CRS is
    Cartesian and of dimension 2, the dimension being free for the one system
    EPSG:4461, and the conversion of a projected CRS in force is in force.
    An [INSERT] on a stored coordinate system that is not Cartesian fails. *)
Theorem projected_crs_coordinate_system :
  (forall db p cs,
      reachable db -> In p db.(projected_crs) ->
      coordinate_system_at db p.(projected_crs.coordinate_system_auth_name)
                           p.(projected_crs.coordinate_system_code) cs ->
      cs.(coordinate_system.type) = txt "Cartesian"
      /\ (cs.(coordinate_system.dimension) = int 2
          \/ (p.(projected_crs.coordinate_system_auth_name) = txt "EPSG"
              /\ p.(projected_crs.coordinate_system_code) = txt "4461")))
  /\ (forall db p c,
         reachable db -> In p db.(projected_crs) ->
         p.(projected_crs.deprecated) = int 0 ->
         conversion_at db p.(projected_crs.conversion_auth_name)
                       p.(projected_crs.conversion_code) c ->
         c.(conversion_table.deprecated) = int 0)
  /\ (forall db NEW cs,
         reachable db ->
         coordinate_system_at db NEW.(projected_crs.coordinate_system_auth_name)
                              NEW.(projected_crs.coordinate_system_code) cs ->
         cs.(coordinate_system.type) <> txt "Cartesian" ->
         exists e, insert_projected_crs db NEW = inl e).
Proof.
  split; [|split].
  - intros db p cs R I.
    exact (proj1 (projected_crs_coordinate_system_and_conversion db p R I) cs).
  - intros db p c R I D.
    exact (proj2 (projected_crs_coordinate_system_and_conversion db p R I) D c).
  - intros db NEW cs R K N.
    destruct (insert_projected_crs db NEW) as [e|db'] eqn:E; [eauto|]. exfalso.
    assert (reachable db') as R'
        by exact (reachable_execute db (INSERT_INTO_projected_crs NEW) db' R E).
    pose proof (execute_extends db db' (INSERT_INTO_projected_crs NEW) E) as X.
    apply insert_ok in E as [_ [_ ->]].
    assert (In NEW (projected_crs (append_projected_crs db NEW))) as I
        by (cbn; apply in_app_iff; right; now left).
    apply (keyed_extends _ _ _ _ _ _ _ _ (extends_coordinate_system _ _ X)) in K.
    destruct (proj1 (projected_crs_coordinate_system_and_conversion _ NEW R' I) cs K)
      as [T _].
    contradiction.
Qed.

Lemma projected_crs_coordinate_system_witness :
  (Sample.cartesian_2D.(coordinate_system.type) = txt "Cartesian"
   /\ (Sample.cartesian_2D.(coordinate_system.dimension) = int 2
       \/ (txt "EPSG" = txt "EPSG" /\ txt "4400" = txt "4461")))
  /\ Sample.pseudo_mercator.(conversion_table.deprecated) = int 0
  /\ (exists e, insert_projected_crs Example.db (Example.a_projected_crs_on "3395" "6422")
                = inl e).
Proof.
  destruct projected_crs_coordinate_system as [cartesian [in_force rejected]].
  assert (In Sample.web_mercator (projected_crs Example.db)) as I by (vm_compute; auto).
  split; [|split].
  - apply (cartesian Example.db Sample.web_mercator _ operations_reachable I).
    vm_compute. repeat split; auto 10; discriminate.
  - apply (in_force Example.db Sample.web_mercator _ operations_reachable I eq_refl).
    vm_compute. repeat split; auto 10; discriminate.
  - apply (rejected Example.db _ Sample.ellipsoidal_2D operations_reachable).
    + vm_compute. repeat split; auto 10; discriminate.
    + discriminate.
Defined.

(** ** The source and the target of a coordinate operation *)

Lemma found_in_crs_view (db : database) (x y : text) :
  negb (truth (not3 (exists_ (crs_view db)
                             (fun v => and3 (eq3 (crs_view.auth_name v) x)
                                            (eq3 (crs_view.code v) y))))) = true ->
  exists v, crs_at db x y v.
Proof.
  intros T. apply negb_true_iff in T. rewrite truth_not_exists in T.
  apply negb_false_iff in T. rewrite <- truth_exists in T.
  apply exists_key_inv in T as [v [a [c [I [-> [-> [Ka Kc]]]]]]].
  exists v. repeat split; try assumption; discriminate.
Qed.

Lemma guarded_reference_in_force (R : Type) (ka kc : R -> text) (kd : R -> boolean)
      (t : list R) (x y : text) (dep : boolean) (guard : tri) (r : R) :
  keyed ka kc t x y r ->
  kd r = int 0 \/ kd r = int 1 ->
  negb (truth (and3 (and3 (exists_ t (fun r => and3 (and3 (eq3 (ka r) x) (eq3 (kc r) y))
                                                    (ne3 (kd r) (int 0))))
                          (eq3 dep (int 0)))
                    guard)) = true ->
  truth guard = true ->
  dep = int 0 ->
  kd r = int 0.
Proof.
  intros [I [Nx [Ny [Ka Kc]]]] [Z|O] T G D; [exact Z|]. exfalso.
  apply negb_true_iff in T.
  rewrite (deprecated_reference_fires R ka kc kd t x y dep guard) in T;
    [discriminate | | exact D | exact G].
  exists r, 1%Z. repeat split; try assumption. discriminate.
Qed.

Lemma not_esri (column : string) (auth : text) :
  satisfied (NOT_NULL column auth) = true -> auth <> txt "ESRI" ->
  truth (not3 (eq3 auth (txt "ESRI"))) = true.
Proof.
  intros N E. apply not_null_some in N as [a ->].
  apply (not_esri_guard _ a eq_refl). intros ->. now apply E.
Qed.

(** The ends of an operation whose trigger looks them up in [crs_view]. *)
Ltac ends_in_crs_view_by R0 X0 :=
  let s := fresh "s" in
  let t := fresh "t" in
  let Ks := fresh "Ks" in
  let Kt := fresh "Kt" in
  let Is := fresh "Is" in
  let It := fresh "It" in
  let D := fresh "D" in
  let E := fresh "E" in
  let G := fresh "G" in
  match goal with
  | |- ends_in_crs_view _ (?sa, ?sc) (?ta, ?tc) _ _ =>
      match goal with
      | Ts : negb (truth (not3 (exists_ (crs_view _)
                                        (fun v => and3 (eq3 _ sa) (eq3 _ sc))))) = true,
        Tt : negb (truth (not3 (exists_ (crs_view _)
                                        (fun v => and3 (eq3 _ ta) (eq3 _ tc))))) = true
        |- _ =>
          destruct (found_in_crs_view _ _ _ Ts) as [s Ks];
          destruct (found_in_crs_view _ _ _ Tt) as [t Kt]
      end;
      exists s, t; cbn [fst snd];
      split; [exact (crs_at_extends _ _ _ _ s X0 Ks)|];
      split; [exact (crs_at_extends _ _ _ _ t X0 Kt)|];
      intros D E;
      match goal with
      | N : satisfied (NOT_NULL "auth_name" _) = true |- _ =>
          pose proof (not_esri _ _ N E) as G
      end;
      split;
      [ eapply guarded_reference_in_force;
        [exact Ks | destruct Ks as [Is _]; exact (crs_view_flag _ s R0 Is)
         | eassumption | exact G | exact D]
      | eapply guarded_reference_in_force;
        [exact Kt | destruct Kt as [It _]; exact (crs_view_flag _ t R0 It)
         | eassumption | exact G | exact D] ]
  end.

Lemma grid_transformation_ends (db : database) (g : grid_transformation.row) :
  reachable db -> In g db.(grid_transformation) ->
  ends_in_crs_view db
    (g.(grid_transformation.source_crs_auth_name), g.(grid_transformation.source_crs_code))
    (g.(grid_transformation.target_crs_auth_name), g.(grid_transformation.target_crs_code))
    g.(grid_transformation.deprecated) g.(grid_transformation.auth_name).
Proof. intros R I. admission of I by R as db0 R0 X0. ends_in_crs_view_by R0 X0. Qed.

Lemma other_transformation_ends (db : database) (o : other_transformation.row) :
  reachable db -> In o db.(other_transformation) ->
  ends_in_crs_view db
    (o.(other_transformation.source_crs_auth_name), o.(other_transformation.source_crs_code))
    (o.(other_transformation.target_crs_auth_name), o.(other_transformation.target_crs_code))
    o.(other_transformation.deprecated) o.(other_transformation.auth_name).
Proof. intros R I. admission of I by R as db0 R0 X0. ends_in_crs_view_by R0 X0. Qed.

Lemma concatenated_operation_ends (db : database) (c : concatenated_operation.row) :
  reachable db -> In c db.(concatenated_operation) ->
  ends_in_crs_view db
    (c.(concatenated_operation.source_crs_auth_name),
     c.(concatenated_operation.source_crs_code))
    (c.(concatenated_operation.target_crs_auth_name),
     c.(concatenated_operation.target_crs_code))
    c.(concatenated_operation.deprecated) c.(concatenated_operation.auth_name).
Proof. intros R I. admission of I by R as db0 R0 X0. ends_in_crs_view_by R0 X0. Qed.

Lemma helmert_transformation_ends (db : database) (h : helmert_transformation_table.row) :
  reachable db -> In h db.(helmert_transformation_table) ->
  ends_in_geodetic_crs db
    (h.(helmert_transformation_table.source_crs_auth_name),
     h.(helmert_transformation_table.source_crs_code))
    (h.(helmert_transformation_table.target_crs_auth_name),
     h.(helmert_transformation_table.target_crs_code))
    h.(helmert_transformation_table.deprecated) h.(helmert_transformation_table.auth_name).
Proof.
  intros R I. admission of I by R as db0 R0 X0.
  match goal with
  | Na : satisfied (NOT_NULL "source_crs_auth_name" _) = true,
    Nc : satisfied (NOT_NULL "source_crs_code" _) = true,
    F : satisfied (FOREIGN_KEY "fk_helmert_transformation_source_crs" _ _ _) = true |- _ =>
      destruct (reference_keyed _ _ _ _ _ _ _ _ _ Na Nc F) as [s Ks]
  end.
  match goal with
  | Na : satisfied (NOT_NULL "target_crs_auth_name" _) = true,
    Nc : satisfied (NOT_NULL "target_crs_code" _) = true,
    F : satisfied (FOREIGN_KEY "fk_helmert_transformation_target_crs" _ _ _) = true |- _ =>
      destruct (reference_keyed _ _ _ _ _ _ _ _ _ Na Nc F) as [t Kt]
  end.
  exists s, t. cbn [fst snd].
  split; [exact (keyed_extends _ _ _ _ _ _ _ _ (extends_geodetic_crs _ _ X0) Ks)|].
  split; [exact (keyed_extends _ _ _ _ _ _ _ _ (extends_geodetic_crs _ _ X0) Kt)|].
  intros D E.
  match goal with
  | N : satisfied (NOT_NULL "auth_name" _) = true |- _ => pose proof (not_esri _ _ N E) as G
  end.
  split.
  - eapply guarded_reference_in_force;
      [exact Ks | destruct Ks as [Is _]; exact (geodetic_crs_flag _ s R0 Is)
       | eassumption | exact G | exact D].
  - eapply guarded_reference_in_force;
      [exact Kt | destruct Kt as [It _]; exact (geodetic_crs_flag _ t R0 It)
       | eassumption | exact G | exact D].
Qed.

(** X9. In every reachable store the source and the target of a grid
    transformation, of another transformation and of a concatenated
    operation name rows of [crs_view], and those of a Helmert transformation
    stored geodetic CRS; both are in force when the operation is in force
    and not of the authority ESRI.  An [INSERT] of a grid transformation
    whose source names no CRS fails. *)
Theorem operation_source_and_target :
  (forall db g,
      reachable db -> In g db.(grid_transformation) ->
      ends_in_crs_view db
        (g.(grid_transformation.source_crs_auth_name),
         g.(grid_transformation.source_crs_code))
        (g.(grid_transformation.target_crs_auth_name),
         g.(grid_transformation.target_crs_code))
        g.(grid_transformation.deprecated) g.(grid_transformation.auth_name))
  /\ (forall db o,
         reachable db -> In o db.(other_transformation) ->
         ends_in_crs_view db
           (o.(other_transformation.source_crs_auth_name),
            o.(other_transformation.source_crs_code))
           (o.(other_transformation.target_crs_auth_name),
            o.(other_transformation.target_crs_code))
           o.(other_transformation.deprecated) o.(other_transformation.auth_name))
  /\ (forall db c,
         reachable db -> In c db.(concatenated_operation) ->
         ends_in_crs_view db
           (c.(concatenated_operation.source_crs_auth_name),
            c.(concatenated_operation.source_crs_code))
           (c.(concatenated_operation.target_crs_auth_name),
            c.(concatenated_operation.target_crs_code))
           c.(concatenated_operation.deprecated) c.(concatenated_operation.auth_name))
  /\ (forall db h,
         reachable db -> In h db.(helmert_transformation_table) ->
         ends_in_geodetic_crs db
           (h.(helmert_transformation_table.source_crs_auth_name),
            h.(helmert_transformation_table.source_crs_code))
           (h.(helmert_transformation_table.target_crs_auth_name),
            h.(helmert_transformation_table.target_crs_code))
           h.(helmert_transformation_table.deprecated)
           h.(helmert_transformation_table.auth_name))
  /\ (forall db NEW,
         ~ (exists s, crs_at db NEW.(grid_transformation.source_crs_auth_name)
                             NEW.(grid_transformation.source_crs_code) s) ->
         exists e, insert_grid_transformation db NEW = inl e).
Proof.
  split; [exact grid_transformation_ends|].
  split; [exact other_transformation_ends|].
  split; [exact concatenated_operation_ends|].
  split; [exact helmert_transformation_ends|].
  intros db NEW N.
  destruct (insert_grid_transformation db NEW) as [e|db'] eqn:E; [eauto|]. exfalso.
  apply insert_ok in E as [S _]. split_silent S. apply N.
  match goal with
  | T : negb (truth (not3 (exists_ (crs_view _)
                                   (fun v => and3 (eq3 _ (grid_transformation.source_crs_auth_name
                                                           NEW)) _)))) = true |- _ =>
      exact (found_in_crs_view _ _ _ T)
  end.
Qed.

Lemma operation_source_and_target_witness :
  ends_in_crs_view Example.db (txt "EPSG", txt "4326") (txt "EPSG", txt "4326")
                   (int 0) (txt "EPSG")
  /\ ends_in_geodetic_crs Example.db (txt "EPSG", txt "4326") (txt "EPSG", txt "4326")
                          (int 0) (txt "EPSG")
  /\ (exists e, insert_grid_transformation Example.db
                  (Sample.a_grid_transformation "EPSG" "15" "EPSG" "9999") = inl e).
Proof.
  destruct operation_source_and_target as [grid [other [concatenated [helmert rejected]]]].
  split; [|split].
  - apply (grid Example.db (Sample.a_grid_transformation "EPSG" "2" "EPSG" "4326")
                operations_reachable).
    vm_compute. auto.
  - apply (helmert Example.db (Sample.a_helmert_transformation "EPSG" "1" "EPSG" "4326")
                   operations_reachable).
    vm_compute. auto.
  - apply rejected. intros [s [I [_ [_ K]]]].
    refine (exists_key_false _ crs_view.auth_name crs_view.code _ "EPSG" "9999" _ s I K).
    vm_compute. reflexivity.
Defined.

(** ** Grid packages and grid alternatives *)

(** [x NOT IN ('null') AND x NOT IN (SELECT ...)] that did not fire, when no
    selected value is [NULL]. *)
Lemma named_or_selected (n : string) (vs : list text) :
  (forall v, In v vs -> v <> None) ->
  negb (truth (and3 (not3 (in_values (Some n) ["null"])) (not3 (in_select (Some n) vs))))
  = true ->
  n = "null" \/ In (Some n) vs.
Proof.
  intros NN T. cbn [in_values existsb val_eqb text_value] in T.
  destruct (String.eqb_spec n "null") as [E|_]; [now left | right].
  cbn [orb not3 option_map negb] in T.
  destruct vs as [|v0 vs0] eqn:Evs; [discriminate T|]. rewrite <- Evs in *.
  assert (vs <> []) as Ne by (rewrite Evs; discriminate). clear Evs v0 vs0.
  unfold in_select in T. destruct vs as [|v0 vs0] eqn:Evs; [congruence|].
  rewrite <- Evs in *. clear Evs v0 vs0 Ne.
  destruct (existsb (fun v => truth (eq3 (Some n) v)) vs) eqn:Found.
  - apply existsb_exists in Found as [v [I E]].
    apply truth_eq_text in E as [s [[= <-] ->]]. exact I.
  - destruct (existsb (fun v => truth (is_null v)) vs) eqn:Null; [|discriminate T].
    apply existsb_exists in Null as [v [I E]]. apply truth_is_null in E.
    now elim (NN v I).
Qed.

Lemma grid_names_not_null (db : database) (v : text) :
  reachable db -> In v (map grid_transformation.grid_name db.(grid_transformation)) ->
  v <> None.
Proof.
  intros R I. apply in_map_iff in I as [t [<- I]].
  admission of I by R as db0 R0 X0.
  match goal with
  | N : satisfied (NOT_NULL "grid_name" _) = true |- _ => apply not_null_some in N as [n ->]
  end.
  discriminate.
Qed.

Lemma url_needs (A : Type) (x : option A) (url : text) :
  negb (truth (and3 (is_null x) (is_not_null url))) = true -> url <> None -> x <> None.
Proof. intros T N. destruct url; [|congruence]. destruct x; [discriminate | discriminate T]. Qed.

Lemma grid_alternatives_sound (db : database) (g : grid_alternatives.row) :
  reachable db -> In g db.(grid_alternatives) -> grid_alternative_sound db g.
Proof.
  intros R I. admission of I by R as db0 R0 X0.
  split; [|split; [|split]].
  - match goal with
    | N : satisfied (NOT_NULL "original_grid_name" _) = true |- _ =>
        apply not_null_some in N as [n E]
    end.
    rewrite E in *.
    match goal with
    | T : negb (truth (and3 (not3 (in_values (Some n) _)) _)) = true |- _ =>
        apply named_or_selected in T as [->|Named];
        [now left | right | intros v; apply (grid_names_not_null db0 v R0)];
        apply in_map_iff in Named as [t [Et It]]; exists t; split; [|exact Et];
        eapply begins_in; [apply X0 | exact It]
    end.
  - intros Same.
    match goal with
    | N : satisfied (NOT_NULL "original_grid_name" _) = true |- _ =>
        apply not_null_some in N as [n E]
    end.
    match goal with
    | N : satisfied (NOT_NULL "inverse_direction" _) = true |- _ =>
        apply not_null_some in N as [z Ez]
    end.
    match goal with
    | T : negb (truth (and3 (eq3 _ _) (ne3 (grid_alternatives.inverse_direction g) _)))
          = true |- _ =>
        rewrite <- Same, E, Ez in T; cbn in T; rewrite String.eqb_refl in T; cbn in T;
        rewrite Ez; destruct (Z.eqb_spec z 0) as [Z|]; [now rewrite Z | discriminate T]
    end.
  - intros U. split; [|split].
    + match goal with
      | T : negb (truth (and3 (is_not_null (grid_alternatives.package_name g)) _)) = true
        |- _ =>
          destruct (grid_alternatives.package_name g); [|reflexivity];
          destruct (grid_alternatives.url g); [discriminate T | congruence]
      end.
    + match goal with
      | T : negb (truth (and3 (is_null (grid_alternatives.direct_download g)) _)) = true
        |- _ => exact (url_needs _ _ _ T U)
      end.
    + match goal with
      | T : negb (truth (and3 (is_null (grid_alternatives.open_license g)) _)) = true
        |- _ => exact (url_needs _ _ _ T U)
      end.
  - intros P. destruct (grid_alternatives.package_name g) as [k|] eqn:E; [|congruence].
    match goal with
    | F : satisfied (FOREIGN_KEY1 _ _ _ _) = true |- _ =>
        apply foreign_key1_resolves in F as [p [Ip Kp]]
    end.
    exists p. split; [|exact Kp]. eapply begins_in; [apply X0 | exact Ip].
Qed.

Lemma grid_packages_sound (db : database) (p : grid_packages.row) :
  reachable db -> In p db.(grid_packages) ->
  p.(grid_packages.url) <> None ->
  p.(grid_packages.direct_download) <> None /\ p.(grid_packages.open_license) <> None.
Proof.
  intros R I U. admission of I by R as db0 R0 X0.
  split.
  - match goal with
    | T : negb (truth (and3 (is_null (grid_packages.direct_download p)) _)) = true
      |- _ => exact (url_needs _ _ _ T U)
    end.
  - match goal with
    | T : negb (truth (and3 (is_null (grid_packages.open_license p)) _)) = true
      |- _ => exact (url_needs _ _ _ T U)
    end.
Qed.

(** X10. In every reachable store a grid alternative carries the name 'null'
    or the grid name of a stored grid transformation; its direction is not
    inverted when it keeps the original name; when it gives a URL it names no
    package and sets both [direct_download] and [open_license]; a package it
    names is stored.  A grid package that gives a URL sets both flags.  An
    [INSERT] of an alternative to a grid that no grid transformation names
    fails. *)
Theorem grids_sound :
  (forall db g, reachable db -> In g db.(grid_alternatives) -> grid_alternative_sound db g)
  /\ (forall db p,
         reachable db -> In p db.(grid_packages) ->
         p.(grid_packages.url) <> None ->
         p.(grid_packages.direct_download) <> None
         /\ p.(grid_packages.open_license) <> None)
  /\ (forall db NEW n,
         reachable db ->
         NEW.(grid_alternatives.original_grid_name) = Some n -> n <> "null" ->
         (forall t, In t db.(grid_transformation) ->
                    t.(grid_transformation.grid_name) <> Some n) ->
         exists e, insert_grid_alternatives db NEW = inl e).
Proof.
  split; [exact grid_alternatives_sound | split; [exact grid_packages_sound|]].
  intros db NEW n R E N Unnamed.
  destruct (insert_grid_alternatives db NEW) as [e|db'] eqn:Ins; [eauto|]. exfalso.
  assert (reachable db') as R'
      by exact (reachable_execute db (INSERT_INTO_grid_alternatives NEW) db' R Ins).
  apply insert_ok in Ins as [_ [_ ->]].
  assert (In NEW (grid_alternatives (append_grid_alternatives db NEW))) as I
      by (cbn; apply in_app_iff; right; now left).
  destruct (grid_alternatives_sound _ NEW R' I) as [[Null|[t [It Et]]] _].
  - rewrite E in Null. injection Null as ->. now apply N.
  - cbn in It. apply (Unnamed t It). now rewrite Et.
Qed.

Lemma grids_sound_witness :
  grid_alternative_sound Example.with_grids Example.shift_grid
  /\ (Example.us_grids.(grid_packages.direct_download) <> None
      /\ Example.us_grids.(grid_packages.open_license) <> None)
  /\ (exists e, insert_grid_alternatives Example.with_grids Sample.gtx_grid_horizontal
                = inl e).
Proof.
  destruct grids_sound as [alternatives [packages rejected]].
  assert (reachable Example.with_grids) as R.
  { apply (run_reachable
             (Sample.operations
              ++ [INSERT_INTO_grid_packages Example.us_grids;
                  INSERT_INTO_grid_alternatives Example.shift_grid])
             empty_database); [constructor|].
    vm_compute. reflexivity. }
  split; [|split].
  - apply (alternatives _ _ R). vm_compute. auto.
  - apply (packages _ _ R); [vm_compute; auto | discriminate].
  - apply (rejected _ _ "egm96" R); [reflexivity | discriminate|].
    intros t I. vm_compute in I. destruct I as [<-|[]]. discriminate.
Defined.

(** ** Keys of the stored rows *)

Lemma not_stored_twice (R K : Type) (key : R -> K) (l : list R) (r : R) :
  In r l -> NoDup (map key (l ++ [r])) -> False.
Proof.
  intros I U. rewrite map_app in U. cbn [map] in U.
  apply NoDup_remove_2 in U. rewrite app_nil_r in U.
  apply U. now apply in_map.
Qed.

(** X11. In every reachable store the primary key of each table tells its
    rows apart, and an [INSERT] of a row that its table already holds
    fails. *)
Theorem primary_keys_kept (db : database) :
  reachable db ->
  primary_keys_unique db
  /\ (forall s, row_stored db s -> exists e, execute db s = inl e).
Proof.
  intros R. split; [exact (reachable_primary_keys_unique db R)|].
  intros s I. destruct (execute db s) as [e|db'] eqn:E; [eauto|]. exfalso.
  assert (on_table s = true) as T by (destruct s; try reflexivity; contradiction).
  pose proof (execute_stored db db' s T E) as ->.
  pose proof (reachable_primary_keys_unique _ (reachable_execute db s _ R E)) as [].
  unfold unique_keys, unique_key in *.
  destruct s; try discriminate T; cbn in *;
    (eapply not_stored_twice; [exact I | eassumption]).
Qed.

Lemma primary_keys_kept_witness :
  primary_keys_unique Example.db
  /\ (forall s, row_stored Example.db s -> exists e, execute Example.db s = inl e).
Proof. exact (primary_keys_kept Example.db operations_reachable). Defined.

(** X12. In every reachable store each [FOREIGN KEY] of the schema holds: a
    row that gives all the columns of a reference names a stored row of the
    referenced table. *)
Theorem foreign_keys_kept (db : database) : reachable db -> foreign_keys_hold db.
Proof. exact (reachable_foreign_keys_hold db). Qed.

Lemma foreign_keys_kept_witness : foreign_keys_hold Example.db.
Proof. exact (foreign_keys_kept Example.db operations_reachable). Defined.

(** ** Joins on a key *)

Lemma filter_nil (R : Type) (p : R -> bool) (r : list R) :
  (forall b, In b r -> p b = false) -> filter p r = [].
Proof.
  induction r as [|z r IH]; intros F; [reflexivity|]. cbn [filter].
  rewrite (F z (or_introl eq_refl)). apply IH. intros b I. apply F. now right.
Qed.

Lemma on_key (R : Type) (ka kc : R -> text) (x y : text) (b : R) :
  truth (and3 (eq3 x (ka b)) (eq3 y (kc b))) = true <->
  exists a c, x = Some a /\ y = Some c /\ ka b = Some a /\ kc b = Some c.
Proof.
  rewrite truth_and3, andb_true_iff, !truth_eq_text. split.
  - intros [[a [-> A]] [c [-> C]]]. exists a, c. auto.
  - intros [a [c [-> [-> [A C]]]]]. split; eauto.
Qed.

(** A row found by its key is the one row that a join on the key selects. *)
Lemma matched_rows (R : Type) (ka kc : R -> text) (r : list R) (x y : text) (b : R) :
  unique_keys ka kc r -> In b r ->
  truth (and3 (eq3 x (ka b)) (eq3 y (kc b))) = true ->
  filter (fun b => truth (and3 (eq3 x (ka b)) (eq3 y (kc b)))) r = [b].
Proof.
  unfold unique_keys. intros U I T. apply on_key in T as [a [c [-> [-> [A C]]]]].
  induction r as [|z r IH]; [contradiction|].
  cbn [map] in U. apply NoDup_cons_iff in U as [N U]. cbn [filter].
  destruct I as [->|I].
  - assert (truth (and3 (eq3 (Some a) (ka b)) (eq3 (Some c) (kc b))) = true) as ->
        by (apply on_key; eauto 8).
    f_equal. apply filter_nil. intros b' I'.
    destruct (truth _) eqn:T; [|reflexivity]. exfalso. apply N.
    apply on_key in T as [a' [c' [[= <-] [[= <-] [A' C']]]]].
    apply in_map_iff. exists b'. split; [congruence | exact I'].
  - destruct (truth (and3 (eq3 (Some a) (ka z)) (eq3 (Some c) (kc z)))) eqn:T;
      [|now apply IH].
    exfalso. apply N.
    apply on_key in T as [a' [c' [[= <-] [[= <-] [A' C']]]]].
    apply in_map_iff. exists b. split; [congruence | exact I].
Qed.

Lemma left_join_app (L R : Type) (l l' : list L) (r : list R) (on : L -> R -> tri) :
  left_join (l ++ l') r on = (left_join l r on ++ left_join l' r on)%list.
Proof. unfold left_join. apply flat_map_app. Qed.

(** Rows added to the right side that join no row of the left side leave
    the join as it is. *)
Lemma left_join_more (L R : Type) (l : list L) (r more : list R) (on : L -> R -> tri) :
  (forall a b, In a l -> In b more -> truth (on a b) = false) ->
  left_join l (r ++ more) on = left_join l r on.
Proof.
  unfold left_join. induction l as [|a l IH]; intros F; [reflexivity|].
  cbn [flat_map]. rewrite IH by (intros a' b I; apply F; now right).
  rewrite filter_app, (filter_nil _ _ more), app_nil_r; [reflexivity|].
  intros b I. apply F; [now left | exact I].
Qed.

(** A join on a key of the right side selects at most one row for each row
    of the left side. *)
Lemma left_join_on_key (L R : Type) (la lc : L -> text) (ka kc : R -> text)
      (l : list L) (r : list R) :
  unique_keys ka kc r ->
  map fst (left_join l r (fun a b => and3 (eq3 (la a) (ka b)) (eq3 (lc a) (kc b)))) = l.
Proof.
  intros U. unfold left_join. induction l as [|a l IH]; [reflexivity|].
  cbn [flat_map]. rewrite map_app, IH. clear IH.
  destruct (filter _ r) as [|b bs] eqn:F; [reflexivity|].
  assert (In b (filter (fun b => truth (and3 (eq3 (la a) (ka b)) (eq3 (lc a) (kc b)))) r))
    as I by (rewrite F; now left).
  apply filter_In in I as [I T].
  rewrite (matched_rows _ ka kc r _ _ b U I T) in F. injection F as <-. reflexivity.
Qed.

(** ** The view [helmert_transformation] *)

Lemma helmert_transformation_base (db : database) :
  reachable db ->
  map helmert_transformation.base (helmert_transformation db)
  = db.(helmert_transformation_table).
Proof.
  intros R. unfold helmert_transformation. rewrite map_map.
  rewrite <- (left_join_on_key _ _ helmert_transformation_table.method_auth_name
                helmert_transformation_table.method_code
                coordinate_operation_method.auth_name coordinate_operation_method.code
                db.(helmert_transformation_table) db.(coordinate_operation_method)) at 2
    by exact (pk_coordinate_operation_method _ (reachable_primary_keys_unique db R)).
  reflexivity.
Qed.

(** The method that the [INSTEAD OF] trigger leaves in the store. *)
Lemma helmert_transformation_method_stored (db d : database)
      (NEW : helmert_transformation.row) :
  helmert_transformation_insert_trigger_method db NEW = inr d ->
  d.(helmert_transformation_table) = db.(helmert_transformation_table)
  /\ (exists m,
        In m d.(coordinate_operation_method)
        /\ truth (and3 (eq3 NEW.(helmert_transformation.base).(helmert_transformation_table.method_auth_name)
                            m.(coordinate_operation_method.auth_name))
                       (eq3 NEW.(helmert_transformation.base).(helmert_transformation_table.method_code)
                            m.(coordinate_operation_method.code))) = true
        /\ m.(coordinate_operation_method.name) = NEW.(helmert_transformation.method_name))
  /\ (exists more,
        d.(coordinate_operation_method) = (db.(coordinate_operation_method) ++ more)%list
        /\ forall m a c,
            In m more ->
            m.(coordinate_operation_method.auth_name) = Some a ->
            m.(coordinate_operation_method.code) = Some c ->
            forall p, In p db.(coordinate_operation_method) ->
                      ~ (p.(coordinate_operation_method.auth_name) = Some a
                         /\ p.(coordinate_operation_method.code) = Some c)).
Proof.
  unfold helmert_transformation_insert_trigger_method.
  destruct (truth _) eqn:T.
  - intros E. apply insert_ok in E as [_ [C ->]]. split_constraints C.
    split; [reflexivity | split].
    + eexists. split; [cbn; apply in_app_iff; right; now left|]. cbn.
      repeat match goal with
             | N : satisfied (NOT_NULL _ _) = true |- _ =>
                 apply not_null_some in N as [? N]; cbn in N
             end.
      split; [|reflexivity]. apply on_key. eauto 8.
    + eexists. split; [reflexivity|]. intros m a c [<-|[]] A K p I [Pa Pc]. cbn in A, K.
      match goal with
      | P : satisfied (PRIMARY_KEY _ _ _ _) = true |- _ =>
          cbn [coordinate_operation_method.auth_name coordinate_operation_method.code] in P;
          rewrite A, K in P; apply primary_key_fresh in P; apply P
      end.
      apply in_map_iff. exists p. split; [cbn; now rewrite Pa, Pc | exact I].
  - intros [= <-]. split; [reflexivity | split].
    + unfold exists_ in T. cbn [not3 option_map truth] in T.
      destruct (existsb _ _) eqn:X in T; [clear T | discriminate T].
      rename X into T. apply existsb_exists in T as [m [I T]]. exists m. split; [exact I|].
      rewrite !truth_and3 in T. apply andb_true_iff in T as [T Tn].
      apply andb_true_iff in T as [Ta Tc].
      apply truth_eq_text in Ta as [a [Ea Ea']], Tc as [c [Ec Ec']], Tn as [n [En En']].
      split; [apply on_key; eauto 8 | congruence].
    + exists []. split; [now rewrite app_nil_r | intros m a c []].
Qed.

(** X13. An [INSERT] into the view [helmert_transformation] that a reachable
    store admits adds the row to the view as it was given, after the rows the
    view had; and in every reachable store the view has one row for each
    stored Helmert transformation, in the same order, with the name of its
    method. *)
Theorem helmert_transformation_view_round_trip (db : database) :
  reachable db ->
  (forall NEW db',
      insert_helmert_transformation db NEW = inr db' ->
      helmert_transformation db' = (helmert_transformation db ++ [NEW])%list)
  /\ map helmert_transformation.base (helmert_transformation db)
     = db.(helmert_transformation_table)
  /\ (forall v, In v (helmert_transformation db) ->
                v.(helmert_transformation.method_name) <> None).
Proof.
  intros R. split; [|split; [exact (helmert_transformation_base db R)|]].
  - intros NEW db' E. unfold insert_helmert_transformation in E.
    apply bind_ok in E as [d [M E]].
    assert (reachable d) as Rd.
    { revert M. unfold helmert_transformation_insert_trigger_method.
      destruct (truth _); [|now intros [= <-]].
      intros M. exact (reachable_execute db (INSERT_INTO_coordinate_operation_method _) d R M). }
    destruct (helmert_transformation_method_stored db d NEW M)
      as [Same [[m [Im [Tm Nm]]] [more [Em Fresh]]]].
    apply insert_ok in E as [_ [_ ->]].
    unfold helmert_transformation.
    cbn [helmert_transformation_table coordinate_operation_method
         append_helmert_transformation_table].
    rewrite Same, left_join_app, map_app. f_equal.
    + f_equal. rewrite Em. apply left_join_more. intros h p Ih Ip.
      apply not_true_is_false. intros T.
      apply on_key in T as [a [c [A [C [Pa Pc]]]]].
      destruct (fk_helmert_transformation_method db (reachable_foreign_keys_hold db R)
                  h a c Ih A C) as [q [Iq [Qa Qc]]].
      exact (Fresh p a c Ip Pa Pc q Iq (conj Qa Qc)).
    + unfold left_join. cbn [flat_map]. rewrite app_nil_r.
      rewrite (matched_rows _ coordinate_operation_method.auth_name
                 coordinate_operation_method.code _ _ _ m
                 (pk_coordinate_operation_method _ (reachable_primary_keys_unique d Rd))
                 Im Tm).
      cbn [map]. unfold helmert_transformation.select. cbn [fst snd joined].
      rewrite Nm. now destruct NEW.
  - intros v I. assert (In v.(helmert_transformation.base) db.(helmert_transformation_table))
      as Ib by (rewrite <- (helmert_transformation_base db R); now apply in_map).
    unfold helmert_transformation in I. apply in_map_iff in I as [[h o] [<- I]].
    cbn [helmert_transformation.select helmert_transformation.base
         helmert_transformation.method_name fst snd] in *.
    pose proof Ib as Ih. admission of Ib by R as db0 R0 X0.
    repeat match goal with
           | N : satisfied (NOT_NULL "method_auth_name" _) = true |- _ =>
               apply not_null_some in N as [a A]
           | N : satisfied (NOT_NULL "method_code" _) = true |- _ =>
               apply not_null_some in N as [c C]
           end.
    destruct (fk_helmert_transformation_method db (reachable_foreign_keys_hold db R)
                h a c Ih A C) as [q [Iq [Qa Qc]]].
    unfold left_join in I. apply in_flat_map in I as [h' [_ I]].
    destruct (filter _ _) as [|b bs] eqn:Sel.
    + destruct I as [[= -> <-]|[]]. exfalso.
      assert (In q []) as []. rewrite <- Sel. apply filter_In. split; [exact Iq|].
      apply on_key. eauto 8.
    + apply in_map_iff in I as [b' [[= -> <-] I]]. rewrite <- Sel in I.
      apply filter_In in I as [I _]. cbn [joined].
      admission of I by R as db1 R1 X1.
      match goal with
      | N : satisfied (NOT_NULL "name" _) = true |- _ => apply not_null_some in N as [n ->]
      end.
      discriminate.
Qed.

Lemma helmert_transformation_view_round_trip_witness :
  helmert_transformation Example.with_second_helmert
  = (helmert_transformation Example.db ++ [Example.second_helmert])%list
  /\ map helmert_transformation.base (helmert_transformation Example.db)
     = Example.db.(helmert_transformation_table)
  /\ (forall v, In v (helmert_transformation Example.db) ->
                v.(helmert_transformation.method_name) <> None).
Proof.
  destruct (helmert_transformation_view_round_trip Example.db operations_reachable)
    as [added [base named]].
  split; [|split; assumption].
  apply added. vm_compute. reflexivity.
Defined.

(** ** The methods of conversions *)

Lemma in_values_text (s : string) (vs : list string) :
  in_values (Some s) vs = Some true <-> In s vs.
Proof.
  cbn [in_values]. split.
  - intros [= E]. apply existsb_exists in E as [v [I E]].
    apply String.eqb_eq in E. now subst.
  - intros I. f_equal. apply existsb_exists. exists s. split; [exact I|].
    apply String.eqb_refl.
Qed.

Lemma not_in_values_text (s : string) (vs : list string) :
  truth (not3 (in_values (Some s) vs)) = true <-> ~ In s vs.
Proof.
  rewrite <- in_values_text. cbn [in_values not3 option_map truth].
  destruct (existsb _ vs); cbn; split; congruence.
Qed.

Lemma method_id_concat (a c n : string) :
  concat (concat (concat (concat (Some a) (txt "_")) (Some c)) (txt "_")) (Some n)
  = Some (method_id a c n).
Proof. reflexivity. Qed.

Lemma conversion_methods_listed (db : database) (m : conversion_method.row) :
  reachable db -> In m db.(conversion_method) ->
  exists a c n,
    m.(conversion_method.auth_name) = Some a
    /\ m.(conversion_method.code) = Some c
    /\ m.(conversion_method.name) = Some n
    /\ In (method_id a c n) known_conversion_methods.
Proof.
  intros R I. admission of I by R as db0 R0 X0.
  repeat match goal with
         | N : satisfied (NOT_NULL _ _) = true |- _ => apply not_null_some in N as [? N]
         end.
  match goal with
  | A : conversion_method.auth_name m = Some ?a,
    C : conversion_method.code m = Some ?c,
    N : conversion_method.name m = Some ?n,
    T : negb (truth (not3 (in_values _ _))) = true |- _ =>
      exists a, c, n; repeat split; try assumption;
      rewrite A, C, N, method_id_concat in T;
      apply negb_true_iff in T;
      destruct (in_dec string_dec (method_id a c n) known_conversion_methods) as [|Out];
      [assumption | apply not_in_values_text in Out; congruence]
  end.
Qed.

(** The [INSTEAD OF] trigger for the method leaves the method of the row in
    the store, under the name the row gives. *)
Lemma conversion_method_stored (db d : database) (NEW : conversion.row) :
  conversion_insert_trigger_method db NEW = inr d ->
  exists m,
    In m d.(conversion_method)
    /\ truth (and3 (eq3 NEW.(conversion.base).(conversion_table.method_auth_name)
                        m.(conversion_method.auth_name))
                   (eq3 NEW.(conversion.base).(conversion_table.method_code)
                        m.(conversion_method.code))) = true
    /\ m.(conversion_method.name) = NEW.(conversion.method_name)
    /\ NEW.(conversion.method_name) <> None.
Proof.
  unfold conversion_insert_trigger_method.
  destruct (truth _) eqn:T.
  - intros E. apply insert_ok in E as [_ [C ->]]. split_constraints C.
    eexists. split; [cbn; apply in_app_iff; right; now left|]. cbn.
    repeat match goal with
           | N : satisfied (NOT_NULL _ _) = true |- _ =>
               apply not_null_some in N as [? N]; cbn in N
           end.
    split; [apply on_key; eauto 8 | split; [reflexivity | congruence]].
  - intros [= <-]. unfold exists_ in T. cbn [not3 option_map truth] in T.
    destruct (existsb _ _) eqn:X in T; [clear T | discriminate T].
    apply existsb_exists in X as [m [I T]]. exists m. split; [exact I|].
    rewrite !truth_and3 in T. apply andb_true_iff in T as [T Tn].
    apply andb_true_iff in T as [Ta Tc].
    apply truth_eq_text in Ta as [a [Ea Ea']], Tc as [c [Ec Ec']], Tn as [n [En En']].
    split; [apply on_key; eauto 8 | split; congruence].
Qed.

Lemma conversion_insert_trigger_method_reachable (db d : database) (NEW : conversion.row) :
  reachable db -> conversion_insert_trigger_method db NEW = inr d -> reachable d.
Proof.
  intros R. unfold conversion_insert_trigger_method.
  destruct (truth _); [|now intros [= <-]].
  intros M. exact (reachable_execute db (INSERT_INTO_conversion_method _) d R M).
Qed.

(** X14. In every reachable store each stored conversion method is one of
    the methods that the trigger of [conversion_method] lists, and so is the
    method of every conversion that an [INSERT] into the view [conversion]
    admits; an [INSERT] into the view whose method is not listed fails. *)
Theorem conversion_methods_known (db : database) :
  reachable db ->
  (forall m, In m db.(conversion_method) ->
             exists a c n,
               m.(conversion_method.auth_name) = Some a
               /\ m.(conversion_method.code) = Some c
               /\ m.(conversion_method.name) = Some n
               /\ In (method_id a c n) known_conversion_methods)
  /\ (forall NEW db',
         insert_conversion db NEW = inr db' ->
         exists a c n,
           NEW.(conversion.base).(conversion_table.method_auth_name) = Some a
           /\ NEW.(conversion.base).(conversion_table.method_code) = Some c
           /\ NEW.(conversion.method_name) = Some n
           /\ In (method_id a c n) known_conversion_methods)
  /\ (forall NEW a c n,
         NEW.(conversion.base).(conversion_table.method_auth_name) = Some a ->
         NEW.(conversion.base).(conversion_table.method_code) = Some c ->
         NEW.(conversion.method_name) = Some n ->
         ~ In (method_id a c n) known_conversion_methods ->
         exists e, insert_conversion db NEW = inl e).
Proof.
  intros R. split; [|split].
  - intros m I. exact (conversion_methods_listed db m R I).
  - intros NEW db' E. unfold insert_conversion in E. apply bind_ok in E as [d [M _]].
    pose proof (conversion_insert_trigger_method_reachable db d NEW R M) as Rd.
    apply conversion_method_stored in M as [m [I [T [N _]]]].
    destruct (conversion_methods_listed d m Rd I) as [a [c [n [A [C [Nm L]]]]]].
    apply on_key in T as [a' [c' [Ea [Ec [A' C']]]]].
    exists a, c, n. repeat split; congruence.
  - intros NEW a c n A C N Out. unfold insert_conversion, conversion_insert_trigger_method.
    destruct (truth _) eqn:T.
    + unfold insert_conversion_method, conversion_method_insert_trigger.
      cbn [conversion_method.auth_name conversion_method.code conversion_method.name].
      rewrite A, C, N, method_id_concat.
      unfold insert. cbn [run_trigger condition message].
      apply not_in_values_text in Out. rewrite Out. cbn. eauto.
    + exfalso. unfold exists_ in T. cbn [not3 option_map truth] in T.
      destruct (existsb _ _) eqn:X in T; [clear T | discriminate T].
      apply existsb_exists in X as [m [I T]].
      rewrite !truth_and3 in T. apply andb_true_iff in T as [T Tn].
      apply andb_true_iff in T as [Ta Tc].
      apply truth_eq_text in Ta as [a' [Ea Ea']], Tc as [c' [Ec Ec']], Tn as [n' [En En']].
      destruct (conversion_methods_listed db m R I) as [a0 [c0 [n0 [A0 [C0 [N0 L]]]]]].
      apply Out. replace a with a0 by congruence. replace c with c0 by congruence.
      replace n with n0 by congruence. exact L.
Qed.

Lemma conversion_methods_known_witness :
  (exists a c n,
      Example.world_mercator.(conversion.base).(conversion_table.method_auth_name) = Some a
      /\ Example.world_mercator.(conversion.base).(conversion_table.method_code) = Some c
      /\ Example.world_mercator.(conversion.method_name) = Some n
      /\ In (method_id a c n) known_conversion_methods)
  /\ (exists e, insert_conversion Example.db Example.by_unlisted_method = inl e).
Proof.
  destruct (conversion_methods_known Example.db operations_reachable)
    as [_ [admitted unlisted]].
  split.
  - apply (admitted _ Example.with_world_mercator). vm_compute. reflexivity.
  - apply (unlisted _ "EPSG" "9999" "Space oblique Mercator"); try reflexivity.
    intros I. vm_compute in I. repeat destruct I as [I|I]; try discriminate I. exact I.
Defined.

(** ** The view [conversion] *)

Lemma join_param_fst (db : database) (L : Type) (l : list L)
      (slot : L -> conversion_table.param) :
  reachable db -> map fst (join_param db l slot) = l.
Proof.
  intros R. unfold join_param.
  apply (left_join_on_key _ _ (fun c => conversion_table.param_auth_name (slot c))
           (fun c => conversion_table.param_code (slot c))
           conversion_param.auth_name conversion_param.code).
  exact (pk_conversion_param _ (reachable_primary_keys_unique db R)).
Qed.

Lemma conversion_base (db : database) :
  reachable db -> map conversion.base (conversion db) = db.(conversion_table).
Proof.
  intros R. unfold conversion.
  set (c_m := left_join _ _ _).
  set (j1 := join_param db c_m _). set (j2 := join_param db j1 _).
  set (j3 := join_param db j2 _). set (j4 := join_param db j3 _).
  set (j5 := join_param db j4 _). set (j6 := join_param db j5 _).
  set (j7 := join_param db j6 _).
  assert (map fst c_m = db.(conversion_table)) as E0
      by exact (left_join_on_key _ _ conversion_table.method_auth_name
                  conversion_table.method_code conversion_method.auth_name
                  conversion_method.code _ _
                  (pk_conversion_method _ (reachable_primary_keys_unique db R))).
  pose proof (join_param_fst db _ c_m _ R : map fst j1 = c_m) as E1.
  pose proof (join_param_fst db _ j1 _ R : map fst j2 = j1) as E2.
  pose proof (join_param_fst db _ j2 _ R : map fst j3 = j2) as E3.
  pose proof (join_param_fst db _ j3 _ R : map fst j4 = j3) as E4.
  pose proof (join_param_fst db _ j4 _ R : map fst j5 = j4) as E5.
  pose proof (join_param_fst db _ j5 _ R : map fst j6 = j5) as E6.
  pose proof (join_param_fst db _ j6 _ R : map fst j7 = j6) as E7.
  rewrite <- E0, <- E1, <- E2, <- E3, <- E4, <- E5, <- E6, <- E7, !map_map.
  apply map_ext. now intros [[[[[[[[c m] p1] p2] p3] p4] p5] p6] p7].
Qed.

Lemma in_left_join_matched (L R : Type) (l : list L) (r : list R) (on : L -> R -> tri)
      (a : L) (b : R) :
  In a l -> In b r -> truth (on a b) = true -> In (a, Some b) (left_join l r on).
Proof.
  intros Ia Ib T. unfold left_join. apply in_flat_map. exists a. split; [exact Ia|].
  assert (In b (filter (fun b => truth (on a b)) r)) as I by (apply filter_In; auto).
  destruct (filter _ r) as [|z zs]; [contradiction|].
  apply in_map_iff. now exists b.
Qed.

Lemma in_left_join_unmatched (L R : Type) (l : list L) (r : list R) (on : L -> R -> tri)
      (a : L) :
  In a l -> (forall b, In b r -> truth (on a b) = false) ->
  In (a, None) (left_join l r on).
Proof.
  intros Ia F. unfold left_join. apply in_flat_map. exists a. split; [exact Ia|].
  rewrite filter_nil by exact F. now left.
Qed.

Lemma join_param_named (db : database) (L : Type) (l : list L)
      (slot : L -> conversion_table.param) (x : L) (n : text) :
  In x l -> slot_named db (slot x) n ->
  exists o, In (x, o) (join_param db l slot) /\ joined conversion_param.name o = n.
Proof.
  intros I [[A ->]|[q [Iq [T <-]]]].
  - exists None. split; [|reflexivity].
    apply in_left_join_unmatched; [exact I|]. intros b _. now rewrite truth_and3, A.
  - exists (Some q). split; [|reflexivity].
    now apply in_left_join_matched.
Qed.

Lemma slot_named_extends (db d : database) (p : conversion_table.param) (n : text) :
  begins db.(conversion_param) d.(conversion_param) ->
  slot_named db p n -> slot_named d p n.
Proof.
  intros B [N|[q [I K]]]; [now left | right].
  exists q. split; [exact (begins_in _ _ _ q B I) | exact K].
Qed.

(** The [INSTEAD OF] trigger for a slot leaves its parameter in the store,
    under the name the row gives, and changes no other table. *)
Lemma conversion_param_stored (db d : database) (p : conversion_table.param) (n : text) :
  conversion_insert_trigger_param db p n = inr d ->
  begins db.(conversion_param) d.(conversion_param)
  /\ d.(conversion_method) = db.(conversion_method)
  /\ d.(conversion_table) = db.(conversion_table)
  /\ ((p.(conversion_table.param_auth_name) = None -> n = None) -> slot_named d p n).
Proof.
  unfold conversion_insert_trigger_param.
  destruct (truth _) eqn:T.
  - intros E. apply insert_ok in E as [_ [C ->]]. split_constraints C.
    split; [apply begins_app | split; [reflexivity | split; [reflexivity|]]].
    intros _. right. eexists. split; [cbn; apply in_app_iff; right; now left|]. cbn.
    repeat match goal with
           | N : satisfied (NOT_NULL _ _) = true |- _ =>
               apply not_null_some in N as [? N]; cbn in N
           end.
    split; [apply on_key; eauto 8 | reflexivity].
  - intros [= <-].
    split; [apply begins_refl | split; [reflexivity | split; [reflexivity|]]].
    intros Follows. destruct (conversion_table.param_auth_name p) as [a|] eqn:A;
      [right | left; auto].
    rewrite truth_and3 in T. cbn [is_not_null truth andb] in T.
    unfold exists_ in T. cbn [not3 option_map truth] in T.
    destruct (existsb _ _) eqn:X in T; [clear T | discriminate T].
    apply existsb_exists in X as [q [I T]]. exists q. split; [exact I|].
    rewrite !truth_and3 in T. apply andb_true_iff in T as [T Tn].
    apply andb_true_iff in T as [Ta Tc].
    apply truth_eq_text in Ta as [a' [Ea Ea']], Tc as [c [Ec Ec']], Tn as [n' [En En']].
    injection Ea' as <-.
    split; [apply on_key; exists a, c; auto | congruence].
Qed.

Lemma conversion_method_trigger_tables (db d : database) (NEW : conversion.row) :
  conversion_insert_trigger_method db NEW = inr d ->
  d.(conversion_table) = db.(conversion_table)
  /\ d.(conversion_param) = db.(conversion_param).
Proof.
  unfold conversion_insert_trigger_method. destruct (truth _).
  - intros E. apply insert_ok in E as [_ [_ ->]]. now split.
  - intros [= <-]. now split.
Qed.

Lemma last_of_unique (A : Type) (t l1 l2 : list A) (c : A) :
  NoDup (t ++ [c]) -> (l1 ++ c :: l2 = t ++ [c])%list -> l2 = [] /\ l1 = t.
Proof.
  intros U E. destruct l2 as [|z l2 _] using rev_ind.
  - apply app_inj_tail in E as [-> _]. auto.
  - exfalso. rewrite app_comm_cons, app_assoc in E. apply app_inj_tail in E as [<- ->].
    apply NoDup_remove_2 in U. rewrite app_nil_r in U. apply U.
    apply in_app_iff. right. now left.
Qed.

(** X15. In every reachable store the view [conversion] has one row for each
    stored conversion, in the same order.  An [INSERT] into the view that a
    reachable store admits stores the conversion as the last row of
    [conversion_table]; when the row gives no name for a slot that names no
    parameter, the view then ends with the row as it was given, after one
    row for each conversion stored before. *)
Theorem conversion_view_round_trip (db : database) :
  reachable db ->
  map conversion.base (conversion db) = db.(conversion_table)
  /\ (forall NEW db',
         insert_conversion db NEW = inr db' ->
         db'.(conversion_table) = (db.(conversion_table) ++ [NEW.(conversion.base)])%list
         /\ (names_follow_params NEW ->
             exists rows,
               conversion db' = (rows ++ [NEW])%list
               /\ map conversion.base rows = db.(conversion_table))).
Proof.
  intros R. split; [exact (conversion_base db R)|].
  intros NEW db' E.
  assert (reachable db') as R'
      by exact (reachable_execute db (INSERT_INTO_conversion NEW) db' R E).
  unfold insert_conversion in E. cbv zeta in E.
  apply bind_ok in E as [d0 [M E]].
  apply bind_ok in E as [d1 [P1 E]]. apply bind_ok in E as [d2 [P2 E]].
  apply bind_ok in E as [d3 [P3 E]]. apply bind_ok in E as [d4 [P4 E]].
  apply bind_ok in E as [d5 [P5 E]]. apply bind_ok in E as [d6 [P6 E]].
  apply bind_ok in E as [d7 [P7 E]].
  pose proof (conversion_method_stored _ _ _ M) as [m [Im [Tm [Nm _]]]].
  apply conversion_method_trigger_tables in M as [Mt _].
  apply conversion_param_stored in P1 as [B1 [M1 [C1 S1]]].
  apply conversion_param_stored in P2 as [B2 [M2 [C2 S2]]].
  apply conversion_param_stored in P3 as [B3 [M3 [C3 S3]]].
  apply conversion_param_stored in P4 as [B4 [M4 [C4 S4]]].
  apply conversion_param_stored in P5 as [B5 [M5 [C5 S5]]].
  apply conversion_param_stored in P6 as [B6 [M6 [C6 S6]]].
  apply conversion_param_stored in P7 as [B7 [M7 [C7 S7]]].
  apply insert_ok in E as [_ [_ ->]].
  assert ((append_conversion_table d7 (conversion.base NEW)).(conversion_table)
          = (db.(conversion_table) ++ [conversion.base NEW])%list) as Et
      by (cbn; now rewrite C7, C6, C5, C4, C3, C2, C1, Mt).
  split; [exact Et|]. intros Follows.
  set (db' := append_conversion_table d7 (conversion.base NEW)) in *.
  assert (In m db'.(conversion_method)) as Im'
      by (cbn; now rewrite M7, M6, M5, M4, M3, M2, M1).
  assert (forall p n, In (p, n) (named_params NEW) -> forall d,
             begins d.(conversion_param) db'.(conversion_param) ->
             ((conversion_table.param_auth_name p = None -> n = None) -> slot_named d p n) ->
             slot_named db' p n) as Lift.
  { intros p n I d B S. apply (slot_named_extends d db' p n B). apply S.
    exact (Follows p n I). }
  pose proof (begins_refl _ db'.(conversion_param) : begins d7.(conversion_param) _) as X7.
  pose proof (begins_trans _ _ _ _ B7 X7) as X6.
  pose proof (begins_trans _ _ _ _ B6 X6) as X5.
  pose proof (begins_trans _ _ _ _ B5 X5) as X4.
  pose proof (begins_trans _ _ _ _ B4 X4) as X3.
  pose proof (begins_trans _ _ _ _ B3 X3) as X2.
  pose proof (begins_trans _ _ _ _ B2 X2) as X1.
  apply (Lift (conversion_table.param1 (conversion.base NEW)) (conversion.param1_name NEW)
               ltac:(unfold named_params; cbn [In]; auto 10) d1 X1) in S1.
  apply (Lift (conversion_table.param2 (conversion.base NEW)) (conversion.param2_name NEW)
               ltac:(unfold named_params; cbn [In]; auto 10) d2 X2) in S2.
  apply (Lift (conversion_table.param3 (conversion.base NEW)) (conversion.param3_name NEW)
               ltac:(unfold named_params; cbn [In]; auto 10) d3 X3) in S3.
  apply (Lift (conversion_table.param4 (conversion.base NEW)) (conversion.param4_name NEW)
               ltac:(unfold named_params; cbn [In]; auto 10) d4 X4) in S4.
  apply (Lift (conversion_table.param5 (conversion.base NEW)) (conversion.param5_name NEW)
               ltac:(unfold named_params; cbn [In]; auto 10) d5 X5) in S5.
  apply (Lift (conversion_table.param6 (conversion.base NEW)) (conversion.param6_name NEW)
               ltac:(unfold named_params; cbn [In]; auto 10) d6 X6) in S6.
  apply (Lift (conversion_table.param7 (conversion.base NEW)) (conversion.param7_name NEW)
               ltac:(unfold named_params; cbn [In]; auto 10) d7 X7) in S7.
  clear Lift X1 X2 X3 X4 X5 X6 X7 B1 B2 B3 B4 B5 B6 B7 M1 M2 M3 M4 M5 M6 M7
        C1 C2 C3 C4 C5 C6 C7 Mt.
  assert (In NEW (conversion db')) as Stored.
  { assert (In (conversion.base NEW) db'.(conversion_table)) as I
        by (rewrite Et; apply in_app_iff; right; now left).
    unfold conversion. cbv zeta.
    set (c_m := left_join _ _ _).
    assert (In (conversion.base NEW, Some m) c_m) as I0
        by (apply in_left_join_matched; assumption).
    set (j1 := join_param db' c_m _).
    destruct (join_param_named db' _ c_m (fun x => conversion_table.param1 (fst x))
                _ _ I0 S1) as [o1 [I1 N1]].
    fold j1 in I1. set (j2 := join_param db' j1 _).
    destruct (join_param_named db' _ j1 (fun x => conversion_table.param2 (fst (fst x)))
                _ _ I1 S2) as [o2 [I2 N2]].
    fold j2 in I2. set (j3 := join_param db' j2 _).
    destruct (join_param_named db' _ j2
                (fun x => conversion_table.param3 (fst (fst (fst x))))
                _ _ I2 S3) as [o3 [I3 N3]].
    fold j3 in I3. set (j4 := join_param db' j3 _).
    destruct (join_param_named db' _ j3
                (fun x => conversion_table.param4 (fst (fst (fst (fst x)))))
                _ _ I3 S4) as [o4 [I4 N4]].
    fold j4 in I4. set (j5 := join_param db' j4 _).
    destruct (join_param_named db' _ j4
                (fun x => conversion_table.param5 (fst (fst (fst (fst (fst x))))))
                _ _ I4 S5) as [o5 [I5 N5]].
    fold j5 in I5. set (j6 := join_param db' j5 _).
    destruct (join_param_named db' _ j5
                (fun x => conversion_table.param6 (fst (fst (fst (fst (fst (fst x)))))))
                _ _ I5 S6) as [o6 [I6 N6]].
    fold j6 in I6.
    destruct (join_param_named db' _ j6
                (fun x => conversion_table.param7
                            (fst (fst (fst (fst (fst (fst (fst x))))))))
                _ _ I6 S7) as [o7 [I7 N7]].
    apply in_map_iff. eexists. split; [|exact I7].
    cbn beta iota. rewrite N1, N2, N3, N4, N5, N6, N7. cbn [joined]. rewrite Nm.
    now destruct NEW. }
  apply in_split in Stored as [rows [l2 El]].
  pose proof (conversion_base db' R') as Eb.
  rewrite El, map_app, Et in Eb. cbn [map] in Eb.
  apply last_of_unique in Eb as [E2 E1].
  - apply map_eq_nil in E2. subst l2. exists rows. split; [exact El | exact E1].
  - rewrite <- Et.
    apply (NoDup_map_inv (fun r => (conversion_table.auth_name r, conversion_table.code r))).
    exact (pk_conversion _ (reachable_primary_keys_unique db' R')).
Qed.

Lemma conversion_view_round_trip_witness :
  map conversion.base (conversion Example.db) = Example.db.(conversion_table)
  /\ Example.with_world_mercator.(conversion_table)
     = (Example.db.(conversion_table) ++ [Example.world_mercator.(conversion.base)])%list
  /\ (exists rows,
         conversion Example.with_world_mercator = (rows ++ [Example.world_mercator])%list
         /\ map conversion.base rows = Example.db.(conversion_table)).
Proof.
  destruct (conversion_view_round_trip Example.db operations_reachable) as [one added].
  split; [exact one|].
  destruct (added Example.world_mercator Example.with_world_mercator) as [last view].
  - vm_compute. reflexivity.
  - split; [exact last|]. apply view.
    intros p n I N. unfold named_params in I. cbn [In] in I.
    repeat destruct I as [I|I]; try contradiction; injection I as <- <-;
      first [discriminate N | reflexivity].
Defined.

(** ** The parameter slots of a conversion, through the table and the view *)

Lemma insert_conversion_params (db : database) (NEW : conversion.row) :
  insert_conversion db NEW
  = bind (conversion_insert_trigger_method db NEW) (fun d =>
    bind (conversion_insert_trigger_params d (named_params NEW)) (fun d =>
    insert_conversion_table d NEW.(conversion.base))).
Proof.
  unfold insert_conversion, named_params. cbv zeta.
  destruct (conversion_insert_trigger_method db NEW) as [e|d]; cbn [bind]; [reflexivity|].
  cbn [conversion_insert_trigger_params].
  repeat match goal with
         | |- bind ?m _ = bind (bind ?m _) _ =>
             destruct m as [e|?]; cbn [bind]; [reflexivity|]
         end.
  reflexivity.
Qed.

Lemma conversion_insert_trigger_params_script (slots : list (conversion_table.param * text))
      (db d : database) :
  conversion_insert_trigger_params db slots = inr d -> table_script db d.
Proof.
  revert db. induction slots as [|[p n] rest IH]; intros db; cbn [conversion_insert_trigger_params].
  - intros [= <-]. apply table_script_nil.
  - intros E. apply bind_ok in E as [d0 [E0 E]].
    apply (table_script_trans db d0 d); [|now apply IH].
    exact (conversion_insert_trigger_param_script _ _ _ _ E0).
Qed.

Lemma table_script_reachable (db d : database) :
  reachable db -> table_script db d -> reachable d.
Proof. intros R [script [_ E]]. exact (run_reachable script db d R E). Qed.

(** The trigger of a slot that names a parameter leaves the parameter in the
    store under the name of the row: the code and the name are given. *)
Lemma conversion_param_named (db d : database) (p : conversion_table.param) (n : text) :
  conversion_insert_trigger_param db p n = inr d ->
  p.(conversion_table.param_auth_name) <> None ->
  slot_parameter_stored d p n.
Proof.
  unfold conversion_insert_trigger_param.
  destruct (truth _) eqn:T.
  - intros E _. apply insert_ok in E as [_ [C ->]]. split_constraints C.
    repeat match goal with
           | N : satisfied (NOT_NULL _ _) = true |- _ =>
               apply not_null_some in N as [? N]; cbn in N
           end.
    match goal with
    | Na : conversion_table.param_auth_name p = Some ?a,
      Nc : conversion_table.param_code p = Some ?c,
      Nn : n = Some ?s |- _ =>
        exists a, c, s,
          {| conversion_param.auth_name := conversion_table.param_auth_name p;
             conversion_param.code := conversion_table.param_code p;
             conversion_param.name := n |};
        repeat split; try assumption;
        cbn; apply in_app_iff; right; now left
    end.
  - intros [= <-] A.
    destruct (conversion_table.param_auth_name p) as [a|] eqn:Ea; [|contradiction].
    rewrite truth_and3 in T. cbn [is_not_null truth andb] in T.
    unfold exists_ in T. cbn [not3 option_map truth] in T.
    destruct (existsb _ _) eqn:X in T; [clear T | discriminate T].
    apply existsb_exists in X as [q [I T]].
    rewrite !truth_and3 in T. apply andb_true_iff in T as [T Tn].
    apply andb_true_iff in T as [Ta Tc].
    apply truth_eq_text in Ta as [a' [Ea1 Ea2]], Tc as [c [Ec1 Ec2]], Tn as [s [En1 En2]].
    injection Ea2 as Ea2. subst a'.
    exists a, c, s, q. auto 10.
Qed.

Lemma slot_parameter_stored_extends (db d : database) (p : conversion_table.param)
      (n : text) :
  begins db.(conversion_param) d.(conversion_param) ->
  slot_parameter_stored db p n -> slot_parameter_stored d p n.
Proof.
  intros B [a [c [s [q [A [C [N [I K]]]]]]]].
  exists a, c, s, q. repeat split; try tauto. exact (begins_in _ _ _ q B I).
Qed.

Lemma conversion_params_begin (slots : list (conversion_table.param * text))
      (db d : database) :
  conversion_insert_trigger_params db slots = inr d ->
  begins db.(conversion_param) d.(conversion_param).
Proof.
  revert db. induction slots as [|[p n] rest IH]; intros db; cbn [conversion_insert_trigger_params].
  - intros [= <-]. apply begins_refl.
  - intros E. apply bind_ok in E as [d0 [E0 E]].
    apply conversion_param_stored in E0 as [B _].
    exact (begins_trans _ _ _ _ B (IH _ E)).
Qed.

Lemma conversion_params_named (slots : list (conversion_table.param * text))
      (db d : database) :
  conversion_insert_trigger_params db slots = inr d ->
  forall p n, In (p, n) slots ->
    p.(conversion_table.param_auth_name) <> None -> slot_parameter_stored d p n.
Proof.
  revert db. induction slots as [|[p0 n0] rest IH]; intros db; cbn [conversion_insert_trigger_params].
  - intros _ p n [].
  - intros E p n I A. apply bind_ok in E as [d0 [E0 E]].
    destruct I as [[= -> ->]|I]; [|exact (IH _ E p n I A)].
    apply (slot_parameter_stored_extends d0 d); [exact (conversion_params_begin _ _ _ E)|].
    exact (conversion_param_named _ _ _ _ E0 A).
Qed.

(** A slot that names a parameter and leaves its code or its name [NULL]
    makes its trigger fail, in every store. *)
Lemma conversion_param_trigger_fails (db : database) (p : conversion_table.param)
      (n : text) :
  p.(conversion_table.param_auth_name) <> None ->
  p.(conversion_table.param_code) = None \/ n = None ->
  exists e, conversion_insert_trigger_param db p n = inl e.
Proof.
  intros A N.
  destruct (conversion_insert_trigger_param db p n) as [e|d] eqn:E; [now exists e|].
  apply conversion_param_named in E as [a [c [s [q [_ [C [S _]]]]]]]; [|exact A].
  destruct N; congruence.
Qed.

(** A slot that names a stored parameter by another name than the stored one
    makes its trigger fail, in every reachable store. *)
Lemma conversion_param_trigger_renames (db : database) (p : conversion_table.param)
      (n : text) :
  reachable db -> stored_under_another_name db p n ->
  exists e, conversion_insert_trigger_param db p n = inl e.
Proof.
  intros R [q [I [A [Ka [Kc Kn]]]]].
  destruct (conversion_insert_trigger_param db p n) as [e|d] eqn:E; [now exists e|].
  exfalso. unfold conversion_insert_trigger_param in E.
  pose proof (pk_conversion_param _ (reachable_primary_keys_unique db R)) as U.
  destruct (truth _) eqn:T in E.
  - apply insert_ok in E as [_ [C _]]. split_constraints C.
    repeat match goal with
           | N : satisfied (NOT_NULL _ _) = true |- _ =>
               apply not_null_some in N as [? N]; cbn in N
           end.
    match goal with
    | P : satisfied (PRIMARY_KEY _ _ _ _) = true |- _ =>
        cbn [conversion_param.auth_name conversion_param.code] in P;
        repeat match goal with
               | N : _ = Some _ |- _ => rewrite N in P
               end;
        apply primary_key_fresh in P; apply P
    end.
    apply in_map_iff. exists q. split; [cbn beta | exact I].
    rewrite Ka, Kc.
    repeat match goal with
           | N : _ = Some _ |- _ => rewrite N; clear N
           end.
    reflexivity.
  - injection E as <-.
    destruct (conversion_table.param_auth_name p) as [a|] eqn:Ea; [|contradiction].
    rewrite truth_and3 in T. cbn [is_not_null truth andb] in T.
    unfold exists_ in T. cbn [not3 option_map truth] in T.
    destruct (existsb _ _) eqn:X in T; [clear T | discriminate T].
    apply existsb_exists in X as [q' [I' T]].
    rewrite !truth_and3 in T. apply andb_true_iff in T as [T Tn].
    apply andb_true_iff in T as [Ta Tc].
    apply truth_eq_text in Ta as [a' [Ea1 Ea2]], Tc as [c [Ec1 Ec2]], Tn as [s [En1 En2]].
    assert (q = q') as <-.
    { apply (keyed_unique _ _ _ _ (Some a) (Some c) q q' U);
        repeat split; try assumption; try discriminate; congruence. }
    congruence.
Qed.

Lemma stored_under_another_name_extends (db d : database) (p : conversion_table.param)
      (n : text) :
  begins db.(conversion_param) d.(conversion_param) ->
  stored_under_another_name db p n -> stored_under_another_name d p n.
Proof.
  intros B [q [I K]]. exists q. split; [exact (begins_in _ _ _ q B I) | exact K].
Qed.

(** The triggers of the slots fail when the trigger of one slot fails in
    every store that the slots before it can leave. *)
Lemma conversion_params_fail (P : database -> Prop)
      (slots : list (conversion_table.param * text)) (p : conversion_table.param)
      (n : text) :
  (forall db d q m, P db -> conversion_insert_trigger_param db q m = inr d -> P d) ->
  (forall db, P db -> exists e, conversion_insert_trigger_param db p n = inl e) ->
  In (p, n) slots ->
  forall db, P db -> exists e, conversion_insert_trigger_params db slots = inl e.
Proof.
  intros Step Fails. induction slots as [|[p0 n0] rest IH]; intros I db H; [destruct I|].
  cbn [conversion_insert_trigger_params].
  destruct I as [[= -> ->]|I].
  - destruct (Fails db H) as [e ->]. now exists e.
  - destruct (conversion_insert_trigger_param db p0 n0) as [e|d] eqn:E; [now exists e|].
    cbn [bind]. exact (IH I d (Step _ _ _ _ H E)).
Qed.

Lemma insert_conversion_fails (P : database -> Prop) (db : database) (NEW : conversion.row)
      (p : conversion_table.param) (n : text) :
  (forall db d, P db -> conversion_insert_trigger_method db NEW = inr d -> P d) ->
  (forall db d q m, P db -> conversion_insert_trigger_param db q m = inr d -> P d) ->
  (forall db, P db -> exists e, conversion_insert_trigger_param db p n = inl e) ->
  In (p, n) (named_params NEW) ->
  P db -> exists e, insert_conversion db NEW = inl e.
Proof.
  intros Method Step Fails I H. rewrite insert_conversion_params.
  destruct (conversion_insert_trigger_method db NEW) as [e|d] eqn:M; [now exists e|].
  cbn [bind].
  destruct (conversion_params_fail P _ p n Step Fails I d (Method _ _ H M)) as [e ->].
  now exists e.
Qed.

(** C2, amended. An admitted conversion may hold a slot that is set in part.
    Of an [INSERT] into [conversion_table]: the unit of a slot, when both of
    its columns are set, is a stored unit of measure, and two rows that
    differ only in the parameter references and the values of their slots
    have the same outcome.  Of an [INSERT] into the view [conversion]: an
    admitted row has the unit of every slot known and, for every slot that
    names the authority of a parameter, the code and the name of the
    parameter given and the parameter stored under that name; a row with a
    slot that names the authority of a parameter and leaves its code or its
    name [NULL] is rejected; in a reachable store, so is a row with a slot
    that names a stored parameter by another name than the stored one; and a
    reachable store admits through the view a row with a slot that is
    neither fully populated nor fully [NULL]. *)
Theorem conversion_slots_unconstrained :
  (forall db NEW db',
      insert_conversion_table db NEW = inr db' ->
      forall p, In p (conversion_table.params NEW) -> slot_unit_known db p)
  /\ (forall db NEW NEW',
         same_but_parameters NEW NEW' ->
         (forall e, insert_conversion_table db NEW = inl e ->
                    insert_conversion_table db NEW' = inl e)
         /\ (forall db', insert_conversion_table db NEW = inr db' ->
                         insert_conversion_table db NEW'
                         = inr (append_conversion_table db NEW')))
  /\ (forall db NEW db',
         insert_conversion db NEW = inr db' ->
         forall p n, In (p, n) (named_params NEW) ->
           slot_unit_known db' p
           /\ (p.(conversion_table.param_auth_name) <> None ->
               slot_parameter_stored db' p n))
  /\ (forall db NEW p n,
         In (p, n) (named_params NEW) ->
         p.(conversion_table.param_auth_name) <> None ->
         p.(conversion_table.param_code) = None \/ n = None ->
         exists e, insert_conversion db NEW = inl e)
  /\ (forall db NEW p n,
         reachable db ->
         In (p, n) (named_params NEW) ->
         stored_under_another_name db p n ->
         exists e, insert_conversion db NEW = inl e)
  /\ (exists db NEW db' p,
         reachable db
         /\ insert_conversion db NEW = inr db'
         /\ In p (conversion_table.params NEW.(conversion.base))
         /\ ~ slot_all_or_nothing p).
Proof.
  split; [intros db NEW db'; exact (conversion_table_units_known db db' NEW)|].
  split; [exact conversion_table_same_outcome|].
  split; [|split; [|split]].
  - intros db NEW db' E p n I. rewrite insert_conversion_params in E.
    apply bind_ok in E as [d0 [_ E]]. apply bind_ok in E as [d [S E]].
    pose proof E as Stored. apply insert_ok in Stored as [_ [_ ->]]. split.
    + assert (In p (conversion_table.params NEW.(conversion.base))) as Ip.
      { unfold named_params in I. unfold conversion_table.params. cbn [In] in *.
        repeat (destruct I as [[= <- _]|I]; [auto 10|]). contradiction. }
      exact (conversion_table_units_known d _ NEW.(conversion.base) E p Ip).
    + intros A. exact (conversion_params_named _ _ _ S p n I A).
  - intros db NEW p n I A N.
    apply (insert_conversion_fails (fun _ => True) db NEW p n); auto.
    intros d _. exact (conversion_param_trigger_fails d p n A N).
  - intros db NEW p n R I S.
    apply (insert_conversion_fails
             (fun d => reachable d /\ stored_under_another_name d p n) db NEW p n);
      auto.
    + intros d d' [Rd Sd] M. split.
      * exact (conversion_insert_trigger_method_reachable d d' NEW Rd M).
      * apply conversion_method_trigger_tables in M as [_ M].
        apply (stored_under_another_name_extends d d'); [|exact Sd].
        rewrite M. apply begins_refl.
    + intros d d' q m [Rd Sd] M. split.
      * apply (table_script_reachable d d' Rd).
        exact (conversion_insert_trigger_param_script _ _ _ _ M).
      * apply conversion_param_stored in M as [B _].
        exact (stored_under_another_name_extends d d' p n B Sd).
    + intros d [Rd Sd]. exact (conversion_param_trigger_renames d p n Rd Sd).
  - exists Example.db, Example.half_filled_by_view,
      (Sample.built (Sample.operations
                     ++ [INSERT_INTO_conversion Example.half_filled_by_view])),
      Sample.half_param.
    split; [exact operations_reachable|].
    split; [vm_compute; reflexivity|].
    split; [left; reflexivity|].
    intros [[N _]|[_ [_ [P _]]]]; [discriminate N | apply P; reflexivity].
Qed.

Lemma conversion_slots_unconstrained_witness :
  (forall p, In p (conversion_table.params Sample.half_filled_conversion) ->
             slot_unit_known (Sample.built Sample.operations) p)
  /\ insert_conversion_table (Sample.built Sample.operations) Sample.valued_conversion
     = inr (append_conversion_table (Sample.built Sample.operations)
                                    Sample.valued_conversion)
  /\ slot_parameter_stored
       (Sample.built (Sample.operations
                      ++ [INSERT_INTO_conversion Example.half_filled_by_view]))
       Sample.half_param (txt "Latitude of natural origin")
  /\ (exists e, insert_conversion Example.db Example.unnamed_by_view = inl e)
  /\ (exists e, insert_conversion Example.db Example.renamed_by_view = inl e).
Proof.
  destruct conversion_slots_unconstrained
    as [known [same [named [unnamed [renamed _]]]]].
  assert (insert_conversion_table (Sample.built Sample.operations)
                                  Sample.half_filled_conversion
          = inr (append_conversion_table (Sample.built Sample.operations)
                                         Sample.half_filled_conversion)) as E.
  { vm_compute. reflexivity. }
  split; [exact (known _ _ _ E)|].
  split.
  { apply (proj2 (same (Sample.built Sample.operations) Sample.half_filled_conversion
                       Sample.valued_conversion
                       ltac:(unfold same_but_parameters; cbn;
                             repeat split; repeat constructor)) _ E). }
  split.
  { apply (named Example.db Example.half_filled_by_view
                 (Sample.built (Sample.operations
                                ++ [INSERT_INTO_conversion Example.half_filled_by_view]))
                 ltac:(vm_compute; reflexivity)
                 Sample.half_param (txt "Latitude of natural origin")).
    - left. reflexivity.
    - discriminate. }
  split.
  - apply (unnamed Example.db Example.unnamed_by_view Sample.half_param None).
    + left. reflexivity.
    + discriminate.
    + right. reflexivity.
  - apply (renamed Example.db Example.renamed_by_view Sample.half_param
                   (txt "Latitude of origin") operations_reachable).
    + left. reflexivity.
    + exists {| conversion_param.auth_name := txt "EPSG";
                conversion_param.code := txt "8801";
                conversion_param.name := txt "Latitude of natural origin" |}.
      split; [vm_compute; repeat (first [left; reflexivity | right])|].
      repeat split; discriminate.
Defined.

(** ** The area of use of a coordinate operation *)

Lemma area_of_use_kept (db0 db : database) (x y : text) (dep : boolean)
      (na nc name : string) :
  reachable db0 -> extends db0 db ->
  satisfied (NOT_NULL na x) = true ->
  satisfied (NOT_NULL nc y) = true ->
  satisfied (FOREIGN_KEY name (x, y) db0.(area) (area.auth_name, area.code)) = true ->
  negb (truth (and3 (exists_ db0.(area)
                             (fun r => and3 (and3 (eq3 (area.auth_name r) x)
                                                  (eq3 (area.code r) y))
                                            (ne3 (area.deprecated r) (int 0))))
                    (eq3 dep (int 0)))) = true ->
  area_of_use_in_force db (x, y) dep.
Proof.
  intros R0 X0 Na Nc F T.
  destruct (reference_keyed _ _ _ _ _ _ _ _ _ Na Nc F) as [a K].
  exists a. split.
  - exact (keyed_extends _ _ _ _ _ _ _ _ (extends_area _ _ X0) K).
  - intros D. apply (reference_in_force _ _ _ _ _ _ _ dep a K); [|exact T | exact D].
    destruct K as [I _]. exact (area_flag db0 a R0 I).
Qed.

Ltac area_of_use_by R0 X0 :=
  eapply (area_of_use_kept _ _ _ _ _ _ _ _ R0 X0); eassumption.

(** X16. In every reachable store the area of use of a Helmert
    transformation, of a grid transformation, of another transformation and
    of a concatenated operation names a stored area, which is in force when
    the operation is in force, whatever the authority of the operation.  An
    [INSERT] of a grid transformation in force over a deprecated area
    fails. *)
Theorem operation_area_of_use :
  (forall db h,
      reachable db -> In h db.(helmert_transformation_table) ->
      area_of_use_in_force db
        (h.(helmert_transformation_table.area_of_use_auth_name),
         h.(helmert_transformation_table.area_of_use_code))
        h.(helmert_transformation_table.deprecated))
  /\ (forall db g,
         reachable db -> In g db.(grid_transformation) ->
         area_of_use_in_force db
           (g.(grid_transformation.area_of_use_auth_name),
            g.(grid_transformation.area_of_use_code))
           g.(grid_transformation.deprecated))
  /\ (forall db o,
         reachable db -> In o db.(other_transformation) ->
         area_of_use_in_force db
           (o.(other_transformation.area_of_use_auth_name),
            o.(other_transformation.area_of_use_code))
           o.(other_transformation.deprecated))
  /\ (forall db c,
         reachable db -> In c db.(concatenated_operation) ->
         area_of_use_in_force db
           (c.(concatenated_operation.area_of_use_auth_name),
            c.(concatenated_operation.area_of_use_code))
           c.(concatenated_operation.deprecated))
  /\ (forall db NEW a,
         area_at db NEW.(grid_transformation.area_of_use_auth_name)
                 NEW.(grid_transformation.area_of_use_code) a ->
         a.(area.deprecated) = int 1 ->
         NEW.(grid_transformation.deprecated) = int 0 ->
         exists e, insert_grid_transformation db NEW = inl e).
Proof.
  split; [|split; [|split; [|split]]].
  - intros db h R I. admission of I by R as db0 R0 X0. area_of_use_by R0 X0.
  - intros db g R I. admission of I by R as db0 R0 X0. area_of_use_by R0 X0.
  - intros db o R I. admission of I by R as db0 R0 X0. area_of_use_by R0 X0.
  - intros db c R I. admission of I by R as db0 R0 X0. area_of_use_by R0 X0.
  - intros db NEW a [I [Nx [Ny [Ka Kc]]]] Old D.
    destruct (insert_grid_transformation db NEW) as [e|db'] eqn:E; [eauto|]. exfalso.
    apply insert_ok in E as [S _]. split_silent S.
    match goal with
    | T : negb (truth (and3 (exists_ (area db) _) _)) = true |- _ =>
        apply negb_true_iff in T;
        rewrite (deprecated_row_fires _ area.auth_name area.code area.deprecated) in T;
        [discriminate T | | exact D]
    end.
    exists a, 1%Z. repeat split; try assumption. discriminate.
Qed.

Lemma operation_area_of_use_witness :
  area_of_use_in_force Example.db (txt "EPSG", txt "1262") (int 0)
  /\ (exists e, insert_grid_transformation Example.db
                  (Example.a_grid_transformation_over "ESRI" "30" "9998") = inl e).
Proof.
  destruct operation_area_of_use as [_ [grid [_ [_ rejected]]]].
  split.
  - apply (grid Example.db (Sample.a_grid_transformation "EPSG" "2" "EPSG" "4326")
                operations_reachable).
    vm_compute. auto.
  - apply (rejected _ _ Sample.retired_area); [|reflexivity | reflexivity].
    split; [vm_compute; auto 10 | repeat split; discriminate].
Defined.

(** * The tables around the registry *)

(** ** Growth and reachability *)

Lemma proj_extends_refl (p : proj_db) : proj_extends p p.
Proof. constructor; first [apply extends_refl | apply begins_refl]. Qed.

Lemma proj_extends_trans (p1 p2 p3 : proj_db) :
  proj_extends p1 p2 -> proj_extends p2 p3 -> proj_extends p1 p3.
Proof.
  intros [] []. constructor;
    first [eapply extends_trans; eassumption | eapply begins_trans; eassumption].
Qed.

Lemma proj_stored_extends (p : proj_db) (s : proj_statement) :
  proj_extends p (proj_stored p s).
Proof.
  destruct s; constructor; cbn;
    first [apply extends_refl | apply begins_refl | apply begins_app].
Qed.

(** A statement on one of the tables of [proj_db] stores its row; a
    statement of the registry changes the registry only. *)
Lemma proj_execute_inv (p p' : proj_db) (s : proj_statement) :
  proj_execute p s = inr p' ->
  match s with
  | INSERT s0 => exists db, execute p.(tables) s0 = inr db /\ p' = with_tables p db
  | _ => p' = proj_stored p s
  end.
Proof.
  destruct s; cbn [proj_execute proj_stored]; intros E;
    try (apply insert_ok in E as [_ [_ ->]]; reflexivity).
  apply bind_ok in E as [db [E [= <-]]]. eauto.
Qed.

Lemma proj_execute_extends (p p' : proj_db) (s : proj_statement) :
  proj_execute p s = inr p' -> proj_extends p p'.
Proof.
  intros E. pose proof (proj_execute_inv p p' s E) as I.
  destruct s; try (rewrite I; apply proj_stored_extends).
  destruct I as [db [E0 ->]].
  constructor; cbn; first [exact (execute_extends _ _ _ E0) | apply begins_refl].
Qed.

Lemma proj_reachable_tables (p : proj_db) : proj_reachable p -> reachable p.(tables).
Proof.
  induction 1 as [|p s p' _ IH E]; [constructor|].
  pose proof (proj_execute_inv p p' s E) as I.
  destruct s; try (rewrite I; exact IH).
  destruct I as [db [E0 ->]]. exact (reachable_execute _ _ _ IH E0).
Qed.

Lemma proj_row_stored_extends (p p' : proj_db) (s : proj_statement) :
  proj_extends p p' -> proj_row_stored p s -> proj_row_stored p' s.
Proof. intros [] I. destruct s; cbn in *; try contradiction; eapply begins_in; eassumption. Qed.

(** Every row of these tables was admitted by the [INSERT] of its table. *)
Lemma proj_row_history (p : proj_db) (s : proj_statement) :
  proj_reachable p -> proj_row_stored p s -> proj_admitted_before p s.
Proof.
  intros R. revert s. induction R as [|p s1 p' R IH E]; intros s I.
  - destruct s; cbn in I; contradiction.
  - pose proof (proj_execute_inv p p' s1 E) as V.
    assert (proj_row_stored p s \/ (s = s1 /\ p' = proj_stored p s1)) as [Old | [-> ->]].
    { destruct s1 as [s0|r|r|r|r|r|r|r];
        [destruct V as [db [_ ->]]; left; destruct s; exact I | ..];
        rewrite V in I |- *; destruct s; cbn in I; try contradiction;
        try (left; exact I);
        (apply in_app_iff in I as [I|[<-|[]]]; [left; exact I | right; split; reflexivity]). }
    + destruct (IH s Old) as [p0 [R0 [E0 X0]]].
      exists p0. split; [exact R0 | split; [exact E0|]].
      apply proj_extends_trans with p; [exact X0 | exact (proj_execute_extends p p' s1 E)].
    + exists p. split; [exact R | split; [exact E | apply proj_extends_refl]].
Qed.

(** The [INSERT] that stored a row, from the table the row is found in. *)
Ltac proj_statement_of I k :=
  match type of I with
  | In ?r (metadata _) => k (INSERT_INTO_metadata r)
  | In ?r (geodetic_datum_preferred_hub _) => k (INSERT_INTO_geodetic_datum_preferred_hub r)
  | In ?r (axis _) => k (INSERT_INTO_axis r)
  | In ?r (alias_name _) => k (INSERT_INTO_alias_name r)
  | In ?r (supersession _) => k (INSERT_INTO_supersession r)
  | In ?r (deprecation _) => k (INSERT_INTO_deprecation r)
  | In ?r (authority_to_authority_preference _) =>
      k (INSERT_INTO_authority_to_authority_preference r)
  end.

(** Facts about a stored row [I], from its admission into [p0]: the
    statements of the trigger as [T...], the constraints as [F...]. *)
Tactic Notation "admission" "into" ident(p0) "of" hyp(I) "by" hyp(R)
       "as" ident(R0) ident(X0) :=
  let S0 := fresh "S0" in
  let C0 := fresh "C0" in
  let E0 := fresh "E0" in
  let X := fresh "X" in
  proj_statement_of I
    ltac:(fun s =>
            destruct (proj_row_history _ s R I) as [p0 [R0 [E0 X]]];
            pose proof (proj_extends_trans _ _ _ (proj_stored_extends p0 s) X) as X0;
            clear X; cbn [proj_execute] in E0; apply insert_ok in E0 as [S0 [C0 _]]);
  split_silent S0; split_constraints C0.

Lemma proj_run_reachable (script : list proj_statement) (p p' : proj_db) :
  proj_reachable p -> proj_run p script = inr p' -> proj_reachable p'.
Proof.
  revert p. induction script as [|s rest IH]; intros p R; simpl.
  - now intros [= <-].
  - destruct (proj_execute p s) as [e|p1] eqn:E; simpl; [discriminate|].
    apply IH. exact (proj_reachable_execute p s p1 R E).
Qed.

Lemma with_around_reachable : proj_reachable Example.with_around.
Proof.
  apply (proj_run_reachable Example.around empty_proj_db); [constructor|].
  vm_compute. reflexivity.
Qed.

(** ** Axes *)

Lemma check_between (column : string) (x : integer) (o lo hi : Z) :
  x = Some o ->
  satisfied (CHECK column (between x (int lo) (int hi))) = true -> (lo <= o <= hi)%Z.
Proof.
  intros ->. cbn. destruct (Z.leb_spec lo o), (Z.leb_spec o hi); cbn; try discriminate.
  intros _. split; assumption.
Qed.

Lemma axis_sound (p : proj_db) (a : axis.row) :
  proj_reachable p -> In a p.(axis) ->
  exists cs u order dimension,
    coordinate_system_at p.(tables) a.(axis.coordinate_system_auth_name)
                         a.(axis.coordinate_system_code) cs
    /\ unit_at p.(tables) a.(axis.uom_auth_name) a.(axis.uom_code) u
    /\ a.(axis.coordinate_system_order) = Some order
    /\ cs.(coordinate_system.dimension) = Some dimension
    /\ (1 <= order <= dimension)%Z.
Proof.
  intros R I. admission into p0 of I by R as R0 X0.
  pose proof (proj_reachable_tables p0 R0) as Rt.
  match goal with
  | Na : satisfied (NOT_NULL "coordinate_system_auth_name" _) = true,
    Nc : satisfied (NOT_NULL "coordinate_system_code" _) = true,
    F : satisfied (FOREIGN_KEY "fk_axis_coordinate_system" _ _ _) = true |- _ =>
      destruct (reference_keyed _ _ _ _ _ _ _ _ _ Na Nc F) as [cs K]
  end.
  match goal with
  | Na : satisfied (NOT_NULL "uom_auth_name" _) = true,
    Nc : satisfied (NOT_NULL "uom_code" _) = true,
    F : satisfied (FOREIGN_KEY "fk_axis_unit_of_measure" _ _ _) = true |- _ =>
      destruct (reference_keyed _ _ _ _ _ _ _ _ _ Na Nc F) as [u Ku]
  end.
  match goal with
  | N : satisfied (NOT_NULL "coordinate_system_order" _) = true |- _ =>
      apply not_null_some in N as [o O]
  end.
  pose proof K as [Ics _].
  destruct (coordinate_system_not_null _ cs Rt Ics) as [_ N].
  destruct (coordinate_system.dimension cs) as [d|] eqn:D; [|congruence].
  exists cs, u, o, d.
  split; [exact (keyed_extends _ _ _ _ _ _ _ _
                   (extends_coordinate_system _ _ (extends_tables _ _ X0)) K)|].
  split; [exact (keyed_extends _ _ _ _ _ _ _ _
                   (extends_unit_of_measure _ _ (extends_tables _ _ X0)) Ku)|].
  split; [exact O | split; [exact D|]].
  match goal with
  | T : negb (truth (gt3 _ (cs_ref _ _ _ _))) = true |- _ =>
      rewrite (cs_ref_keyed _ _ _ _ _ cs Rt K), D, O in T; cbn in T
  end.
  match goal with
  | C : satisfied (CHECK "coordinate_system_order" _) = true |- _ =>
      apply (check_between _ _ o 1 3 O) in C
  end.
  destruct (Z.leb_spec o d); [lia | discriminate].
Qed.

(** X17. In every reachable store an axis names a stored coordinate system
    and a stored unit, and its order in the coordinate system is at least 1
    and at most the dimension of the system.  An [INSERT] of an axis whose
    order is above the dimension of the coordinate system it names aborts
    with the message of the trigger. *)
Theorem axis_order_within_dimension :
  (forall p a,
      proj_reachable p -> In a p.(axis) ->
      exists cs u order dimension,
        coordinate_system_at p.(tables) a.(axis.coordinate_system_auth_name)
                             a.(axis.coordinate_system_code) cs
        /\ unit_at p.(tables) a.(axis.uom_auth_name) a.(axis.uom_code) u
        /\ a.(axis.coordinate_system_order) = Some order
        /\ cs.(coordinate_system.dimension) = Some dimension
        /\ (1 <= order <= dimension)%Z)
  /\ (forall p NEW cs order dimension,
         proj_reachable p ->
         coordinate_system_at p.(tables) NEW.(axis.coordinate_system_auth_name)
                              NEW.(axis.coordinate_system_code) cs ->
         NEW.(axis.coordinate_system_order) = Some order ->
         cs.(coordinate_system.dimension) = Some dimension ->
         (dimension < order)%Z ->
         insert_axis p NEW
         = inl (RaiseAbort "insert on axis violates constraint: coordinate_system_order should be <= coordinate_system.dimension")).
Proof.
  split; [exact axis_sound|].
  intros p NEW cs o d R K O D Above.
  unfold insert_axis, axis_insert_trigger, insert. cbn [run_trigger condition message].
  rewrite (cs_ref_keyed _ _ _ _ _ cs (proj_reachable_tables p R) K), D, O. cbn.
  destruct (Z.leb_spec o d); [lia | reflexivity].
Qed.

Lemma axis_order_within_dimension_witness :
  (exists cs u order dimension,
      coordinate_system_at Example.with_around.(tables) (txt "EPSG") (txt "6422") cs
      /\ unit_at Example.with_around.(tables) (txt "EPSG") (txt "9102") u
      /\ int 2 = Some order
      /\ cs.(coordinate_system.dimension) = Some dimension
      /\ (1 <= order <= dimension)%Z)
  /\ insert_axis Example.with_around (Example.an_axis "108" "6422" 3)
     = inl (RaiseAbort "insert on axis violates constraint: coordinate_system_order should be <= coordinate_system.dimension").
Proof.
  destruct axis_order_within_dimension as [sound above].
  split.
  - apply (sound Example.with_around (Example.an_axis "107" "6422" 2) with_around_reachable).
    vm_compute. auto.
  - apply (above _ _ Sample.ellipsoidal_2D 3%Z 2%Z with_around_reachable);
      [|reflexivity | reflexivity | lia].
    split; [vm_compute; auto 10 | repeat split; discriminate].
Defined.

(** ** The objects that aliases, supersessions and deprecations name *)

Lemma in_map_begins (A B : Type) (f : A -> B) (l l' : list A) (y : B) :
  begins l l' -> In y (map f l) -> In y (map f l').
Proof.
  intros B0 I. apply in_map_iff in I as [x [<- I]]. apply in_map.
  exact (begins_in _ _ _ x B0 I).
Qed.

(** The columns that [object_view] takes from a Helmert transformation are
    columns of its table. *)
Lemma helmert_object_extends (db db' : database) (o : object_view.row) :
  extends db db' ->
  In o (map (fun v => object_view.select_coordinate_operation_view
                        (coordinate_operation_view.select_helmert_transformation v))
            (helmert_transformation db)) ->
  In o (map (fun v => object_view.select_coordinate_operation_view
                        (coordinate_operation_view.select_helmert_transformation v))
            (helmert_transformation db')).
Proof.
  intros X I. apply in_map_iff in I as [v [<- I]].
  unfold helmert_transformation in I. apply in_map_iff in I as [[h m] [<- I]].
  apply in_left_join_fst in I. cbn [fst] in I.
  apply (begins_in _ _ _ h (extends_helmert_transformation_table _ _ X)) in I.
  apply (in_left_join_ex _ _ _ db'.(coordinate_operation_method)
           (fun h m =>
              and3 (eq3 h.(helmert_transformation_table.method_auth_name)
                        m.(coordinate_operation_method.auth_name))
                   (eq3 h.(helmert_transformation_table.method_code)
                        m.(coordinate_operation_method.code)))) in I as [m' I].
  apply in_map_iff. exists (helmert_transformation.select (h, m')).
  split; [reflexivity|]. unfold helmert_transformation. now apply in_map.
Qed.

Lemma object_view_extends (p p' : proj_db) (o : object_view.row) :
  proj_extends p p' -> In o (object_view p) -> In o (object_view p').
Proof.
  intros [X ? ? ? ? ? ? ?]. pose proof X as [].
  unfold object_view, crs_view, coordinate_operation_view.
  rewrite !map_app, !map_map, !in_app_iff.
  intros I.
  repeat match goal with
         | H : _ \/ _ |- _ => destruct H as [H|H]
         end;
    (first [ apply (helmert_object_extends (tables p) (tables p') o X) in I
           | eapply in_map_begins in I; [|eassumption] ]);
    tauto.
Qed.

Lemma object_exists_iff (p : proj_db) (table_name auth_name code : text) :
  truth (object_exists p table_name auth_name code) = true <->
  names_object p table_name auth_name code.
Proof.
  unfold object_exists, names_object. rewrite truth_exists, existsb_exists. split.
  - intros [o [I T]]. rewrite !truth_and3 in T.
    apply andb_true_iff in T as [T Tc]. apply andb_true_iff in T as [Tt Ta].
    apply truth_eq_text in Tt as [t [Et ->]], Ta as [a [Ea ->]], Tc as [c [Ec ->]].
    repeat split; try discriminate. exists o. auto.
  - intros [Nt [Na [Nc [o [I [Et [Ea Ec]]]]]]]. exists o. split; [exact I|].
    rewrite Et, Ea, Ec, !truth_and3.
    destruct table_name as [t|]; [|congruence]. destruct auth_name as [a|]; [|congruence].
    destruct code as [c|]; [|congruence].
    cbn. now rewrite !String.eqb_refl.
Qed.

Lemma names_object_extends (p p' : proj_db) (table_name auth_name code : text) :
  proj_extends p p' ->
  names_object p table_name auth_name code -> names_object p' table_name auth_name code.
Proof.
  intros X [Nt [Na [Nc [o [I E]]]]]. repeat split; try assumption.
  exists o. split; [exact (object_view_extends p p' o X I) | exact E].
Qed.

(** A rule "refers to unexisting code" that did not fire. *)
Lemma object_named (p0 p : proj_db) (table_name auth_name code : text) :
  proj_extends p0 p ->
  negb (truth (not3 (object_exists p0 table_name auth_name code))) = true ->
  names_object p table_name auth_name code.
Proof.
  intros X T. apply (names_object_extends p0 p _ _ _ X). apply object_exists_iff.
  unfold object_exists, exists_ in *. cbn [not3 option_map truth] in T.
  destruct (existsb _ _); [reflexivity | discriminate T].
Qed.

Lemma object_not_named (p : proj_db) (table_name auth_name code : text) :
  ~ names_object p table_name auth_name code ->
  truth (not3 (object_exists p table_name auth_name code)) = true.
Proof.
  intros N. rewrite <- object_exists_iff in N.
  unfold object_exists, exists_ in *. cbn [not3 option_map truth] in *.
  destruct (existsb _ _); [now elim N | reflexivity].
Qed.

(** X18. In every reachable store an alias names a row of [object_view] by
    its table name, authority and code; a supersession names two, the
    superseded and the replacement; a deprecation names two of the same
    table.  An [INSERT] of an alias that names no row of [object_view], or of
    a deprecation whose replacement names none in the table of the deprecated
    object, aborts with the message of its trigger. *)
Theorem notes_name_objects :
  (forall p a,
      proj_reachable p -> In a p.(alias_name) ->
      names_object p a.(alias_name.table_name) a.(alias_name.auth_name) a.(alias_name.code))
  /\ (forall p s,
         proj_reachable p -> In s p.(supersession) ->
         names_object p s.(supersession.superseded_table_name)
                      s.(supersession.superseded_auth_name) s.(supersession.superseded_code)
         /\ names_object p s.(supersession.replacement_table_name)
                         s.(supersession.replacement_auth_name)
                         s.(supersession.replacement_code))
  /\ (forall p d,
         proj_reachable p -> In d p.(deprecation) ->
         names_object p d.(deprecation.table_name) d.(deprecation.deprecated_auth_name)
                      d.(deprecation.deprecated_code)
         /\ names_object p d.(deprecation.table_name) d.(deprecation.replacement_auth_name)
                         d.(deprecation.replacement_code))
  /\ (forall p NEW,
         ~ names_object p NEW.(alias_name.table_name) NEW.(alias_name.auth_name)
                        NEW.(alias_name.code) ->
         insert_alias_name p NEW
         = inl (RaiseAbort "insert on alias_name violates constraint: new entry refers to unexisting code"))
  /\ (forall p NEW,
         names_object p NEW.(deprecation.table_name) NEW.(deprecation.deprecated_auth_name)
                      NEW.(deprecation.deprecated_code) ->
         ~ names_object p NEW.(deprecation.table_name)
                        NEW.(deprecation.replacement_auth_name)
                        NEW.(deprecation.replacement_code) ->
         insert_deprecation p NEW
         = inl (RaiseAbort "insert on deprecation violates constraint: replacement entry refers to unexisting code")).
Proof.
  split; [|split; [|split; [|split]]].
  - intros p a R I. admission into p0 of I by R as R0 X0.
    eapply object_named; eassumption.
  - intros p s R I. admission into p0 of I by R as R0 X0.
    split; eapply object_named; eassumption.
  - intros p d R I. admission into p0 of I by R as R0 X0.
    split; eapply object_named; eassumption.
  - intros p NEW N. unfold insert_alias_name, alias_name_insert_trigger, insert.
    cbn [run_trigger condition message]. now rewrite (object_not_named p _ _ _ N).
  - intros p NEW D N. unfold insert_deprecation, deprecation_insert_trigger, insert.
    cbn [run_trigger condition message].
    apply object_exists_iff in D.
    assert (truth (not3 (object_exists p (deprecation.table_name NEW)
                           (deprecation.deprecated_auth_name NEW)
                           (deprecation.deprecated_code NEW))) = false) as ->.
    { unfold object_exists, exists_ in *. cbn [not3 option_map truth] in *.
      destruct (existsb _ _); [reflexivity | discriminate D]. }
    now rewrite (object_not_named p _ _ _ N).
Qed.

Lemma notes_name_objects_witness :
  names_object Example.with_around (txt "geodetic_crs") (txt "EPSG") (txt "4326")
  /\ (names_object Example.with_around (txt "geodetic_crs") (txt "EPSG") (txt "4000")
      /\ names_object Example.with_around (txt "geodetic_crs") (txt "EPSG") (txt "4326"))
  /\ insert_alias_name Example.with_around (Example.an_alias "ellipsoid" "4326")
     = inl (RaiseAbort "insert on alias_name violates constraint: new entry refers to unexisting code")
  /\ insert_deprecation Example.with_around (Example.a_deprecation "4326" "4327")
     = inl (RaiseAbort "insert on deprecation violates constraint: replacement entry refers to unexisting code").
Proof.
  destruct notes_name_objects as [alias [_ [deprecation [no_alias no_replacement]]]].
  split; [|split; [|split]].
  - apply (alias Example.with_around (Example.an_alias "geodetic_crs" "4326")
                 with_around_reachable).
    vm_compute. auto.
  - apply (deprecation Example.with_around (Example.a_deprecation "4000" "4326")
                       with_around_reachable).
    vm_compute. auto.
  - apply no_alias. intros N. apply object_exists_iff in N.
    assert (truth (object_exists Example.with_around (txt "ellipsoid") (txt "EPSG")
                                 (txt "4326")) = false) as F by (vm_compute; reflexivity).
    cbn [alias_name.table_name alias_name.auth_name alias_name.code Example.an_alias] in N.
    rewrite F in N. discriminate N.
  - apply no_replacement.
    + apply object_exists_iff. vm_compute. reflexivity.
    + intros N. apply object_exists_iff in N.
      assert (truth (object_exists Example.with_around (txt "geodetic_crs") (txt "EPSG")
                                   (txt "4327")) = false) as F by (vm_compute; reflexivity).
      cbn [deprecation.table_name deprecation.replacement_auth_name
           deprecation.replacement_code Example.a_deprecation] in N.
      rewrite F in N. discriminate N.
Defined.

(** ** The list of authorities *)

Lemma same_text_eq (x y : text) : same_text x y = true <-> x = y.
Proof.
  destruct x as [a|], y as [b|]; cbn; split; try congruence.
  - intros E. apply String.eqb_eq in E. now subst.
  - intros [= ->]. apply String.eqb_refl.
Qed.

Lemma in_distinct (l : list text) (x : text) : In x (distinct l) <-> In x l.
Proof.
  induction l as [|y l IH]; [reflexivity|]. cbn [distinct].
  destruct (existsb (same_text y) l) eqn:E; cbn [In]; rewrite IH; [|reflexivity].
  split; [now right|]. intros [<-|I]; [|exact I].
  apply existsb_exists in E as [z [I E]]. apply same_text_eq in E. now subst.
Qed.

Lemma NoDup_distinct (l : list text) : NoDup (distinct l).
Proof.
  induction l as [|y l IH]; [constructor|]. cbn [distinct].
  destruct (existsb (same_text y) l) eqn:E; [exact IH|].
  constructor; [|exact IH]. rewrite in_distinct. intros I.
  assert (existsb (same_text y) l = true) as T; [|congruence].
  apply existsb_exists. exists y. split; [exact I | now apply same_text_eq].
Qed.

Lemma in_union (l l' : list text) (x : text) : In x (union l l') <-> In x l \/ In x l'.
Proof. unfold union. now rewrite in_distinct, in_app_iff. Qed.

Lemma in_authority_list (p : proj_db) (a : text) :
  In a (authority_list p) <-> In a (listed_authorities p).
Proof.
  unfold authority_list, listed_authorities.
  rewrite !in_union, !in_distinct, !in_app_iff. tauto.
Qed.

Lemma filter_map_all (A B : Type) (keep : B -> bool) (f : A -> B) (l : list A) :
  (forall x, keep (f x) = true) -> filter keep (map f l) = map f l.
Proof.
  intros K. induction l as [|x l IH]; [reflexivity|]. cbn. now rewrite K, IH.
Qed.

Lemma filter_map_none (A B : Type) (keep : B -> bool) (f : A -> B) (l : list A) :
  (forall x, keep (f x) = false) -> filter keep (map f l) = [].
Proof.
  intros K. induction l as [|x l IH]; [reflexivity|]. cbn. now rewrite K, IH.
Qed.

(** The authorities that [authority_list] selects from are those of the rows
    of [object_view], the conversions apart, in the same order. *)
Lemma listed_authorities_objects (p : proj_db) :
  listed_authorities p
  = map object_view.auth_name
        (filter (fun o => negb (same_text o.(object_view.table_name) (txt "conversion")))
                (object_view p)).
Proof.
  unfold listed_authorities, object_view, crs_view, coordinate_operation_view.
  rewrite !map_app, !map_map, !filter_app.
  rewrite (filter_map_none _ _ _ object_view.select_conversion_table) by reflexivity.
  rewrite !filter_map_all by reflexivity.
  rewrite !map_app, !map_map. reflexivity.
Qed.

(** X19. The view [authority_list] holds no authority twice, and it holds
    exactly the authorities of the rows of [object_view] that are not
    conversions: an authority that only conversions carry is not listed. *)
Theorem authority_list_lists (p : proj_db) :
  NoDup (authority_list p)
  /\ (forall a,
         In a (authority_list p) <->
         exists o,
           In o (object_view p)
           /\ o.(object_view.table_name) <> txt "conversion"
           /\ o.(object_view.auth_name) = a).
Proof.
  split; [apply NoDup_distinct|].
  intros a. rewrite in_authority_list, listed_authorities_objects, in_map_iff.
  split.
  - intros [o [E I]]. apply filter_In in I as [I K]. exists o.
    repeat split; try assumption. intros C. rewrite C in K. discriminate K.
  - intros [o [I [N E]]]. exists o. split; [exact E|]. apply filter_In. split; [exact I|].
    apply negb_true_iff. apply not_true_is_false. intros C. apply same_text_eq in C.
    contradiction.
Qed.

(** ** Keys, and the tables that have none *)

Lemma unique_add (R K : Type) (key : R -> K) (l : list R) (NEW : R) :
  NoDup (map key l) -> (forall r, In r l -> key r <> key NEW) ->
  NoDup (map key (l ++ [NEW])).
Proof.
  intros U Fresh. rewrite map_app. cbn [map].
  apply NoDup_app; [exact U | repeat constructor; intros [] |].
  intros k I [<-|[]]. apply in_map_iff in I as [r [E I]]. exact (Fresh r I E).
Qed.

Lemma unique_fresh (R : Type) (name : string) (t : list R) (same : R -> tri) (r : R) :
  satisfied (UNIQUE name t same) = true -> In r t -> truth (same r) = false.
Proof.
  cbn [satisfied UNIQUE]. rewrite truth_exists. intros U I.
  apply negb_true_iff in U. apply not_true_is_false. intros T.
  assert (existsb (fun r => truth (same r)) t = true) as E; [|congruence].
  apply existsb_exists. eauto.
Qed.

Lemma proj_reachable_keys_unique (p : proj_db) : proj_reachable p -> around_keys_unique p.
Proof.
  induction 1 as [|p s p' R IH E].
  - constructor; constructor.
  - pose proof (proj_execute_inv p p' s E) as V. destruct IH as [Km Ka Kh Kp].
    destruct s as [s0|r|r|r|r|r|r|r];
      [destruct V as [db [_ ->]]; constructor; assumption | ..];
      subst p'; cbn [proj_stored]; constructor; cbn; try assumption;
      cbn [proj_execute] in E; apply insert_ok in E as [_ [C _]]; split_constraints C.
    + eapply unique_key_add; eassumption.
    + apply unique_add; [exact Kh|]. intros r0 I0 Same.
      match goal with
      | U : satisfied (UNIQUE _ _ _) = true |- _ =>
          pose proof (unique_fresh _ _ _ _ r0 U I0) as Fresh
      end.
      injection Same as E1 E2 E3 E4.
      repeat match goal with
             | N : satisfied (NOT_NULL _ _) = true |- _ => apply not_null_some in N as [? N]
             end.
      cbn beta in Fresh. rewrite !truth_and3, E1, E2, E3, E4 in Fresh.
      repeat match goal with
             | N : _ = Some _ |- _ => rewrite N in Fresh; clear N
             end.
      cbn in Fresh. rewrite !String.eqb_refl in Fresh. discriminate Fresh.
    + eapply unique_keys_add; eassumption.
    + apply unique_add; [exact Kp|]. intros r0 I0 Same.
      match goal with
      | U : satisfied (UNIQUE _ _ _) = true |- _ =>
          pose proof (unique_fresh _ _ _ _ r0 U I0) as Fresh
      end.
      injection Same as E1 E2.
      repeat match goal with
             | N : satisfied (NOT_NULL _ _) = true |- _ => apply not_null_some in N as [? N]
             end.
      cbn beta in Fresh. rewrite !truth_and3, E1, E2 in Fresh.
      repeat match goal with
             | N : _ = Some _ |- _ => rewrite N in Fresh; clear N
             end.
      cbn in Fresh. rewrite !String.eqb_refl in Fresh. discriminate Fresh.
Qed.

Lemma preferred_hub_datums (p : proj_db) (h : geodetic_datum_preferred_hub.row) :
  proj_reachable p -> In h p.(geodetic_datum_preferred_hub) ->
  (exists d, geodetic_datum_at p.(tables) h.(geodetic_datum_preferred_hub.src_auth_name)
                               h.(geodetic_datum_preferred_hub.src_code) d)
  /\ (exists d, geodetic_datum_at p.(tables) h.(geodetic_datum_preferred_hub.hub_auth_name)
                                  h.(geodetic_datum_preferred_hub.hub_code) d).
Proof.
  intros R I. admission into p0 of I by R as R0 X0.
  pose proof (extends_geodetic_datum _ _ (extends_tables _ _ X0)) as B.
  split.
  - match goal with
    | Na : satisfied (NOT_NULL "src_auth_name" _) = true,
      Nc : satisfied (NOT_NULL "src_code" _) = true,
      F : satisfied (FOREIGN_KEY _ (geodetic_datum_preferred_hub.src_auth_name h, _) _ _)
          = true |- _ =>
        destruct (reference_keyed _ _ _ _ _ _ _ _ _ Na Nc F) as [d K]
    end.
    exists d. exact (keyed_extends _ _ _ _ _ _ _ _ B K).
  - match goal with
    | Na : satisfied (NOT_NULL "hub_auth_name" _) = true,
      Nc : satisfied (NOT_NULL "hub_code" _) = true,
      F : satisfied (FOREIGN_KEY _ (geodetic_datum_preferred_hub.hub_auth_name h, _) _ _)
          = true |- _ =>
        destruct (reference_keyed _ _ _ _ _ _ _ _ _ Na Nc F) as [d K]
    end.
    exists d. exact (keyed_extends _ _ _ _ _ _ _ _ B K).
Qed.

(** X20. In every reachable store the keys of [metadata] and [axis] and the
    unique column sets of [geodetic_datum_preferred_hub] and
    [authority_to_authority_preference] tell their rows apart, both ends of
    a preferred hub are stored geodetic datums, and an [INSERT] of a row
    that one of these four tables already holds fails. *)
Theorem around_keys_kept (p : proj_db) :
  proj_reachable p ->
  around_keys_unique p
  /\ (forall h,
         In h p.(geodetic_datum_preferred_hub) ->
         (exists d, geodetic_datum_at p.(tables)
                                      h.(geodetic_datum_preferred_hub.src_auth_name)
                                      h.(geodetic_datum_preferred_hub.src_code) d)
         /\ (exists d, geodetic_datum_at p.(tables)
                                         h.(geodetic_datum_preferred_hub.hub_auth_name)
                                         h.(geodetic_datum_preferred_hub.hub_code) d))
  /\ (forall s, has_key s = true -> proj_row_stored p s ->
                exists e, proj_execute p s = inl e).
Proof.
  intros R. split; [exact (proj_reachable_keys_unique p R)|].
  split; [intros h I; exact (preferred_hub_datums p h R I)|].
  intros s K I. destruct (proj_execute p s) as [e|p'] eqn:E; [eauto|]. exfalso.
  pose proof (proj_reachable_keys_unique _ (proj_reachable_execute p s p' R E)) as [].
  pose proof (proj_execute_inv p p' s E) as V.
  unfold unique_keys, unique_key in *.
  destruct s; try discriminate K; subst p'; cbn in *;
    (eapply not_stored_twice; [exact I | eassumption]).
Qed.

Lemma around_keys_kept_witness :
  around_keys_unique Example.with_around
  /\ ((exists d, geodetic_datum_at Example.with_around.(tables) (txt "EPSG") (txt "6000") d)
      /\ (exists d, geodetic_datum_at Example.with_around.(tables)
                                      (txt "EPSG") (txt "6326") d))
  /\ (exists e, proj_execute Example.with_around
                  (INSERT_INTO_axis (Example.an_axis "106" "6422" 1)) = inl e).
Proof.
  destruct (around_keys_kept Example.with_around with_around_reachable)
    as [keys [hubs stored]].
  split; [exact keys | split].
  - apply (hubs (Example.a_preferred_hub "6000" "6326")). vm_compute. auto.
  - apply stored; [reflexivity|]. vm_compute. auto.
Defined.

(** X21. The tables [alias_name], [supersession] and [deprecation] have no
    key: in every reachable store an [INSERT] of a row that one of them
    already holds is admitted, and stores the row once more. *)
Theorem notes_may_repeat (p : proj_db) (s : proj_statement) :
  proj_reachable p -> has_key s = false -> proj_row_stored p s ->
  proj_execute p s = inr (proj_stored p s).
Proof.
  intros R K I. destruct (proj_row_history p s R I) as [p0 [R0 [E0 X0]]].
  pose proof (proj_extends_trans _ _ _ (proj_stored_extends p0 s) X0) as X.
  destruct s as [s0|r|r|r|r|r|r|r]; try discriminate K; try contradiction;
    cbn [proj_execute proj_stored] in *;
    apply insert_ok in E0 as [S0 [C0 _]]; apply insert_ok;
    (split; [|split; [exact C0 | reflexivity]]);
    split_silent S0;
    unfold alias_name_insert_trigger, supersession_insert_trigger,
      deprecation_insert_trigger, silent;
    cbn [forallb condition];
    repeat match goal with
           | T : negb (truth (not3 (object_exists p0 ?t ?a ?c))) = true |- _ =>
               apply (object_named p0 p t a c X) in T; apply object_exists_iff in T
           end;
    unfold object_exists, exists_ in *; cbn [not3 option_map truth] in *;
    repeat match goal with
           | T : (if ?b then true else false) = true |- _ =>
               destruct b eqn:?; [clear T | discriminate T]
           end;
    reflexivity.
Qed.

Lemma notes_may_repeat_witness :
  proj_execute Example.with_around
    (INSERT_INTO_alias_name (Example.an_alias "geodetic_crs" "4326"))
  = inr (append_alias_name Example.with_around (Example.an_alias "geodetic_crs" "4326")).
Proof.
  apply (notes_may_repeat Example.with_around
           (INSERT_INTO_alias_name (Example.an_alias "geodetic_crs" "4326"))
           with_around_reachable); [reflexivity|].
  vm_compute. auto.
Defined.

(** * Looking up what was stored *)

Lemma scalar_app_other (R A : Type) (col : R -> option A) (l : list R) (NEW : R)
      (p : R -> tri) :
  truth (p NEW) = false -> scalar col (l ++ [NEW]) p = scalar col l p.
Proof.
  intros F. unfold scalar. induction l as [|r l IH]; cbn [app find].
  - now rewrite F.
  - destruct (truth (p r)); [reflexivity | exact IH].
Qed.

Lemma other_key (ka kc x y : text) :
  ~ (x = ka /\ y = kc) -> truth (and3 (eq3 ka x) (eq3 kc y)) = false.
Proof.
  intros N. apply not_true_is_false. intros T. apply N.
  rewrite truth_and3 in T. apply andb_true_iff in T as [Ta Tc].
  apply truth_eq_text in Ta as [a [-> ->]], Tc as [c [-> ->]]. now split.
Qed.

(** X22. A coordinate system or a unit of measure that a reachable store
    admits is what the lookups of the triggers then find under its key:
    [cs_ref] gives each column of the new coordinate system and [uom_type]
    the type of the new unit, and under every other key both give what they
    gave before. *)
Theorem lookup_after_insert :
  (forall db NEW db' (A : Type) (col : coordinate_system.row -> option A),
      reachable db -> insert_coordinate_system db NEW = inr db' ->
      cs_ref db' col NEW.(coordinate_system.auth_name) NEW.(coordinate_system.code)
      = col NEW
      /\ (forall x y,
             ~ (x = NEW.(coordinate_system.auth_name)
                /\ y = NEW.(coordinate_system.code)) ->
             cs_ref db' col x y = cs_ref db col x y))
  /\ (forall db NEW db',
         reachable db -> insert_unit_of_measure db NEW = inr db' ->
         uom_type db' NEW.(unit_of_measure.auth_name) NEW.(unit_of_measure.code)
         = NEW.(unit_of_measure.type)
         /\ (forall x y,
                ~ (x = NEW.(unit_of_measure.auth_name)
                   /\ y = NEW.(unit_of_measure.code)) ->
                uom_type db' x y = uom_type db x y)).
Proof.
  split.
  - intros db NEW db' A col R E.
    pose proof (reachable_execute db (INSERT_INTO_coordinate_system NEW) db' R E) as R'.
    apply insert_ok in E as [_ [C ->]]. split_constraints C. split.
    + apply (cs_ref_keyed _ _ _ _ _ NEW R').
      repeat match goal with
             | N : satisfied (NOT_NULL _ _) = true |- _ => apply not_null_some in N as [? N]
             end.
      split; [cbn; apply in_app_iff; right; now left|].
      repeat split; congruence.
    + intros x y N. unfold cs_ref. cbn [coordinate_system append_coordinate_system].
      apply scalar_app_other. now apply other_key.
  - intros db NEW db' R E.
    pose proof (reachable_execute db (INSERT_INTO_unit_of_measure NEW) db' R E) as R'.
    apply insert_ok in E as [_ [C ->]]. split_constraints C. split.
    + apply (uom_type_found _ _ _ NEW R').
      repeat match goal with
             | N : satisfied (NOT_NULL _ _) = true |- _ => apply not_null_some in N as [? N]
             end.
      split; [cbn; apply in_app_iff; right; now left|].
      repeat split; congruence.
    + intros x y N. unfold uom_type. cbn [unit_of_measure append_unit_of_measure].
      apply scalar_app_other. now apply other_key.
Qed.

Lemma lookup_after_insert_witness :
  cs_ref (append_coordinate_system Example.db (Sample.a_coordinate_system "6404" "spherical" 3))
         coordinate_system.dimension (txt "EPSG") (txt "6404")
  = int 3
  /\ cs_ref (append_coordinate_system Example.db
               (Sample.a_coordinate_system "6404" "spherical" 3))
            coordinate_system.dimension (txt "EPSG") (txt "6422")
     = cs_ref Example.db coordinate_system.dimension (txt "EPSG") (txt "6422").
Proof.
  destruct lookup_after_insert as [coordinate_systems _].
  destruct (coordinate_systems Example.db (Sample.a_coordinate_system "6404" "spherical" 3)
              (append_coordinate_system Example.db
                 (Sample.a_coordinate_system "6404" "spherical" 3))
              Z coordinate_system.dimension operations_reachable)
    as [new others].
  - vm_compute. reflexivity.
  - split; [exact new|]. apply others. intros [_ E]. discriminate E.
Defined.

(** * Other transformations *)

(** X23. In every reachable store another transformation whose method is of
    the authority PROJ has the method code 'PROJString' or 'WKT'.  An
    [INSERT] with a method of the authority PROJ and another code fails. *)
Theorem other_transformation_proj_method :
  (forall db o,
      reachable db -> In o db.(other_transformation) ->
      o.(other_transformation.method_auth_name) = txt "PROJ" ->
      o.(other_transformation.method_code) = txt "PROJString"
      \/ o.(other_transformation.method_code) = txt "WKT")
  /\ (forall db NEW c,
         NEW.(other_transformation.method_auth_name) = txt "PROJ" ->
         NEW.(other_transformation.method_code) = Some c ->
         c <> "PROJString" -> c <> "WKT" ->
         exists e, insert_other_transformation db NEW = inl e).
Proof.
  split.
  - intros db o R I P. admission of I by R as db0 R0 X0.
    match goal with
    | N : satisfied (NOT_NULL "method_code" _) = true |- _ =>
        apply not_null_some in N as [c C]
    end.
    match goal with
    | T : negb (truth (and3 (eq3 (other_transformation.method_auth_name o) _) _)) = true
      |- _ => rewrite P, C in T; cbn in T
    end.
    rewrite C.
    destruct (String.eqb_spec c "PROJString") as [E|_]; [left; now rewrite E|].
    destruct (String.eqb_spec c "WKT") as [E|_]; [right; now rewrite E|].
    match goal with T : negb _ = true |- _ => discriminate T end.
  - intros db NEW c P C N1 N2.
    destruct (insert_other_transformation db NEW) as [e|db'] eqn:E; [eauto|]. exfalso.
    apply insert_ok in E as [S _]. split_silent S.
    match goal with
    | T : negb (truth (and3 (eq3 (other_transformation.method_auth_name NEW) _) _)) = true
      |- _ => rewrite P, C in T; cbn in T
    end.
    destruct (String.eqb_spec c "PROJString") as [E|_]; [contradiction|].
    destruct (String.eqb_spec c "WKT") as [E|_]; [contradiction|].
    match goal with T : negb _ = true |- _ => discriminate T end.
Qed.

Lemma other_transformation_proj_method_witness :
  (txt "PROJString" = txt "PROJString" \/ txt "PROJString" = txt "WKT")
  /\ (exists e, insert_other_transformation Example.db
                  (Example.a_proj_transformation "NOOP" "pipeline") = inl e).
Proof.
  destruct other_transformation_proj_method as [stored rejected].
  split.
  - apply (stored Example.with_proj_string
                  (Example.a_proj_transformation "NOOP" "PROJString")).
    + apply (run_reachable
               (Sample.operations
                ++ [INSERT_INTO_other_transformation
                      (Example.a_proj_transformation "NOOP" "PROJString")])
               empty_database); [constructor|].
      vm_compute. reflexivity.
    + vm_compute. auto 10.
    + reflexivity.
  - apply (rejected _ _ "pipeline"); [reflexivity | reflexivity | |]; discriminate.
Defined.

(** * The shape of an ellipsoid *)

Lemma ellipsoid_shaped (db : database) (e : ellipsoid.row) :
  reachable db -> In e db.(ellipsoid) -> ellipsoid_shape e.
Proof.
  intros R I. admission of I by R as db0 R0 X0.
  match goal with
  | N : satisfied (NOT_NULL "semi_major_axis" _) = true |- _ =>
      apply not_null_some in N as [a A]
  end.
  exists a. split; [exact A|].
  match goal with
  | Ca : satisfied (CHECK "semi_major_axis" _) = true,
    Cf : satisfied (CHECK "inv_flattening" _) = true,
    Cb : satisfied (CHECK "semi_minor_axis" _) = true,
    T : negb (truth (or3 _ _)) = true |- _ =>
      rewrite A in Ca, Cb; revert T Cf Cb; revert Ca
  end.
  intros Ca. cbn in Ca.
  assert (0 < a)%Q as Pa.
  { destruct (Qle_bool a 0) eqn:L; [discriminate Ca|].
    apply Qnot_le_lt. intros Le. apply Qle_bool_iff in Le. congruence. }
  intros T Cf Cb. split; [exact Pa|]. revert T Cf Cb.
  destruct (ellipsoid.inv_flattening e) as [f|], (ellipsoid.semi_minor_axis e) as [b|];
    cbn; try discriminate; intros _.
  - intros Cf _. left. exists f. repeat split.
    destruct (Qeq_bool f 0) eqn:Z; [left; now apply Qeq_bool_iff|].
    destruct (Qle_bool 1.0 f) eqn:L; [right | discriminate Cf].
    apply Qle_bool_iff in L.
    apply Qle_trans with (1.0)%Q; [unfold Qle; cbn; lia | exact L].
  - intros _ Cb. right. exists b. repeat split.
    + destruct (Qle_bool b 0) eqn:L; [discriminate Cb|].
      apply Qnot_le_lt. intros Le. apply Qle_bool_iff in Le. congruence.
    + destruct (Qle_bool b 0); [discriminate Cb|].
      destruct (Qle_bool b a) eqn:L; [now apply Qle_bool_iff | discriminate Cb].
Qed.

(** X25. In every reachable store an ellipsoid has a positive semi-major
    axis and either an inverse flattening that is 0 or at least 1 (and no
    semi-minor axis), or a positive semi-minor axis that is not above the
    semi-major axis (and no inverse flattening).  An [INSERT] with an inverse
    flattening strictly between 0 and 1, or with a semi-minor axis above the
    semi-major axis, fails. *)
Theorem ellipsoid_shape_admitted :
  (forall db e, reachable db -> In e db.(ellipsoid) -> ellipsoid_shape e)
  /\ (forall db NEW f,
         NEW.(ellipsoid.inv_flattening) = Some f -> (0 < f)%Q -> (f < 1)%Q ->
         exists e, insert_ellipsoid db NEW = inl e)
  /\ (forall db NEW a b,
         NEW.(ellipsoid.semi_major_axis) = Some a ->
         NEW.(ellipsoid.semi_minor_axis) = Some b -> (a < b)%Q ->
         exists e, insert_ellipsoid db NEW = inl e).
Proof.
  split; [exact ellipsoid_shaped | split].
  - intros db NEW f F Pos Below.
    destruct (insert_ellipsoid db NEW) as [e|db'] eqn:E; [eauto|]. exfalso.
    apply insert_ok in E as [_ [C _]]. split_constraints C.
    match goal with
    | Cf : satisfied (CHECK "inv_flattening" _) = true |- _ => rewrite F in Cf; cbn in Cf
    end.
    destruct (Qeq_bool f 0) eqn:Z.
    + apply Qeq_bool_iff in Z. rewrite Z in Pos. now apply Qlt_irrefl in Pos.
    + destruct (Qle_bool 1.0 f) eqn:L;
        [|match goal with Cf : not_false _ = true |- _ => discriminate Cf end].
      apply Qle_bool_iff in L. apply (Qlt_not_le _ _ Below).
      apply Qle_trans with (1.0)%Q; [unfold Qle; cbn; lia | exact L].
  - intros db NEW a b A B Above.
    destruct (insert_ellipsoid db NEW) as [e|db'] eqn:E; [eauto|]. exfalso.
    apply insert_ok in E as [_ [C _]]. split_constraints C.
    match goal with
    | Cb : satisfied (CHECK "semi_minor_axis" _) = true |- _ =>
        rewrite A, B in Cb; cbn in Cb; destruct (Qle_bool b 0); [discriminate Cb|];
        destruct (Qle_bool b a) eqn:L; [|discriminate Cb]
    end.
    apply Qle_bool_iff in L. exact (Qlt_not_le _ _ Above L).
Qed.

Lemma ellipsoid_shape_admitted_witness :
  ellipsoid_shape Sample.WGS_84_ellipsoid
  /\ (exists e, insert_ellipsoid Example.db
                  (Example.an_ellipsoid "7099" "9001" (num 0.5) None 0) = inl e)
  /\ (exists e, insert_ellipsoid Example.db
                  (Example.an_ellipsoid "7098" "9001" None (num 6400000) 0) = inl e).
Proof.
  destruct ellipsoid_shape_admitted as [shaped [flat long]].
  split; [|split].
  - apply (shaped Example.db _ operations_reachable). vm_compute. auto.
  - apply (flat _ _ 0.5%Q); [reflexivity | reflexivity | reflexivity].
  - apply (long _ _ 6378137%Q 6400000%Q); reflexivity.
Defined.

(** * The rows of [object_view] *)

Lemma NoDup_tagged (R : Type) (tag : text) (ka kc : R -> text) (l : list R) :
  unique_keys ka kc l -> NoDup (map (fun r => (tag, ka r, kc r)) l).
Proof.
  unfold unique_keys. induction l as [|x l IH]; cbn [map]; intros U; [constructor|].
  apply NoDup_cons_iff in U as [N U]. constructor; [|now apply IH].
  intros I. apply N. apply in_map_iff in I as [y [[= Ea Ec] I]].
  apply in_map_iff. exists y. split; [now rewrite Ea, Ec | exact I].
Qed.

Lemma not_in_tagged (R : Type) (tag tag' : text) (ka kc : R -> text) (l : list R)
      (a c : text) :
  tag <> tag' -> ~ In (tag, a, c) (map (fun r => (tag', ka r, kc r)) l).
Proof. intros N I. apply in_map_iff in I as [y [[= E _ _] _]]. congruence. Qed.

Lemma NoDup_tagged_app (R : Type) (tag : text) (ka kc : R -> text) (l : list R)
      (rest : list (text * text * text)) :
  unique_keys ka kc l -> NoDup rest ->
  (forall a c, ~ In (tag, a, c) rest) ->
  NoDup (map (fun r => (tag, ka r, kc r)) l ++ rest).
Proof.
  intros U N D. apply NoDup_app; [now apply NoDup_tagged | exact N |].
  intros k I. apply in_map_iff in I as [y [<- _]]. apply D.
Qed.

Lemma NoDup_key_inj (A K : Type) (key : A -> K) (l : list A) (x y : A) :
  NoDup (map key l) -> In x l -> In y l -> key x = key y -> x = y.
Proof.
  induction l as [|z l IH]; [contradiction|]. cbn [map]. intros U Ix Iy E.
  apply NoDup_cons_iff in U as [N U].
  destruct Ix as [->|Ix], Iy as [->|Iy]; [reflexivity | | | now apply IH].
  - exfalso. apply N. rewrite E. now apply in_map.
  - exfalso. apply N. rewrite <- E. now apply in_map.
Qed.

Lemma helmert_object_keys (db : database) :
  reachable db ->
  map (fun v => object_key (object_view.select_coordinate_operation_view
                              (coordinate_operation_view.select_helmert_transformation v)))
      (helmert_transformation db)
  = map (fun h => (txt "helmert_transformation", h.(helmert_transformation_table.auth_name),
                   h.(helmert_transformation_table.code)))
        db.(helmert_transformation_table).
Proof.
  intros R. rewrite <- (helmert_transformation_base db R). now rewrite map_map.
Qed.

Lemma object_keys_unique (p : proj_db) :
  proj_reachable p -> NoDup (map object_key (object_view p)).
Proof.
  intros R. pose proof (proj_reachable_tables p R) as Rt.
  pose proof (reachable_primary_keys_unique _ Rt) as [].
  pose proof (proj_reachable_keys_unique p R) as [].
  unfold object_view, crs_view, coordinate_operation_view.
  rewrite !map_app, !map_map, (helmert_object_keys _ Rt), <- !app_assoc.
  unfold object_key; cbn [object_view.table_name object_view.auth_name object_view.code
                          object_view.select_unit_of_measure
                          object_view.select_celestial_body object_view.select_ellipsoid
                          object_view.select_area object_view.select_prime_meridian
                          object_view.select_geodetic_datum
                          object_view.select_vertical_datum object_view.select_axis
                          object_view.select_crs_view object_view.select_conversion_table
                          object_view.select_coordinate_operation_view
                          crs_view.table_name crs_view.auth_name crs_view.code
                          crs_view.select_geodetic_crs crs_view.select_projected_crs
                          crs_view.select_vertical_crs crs_view.select_compound_crs
                          coordinate_operation_view.table_name
                          coordinate_operation_view.auth_name
                          coordinate_operation_view.code
                          coordinate_operation_view.select_grid_transformation
                          coordinate_operation_view.select_other_transformation
                          coordinate_operation_view.select_concatenated_operation].
  repeat (apply NoDup_tagged_app;
          [ assumption
          |
          | intros a c; rewrite ?in_app_iff;
            repeat (let I := fresh "I" in
                    intros [I|I]; [revert I; apply not_in_tagged; discriminate | revert I]);
            apply not_in_tagged; discriminate ]).
  now apply NoDup_tagged.
Qed.

(** X24. In every reachable store no two rows of [object_view] share table
    name, authority and code: what an alias, a supersession or a deprecation
    names is one row of the view. *)
Theorem object_view_keyed (p : proj_db) (o o' : object_view.row) :
  proj_reachable p ->
  In o (object_view p) -> In o' (object_view p) ->
  object_key o = object_key o' -> o = o'.
Proof.
  intros R. apply NoDup_key_inj. exact (object_keys_unique p R).
Qed.

Lemma object_view_keyed_witness :
  In (object_view.select_crs_view (crs_view.select_geodetic_crs Sample.WGS_84))
     (object_view Example.with_around)
  /\ object_view.select_crs_view (crs_view.select_geodetic_crs Sample.WGS_84)
     = object_view.select_crs_view (crs_view.select_geodetic_crs Sample.WGS_84).
Proof.
  assert (In (object_view.select_crs_view (crs_view.select_geodetic_crs Sample.WGS_84))
             (object_view Example.with_around)) as I
      by (vm_compute; repeat (first [left; reflexivity | right])).
  split; [exact I|].
  apply (object_view_keyed Example.with_around _ _ with_around_reachable I I).
  reflexivity.
Defined.
